(** * Voodoo Rush (SST-96) interface of the AT3D emulation

    A shallow embedding of [src/video/vid_voodoo_rush.c] and of the
    declarations of [src/include/86box/vid_voodoo_rush.h]: the register file
    with the side effects of its writes, the PUMA address decoder, the
    command FIFO drain, the parameter translator and the fast fill; and of
    the THP register bank, the PUMA accessors and the vertical sync callback
    of [src/video/vid_at3d.c], through which the 2D chip drives the device.

    Conventions.  A [uint32_t] is a [Z] in [0, 2^32); where the C arithmetic
    can leave that range the wrap-around is written out with [wrap32].  An
    [int32_t] or [int] is a [Z] in [-2^31, 2^31); casts are [to_int32] and
    [to_int16].  The [calloc]ed byte regions are finite maps from byte
    offsets to bytes in which an absent key stands for the zero byte the
    allocation left there; multi-byte accesses are little-endian, as on the
    hosts the emulator runs on.  The fixed-size arrays of the device
    structure are lists indexed with stdpp's lookup and insert. *)

From Stdlib Require Import ZArith Lia Bool List.
From stdpp Require Import base option list gmap.

Local Open Scope Z_scope.

(** ** Machine integers *)

Definition wrap32 (x : Z) : Z := x mod 2 ^ 32.

Definition to_int32 (x : Z) : Z :=
  let u := x mod 2 ^ 32 in if u <? 2 ^ 31 then u else u - 2 ^ 32.

Definition to_int16 (x : Z) : Z :=
  let u := x mod 2 ^ 16 in if u <? 2 ^ 15 then u else u - 2 ^ 16.

(** C truth value of an integer, the [!!x] of the source. *)
Definition truthy (x : Z) : bool := negb (x =? 0).

(** ** Byte regions *)

Definition load8 (m : gmap Z Z) (a : Z) : Z := default 0 (m !! a).

Definition store8 (a v : Z) (m : gmap Z Z) : gmap Z Z := <[a := v mod 256]> m.

(** A 16-bit store at byte offset [a].  An access that runs past the end
    of a region, which the source does not rule out for an odd offset,
    reaches the keys past its size. *)
Definition store16 (m : gmap Z Z) (a v : Z) : gmap Z Z :=
  store8 (a + 1) (Z.shiftr v 8) (store8 a v m).

(** A 32-bit load at byte offset [a]. *)
Definition load32 (m : gmap Z Z) (a : Z) : Z :=
  load8 m a + Z.shiftl (load8 m (a + 1)) 8 + Z.shiftl (load8 m (a + 2)) 16
  + Z.shiftl (load8 m (a + 3)) 24.

(** A 32-bit store at byte offset [a]. *)
Definition store32 (m : gmap Z Z) (a v : Z) : gmap Z Z :=
  store8 (a + 3) (Z.shiftr v 24)
    (store8 (a + 2) (Z.shiftr v 16) (store8 (a + 1) (Z.shiftr v 8) (store8 a v m))).

(** Element [i] of a fixed-size array of words. *)
Definition word_at (l : list Z) (i : Z) : Z := default 0 (l !! Z.to_nat i).

(** ** Register numbers and the PUMA layout ([vid_voodoo_rush.h]) *)

Abbreviation SST96_STATUS := 0x000 (only parsing).
Abbreviation SST96_VERTEX_AX := 0x002 (only parsing).
Abbreviation SST96_VERTEX_AY := 0x003 (only parsing).
Abbreviation SST96_VERTEX_BX := 0x004 (only parsing).
Abbreviation SST96_VERTEX_BY := 0x005 (only parsing).
Abbreviation SST96_VERTEX_CX := 0x006 (only parsing).
Abbreviation SST96_VERTEX_CY := 0x007 (only parsing).
Abbreviation SST96_START_R := 0x008 (only parsing).
Abbreviation SST96_DRDX := 0x009 (only parsing).
Abbreviation SST96_DRDY := 0x00a (only parsing).
Abbreviation SST96_START_G := 0x00b (only parsing).
Abbreviation SST96_DGDX := 0x00c (only parsing).
Abbreviation SST96_DGDY := 0x00d (only parsing).
Abbreviation SST96_START_B := 0x00e (only parsing).
Abbreviation SST96_DBDX := 0x00f (only parsing).
Abbreviation SST96_DBDY := 0x010 (only parsing).
Abbreviation SST96_START_Z := 0x011 (only parsing).
Abbreviation SST96_DZDX := 0x012 (only parsing).
Abbreviation SST96_DZDY := 0x013 (only parsing).
Abbreviation SST96_START_A := 0x014 (only parsing).
Abbreviation SST96_DADX := 0x015 (only parsing).
Abbreviation SST96_DADY := 0x016 (only parsing).
Abbreviation SST96_START_S := 0x017 (only parsing).
Abbreviation SST96_DSDX := 0x018 (only parsing).
Abbreviation SST96_DSDY := 0x019 (only parsing).
Abbreviation SST96_START_T := 0x01a (only parsing).
Abbreviation SST96_DTDX := 0x01b (only parsing).
Abbreviation SST96_DTDY := 0x01c (only parsing).
Abbreviation SST96_START_W := 0x01d (only parsing).
Abbreviation SST96_DWDX := 0x01e (only parsing).
Abbreviation SST96_DWDY := 0x01f (only parsing).
Abbreviation SST96_TRIANGLE_CMD := 0x020 (only parsing).
Abbreviation SST96_NOP_CMD := 0x042 (only parsing).
Abbreviation SST96_FASTFILL_CMD := 0x044 (only parsing).
Abbreviation SST96_SWAPBUFFER_CMD := 0x046 (only parsing).
Abbreviation SST96_SWAPPEND_CMD := 0x048 (only parsing).
Abbreviation SST96_FBZ_COLOR_PATH := 0x050 (only parsing).
Abbreviation SST96_FOG_MODE := 0x051 (only parsing).
Abbreviation SST96_ALPHA_MODE := 0x052 (only parsing).
Abbreviation SST96_FBZ_MODE := 0x054 (only parsing).
Abbreviation SST96_STIPPLE := 0x055 (only parsing).
Abbreviation SST96_COLOR0 := 0x056 (only parsing).
Abbreviation SST96_COLOR1 := 0x057 (only parsing).
Abbreviation SST96_FOG_COLOR := 0x058 (only parsing).
Abbreviation SST96_ZA_COLOR := 0x059 (only parsing).
Abbreviation SST96_CHROMA_KEY := 0x05a (only parsing).
Abbreviation SST96_CHROMA_RANGE := 0x05b (only parsing).
Abbreviation SST96_COL_BUFFER_SETUP := 0x060 (only parsing).
Abbreviation SST96_AUX_BUFFER_SETUP := 0x061 (only parsing).
Abbreviation SST96_CLIP_LEFT_RIGHT0 := 0x062 (only parsing).
Abbreviation SST96_CLIP_TOP_BOTTOM0 := 0x063 (only parsing).
Abbreviation SST96_CLIP_LEFT_RIGHT1 := 0x064 (only parsing).
Abbreviation SST96_CLIP_TOP_BOTTOM1 := 0x065 (only parsing).
Abbreviation SST96_FBIJR_INIT0 := 0x090 (only parsing).
Abbreviation SST96_FBIJR_INIT1 := 0x091 (only parsing).
Abbreviation SST96_FBIJR_INIT2 := 0x092 (only parsing).
Abbreviation SST96_FBIJR_INIT3 := 0x093 (only parsing).
Abbreviation SST96_FBIJR_INIT4 := 0x094 (only parsing).
Abbreviation SST96_FBIJR_INIT5 := 0x095 (only parsing).
Abbreviation SST96_FBIJR_VERSION := 0x0a0 (only parsing).
Abbreviation SST96_FBI_PIXELS_IN := 0x0a1 (only parsing).
Abbreviation SST96_FBI_CHROMA_FAIL := 0x0a2 (only parsing).
Abbreviation SST96_FBI_ZFUNC_FAIL := 0x0a3 (only parsing).
Abbreviation SST96_FBI_AFUNC_FAIL := 0x0a4 (only parsing).
Abbreviation SST96_FBI_PIXELS_OUT := 0x0a5 (only parsing).
Abbreviation SST96_TEXTURE_MODE := 0x0c1 (only parsing).
Abbreviation SST96_TLOD := 0x0c2 (only parsing).
Abbreviation SST96_TDETAIL := 0x0c3 (only parsing).
Abbreviation SST96_TEX_BASE_ADDR := 0x0c4 (only parsing).
Abbreviation SST96_TEX_BASE_ADDR1 := 0x0c5 (only parsing).
Abbreviation SST96_TEX_BASE_ADDR2 := 0x0c6 (only parsing).
Abbreviation SST96_TEX_BASE_ADDR38 := 0x0c7 (only parsing).
Abbreviation SST96_CMDFIFO_BASE := 0x0e8 (only parsing).
Abbreviation SST96_CMDFIFO_TOP := 0x0e9 (only parsing).
Abbreviation SST96_CMDFIFO_BOTTOM := 0x0ea (only parsing).
Abbreviation SST96_CMDFIFO_RDPTR := 0x0eb (only parsing).
Abbreviation SST96_CMDFIFO_THRESHOLD := 0x0ec (only parsing).
Abbreviation SST96_CMDFIFO_ENABLE := 0x0ed (only parsing).

(** 8MB mode *)
Abbreviation SST96_PUMA_REG_START := 0x400000 (only parsing).
Abbreviation SST96_PUMA_REG_SIZE := 0x200000 (only parsing).
Abbreviation SST96_PUMA_FB_SIZE := 0x400000 (only parsing).
Abbreviation SST96_PUMA_TEX_START := 0x600000 (only parsing).
Abbreviation SST96_PUMA_TEX_SIZE := 0x200000 (only parsing).
(** 4MB mode *)
Abbreviation SST96_PUMA_REG_START_4MB := 0x200000 (only parsing).
Abbreviation SST96_PUMA_REG_SIZE_4MB := 0x100000 (only parsing).
Abbreviation SST96_PUMA_FB_SIZE_4MB := 0x200000 (only parsing).
Abbreviation SST96_PUMA_TEX_START_4MB := 0x300000 (only parsing).
Abbreviation SST96_PUMA_TEX_SIZE_4MB := 0x100000 (only parsing).

(** ** The external rendering engine

    The rasteriser behind [voodoo_t] is a collaborator: of its interface
    only the parameter block this file fills in, the two calls it receives
    and the fields the source reads are kept. *)

Module Voodoo.

(** Per-TMU texture parameters, the [tmu] member of the parameter block. *)
Record tmu_params_t : Type := Build_tmu_params {
  startS : Z;
  startT : Z;
  startW : Z;
  dSdX : Z;
  dTdX : Z;
  dWdX : Z;
  dSdY : Z;
  dTdY : Z;
  dWdY : Z
}.

(** Modelled from the spec: the declaration of [voodoo_params_t] is in
    [vid_voodoo_common.h], which is not among the source files.  The
    record has the members [sst96_to_voodoo_params] and
    [voodoo_rush_render_triangle] assign; every other member of the block is
    left at the zero of the initial [memset].  The gradients are signed
    32-bit members, the starts unsigned ones.  [fb_mem] and [aux_mem] are
    byte offsets into the shared frame buffer. *)
Record voodoo_params_t : Type := Build_voodoo_params {
  vertexAx : Z;
  vertexAy : Z;
  vertexBx : Z;
  vertexBy : Z;
  vertexCx : Z;
  vertexCy : Z;
  startR : Z;
  startG : Z;
  startB : Z;
  startA : Z;
  startZ : Z;
  dRdX : Z;
  dGdX : Z;
  dBdX : Z;
  dAdX : Z;
  dZdX : Z;
  dRdY : Z;
  dGdY : Z;
  dBdY : Z;
  dAdY : Z;
  dZdY : Z;
  tmu : list tmu_params_t;
  fbzColorPath : Z;
  fogMode : Z;
  alphaMode : Z;
  fbzMode : Z;
  stipple : Z;
  color0 : Z;
  color1 : Z;
  fogColor : Z * Z * Z;
  zaColor : Z;
  chromaKey : Z;
  fogTable : list (Z * Z);
  clipLeft : Z;
  clipRight : Z;
  clipLowY : Z;
  clipHighY : Z;
  draw_offset : Z;
  aux_offset : Z;
  textureMode : list Z;
  tLOD : list Z;
  texBaseAddr : list Z;
  texBaseAddr1 : list Z;
  fb_mem : Z;
  aux_mem : Z
}.

(** The frame buffer pointers [voodoo_rush_render_triangle] fills in. *)
Definition set_buffers (fb aux : Z) (p : voodoo_params_t) : voodoo_params_t :=
  {|
    vertexAx := vertexAx p; vertexAy := vertexAy p; vertexBx := vertexBx p;
    vertexBy := vertexBy p; vertexCx := vertexCx p; vertexCy := vertexCy p;
    startR := startR p; startG := startG p; startB := startB p;
    startA := startA p; startZ := startZ p; dRdX := dRdX p; dGdX := dGdX p;
    dBdX := dBdX p; dAdX := dAdX p; dZdX := dZdX p; dRdY := dRdY p;
    dGdY := dGdY p; dBdY := dBdY p; dAdY := dAdY p; dZdY := dZdY p;
    tmu := tmu p; fbzColorPath := fbzColorPath p; fogMode := fogMode p;
    alphaMode := alphaMode p; fbzMode := fbzMode p; stipple := stipple p;
    color0 := color0 p; color1 := color1 p; fogColor := fogColor p;
    zaColor := zaColor p; chromaKey := chromaKey p; fogTable := fogTable p;
    clipLeft := clipLeft p; clipRight := clipRight p; clipLowY := clipLowY p;
    clipHighY := clipHighY p; draw_offset := draw_offset p;
    aux_offset := aux_offset p; textureMode := textureMode p; tLOD := tLOD p;
    texBaseAddr := texBaseAddr p; texBaseAddr1 := texBaseAddr1 p;
    fb_mem := fb; aux_mem := aux
  |}.

(** The calls made into the engine, in the order they are made. *)
Inductive call : Type :=
  | queue_triangle (params : voodoo_params_t)
  | flush_texture_cache (addr tmu : Z).

(** Modelled from the spec: [voodoo_t], [voodoo_queue_triangle] and
    [flush_texture_cache] belong to the rendering engine, whose sources are
    not among the files.  The engine is the flag and the texture memories
    the source reads and writes, and the log of the calls it received: a
    submission enqueues the parameter block and nothing is awaited. *)
Record voodoo_t : Type := Build_voodoo {
  dual_tmus : bool;
  tex_mem : list (option (gmap Z Z));
  calls : list call
}.

Definition record_call (c : call) (v : voodoo_t) : voodoo_t :=
  {| dual_tmus := dual_tmus v; tex_mem := tex_mem v; calls := calls v ++ [c] |}.

Definition set_tex_mem (tm : list (option (gmap Z Z))) (v : voodoo_t) : voodoo_t :=
  {| dual_tmus := dual_tmus v; tex_mem := tm; calls := calls v |}.

End Voodoo.

(** ** The device structure ([voodoo_rush_t]) *)

(** The fixed-point triangle parameters, the [triangle] member. *)
Record triangle_t : Type := Build_triangle {
  vertexAx : Z;
  vertexAy : Z;
  vertexBx : Z;
  vertexBy : Z;
  vertexCx : Z;
  vertexCy : Z;
  startR : Z;
  startG : Z;
  startB : Z;
  startA : Z;
  startZ : Z;
  dRdX : Z;
  dGdX : Z;
  dBdX : Z;
  dAdX : Z;
  dZdX : Z;
  dRdY : Z;
  dGdY : Z;
  dBdY : Z;
  dAdY : Z;
  dZdY : Z;
  startS : Z;
  startT : Z;
  startW : Z;
  dSdX : Z;
  dTdX : Z;
  dWdX : Z;
  dSdY : Z;
  dTdY : Z;
  dWdY : Z
}.

(** The device.  [ftriangle] holds the bit patterns of the 30 [float]
    members, which no register write of the source reaches.  The flags the
    source keeps in an [int] and only ever sets to 0 or 1 are booleans.  The
    back pointer to the 2D chip and the BIOS ROM play no part in the
    operations below and are left out. *)
Record voodoo_rush_t : Type := Build_voodoo_rush {
  puma_fb : gmap Z Z;
  puma_fb_size : Z;
  puma_fb_mask : Z;
  regs : list Z;
  puma_tex : gmap Z Z;
  puma_tex_size : Z;
  puma_tex_mask : Z;
  cmdfifo_base_page : Z;
  cmdfifo_top_page : Z;
  cmdfifo_bottom_page : Z;
  cmdfifo_entry_count : Z;
  cmdfifo_read_ptr : Z;
  cmdfifo_threshold : Z;
  cmdfifo_enabled : bool;
  fbijr_init : list Z;
  fbijr_version : Z;
  status : Z;
  triangle : triangle_t;
  ftriangle : list Z;
  fbz_color_path : Z;
  fog_mode : Z;
  alpha_mode : Z;
  fbz_mode : Z;
  stipple : Z;
  color0 : Z;
  color1 : Z;
  fog_color : Z;
  za_color : Z;
  chroma_key : Z;
  chroma_range : Z;
  col_buffer_setup : Z;
  aux_buffer_setup : Z;
  clip_left_right : list Z;
  clip_top_bottom : list Z;
  fog_table : list (Z * Z);
  tex_chip_sel : Z;
  texture_mode : Z;
  tlod : Z;
  tdetail : Z;
  tex_base_addr : list Z;
  trex_init : list Z;
  pixels_in : Z;
  chroma_fail : Z;
  zfunc_fail : Z;
  afunc_fail : Z;
  pixels_out : Z;
  puma_mode_8mb : bool;
  puma_req : bool;
  puma_gnt : bool;
  swap_req : bool;
  swap_pending : Z;
  voodoo : option Voodoo.voodoo_t;
  window_x : Z;
  window_y : Z;
  window_width : Z;
  window_height : Z;
  enabled : bool
}.

(** *** Field updates *)

Definition tri_set_vertexAx (v : Z) (t : triangle_t) : triangle_t :=
  {|
    vertexAx := v; vertexAy := vertexAy t; vertexBx := vertexBx t;
    vertexBy := vertexBy t; vertexCx := vertexCx t; vertexCy := vertexCy t;
    startR := startR t; startG := startG t; startB := startB t;
    startA := startA t; startZ := startZ t; dRdX := dRdX t; dGdX := dGdX t;
    dBdX := dBdX t; dAdX := dAdX t; dZdX := dZdX t; dRdY := dRdY t;
    dGdY := dGdY t; dBdY := dBdY t; dAdY := dAdY t; dZdY := dZdY t;
    startS := startS t; startT := startT t; startW := startW t;
    dSdX := dSdX t; dTdX := dTdX t; dWdX := dWdX t; dSdY := dSdY t;
    dTdY := dTdY t; dWdY := dWdY t
  |}.

Definition tri_set_vertexAy (v : Z) (t : triangle_t) : triangle_t :=
  {|
    vertexAx := vertexAx t; vertexAy := v; vertexBx := vertexBx t;
    vertexBy := vertexBy t; vertexCx := vertexCx t; vertexCy := vertexCy t;
    startR := startR t; startG := startG t; startB := startB t;
    startA := startA t; startZ := startZ t; dRdX := dRdX t; dGdX := dGdX t;
    dBdX := dBdX t; dAdX := dAdX t; dZdX := dZdX t; dRdY := dRdY t;
    dGdY := dGdY t; dBdY := dBdY t; dAdY := dAdY t; dZdY := dZdY t;
    startS := startS t; startT := startT t; startW := startW t;
    dSdX := dSdX t; dTdX := dTdX t; dWdX := dWdX t; dSdY := dSdY t;
    dTdY := dTdY t; dWdY := dWdY t
  |}.

Definition tri_set_vertexBx (v : Z) (t : triangle_t) : triangle_t :=
  {|
    vertexAx := vertexAx t; vertexAy := vertexAy t; vertexBx := v;
    vertexBy := vertexBy t; vertexCx := vertexCx t; vertexCy := vertexCy t;
    startR := startR t; startG := startG t; startB := startB t;
    startA := startA t; startZ := startZ t; dRdX := dRdX t; dGdX := dGdX t;
    dBdX := dBdX t; dAdX := dAdX t; dZdX := dZdX t; dRdY := dRdY t;
    dGdY := dGdY t; dBdY := dBdY t; dAdY := dAdY t; dZdY := dZdY t;
    startS := startS t; startT := startT t; startW := startW t;
    dSdX := dSdX t; dTdX := dTdX t; dWdX := dWdX t; dSdY := dSdY t;
    dTdY := dTdY t; dWdY := dWdY t
  |}.

Definition tri_set_vertexBy (v : Z) (t : triangle_t) : triangle_t :=
  {|
    vertexAx := vertexAx t; vertexAy := vertexAy t; vertexBx := vertexBx t;
    vertexBy := v; vertexCx := vertexCx t; vertexCy := vertexCy t;
    startR := startR t; startG := startG t; startB := startB t;
    startA := startA t; startZ := startZ t; dRdX := dRdX t; dGdX := dGdX t;
    dBdX := dBdX t; dAdX := dAdX t; dZdX := dZdX t; dRdY := dRdY t;
    dGdY := dGdY t; dBdY := dBdY t; dAdY := dAdY t; dZdY := dZdY t;
    startS := startS t; startT := startT t; startW := startW t;
    dSdX := dSdX t; dTdX := dTdX t; dWdX := dWdX t; dSdY := dSdY t;
    dTdY := dTdY t; dWdY := dWdY t
  |}.

Definition tri_set_vertexCx (v : Z) (t : triangle_t) : triangle_t :=
  {|
    vertexAx := vertexAx t; vertexAy := vertexAy t; vertexBx := vertexBx t;
    vertexBy := vertexBy t; vertexCx := v; vertexCy := vertexCy t;
    startR := startR t; startG := startG t; startB := startB t;
    startA := startA t; startZ := startZ t; dRdX := dRdX t; dGdX := dGdX t;
    dBdX := dBdX t; dAdX := dAdX t; dZdX := dZdX t; dRdY := dRdY t;
    dGdY := dGdY t; dBdY := dBdY t; dAdY := dAdY t; dZdY := dZdY t;
    startS := startS t; startT := startT t; startW := startW t;
    dSdX := dSdX t; dTdX := dTdX t; dWdX := dWdX t; dSdY := dSdY t;
    dTdY := dTdY t; dWdY := dWdY t
  |}.

Definition tri_set_vertexCy (v : Z) (t : triangle_t) : triangle_t :=
  {|
    vertexAx := vertexAx t; vertexAy := vertexAy t; vertexBx := vertexBx t;
    vertexBy := vertexBy t; vertexCx := vertexCx t; vertexCy := v;
    startR := startR t; startG := startG t; startB := startB t;
    startA := startA t; startZ := startZ t; dRdX := dRdX t; dGdX := dGdX t;
    dBdX := dBdX t; dAdX := dAdX t; dZdX := dZdX t; dRdY := dRdY t;
    dGdY := dGdY t; dBdY := dBdY t; dAdY := dAdY t; dZdY := dZdY t;
    startS := startS t; startT := startT t; startW := startW t;
    dSdX := dSdX t; dTdX := dTdX t; dWdX := dWdX t; dSdY := dSdY t;
    dTdY := dTdY t; dWdY := dWdY t
  |}.

Definition tri_set_startR (v : Z) (t : triangle_t) : triangle_t :=
  {|
    vertexAx := vertexAx t; vertexAy := vertexAy t; vertexBx := vertexBx t;
    vertexBy := vertexBy t; vertexCx := vertexCx t; vertexCy := vertexCy t;
    startR := v; startG := startG t; startB := startB t; startA := startA t;
    startZ := startZ t; dRdX := dRdX t; dGdX := dGdX t; dBdX := dBdX t;
    dAdX := dAdX t; dZdX := dZdX t; dRdY := dRdY t; dGdY := dGdY t;
    dBdY := dBdY t; dAdY := dAdY t; dZdY := dZdY t; startS := startS t;
    startT := startT t; startW := startW t; dSdX := dSdX t; dTdX := dTdX t;
    dWdX := dWdX t; dSdY := dSdY t; dTdY := dTdY t; dWdY := dWdY t
  |}.

Definition tri_set_startG (v : Z) (t : triangle_t) : triangle_t :=
  {|
    vertexAx := vertexAx t; vertexAy := vertexAy t; vertexBx := vertexBx t;
    vertexBy := vertexBy t; vertexCx := vertexCx t; vertexCy := vertexCy t;
    startR := startR t; startG := v; startB := startB t; startA := startA t;
    startZ := startZ t; dRdX := dRdX t; dGdX := dGdX t; dBdX := dBdX t;
    dAdX := dAdX t; dZdX := dZdX t; dRdY := dRdY t; dGdY := dGdY t;
    dBdY := dBdY t; dAdY := dAdY t; dZdY := dZdY t; startS := startS t;
    startT := startT t; startW := startW t; dSdX := dSdX t; dTdX := dTdX t;
    dWdX := dWdX t; dSdY := dSdY t; dTdY := dTdY t; dWdY := dWdY t
  |}.

Definition tri_set_startB (v : Z) (t : triangle_t) : triangle_t :=
  {|
    vertexAx := vertexAx t; vertexAy := vertexAy t; vertexBx := vertexBx t;
    vertexBy := vertexBy t; vertexCx := vertexCx t; vertexCy := vertexCy t;
    startR := startR t; startG := startG t; startB := v; startA := startA t;
    startZ := startZ t; dRdX := dRdX t; dGdX := dGdX t; dBdX := dBdX t;
    dAdX := dAdX t; dZdX := dZdX t; dRdY := dRdY t; dGdY := dGdY t;
    dBdY := dBdY t; dAdY := dAdY t; dZdY := dZdY t; startS := startS t;
    startT := startT t; startW := startW t; dSdX := dSdX t; dTdX := dTdX t;
    dWdX := dWdX t; dSdY := dSdY t; dTdY := dTdY t; dWdY := dWdY t
  |}.

Definition tri_set_startA (v : Z) (t : triangle_t) : triangle_t :=
  {|
    vertexAx := vertexAx t; vertexAy := vertexAy t; vertexBx := vertexBx t;
    vertexBy := vertexBy t; vertexCx := vertexCx t; vertexCy := vertexCy t;
    startR := startR t; startG := startG t; startB := startB t; startA := v;
    startZ := startZ t; dRdX := dRdX t; dGdX := dGdX t; dBdX := dBdX t;
    dAdX := dAdX t; dZdX := dZdX t; dRdY := dRdY t; dGdY := dGdY t;
    dBdY := dBdY t; dAdY := dAdY t; dZdY := dZdY t; startS := startS t;
    startT := startT t; startW := startW t; dSdX := dSdX t; dTdX := dTdX t;
    dWdX := dWdX t; dSdY := dSdY t; dTdY := dTdY t; dWdY := dWdY t
  |}.

Definition tri_set_startZ (v : Z) (t : triangle_t) : triangle_t :=
  {|
    vertexAx := vertexAx t; vertexAy := vertexAy t; vertexBx := vertexBx t;
    vertexBy := vertexBy t; vertexCx := vertexCx t; vertexCy := vertexCy t;
    startR := startR t; startG := startG t; startB := startB t;
    startA := startA t; startZ := v; dRdX := dRdX t; dGdX := dGdX t;
    dBdX := dBdX t; dAdX := dAdX t; dZdX := dZdX t; dRdY := dRdY t;
    dGdY := dGdY t; dBdY := dBdY t; dAdY := dAdY t; dZdY := dZdY t;
    startS := startS t; startT := startT t; startW := startW t;
    dSdX := dSdX t; dTdX := dTdX t; dWdX := dWdX t; dSdY := dSdY t;
    dTdY := dTdY t; dWdY := dWdY t
  |}.

Definition tri_set_dRdX (v : Z) (t : triangle_t) : triangle_t :=
  {|
    vertexAx := vertexAx t; vertexAy := vertexAy t; vertexBx := vertexBx t;
    vertexBy := vertexBy t; vertexCx := vertexCx t; vertexCy := vertexCy t;
    startR := startR t; startG := startG t; startB := startB t;
    startA := startA t; startZ := startZ t; dRdX := v; dGdX := dGdX t;
    dBdX := dBdX t; dAdX := dAdX t; dZdX := dZdX t; dRdY := dRdY t;
    dGdY := dGdY t; dBdY := dBdY t; dAdY := dAdY t; dZdY := dZdY t;
    startS := startS t; startT := startT t; startW := startW t;
    dSdX := dSdX t; dTdX := dTdX t; dWdX := dWdX t; dSdY := dSdY t;
    dTdY := dTdY t; dWdY := dWdY t
  |}.

Definition tri_set_dGdX (v : Z) (t : triangle_t) : triangle_t :=
  {|
    vertexAx := vertexAx t; vertexAy := vertexAy t; vertexBx := vertexBx t;
    vertexBy := vertexBy t; vertexCx := vertexCx t; vertexCy := vertexCy t;
    startR := startR t; startG := startG t; startB := startB t;
    startA := startA t; startZ := startZ t; dRdX := dRdX t; dGdX := v;
    dBdX := dBdX t; dAdX := dAdX t; dZdX := dZdX t; dRdY := dRdY t;
    dGdY := dGdY t; dBdY := dBdY t; dAdY := dAdY t; dZdY := dZdY t;
    startS := startS t; startT := startT t; startW := startW t;
    dSdX := dSdX t; dTdX := dTdX t; dWdX := dWdX t; dSdY := dSdY t;
    dTdY := dTdY t; dWdY := dWdY t
  |}.

Definition tri_set_dBdX (v : Z) (t : triangle_t) : triangle_t :=
  {|
    vertexAx := vertexAx t; vertexAy := vertexAy t; vertexBx := vertexBx t;
    vertexBy := vertexBy t; vertexCx := vertexCx t; vertexCy := vertexCy t;
    startR := startR t; startG := startG t; startB := startB t;
    startA := startA t; startZ := startZ t; dRdX := dRdX t; dGdX := dGdX t;
    dBdX := v; dAdX := dAdX t; dZdX := dZdX t; dRdY := dRdY t;
    dGdY := dGdY t; dBdY := dBdY t; dAdY := dAdY t; dZdY := dZdY t;
    startS := startS t; startT := startT t; startW := startW t;
    dSdX := dSdX t; dTdX := dTdX t; dWdX := dWdX t; dSdY := dSdY t;
    dTdY := dTdY t; dWdY := dWdY t
  |}.

Definition tri_set_dAdX (v : Z) (t : triangle_t) : triangle_t :=
  {|
    vertexAx := vertexAx t; vertexAy := vertexAy t; vertexBx := vertexBx t;
    vertexBy := vertexBy t; vertexCx := vertexCx t; vertexCy := vertexCy t;
    startR := startR t; startG := startG t; startB := startB t;
    startA := startA t; startZ := startZ t; dRdX := dRdX t; dGdX := dGdX t;
    dBdX := dBdX t; dAdX := v; dZdX := dZdX t; dRdY := dRdY t;
    dGdY := dGdY t; dBdY := dBdY t; dAdY := dAdY t; dZdY := dZdY t;
    startS := startS t; startT := startT t; startW := startW t;
    dSdX := dSdX t; dTdX := dTdX t; dWdX := dWdX t; dSdY := dSdY t;
    dTdY := dTdY t; dWdY := dWdY t
  |}.

Definition tri_set_dZdX (v : Z) (t : triangle_t) : triangle_t :=
  {|
    vertexAx := vertexAx t; vertexAy := vertexAy t; vertexBx := vertexBx t;
    vertexBy := vertexBy t; vertexCx := vertexCx t; vertexCy := vertexCy t;
    startR := startR t; startG := startG t; startB := startB t;
    startA := startA t; startZ := startZ t; dRdX := dRdX t; dGdX := dGdX t;
    dBdX := dBdX t; dAdX := dAdX t; dZdX := v; dRdY := dRdY t;
    dGdY := dGdY t; dBdY := dBdY t; dAdY := dAdY t; dZdY := dZdY t;
    startS := startS t; startT := startT t; startW := startW t;
    dSdX := dSdX t; dTdX := dTdX t; dWdX := dWdX t; dSdY := dSdY t;
    dTdY := dTdY t; dWdY := dWdY t
  |}.

Definition tri_set_dRdY (v : Z) (t : triangle_t) : triangle_t :=
  {|
    vertexAx := vertexAx t; vertexAy := vertexAy t; vertexBx := vertexBx t;
    vertexBy := vertexBy t; vertexCx := vertexCx t; vertexCy := vertexCy t;
    startR := startR t; startG := startG t; startB := startB t;
    startA := startA t; startZ := startZ t; dRdX := dRdX t; dGdX := dGdX t;
    dBdX := dBdX t; dAdX := dAdX t; dZdX := dZdX t; dRdY := v;
    dGdY := dGdY t; dBdY := dBdY t; dAdY := dAdY t; dZdY := dZdY t;
    startS := startS t; startT := startT t; startW := startW t;
    dSdX := dSdX t; dTdX := dTdX t; dWdX := dWdX t; dSdY := dSdY t;
    dTdY := dTdY t; dWdY := dWdY t
  |}.

Definition tri_set_dGdY (v : Z) (t : triangle_t) : triangle_t :=
  {|
    vertexAx := vertexAx t; vertexAy := vertexAy t; vertexBx := vertexBx t;
    vertexBy := vertexBy t; vertexCx := vertexCx t; vertexCy := vertexCy t;
    startR := startR t; startG := startG t; startB := startB t;
    startA := startA t; startZ := startZ t; dRdX := dRdX t; dGdX := dGdX t;
    dBdX := dBdX t; dAdX := dAdX t; dZdX := dZdX t; dRdY := dRdY t;
    dGdY := v; dBdY := dBdY t; dAdY := dAdY t; dZdY := dZdY t;
    startS := startS t; startT := startT t; startW := startW t;
    dSdX := dSdX t; dTdX := dTdX t; dWdX := dWdX t; dSdY := dSdY t;
    dTdY := dTdY t; dWdY := dWdY t
  |}.

Definition tri_set_dBdY (v : Z) (t : triangle_t) : triangle_t :=
  {|
    vertexAx := vertexAx t; vertexAy := vertexAy t; vertexBx := vertexBx t;
    vertexBy := vertexBy t; vertexCx := vertexCx t; vertexCy := vertexCy t;
    startR := startR t; startG := startG t; startB := startB t;
    startA := startA t; startZ := startZ t; dRdX := dRdX t; dGdX := dGdX t;
    dBdX := dBdX t; dAdX := dAdX t; dZdX := dZdX t; dRdY := dRdY t;
    dGdY := dGdY t; dBdY := v; dAdY := dAdY t; dZdY := dZdY t;
    startS := startS t; startT := startT t; startW := startW t;
    dSdX := dSdX t; dTdX := dTdX t; dWdX := dWdX t; dSdY := dSdY t;
    dTdY := dTdY t; dWdY := dWdY t
  |}.

Definition tri_set_dAdY (v : Z) (t : triangle_t) : triangle_t :=
  {|
    vertexAx := vertexAx t; vertexAy := vertexAy t; vertexBx := vertexBx t;
    vertexBy := vertexBy t; vertexCx := vertexCx t; vertexCy := vertexCy t;
    startR := startR t; startG := startG t; startB := startB t;
    startA := startA t; startZ := startZ t; dRdX := dRdX t; dGdX := dGdX t;
    dBdX := dBdX t; dAdX := dAdX t; dZdX := dZdX t; dRdY := dRdY t;
    dGdY := dGdY t; dBdY := dBdY t; dAdY := v; dZdY := dZdY t;
    startS := startS t; startT := startT t; startW := startW t;
    dSdX := dSdX t; dTdX := dTdX t; dWdX := dWdX t; dSdY := dSdY t;
    dTdY := dTdY t; dWdY := dWdY t
  |}.

Definition tri_set_dZdY (v : Z) (t : triangle_t) : triangle_t :=
  {|
    vertexAx := vertexAx t; vertexAy := vertexAy t; vertexBx := vertexBx t;
    vertexBy := vertexBy t; vertexCx := vertexCx t; vertexCy := vertexCy t;
    startR := startR t; startG := startG t; startB := startB t;
    startA := startA t; startZ := startZ t; dRdX := dRdX t; dGdX := dGdX t;
    dBdX := dBdX t; dAdX := dAdX t; dZdX := dZdX t; dRdY := dRdY t;
    dGdY := dGdY t; dBdY := dBdY t; dAdY := dAdY t; dZdY := v;
    startS := startS t; startT := startT t; startW := startW t;
    dSdX := dSdX t; dTdX := dTdX t; dWdX := dWdX t; dSdY := dSdY t;
    dTdY := dTdY t; dWdY := dWdY t
  |}.

Definition tri_set_startS (v : Z) (t : triangle_t) : triangle_t :=
  {|
    vertexAx := vertexAx t; vertexAy := vertexAy t; vertexBx := vertexBx t;
    vertexBy := vertexBy t; vertexCx := vertexCx t; vertexCy := vertexCy t;
    startR := startR t; startG := startG t; startB := startB t;
    startA := startA t; startZ := startZ t; dRdX := dRdX t; dGdX := dGdX t;
    dBdX := dBdX t; dAdX := dAdX t; dZdX := dZdX t; dRdY := dRdY t;
    dGdY := dGdY t; dBdY := dBdY t; dAdY := dAdY t; dZdY := dZdY t;
    startS := v; startT := startT t; startW := startW t; dSdX := dSdX t;
    dTdX := dTdX t; dWdX := dWdX t; dSdY := dSdY t; dTdY := dTdY t;
    dWdY := dWdY t
  |}.

Definition tri_set_startT (v : Z) (t : triangle_t) : triangle_t :=
  {|
    vertexAx := vertexAx t; vertexAy := vertexAy t; vertexBx := vertexBx t;
    vertexBy := vertexBy t; vertexCx := vertexCx t; vertexCy := vertexCy t;
    startR := startR t; startG := startG t; startB := startB t;
    startA := startA t; startZ := startZ t; dRdX := dRdX t; dGdX := dGdX t;
    dBdX := dBdX t; dAdX := dAdX t; dZdX := dZdX t; dRdY := dRdY t;
    dGdY := dGdY t; dBdY := dBdY t; dAdY := dAdY t; dZdY := dZdY t;
    startS := startS t; startT := v; startW := startW t; dSdX := dSdX t;
    dTdX := dTdX t; dWdX := dWdX t; dSdY := dSdY t; dTdY := dTdY t;
    dWdY := dWdY t
  |}.

Definition tri_set_startW (v : Z) (t : triangle_t) : triangle_t :=
  {|
    vertexAx := vertexAx t; vertexAy := vertexAy t; vertexBx := vertexBx t;
    vertexBy := vertexBy t; vertexCx := vertexCx t; vertexCy := vertexCy t;
    startR := startR t; startG := startG t; startB := startB t;
    startA := startA t; startZ := startZ t; dRdX := dRdX t; dGdX := dGdX t;
    dBdX := dBdX t; dAdX := dAdX t; dZdX := dZdX t; dRdY := dRdY t;
    dGdY := dGdY t; dBdY := dBdY t; dAdY := dAdY t; dZdY := dZdY t;
    startS := startS t; startT := startT t; startW := v; dSdX := dSdX t;
    dTdX := dTdX t; dWdX := dWdX t; dSdY := dSdY t; dTdY := dTdY t;
    dWdY := dWdY t
  |}.

Definition tri_set_dSdX (v : Z) (t : triangle_t) : triangle_t :=
  {|
    vertexAx := vertexAx t; vertexAy := vertexAy t; vertexBx := vertexBx t;
    vertexBy := vertexBy t; vertexCx := vertexCx t; vertexCy := vertexCy t;
    startR := startR t; startG := startG t; startB := startB t;
    startA := startA t; startZ := startZ t; dRdX := dRdX t; dGdX := dGdX t;
    dBdX := dBdX t; dAdX := dAdX t; dZdX := dZdX t; dRdY := dRdY t;
    dGdY := dGdY t; dBdY := dBdY t; dAdY := dAdY t; dZdY := dZdY t;
    startS := startS t; startT := startT t; startW := startW t; dSdX := v;
    dTdX := dTdX t; dWdX := dWdX t; dSdY := dSdY t; dTdY := dTdY t;
    dWdY := dWdY t
  |}.

Definition tri_set_dTdX (v : Z) (t : triangle_t) : triangle_t :=
  {|
    vertexAx := vertexAx t; vertexAy := vertexAy t; vertexBx := vertexBx t;
    vertexBy := vertexBy t; vertexCx := vertexCx t; vertexCy := vertexCy t;
    startR := startR t; startG := startG t; startB := startB t;
    startA := startA t; startZ := startZ t; dRdX := dRdX t; dGdX := dGdX t;
    dBdX := dBdX t; dAdX := dAdX t; dZdX := dZdX t; dRdY := dRdY t;
    dGdY := dGdY t; dBdY := dBdY t; dAdY := dAdY t; dZdY := dZdY t;
    startS := startS t; startT := startT t; startW := startW t;
    dSdX := dSdX t; dTdX := v; dWdX := dWdX t; dSdY := dSdY t;
    dTdY := dTdY t; dWdY := dWdY t
  |}.

Definition tri_set_dWdX (v : Z) (t : triangle_t) : triangle_t :=
  {|
    vertexAx := vertexAx t; vertexAy := vertexAy t; vertexBx := vertexBx t;
    vertexBy := vertexBy t; vertexCx := vertexCx t; vertexCy := vertexCy t;
    startR := startR t; startG := startG t; startB := startB t;
    startA := startA t; startZ := startZ t; dRdX := dRdX t; dGdX := dGdX t;
    dBdX := dBdX t; dAdX := dAdX t; dZdX := dZdX t; dRdY := dRdY t;
    dGdY := dGdY t; dBdY := dBdY t; dAdY := dAdY t; dZdY := dZdY t;
    startS := startS t; startT := startT t; startW := startW t;
    dSdX := dSdX t; dTdX := dTdX t; dWdX := v; dSdY := dSdY t;
    dTdY := dTdY t; dWdY := dWdY t
  |}.

Definition tri_set_dSdY (v : Z) (t : triangle_t) : triangle_t :=
  {|
    vertexAx := vertexAx t; vertexAy := vertexAy t; vertexBx := vertexBx t;
    vertexBy := vertexBy t; vertexCx := vertexCx t; vertexCy := vertexCy t;
    startR := startR t; startG := startG t; startB := startB t;
    startA := startA t; startZ := startZ t; dRdX := dRdX t; dGdX := dGdX t;
    dBdX := dBdX t; dAdX := dAdX t; dZdX := dZdX t; dRdY := dRdY t;
    dGdY := dGdY t; dBdY := dBdY t; dAdY := dAdY t; dZdY := dZdY t;
    startS := startS t; startT := startT t; startW := startW t;
    dSdX := dSdX t; dTdX := dTdX t; dWdX := dWdX t; dSdY := v;
    dTdY := dTdY t; dWdY := dWdY t
  |}.

Definition tri_set_dTdY (v : Z) (t : triangle_t) : triangle_t :=
  {|
    vertexAx := vertexAx t; vertexAy := vertexAy t; vertexBx := vertexBx t;
    vertexBy := vertexBy t; vertexCx := vertexCx t; vertexCy := vertexCy t;
    startR := startR t; startG := startG t; startB := startB t;
    startA := startA t; startZ := startZ t; dRdX := dRdX t; dGdX := dGdX t;
    dBdX := dBdX t; dAdX := dAdX t; dZdX := dZdX t; dRdY := dRdY t;
    dGdY := dGdY t; dBdY := dBdY t; dAdY := dAdY t; dZdY := dZdY t;
    startS := startS t; startT := startT t; startW := startW t;
    dSdX := dSdX t; dTdX := dTdX t; dWdX := dWdX t; dSdY := dSdY t;
    dTdY := v; dWdY := dWdY t
  |}.

Definition tri_set_dWdY (v : Z) (t : triangle_t) : triangle_t :=
  {|
    vertexAx := vertexAx t; vertexAy := vertexAy t; vertexBx := vertexBx t;
    vertexBy := vertexBy t; vertexCx := vertexCx t; vertexCy := vertexCy t;
    startR := startR t; startG := startG t; startB := startB t;
    startA := startA t; startZ := startZ t; dRdX := dRdX t; dGdX := dGdX t;
    dBdX := dBdX t; dAdX := dAdX t; dZdX := dZdX t; dRdY := dRdY t;
    dGdY := dGdY t; dBdY := dBdY t; dAdY := dAdY t; dZdY := dZdY t;
    startS := startS t; startT := startT t; startW := startW t;
    dSdX := dSdX t; dTdX := dTdX t; dWdX := dWdX t; dSdY := dSdY t;
    dTdY := dTdY t; dWdY := v
  |}.

Definition set_puma_fb (v : gmap Z Z) (r : voodoo_rush_t) : voodoo_rush_t :=
  {|
    puma_fb := v; puma_fb_size := puma_fb_size r;
    puma_fb_mask := puma_fb_mask r; regs := regs r; puma_tex := puma_tex r;
    puma_tex_size := puma_tex_size r; puma_tex_mask := puma_tex_mask r;
    cmdfifo_base_page := cmdfifo_base_page r;
    cmdfifo_top_page := cmdfifo_top_page r;
    cmdfifo_bottom_page := cmdfifo_bottom_page r;
    cmdfifo_entry_count := cmdfifo_entry_count r;
    cmdfifo_read_ptr := cmdfifo_read_ptr r;
    cmdfifo_threshold := cmdfifo_threshold r;
    cmdfifo_enabled := cmdfifo_enabled r; fbijr_init := fbijr_init r;
    fbijr_version := fbijr_version r; status := status r;
    triangle := triangle r; ftriangle := ftriangle r;
    fbz_color_path := fbz_color_path r; fog_mode := fog_mode r;
    alpha_mode := alpha_mode r; fbz_mode := fbz_mode r; stipple := stipple r;
    color0 := color0 r; color1 := color1 r; fog_color := fog_color r;
    za_color := za_color r; chroma_key := chroma_key r;
    chroma_range := chroma_range r; col_buffer_setup := col_buffer_setup r;
    aux_buffer_setup := aux_buffer_setup r;
    clip_left_right := clip_left_right r;
    clip_top_bottom := clip_top_bottom r; fog_table := fog_table r;
    tex_chip_sel := tex_chip_sel r; texture_mode := texture_mode r;
    tlod := tlod r; tdetail := tdetail r; tex_base_addr := tex_base_addr r;
    trex_init := trex_init r; pixels_in := pixels_in r;
    chroma_fail := chroma_fail r; zfunc_fail := zfunc_fail r;
    afunc_fail := afunc_fail r; pixels_out := pixels_out r;
    puma_mode_8mb := puma_mode_8mb r; puma_req := puma_req r;
    puma_gnt := puma_gnt r; swap_req := swap_req r;
    swap_pending := swap_pending r; voodoo := voodoo r;
    window_x := window_x r; window_y := window_y r;
    window_width := window_width r; window_height := window_height r;
    enabled := enabled r
  |}.

Definition set_regs (v : list Z) (r : voodoo_rush_t) : voodoo_rush_t :=
  {|
    puma_fb := puma_fb r; puma_fb_size := puma_fb_size r;
    puma_fb_mask := puma_fb_mask r; regs := v; puma_tex := puma_tex r;
    puma_tex_size := puma_tex_size r; puma_tex_mask := puma_tex_mask r;
    cmdfifo_base_page := cmdfifo_base_page r;
    cmdfifo_top_page := cmdfifo_top_page r;
    cmdfifo_bottom_page := cmdfifo_bottom_page r;
    cmdfifo_entry_count := cmdfifo_entry_count r;
    cmdfifo_read_ptr := cmdfifo_read_ptr r;
    cmdfifo_threshold := cmdfifo_threshold r;
    cmdfifo_enabled := cmdfifo_enabled r; fbijr_init := fbijr_init r;
    fbijr_version := fbijr_version r; status := status r;
    triangle := triangle r; ftriangle := ftriangle r;
    fbz_color_path := fbz_color_path r; fog_mode := fog_mode r;
    alpha_mode := alpha_mode r; fbz_mode := fbz_mode r; stipple := stipple r;
    color0 := color0 r; color1 := color1 r; fog_color := fog_color r;
    za_color := za_color r; chroma_key := chroma_key r;
    chroma_range := chroma_range r; col_buffer_setup := col_buffer_setup r;
    aux_buffer_setup := aux_buffer_setup r;
    clip_left_right := clip_left_right r;
    clip_top_bottom := clip_top_bottom r; fog_table := fog_table r;
    tex_chip_sel := tex_chip_sel r; texture_mode := texture_mode r;
    tlod := tlod r; tdetail := tdetail r; tex_base_addr := tex_base_addr r;
    trex_init := trex_init r; pixels_in := pixels_in r;
    chroma_fail := chroma_fail r; zfunc_fail := zfunc_fail r;
    afunc_fail := afunc_fail r; pixels_out := pixels_out r;
    puma_mode_8mb := puma_mode_8mb r; puma_req := puma_req r;
    puma_gnt := puma_gnt r; swap_req := swap_req r;
    swap_pending := swap_pending r; voodoo := voodoo r;
    window_x := window_x r; window_y := window_y r;
    window_width := window_width r; window_height := window_height r;
    enabled := enabled r
  |}.

Definition set_puma_tex (v : gmap Z Z) (r : voodoo_rush_t) : voodoo_rush_t :=
  {|
    puma_fb := puma_fb r; puma_fb_size := puma_fb_size r;
    puma_fb_mask := puma_fb_mask r; regs := regs r; puma_tex := v;
    puma_tex_size := puma_tex_size r; puma_tex_mask := puma_tex_mask r;
    cmdfifo_base_page := cmdfifo_base_page r;
    cmdfifo_top_page := cmdfifo_top_page r;
    cmdfifo_bottom_page := cmdfifo_bottom_page r;
    cmdfifo_entry_count := cmdfifo_entry_count r;
    cmdfifo_read_ptr := cmdfifo_read_ptr r;
    cmdfifo_threshold := cmdfifo_threshold r;
    cmdfifo_enabled := cmdfifo_enabled r; fbijr_init := fbijr_init r;
    fbijr_version := fbijr_version r; status := status r;
    triangle := triangle r; ftriangle := ftriangle r;
    fbz_color_path := fbz_color_path r; fog_mode := fog_mode r;
    alpha_mode := alpha_mode r; fbz_mode := fbz_mode r; stipple := stipple r;
    color0 := color0 r; color1 := color1 r; fog_color := fog_color r;
    za_color := za_color r; chroma_key := chroma_key r;
    chroma_range := chroma_range r; col_buffer_setup := col_buffer_setup r;
    aux_buffer_setup := aux_buffer_setup r;
    clip_left_right := clip_left_right r;
    clip_top_bottom := clip_top_bottom r; fog_table := fog_table r;
    tex_chip_sel := tex_chip_sel r; texture_mode := texture_mode r;
    tlod := tlod r; tdetail := tdetail r; tex_base_addr := tex_base_addr r;
    trex_init := trex_init r; pixels_in := pixels_in r;
    chroma_fail := chroma_fail r; zfunc_fail := zfunc_fail r;
    afunc_fail := afunc_fail r; pixels_out := pixels_out r;
    puma_mode_8mb := puma_mode_8mb r; puma_req := puma_req r;
    puma_gnt := puma_gnt r; swap_req := swap_req r;
    swap_pending := swap_pending r; voodoo := voodoo r;
    window_x := window_x r; window_y := window_y r;
    window_width := window_width r; window_height := window_height r;
    enabled := enabled r
  |}.

Definition set_cmdfifo_top_page (v : Z) (r : voodoo_rush_t) : voodoo_rush_t :=
  {|
    puma_fb := puma_fb r; puma_fb_size := puma_fb_size r;
    puma_fb_mask := puma_fb_mask r; regs := regs r; puma_tex := puma_tex r;
    puma_tex_size := puma_tex_size r; puma_tex_mask := puma_tex_mask r;
    cmdfifo_base_page := cmdfifo_base_page r; cmdfifo_top_page := v;
    cmdfifo_bottom_page := cmdfifo_bottom_page r;
    cmdfifo_entry_count := cmdfifo_entry_count r;
    cmdfifo_read_ptr := cmdfifo_read_ptr r;
    cmdfifo_threshold := cmdfifo_threshold r;
    cmdfifo_enabled := cmdfifo_enabled r; fbijr_init := fbijr_init r;
    fbijr_version := fbijr_version r; status := status r;
    triangle := triangle r; ftriangle := ftriangle r;
    fbz_color_path := fbz_color_path r; fog_mode := fog_mode r;
    alpha_mode := alpha_mode r; fbz_mode := fbz_mode r; stipple := stipple r;
    color0 := color0 r; color1 := color1 r; fog_color := fog_color r;
    za_color := za_color r; chroma_key := chroma_key r;
    chroma_range := chroma_range r; col_buffer_setup := col_buffer_setup r;
    aux_buffer_setup := aux_buffer_setup r;
    clip_left_right := clip_left_right r;
    clip_top_bottom := clip_top_bottom r; fog_table := fog_table r;
    tex_chip_sel := tex_chip_sel r; texture_mode := texture_mode r;
    tlod := tlod r; tdetail := tdetail r; tex_base_addr := tex_base_addr r;
    trex_init := trex_init r; pixels_in := pixels_in r;
    chroma_fail := chroma_fail r; zfunc_fail := zfunc_fail r;
    afunc_fail := afunc_fail r; pixels_out := pixels_out r;
    puma_mode_8mb := puma_mode_8mb r; puma_req := puma_req r;
    puma_gnt := puma_gnt r; swap_req := swap_req r;
    swap_pending := swap_pending r; voodoo := voodoo r;
    window_x := window_x r; window_y := window_y r;
    window_width := window_width r; window_height := window_height r;
    enabled := enabled r
  |}.

Definition set_cmdfifo_bottom_page (v : Z) (r : voodoo_rush_t) : voodoo_rush_t :=
  {|
    puma_fb := puma_fb r; puma_fb_size := puma_fb_size r;
    puma_fb_mask := puma_fb_mask r; regs := regs r; puma_tex := puma_tex r;
    puma_tex_size := puma_tex_size r; puma_tex_mask := puma_tex_mask r;
    cmdfifo_base_page := cmdfifo_base_page r;
    cmdfifo_top_page := cmdfifo_top_page r; cmdfifo_bottom_page := v;
    cmdfifo_entry_count := cmdfifo_entry_count r;
    cmdfifo_read_ptr := cmdfifo_read_ptr r;
    cmdfifo_threshold := cmdfifo_threshold r;
    cmdfifo_enabled := cmdfifo_enabled r; fbijr_init := fbijr_init r;
    fbijr_version := fbijr_version r; status := status r;
    triangle := triangle r; ftriangle := ftriangle r;
    fbz_color_path := fbz_color_path r; fog_mode := fog_mode r;
    alpha_mode := alpha_mode r; fbz_mode := fbz_mode r; stipple := stipple r;
    color0 := color0 r; color1 := color1 r; fog_color := fog_color r;
    za_color := za_color r; chroma_key := chroma_key r;
    chroma_range := chroma_range r; col_buffer_setup := col_buffer_setup r;
    aux_buffer_setup := aux_buffer_setup r;
    clip_left_right := clip_left_right r;
    clip_top_bottom := clip_top_bottom r; fog_table := fog_table r;
    tex_chip_sel := tex_chip_sel r; texture_mode := texture_mode r;
    tlod := tlod r; tdetail := tdetail r; tex_base_addr := tex_base_addr r;
    trex_init := trex_init r; pixels_in := pixels_in r;
    chroma_fail := chroma_fail r; zfunc_fail := zfunc_fail r;
    afunc_fail := afunc_fail r; pixels_out := pixels_out r;
    puma_mode_8mb := puma_mode_8mb r; puma_req := puma_req r;
    puma_gnt := puma_gnt r; swap_req := swap_req r;
    swap_pending := swap_pending r; voodoo := voodoo r;
    window_x := window_x r; window_y := window_y r;
    window_width := window_width r; window_height := window_height r;
    enabled := enabled r
  |}.

Definition set_cmdfifo_entry_count (v : Z) (r : voodoo_rush_t) : voodoo_rush_t :=
  {|
    puma_fb := puma_fb r; puma_fb_size := puma_fb_size r;
    puma_fb_mask := puma_fb_mask r; regs := regs r; puma_tex := puma_tex r;
    puma_tex_size := puma_tex_size r; puma_tex_mask := puma_tex_mask r;
    cmdfifo_base_page := cmdfifo_base_page r;
    cmdfifo_top_page := cmdfifo_top_page r;
    cmdfifo_bottom_page := cmdfifo_bottom_page r; cmdfifo_entry_count := v;
    cmdfifo_read_ptr := cmdfifo_read_ptr r;
    cmdfifo_threshold := cmdfifo_threshold r;
    cmdfifo_enabled := cmdfifo_enabled r; fbijr_init := fbijr_init r;
    fbijr_version := fbijr_version r; status := status r;
    triangle := triangle r; ftriangle := ftriangle r;
    fbz_color_path := fbz_color_path r; fog_mode := fog_mode r;
    alpha_mode := alpha_mode r; fbz_mode := fbz_mode r; stipple := stipple r;
    color0 := color0 r; color1 := color1 r; fog_color := fog_color r;
    za_color := za_color r; chroma_key := chroma_key r;
    chroma_range := chroma_range r; col_buffer_setup := col_buffer_setup r;
    aux_buffer_setup := aux_buffer_setup r;
    clip_left_right := clip_left_right r;
    clip_top_bottom := clip_top_bottom r; fog_table := fog_table r;
    tex_chip_sel := tex_chip_sel r; texture_mode := texture_mode r;
    tlod := tlod r; tdetail := tdetail r; tex_base_addr := tex_base_addr r;
    trex_init := trex_init r; pixels_in := pixels_in r;
    chroma_fail := chroma_fail r; zfunc_fail := zfunc_fail r;
    afunc_fail := afunc_fail r; pixels_out := pixels_out r;
    puma_mode_8mb := puma_mode_8mb r; puma_req := puma_req r;
    puma_gnt := puma_gnt r; swap_req := swap_req r;
    swap_pending := swap_pending r; voodoo := voodoo r;
    window_x := window_x r; window_y := window_y r;
    window_width := window_width r; window_height := window_height r;
    enabled := enabled r
  |}.

Definition set_cmdfifo_read_ptr (v : Z) (r : voodoo_rush_t) : voodoo_rush_t :=
  {|
    puma_fb := puma_fb r; puma_fb_size := puma_fb_size r;
    puma_fb_mask := puma_fb_mask r; regs := regs r; puma_tex := puma_tex r;
    puma_tex_size := puma_tex_size r; puma_tex_mask := puma_tex_mask r;
    cmdfifo_base_page := cmdfifo_base_page r;
    cmdfifo_top_page := cmdfifo_top_page r;
    cmdfifo_bottom_page := cmdfifo_bottom_page r;
    cmdfifo_entry_count := cmdfifo_entry_count r; cmdfifo_read_ptr := v;
    cmdfifo_threshold := cmdfifo_threshold r;
    cmdfifo_enabled := cmdfifo_enabled r; fbijr_init := fbijr_init r;
    fbijr_version := fbijr_version r; status := status r;
    triangle := triangle r; ftriangle := ftriangle r;
    fbz_color_path := fbz_color_path r; fog_mode := fog_mode r;
    alpha_mode := alpha_mode r; fbz_mode := fbz_mode r; stipple := stipple r;
    color0 := color0 r; color1 := color1 r; fog_color := fog_color r;
    za_color := za_color r; chroma_key := chroma_key r;
    chroma_range := chroma_range r; col_buffer_setup := col_buffer_setup r;
    aux_buffer_setup := aux_buffer_setup r;
    clip_left_right := clip_left_right r;
    clip_top_bottom := clip_top_bottom r; fog_table := fog_table r;
    tex_chip_sel := tex_chip_sel r; texture_mode := texture_mode r;
    tlod := tlod r; tdetail := tdetail r; tex_base_addr := tex_base_addr r;
    trex_init := trex_init r; pixels_in := pixels_in r;
    chroma_fail := chroma_fail r; zfunc_fail := zfunc_fail r;
    afunc_fail := afunc_fail r; pixels_out := pixels_out r;
    puma_mode_8mb := puma_mode_8mb r; puma_req := puma_req r;
    puma_gnt := puma_gnt r; swap_req := swap_req r;
    swap_pending := swap_pending r; voodoo := voodoo r;
    window_x := window_x r; window_y := window_y r;
    window_width := window_width r; window_height := window_height r;
    enabled := enabled r
  |}.

Definition set_cmdfifo_threshold (v : Z) (r : voodoo_rush_t) : voodoo_rush_t :=
  {|
    puma_fb := puma_fb r; puma_fb_size := puma_fb_size r;
    puma_fb_mask := puma_fb_mask r; regs := regs r; puma_tex := puma_tex r;
    puma_tex_size := puma_tex_size r; puma_tex_mask := puma_tex_mask r;
    cmdfifo_base_page := cmdfifo_base_page r;
    cmdfifo_top_page := cmdfifo_top_page r;
    cmdfifo_bottom_page := cmdfifo_bottom_page r;
    cmdfifo_entry_count := cmdfifo_entry_count r;
    cmdfifo_read_ptr := cmdfifo_read_ptr r; cmdfifo_threshold := v;
    cmdfifo_enabled := cmdfifo_enabled r; fbijr_init := fbijr_init r;
    fbijr_version := fbijr_version r; status := status r;
    triangle := triangle r; ftriangle := ftriangle r;
    fbz_color_path := fbz_color_path r; fog_mode := fog_mode r;
    alpha_mode := alpha_mode r; fbz_mode := fbz_mode r; stipple := stipple r;
    color0 := color0 r; color1 := color1 r; fog_color := fog_color r;
    za_color := za_color r; chroma_key := chroma_key r;
    chroma_range := chroma_range r; col_buffer_setup := col_buffer_setup r;
    aux_buffer_setup := aux_buffer_setup r;
    clip_left_right := clip_left_right r;
    clip_top_bottom := clip_top_bottom r; fog_table := fog_table r;
    tex_chip_sel := tex_chip_sel r; texture_mode := texture_mode r;
    tlod := tlod r; tdetail := tdetail r; tex_base_addr := tex_base_addr r;
    trex_init := trex_init r; pixels_in := pixels_in r;
    chroma_fail := chroma_fail r; zfunc_fail := zfunc_fail r;
    afunc_fail := afunc_fail r; pixels_out := pixels_out r;
    puma_mode_8mb := puma_mode_8mb r; puma_req := puma_req r;
    puma_gnt := puma_gnt r; swap_req := swap_req r;
    swap_pending := swap_pending r; voodoo := voodoo r;
    window_x := window_x r; window_y := window_y r;
    window_width := window_width r; window_height := window_height r;
    enabled := enabled r
  |}.

Definition set_cmdfifo_enabled (v : bool) (r : voodoo_rush_t) : voodoo_rush_t :=
  {|
    puma_fb := puma_fb r; puma_fb_size := puma_fb_size r;
    puma_fb_mask := puma_fb_mask r; regs := regs r; puma_tex := puma_tex r;
    puma_tex_size := puma_tex_size r; puma_tex_mask := puma_tex_mask r;
    cmdfifo_base_page := cmdfifo_base_page r;
    cmdfifo_top_page := cmdfifo_top_page r;
    cmdfifo_bottom_page := cmdfifo_bottom_page r;
    cmdfifo_entry_count := cmdfifo_entry_count r;
    cmdfifo_read_ptr := cmdfifo_read_ptr r;
    cmdfifo_threshold := cmdfifo_threshold r; cmdfifo_enabled := v;
    fbijr_init := fbijr_init r; fbijr_version := fbijr_version r;
    status := status r; triangle := triangle r; ftriangle := ftriangle r;
    fbz_color_path := fbz_color_path r; fog_mode := fog_mode r;
    alpha_mode := alpha_mode r; fbz_mode := fbz_mode r; stipple := stipple r;
    color0 := color0 r; color1 := color1 r; fog_color := fog_color r;
    za_color := za_color r; chroma_key := chroma_key r;
    chroma_range := chroma_range r; col_buffer_setup := col_buffer_setup r;
    aux_buffer_setup := aux_buffer_setup r;
    clip_left_right := clip_left_right r;
    clip_top_bottom := clip_top_bottom r; fog_table := fog_table r;
    tex_chip_sel := tex_chip_sel r; texture_mode := texture_mode r;
    tlod := tlod r; tdetail := tdetail r; tex_base_addr := tex_base_addr r;
    trex_init := trex_init r; pixels_in := pixels_in r;
    chroma_fail := chroma_fail r; zfunc_fail := zfunc_fail r;
    afunc_fail := afunc_fail r; pixels_out := pixels_out r;
    puma_mode_8mb := puma_mode_8mb r; puma_req := puma_req r;
    puma_gnt := puma_gnt r; swap_req := swap_req r;
    swap_pending := swap_pending r; voodoo := voodoo r;
    window_x := window_x r; window_y := window_y r;
    window_width := window_width r; window_height := window_height r;
    enabled := enabled r
  |}.

Definition set_fbijr_init (v : list Z) (r : voodoo_rush_t) : voodoo_rush_t :=
  {|
    puma_fb := puma_fb r; puma_fb_size := puma_fb_size r;
    puma_fb_mask := puma_fb_mask r; regs := regs r; puma_tex := puma_tex r;
    puma_tex_size := puma_tex_size r; puma_tex_mask := puma_tex_mask r;
    cmdfifo_base_page := cmdfifo_base_page r;
    cmdfifo_top_page := cmdfifo_top_page r;
    cmdfifo_bottom_page := cmdfifo_bottom_page r;
    cmdfifo_entry_count := cmdfifo_entry_count r;
    cmdfifo_read_ptr := cmdfifo_read_ptr r;
    cmdfifo_threshold := cmdfifo_threshold r;
    cmdfifo_enabled := cmdfifo_enabled r; fbijr_init := v;
    fbijr_version := fbijr_version r; status := status r;
    triangle := triangle r; ftriangle := ftriangle r;
    fbz_color_path := fbz_color_path r; fog_mode := fog_mode r;
    alpha_mode := alpha_mode r; fbz_mode := fbz_mode r; stipple := stipple r;
    color0 := color0 r; color1 := color1 r; fog_color := fog_color r;
    za_color := za_color r; chroma_key := chroma_key r;
    chroma_range := chroma_range r; col_buffer_setup := col_buffer_setup r;
    aux_buffer_setup := aux_buffer_setup r;
    clip_left_right := clip_left_right r;
    clip_top_bottom := clip_top_bottom r; fog_table := fog_table r;
    tex_chip_sel := tex_chip_sel r; texture_mode := texture_mode r;
    tlod := tlod r; tdetail := tdetail r; tex_base_addr := tex_base_addr r;
    trex_init := trex_init r; pixels_in := pixels_in r;
    chroma_fail := chroma_fail r; zfunc_fail := zfunc_fail r;
    afunc_fail := afunc_fail r; pixels_out := pixels_out r;
    puma_mode_8mb := puma_mode_8mb r; puma_req := puma_req r;
    puma_gnt := puma_gnt r; swap_req := swap_req r;
    swap_pending := swap_pending r; voodoo := voodoo r;
    window_x := window_x r; window_y := window_y r;
    window_width := window_width r; window_height := window_height r;
    enabled := enabled r
  |}.

Definition set_status (v : Z) (r : voodoo_rush_t) : voodoo_rush_t :=
  {|
    puma_fb := puma_fb r; puma_fb_size := puma_fb_size r;
    puma_fb_mask := puma_fb_mask r; regs := regs r; puma_tex := puma_tex r;
    puma_tex_size := puma_tex_size r; puma_tex_mask := puma_tex_mask r;
    cmdfifo_base_page := cmdfifo_base_page r;
    cmdfifo_top_page := cmdfifo_top_page r;
    cmdfifo_bottom_page := cmdfifo_bottom_page r;
    cmdfifo_entry_count := cmdfifo_entry_count r;
    cmdfifo_read_ptr := cmdfifo_read_ptr r;
    cmdfifo_threshold := cmdfifo_threshold r;
    cmdfifo_enabled := cmdfifo_enabled r; fbijr_init := fbijr_init r;
    fbijr_version := fbijr_version r; status := v; triangle := triangle r;
    ftriangle := ftriangle r; fbz_color_path := fbz_color_path r;
    fog_mode := fog_mode r; alpha_mode := alpha_mode r;
    fbz_mode := fbz_mode r; stipple := stipple r; color0 := color0 r;
    color1 := color1 r; fog_color := fog_color r; za_color := za_color r;
    chroma_key := chroma_key r; chroma_range := chroma_range r;
    col_buffer_setup := col_buffer_setup r;
    aux_buffer_setup := aux_buffer_setup r;
    clip_left_right := clip_left_right r;
    clip_top_bottom := clip_top_bottom r; fog_table := fog_table r;
    tex_chip_sel := tex_chip_sel r; texture_mode := texture_mode r;
    tlod := tlod r; tdetail := tdetail r; tex_base_addr := tex_base_addr r;
    trex_init := trex_init r; pixels_in := pixels_in r;
    chroma_fail := chroma_fail r; zfunc_fail := zfunc_fail r;
    afunc_fail := afunc_fail r; pixels_out := pixels_out r;
    puma_mode_8mb := puma_mode_8mb r; puma_req := puma_req r;
    puma_gnt := puma_gnt r; swap_req := swap_req r;
    swap_pending := swap_pending r; voodoo := voodoo r;
    window_x := window_x r; window_y := window_y r;
    window_width := window_width r; window_height := window_height r;
    enabled := enabled r
  |}.

Definition set_triangle (v : triangle_t) (r : voodoo_rush_t) : voodoo_rush_t :=
  {|
    puma_fb := puma_fb r; puma_fb_size := puma_fb_size r;
    puma_fb_mask := puma_fb_mask r; regs := regs r; puma_tex := puma_tex r;
    puma_tex_size := puma_tex_size r; puma_tex_mask := puma_tex_mask r;
    cmdfifo_base_page := cmdfifo_base_page r;
    cmdfifo_top_page := cmdfifo_top_page r;
    cmdfifo_bottom_page := cmdfifo_bottom_page r;
    cmdfifo_entry_count := cmdfifo_entry_count r;
    cmdfifo_read_ptr := cmdfifo_read_ptr r;
    cmdfifo_threshold := cmdfifo_threshold r;
    cmdfifo_enabled := cmdfifo_enabled r; fbijr_init := fbijr_init r;
    fbijr_version := fbijr_version r; status := status r; triangle := v;
    ftriangle := ftriangle r; fbz_color_path := fbz_color_path r;
    fog_mode := fog_mode r; alpha_mode := alpha_mode r;
    fbz_mode := fbz_mode r; stipple := stipple r; color0 := color0 r;
    color1 := color1 r; fog_color := fog_color r; za_color := za_color r;
    chroma_key := chroma_key r; chroma_range := chroma_range r;
    col_buffer_setup := col_buffer_setup r;
    aux_buffer_setup := aux_buffer_setup r;
    clip_left_right := clip_left_right r;
    clip_top_bottom := clip_top_bottom r; fog_table := fog_table r;
    tex_chip_sel := tex_chip_sel r; texture_mode := texture_mode r;
    tlod := tlod r; tdetail := tdetail r; tex_base_addr := tex_base_addr r;
    trex_init := trex_init r; pixels_in := pixels_in r;
    chroma_fail := chroma_fail r; zfunc_fail := zfunc_fail r;
    afunc_fail := afunc_fail r; pixels_out := pixels_out r;
    puma_mode_8mb := puma_mode_8mb r; puma_req := puma_req r;
    puma_gnt := puma_gnt r; swap_req := swap_req r;
    swap_pending := swap_pending r; voodoo := voodoo r;
    window_x := window_x r; window_y := window_y r;
    window_width := window_width r; window_height := window_height r;
    enabled := enabled r
  |}.

Definition set_ftriangle (v : list Z) (r : voodoo_rush_t) : voodoo_rush_t :=
  {|
    puma_fb := puma_fb r; puma_fb_size := puma_fb_size r;
    puma_fb_mask := puma_fb_mask r; regs := regs r; puma_tex := puma_tex r;
    puma_tex_size := puma_tex_size r; puma_tex_mask := puma_tex_mask r;
    cmdfifo_base_page := cmdfifo_base_page r;
    cmdfifo_top_page := cmdfifo_top_page r;
    cmdfifo_bottom_page := cmdfifo_bottom_page r;
    cmdfifo_entry_count := cmdfifo_entry_count r;
    cmdfifo_read_ptr := cmdfifo_read_ptr r;
    cmdfifo_threshold := cmdfifo_threshold r;
    cmdfifo_enabled := cmdfifo_enabled r; fbijr_init := fbijr_init r;
    fbijr_version := fbijr_version r; status := status r;
    triangle := triangle r; ftriangle := v;
    fbz_color_path := fbz_color_path r; fog_mode := fog_mode r;
    alpha_mode := alpha_mode r; fbz_mode := fbz_mode r; stipple := stipple r;
    color0 := color0 r; color1 := color1 r; fog_color := fog_color r;
    za_color := za_color r; chroma_key := chroma_key r;
    chroma_range := chroma_range r; col_buffer_setup := col_buffer_setup r;
    aux_buffer_setup := aux_buffer_setup r;
    clip_left_right := clip_left_right r;
    clip_top_bottom := clip_top_bottom r; fog_table := fog_table r;
    tex_chip_sel := tex_chip_sel r; texture_mode := texture_mode r;
    tlod := tlod r; tdetail := tdetail r; tex_base_addr := tex_base_addr r;
    trex_init := trex_init r; pixels_in := pixels_in r;
    chroma_fail := chroma_fail r; zfunc_fail := zfunc_fail r;
    afunc_fail := afunc_fail r; pixels_out := pixels_out r;
    puma_mode_8mb := puma_mode_8mb r; puma_req := puma_req r;
    puma_gnt := puma_gnt r; swap_req := swap_req r;
    swap_pending := swap_pending r; voodoo := voodoo r;
    window_x := window_x r; window_y := window_y r;
    window_width := window_width r; window_height := window_height r;
    enabled := enabled r
  |}.

Definition set_fbz_color_path (v : Z) (r : voodoo_rush_t) : voodoo_rush_t :=
  {|
    puma_fb := puma_fb r; puma_fb_size := puma_fb_size r;
    puma_fb_mask := puma_fb_mask r; regs := regs r; puma_tex := puma_tex r;
    puma_tex_size := puma_tex_size r; puma_tex_mask := puma_tex_mask r;
    cmdfifo_base_page := cmdfifo_base_page r;
    cmdfifo_top_page := cmdfifo_top_page r;
    cmdfifo_bottom_page := cmdfifo_bottom_page r;
    cmdfifo_entry_count := cmdfifo_entry_count r;
    cmdfifo_read_ptr := cmdfifo_read_ptr r;
    cmdfifo_threshold := cmdfifo_threshold r;
    cmdfifo_enabled := cmdfifo_enabled r; fbijr_init := fbijr_init r;
    fbijr_version := fbijr_version r; status := status r;
    triangle := triangle r; ftriangle := ftriangle r; fbz_color_path := v;
    fog_mode := fog_mode r; alpha_mode := alpha_mode r;
    fbz_mode := fbz_mode r; stipple := stipple r; color0 := color0 r;
    color1 := color1 r; fog_color := fog_color r; za_color := za_color r;
    chroma_key := chroma_key r; chroma_range := chroma_range r;
    col_buffer_setup := col_buffer_setup r;
    aux_buffer_setup := aux_buffer_setup r;
    clip_left_right := clip_left_right r;
    clip_top_bottom := clip_top_bottom r; fog_table := fog_table r;
    tex_chip_sel := tex_chip_sel r; texture_mode := texture_mode r;
    tlod := tlod r; tdetail := tdetail r; tex_base_addr := tex_base_addr r;
    trex_init := trex_init r; pixels_in := pixels_in r;
    chroma_fail := chroma_fail r; zfunc_fail := zfunc_fail r;
    afunc_fail := afunc_fail r; pixels_out := pixels_out r;
    puma_mode_8mb := puma_mode_8mb r; puma_req := puma_req r;
    puma_gnt := puma_gnt r; swap_req := swap_req r;
    swap_pending := swap_pending r; voodoo := voodoo r;
    window_x := window_x r; window_y := window_y r;
    window_width := window_width r; window_height := window_height r;
    enabled := enabled r
  |}.

Definition set_fog_mode (v : Z) (r : voodoo_rush_t) : voodoo_rush_t :=
  {|
    puma_fb := puma_fb r; puma_fb_size := puma_fb_size r;
    puma_fb_mask := puma_fb_mask r; regs := regs r; puma_tex := puma_tex r;
    puma_tex_size := puma_tex_size r; puma_tex_mask := puma_tex_mask r;
    cmdfifo_base_page := cmdfifo_base_page r;
    cmdfifo_top_page := cmdfifo_top_page r;
    cmdfifo_bottom_page := cmdfifo_bottom_page r;
    cmdfifo_entry_count := cmdfifo_entry_count r;
    cmdfifo_read_ptr := cmdfifo_read_ptr r;
    cmdfifo_threshold := cmdfifo_threshold r;
    cmdfifo_enabled := cmdfifo_enabled r; fbijr_init := fbijr_init r;
    fbijr_version := fbijr_version r; status := status r;
    triangle := triangle r; ftriangle := ftriangle r;
    fbz_color_path := fbz_color_path r; fog_mode := v;
    alpha_mode := alpha_mode r; fbz_mode := fbz_mode r; stipple := stipple r;
    color0 := color0 r; color1 := color1 r; fog_color := fog_color r;
    za_color := za_color r; chroma_key := chroma_key r;
    chroma_range := chroma_range r; col_buffer_setup := col_buffer_setup r;
    aux_buffer_setup := aux_buffer_setup r;
    clip_left_right := clip_left_right r;
    clip_top_bottom := clip_top_bottom r; fog_table := fog_table r;
    tex_chip_sel := tex_chip_sel r; texture_mode := texture_mode r;
    tlod := tlod r; tdetail := tdetail r; tex_base_addr := tex_base_addr r;
    trex_init := trex_init r; pixels_in := pixels_in r;
    chroma_fail := chroma_fail r; zfunc_fail := zfunc_fail r;
    afunc_fail := afunc_fail r; pixels_out := pixels_out r;
    puma_mode_8mb := puma_mode_8mb r; puma_req := puma_req r;
    puma_gnt := puma_gnt r; swap_req := swap_req r;
    swap_pending := swap_pending r; voodoo := voodoo r;
    window_x := window_x r; window_y := window_y r;
    window_width := window_width r; window_height := window_height r;
    enabled := enabled r
  |}.

Definition set_alpha_mode (v : Z) (r : voodoo_rush_t) : voodoo_rush_t :=
  {|
    puma_fb := puma_fb r; puma_fb_size := puma_fb_size r;
    puma_fb_mask := puma_fb_mask r; regs := regs r; puma_tex := puma_tex r;
    puma_tex_size := puma_tex_size r; puma_tex_mask := puma_tex_mask r;
    cmdfifo_base_page := cmdfifo_base_page r;
    cmdfifo_top_page := cmdfifo_top_page r;
    cmdfifo_bottom_page := cmdfifo_bottom_page r;
    cmdfifo_entry_count := cmdfifo_entry_count r;
    cmdfifo_read_ptr := cmdfifo_read_ptr r;
    cmdfifo_threshold := cmdfifo_threshold r;
    cmdfifo_enabled := cmdfifo_enabled r; fbijr_init := fbijr_init r;
    fbijr_version := fbijr_version r; status := status r;
    triangle := triangle r; ftriangle := ftriangle r;
    fbz_color_path := fbz_color_path r; fog_mode := fog_mode r;
    alpha_mode := v; fbz_mode := fbz_mode r; stipple := stipple r;
    color0 := color0 r; color1 := color1 r; fog_color := fog_color r;
    za_color := za_color r; chroma_key := chroma_key r;
    chroma_range := chroma_range r; col_buffer_setup := col_buffer_setup r;
    aux_buffer_setup := aux_buffer_setup r;
    clip_left_right := clip_left_right r;
    clip_top_bottom := clip_top_bottom r; fog_table := fog_table r;
    tex_chip_sel := tex_chip_sel r; texture_mode := texture_mode r;
    tlod := tlod r; tdetail := tdetail r; tex_base_addr := tex_base_addr r;
    trex_init := trex_init r; pixels_in := pixels_in r;
    chroma_fail := chroma_fail r; zfunc_fail := zfunc_fail r;
    afunc_fail := afunc_fail r; pixels_out := pixels_out r;
    puma_mode_8mb := puma_mode_8mb r; puma_req := puma_req r;
    puma_gnt := puma_gnt r; swap_req := swap_req r;
    swap_pending := swap_pending r; voodoo := voodoo r;
    window_x := window_x r; window_y := window_y r;
    window_width := window_width r; window_height := window_height r;
    enabled := enabled r
  |}.

Definition set_fbz_mode (v : Z) (r : voodoo_rush_t) : voodoo_rush_t :=
  {|
    puma_fb := puma_fb r; puma_fb_size := puma_fb_size r;
    puma_fb_mask := puma_fb_mask r; regs := regs r; puma_tex := puma_tex r;
    puma_tex_size := puma_tex_size r; puma_tex_mask := puma_tex_mask r;
    cmdfifo_base_page := cmdfifo_base_page r;
    cmdfifo_top_page := cmdfifo_top_page r;
    cmdfifo_bottom_page := cmdfifo_bottom_page r;
    cmdfifo_entry_count := cmdfifo_entry_count r;
    cmdfifo_read_ptr := cmdfifo_read_ptr r;
    cmdfifo_threshold := cmdfifo_threshold r;
    cmdfifo_enabled := cmdfifo_enabled r; fbijr_init := fbijr_init r;
    fbijr_version := fbijr_version r; status := status r;
    triangle := triangle r; ftriangle := ftriangle r;
    fbz_color_path := fbz_color_path r; fog_mode := fog_mode r;
    alpha_mode := alpha_mode r; fbz_mode := v; stipple := stipple r;
    color0 := color0 r; color1 := color1 r; fog_color := fog_color r;
    za_color := za_color r; chroma_key := chroma_key r;
    chroma_range := chroma_range r; col_buffer_setup := col_buffer_setup r;
    aux_buffer_setup := aux_buffer_setup r;
    clip_left_right := clip_left_right r;
    clip_top_bottom := clip_top_bottom r; fog_table := fog_table r;
    tex_chip_sel := tex_chip_sel r; texture_mode := texture_mode r;
    tlod := tlod r; tdetail := tdetail r; tex_base_addr := tex_base_addr r;
    trex_init := trex_init r; pixels_in := pixels_in r;
    chroma_fail := chroma_fail r; zfunc_fail := zfunc_fail r;
    afunc_fail := afunc_fail r; pixels_out := pixels_out r;
    puma_mode_8mb := puma_mode_8mb r; puma_req := puma_req r;
    puma_gnt := puma_gnt r; swap_req := swap_req r;
    swap_pending := swap_pending r; voodoo := voodoo r;
    window_x := window_x r; window_y := window_y r;
    window_width := window_width r; window_height := window_height r;
    enabled := enabled r
  |}.

Definition set_stipple (v : Z) (r : voodoo_rush_t) : voodoo_rush_t :=
  {|
    puma_fb := puma_fb r; puma_fb_size := puma_fb_size r;
    puma_fb_mask := puma_fb_mask r; regs := regs r; puma_tex := puma_tex r;
    puma_tex_size := puma_tex_size r; puma_tex_mask := puma_tex_mask r;
    cmdfifo_base_page := cmdfifo_base_page r;
    cmdfifo_top_page := cmdfifo_top_page r;
    cmdfifo_bottom_page := cmdfifo_bottom_page r;
    cmdfifo_entry_count := cmdfifo_entry_count r;
    cmdfifo_read_ptr := cmdfifo_read_ptr r;
    cmdfifo_threshold := cmdfifo_threshold r;
    cmdfifo_enabled := cmdfifo_enabled r; fbijr_init := fbijr_init r;
    fbijr_version := fbijr_version r; status := status r;
    triangle := triangle r; ftriangle := ftriangle r;
    fbz_color_path := fbz_color_path r; fog_mode := fog_mode r;
    alpha_mode := alpha_mode r; fbz_mode := fbz_mode r; stipple := v;
    color0 := color0 r; color1 := color1 r; fog_color := fog_color r;
    za_color := za_color r; chroma_key := chroma_key r;
    chroma_range := chroma_range r; col_buffer_setup := col_buffer_setup r;
    aux_buffer_setup := aux_buffer_setup r;
    clip_left_right := clip_left_right r;
    clip_top_bottom := clip_top_bottom r; fog_table := fog_table r;
    tex_chip_sel := tex_chip_sel r; texture_mode := texture_mode r;
    tlod := tlod r; tdetail := tdetail r; tex_base_addr := tex_base_addr r;
    trex_init := trex_init r; pixels_in := pixels_in r;
    chroma_fail := chroma_fail r; zfunc_fail := zfunc_fail r;
    afunc_fail := afunc_fail r; pixels_out := pixels_out r;
    puma_mode_8mb := puma_mode_8mb r; puma_req := puma_req r;
    puma_gnt := puma_gnt r; swap_req := swap_req r;
    swap_pending := swap_pending r; voodoo := voodoo r;
    window_x := window_x r; window_y := window_y r;
    window_width := window_width r; window_height := window_height r;
    enabled := enabled r
  |}.

Definition set_color0 (v : Z) (r : voodoo_rush_t) : voodoo_rush_t :=
  {|
    puma_fb := puma_fb r; puma_fb_size := puma_fb_size r;
    puma_fb_mask := puma_fb_mask r; regs := regs r; puma_tex := puma_tex r;
    puma_tex_size := puma_tex_size r; puma_tex_mask := puma_tex_mask r;
    cmdfifo_base_page := cmdfifo_base_page r;
    cmdfifo_top_page := cmdfifo_top_page r;
    cmdfifo_bottom_page := cmdfifo_bottom_page r;
    cmdfifo_entry_count := cmdfifo_entry_count r;
    cmdfifo_read_ptr := cmdfifo_read_ptr r;
    cmdfifo_threshold := cmdfifo_threshold r;
    cmdfifo_enabled := cmdfifo_enabled r; fbijr_init := fbijr_init r;
    fbijr_version := fbijr_version r; status := status r;
    triangle := triangle r; ftriangle := ftriangle r;
    fbz_color_path := fbz_color_path r; fog_mode := fog_mode r;
    alpha_mode := alpha_mode r; fbz_mode := fbz_mode r; stipple := stipple r;
    color0 := v; color1 := color1 r; fog_color := fog_color r;
    za_color := za_color r; chroma_key := chroma_key r;
    chroma_range := chroma_range r; col_buffer_setup := col_buffer_setup r;
    aux_buffer_setup := aux_buffer_setup r;
    clip_left_right := clip_left_right r;
    clip_top_bottom := clip_top_bottom r; fog_table := fog_table r;
    tex_chip_sel := tex_chip_sel r; texture_mode := texture_mode r;
    tlod := tlod r; tdetail := tdetail r; tex_base_addr := tex_base_addr r;
    trex_init := trex_init r; pixels_in := pixels_in r;
    chroma_fail := chroma_fail r; zfunc_fail := zfunc_fail r;
    afunc_fail := afunc_fail r; pixels_out := pixels_out r;
    puma_mode_8mb := puma_mode_8mb r; puma_req := puma_req r;
    puma_gnt := puma_gnt r; swap_req := swap_req r;
    swap_pending := swap_pending r; voodoo := voodoo r;
    window_x := window_x r; window_y := window_y r;
    window_width := window_width r; window_height := window_height r;
    enabled := enabled r
  |}.

Definition set_color1 (v : Z) (r : voodoo_rush_t) : voodoo_rush_t :=
  {|
    puma_fb := puma_fb r; puma_fb_size := puma_fb_size r;
    puma_fb_mask := puma_fb_mask r; regs := regs r; puma_tex := puma_tex r;
    puma_tex_size := puma_tex_size r; puma_tex_mask := puma_tex_mask r;
    cmdfifo_base_page := cmdfifo_base_page r;
    cmdfifo_top_page := cmdfifo_top_page r;
    cmdfifo_bottom_page := cmdfifo_bottom_page r;
    cmdfifo_entry_count := cmdfifo_entry_count r;
    cmdfifo_read_ptr := cmdfifo_read_ptr r;
    cmdfifo_threshold := cmdfifo_threshold r;
    cmdfifo_enabled := cmdfifo_enabled r; fbijr_init := fbijr_init r;
    fbijr_version := fbijr_version r; status := status r;
    triangle := triangle r; ftriangle := ftriangle r;
    fbz_color_path := fbz_color_path r; fog_mode := fog_mode r;
    alpha_mode := alpha_mode r; fbz_mode := fbz_mode r; stipple := stipple r;
    color0 := color0 r; color1 := v; fog_color := fog_color r;
    za_color := za_color r; chroma_key := chroma_key r;
    chroma_range := chroma_range r; col_buffer_setup := col_buffer_setup r;
    aux_buffer_setup := aux_buffer_setup r;
    clip_left_right := clip_left_right r;
    clip_top_bottom := clip_top_bottom r; fog_table := fog_table r;
    tex_chip_sel := tex_chip_sel r; texture_mode := texture_mode r;
    tlod := tlod r; tdetail := tdetail r; tex_base_addr := tex_base_addr r;
    trex_init := trex_init r; pixels_in := pixels_in r;
    chroma_fail := chroma_fail r; zfunc_fail := zfunc_fail r;
    afunc_fail := afunc_fail r; pixels_out := pixels_out r;
    puma_mode_8mb := puma_mode_8mb r; puma_req := puma_req r;
    puma_gnt := puma_gnt r; swap_req := swap_req r;
    swap_pending := swap_pending r; voodoo := voodoo r;
    window_x := window_x r; window_y := window_y r;
    window_width := window_width r; window_height := window_height r;
    enabled := enabled r
  |}.

Definition set_fog_color (v : Z) (r : voodoo_rush_t) : voodoo_rush_t :=
  {|
    puma_fb := puma_fb r; puma_fb_size := puma_fb_size r;
    puma_fb_mask := puma_fb_mask r; regs := regs r; puma_tex := puma_tex r;
    puma_tex_size := puma_tex_size r; puma_tex_mask := puma_tex_mask r;
    cmdfifo_base_page := cmdfifo_base_page r;
    cmdfifo_top_page := cmdfifo_top_page r;
    cmdfifo_bottom_page := cmdfifo_bottom_page r;
    cmdfifo_entry_count := cmdfifo_entry_count r;
    cmdfifo_read_ptr := cmdfifo_read_ptr r;
    cmdfifo_threshold := cmdfifo_threshold r;
    cmdfifo_enabled := cmdfifo_enabled r; fbijr_init := fbijr_init r;
    fbijr_version := fbijr_version r; status := status r;
    triangle := triangle r; ftriangle := ftriangle r;
    fbz_color_path := fbz_color_path r; fog_mode := fog_mode r;
    alpha_mode := alpha_mode r; fbz_mode := fbz_mode r; stipple := stipple r;
    color0 := color0 r; color1 := color1 r; fog_color := v;
    za_color := za_color r; chroma_key := chroma_key r;
    chroma_range := chroma_range r; col_buffer_setup := col_buffer_setup r;
    aux_buffer_setup := aux_buffer_setup r;
    clip_left_right := clip_left_right r;
    clip_top_bottom := clip_top_bottom r; fog_table := fog_table r;
    tex_chip_sel := tex_chip_sel r; texture_mode := texture_mode r;
    tlod := tlod r; tdetail := tdetail r; tex_base_addr := tex_base_addr r;
    trex_init := trex_init r; pixels_in := pixels_in r;
    chroma_fail := chroma_fail r; zfunc_fail := zfunc_fail r;
    afunc_fail := afunc_fail r; pixels_out := pixels_out r;
    puma_mode_8mb := puma_mode_8mb r; puma_req := puma_req r;
    puma_gnt := puma_gnt r; swap_req := swap_req r;
    swap_pending := swap_pending r; voodoo := voodoo r;
    window_x := window_x r; window_y := window_y r;
    window_width := window_width r; window_height := window_height r;
    enabled := enabled r
  |}.

Definition set_za_color (v : Z) (r : voodoo_rush_t) : voodoo_rush_t :=
  {|
    puma_fb := puma_fb r; puma_fb_size := puma_fb_size r;
    puma_fb_mask := puma_fb_mask r; regs := regs r; puma_tex := puma_tex r;
    puma_tex_size := puma_tex_size r; puma_tex_mask := puma_tex_mask r;
    cmdfifo_base_page := cmdfifo_base_page r;
    cmdfifo_top_page := cmdfifo_top_page r;
    cmdfifo_bottom_page := cmdfifo_bottom_page r;
    cmdfifo_entry_count := cmdfifo_entry_count r;
    cmdfifo_read_ptr := cmdfifo_read_ptr r;
    cmdfifo_threshold := cmdfifo_threshold r;
    cmdfifo_enabled := cmdfifo_enabled r; fbijr_init := fbijr_init r;
    fbijr_version := fbijr_version r; status := status r;
    triangle := triangle r; ftriangle := ftriangle r;
    fbz_color_path := fbz_color_path r; fog_mode := fog_mode r;
    alpha_mode := alpha_mode r; fbz_mode := fbz_mode r; stipple := stipple r;
    color0 := color0 r; color1 := color1 r; fog_color := fog_color r;
    za_color := v; chroma_key := chroma_key r;
    chroma_range := chroma_range r; col_buffer_setup := col_buffer_setup r;
    aux_buffer_setup := aux_buffer_setup r;
    clip_left_right := clip_left_right r;
    clip_top_bottom := clip_top_bottom r; fog_table := fog_table r;
    tex_chip_sel := tex_chip_sel r; texture_mode := texture_mode r;
    tlod := tlod r; tdetail := tdetail r; tex_base_addr := tex_base_addr r;
    trex_init := trex_init r; pixels_in := pixels_in r;
    chroma_fail := chroma_fail r; zfunc_fail := zfunc_fail r;
    afunc_fail := afunc_fail r; pixels_out := pixels_out r;
    puma_mode_8mb := puma_mode_8mb r; puma_req := puma_req r;
    puma_gnt := puma_gnt r; swap_req := swap_req r;
    swap_pending := swap_pending r; voodoo := voodoo r;
    window_x := window_x r; window_y := window_y r;
    window_width := window_width r; window_height := window_height r;
    enabled := enabled r
  |}.

Definition set_chroma_key (v : Z) (r : voodoo_rush_t) : voodoo_rush_t :=
  {|
    puma_fb := puma_fb r; puma_fb_size := puma_fb_size r;
    puma_fb_mask := puma_fb_mask r; regs := regs r; puma_tex := puma_tex r;
    puma_tex_size := puma_tex_size r; puma_tex_mask := puma_tex_mask r;
    cmdfifo_base_page := cmdfifo_base_page r;
    cmdfifo_top_page := cmdfifo_top_page r;
    cmdfifo_bottom_page := cmdfifo_bottom_page r;
    cmdfifo_entry_count := cmdfifo_entry_count r;
    cmdfifo_read_ptr := cmdfifo_read_ptr r;
    cmdfifo_threshold := cmdfifo_threshold r;
    cmdfifo_enabled := cmdfifo_enabled r; fbijr_init := fbijr_init r;
    fbijr_version := fbijr_version r; status := status r;
    triangle := triangle r; ftriangle := ftriangle r;
    fbz_color_path := fbz_color_path r; fog_mode := fog_mode r;
    alpha_mode := alpha_mode r; fbz_mode := fbz_mode r; stipple := stipple r;
    color0 := color0 r; color1 := color1 r; fog_color := fog_color r;
    za_color := za_color r; chroma_key := v; chroma_range := chroma_range r;
    col_buffer_setup := col_buffer_setup r;
    aux_buffer_setup := aux_buffer_setup r;
    clip_left_right := clip_left_right r;
    clip_top_bottom := clip_top_bottom r; fog_table := fog_table r;
    tex_chip_sel := tex_chip_sel r; texture_mode := texture_mode r;
    tlod := tlod r; tdetail := tdetail r; tex_base_addr := tex_base_addr r;
    trex_init := trex_init r; pixels_in := pixels_in r;
    chroma_fail := chroma_fail r; zfunc_fail := zfunc_fail r;
    afunc_fail := afunc_fail r; pixels_out := pixels_out r;
    puma_mode_8mb := puma_mode_8mb r; puma_req := puma_req r;
    puma_gnt := puma_gnt r; swap_req := swap_req r;
    swap_pending := swap_pending r; voodoo := voodoo r;
    window_x := window_x r; window_y := window_y r;
    window_width := window_width r; window_height := window_height r;
    enabled := enabled r
  |}.

Definition set_chroma_range (v : Z) (r : voodoo_rush_t) : voodoo_rush_t :=
  {|
    puma_fb := puma_fb r; puma_fb_size := puma_fb_size r;
    puma_fb_mask := puma_fb_mask r; regs := regs r; puma_tex := puma_tex r;
    puma_tex_size := puma_tex_size r; puma_tex_mask := puma_tex_mask r;
    cmdfifo_base_page := cmdfifo_base_page r;
    cmdfifo_top_page := cmdfifo_top_page r;
    cmdfifo_bottom_page := cmdfifo_bottom_page r;
    cmdfifo_entry_count := cmdfifo_entry_count r;
    cmdfifo_read_ptr := cmdfifo_read_ptr r;
    cmdfifo_threshold := cmdfifo_threshold r;
    cmdfifo_enabled := cmdfifo_enabled r; fbijr_init := fbijr_init r;
    fbijr_version := fbijr_version r; status := status r;
    triangle := triangle r; ftriangle := ftriangle r;
    fbz_color_path := fbz_color_path r; fog_mode := fog_mode r;
    alpha_mode := alpha_mode r; fbz_mode := fbz_mode r; stipple := stipple r;
    color0 := color0 r; color1 := color1 r; fog_color := fog_color r;
    za_color := za_color r; chroma_key := chroma_key r; chroma_range := v;
    col_buffer_setup := col_buffer_setup r;
    aux_buffer_setup := aux_buffer_setup r;
    clip_left_right := clip_left_right r;
    clip_top_bottom := clip_top_bottom r; fog_table := fog_table r;
    tex_chip_sel := tex_chip_sel r; texture_mode := texture_mode r;
    tlod := tlod r; tdetail := tdetail r; tex_base_addr := tex_base_addr r;
    trex_init := trex_init r; pixels_in := pixels_in r;
    chroma_fail := chroma_fail r; zfunc_fail := zfunc_fail r;
    afunc_fail := afunc_fail r; pixels_out := pixels_out r;
    puma_mode_8mb := puma_mode_8mb r; puma_req := puma_req r;
    puma_gnt := puma_gnt r; swap_req := swap_req r;
    swap_pending := swap_pending r; voodoo := voodoo r;
    window_x := window_x r; window_y := window_y r;
    window_width := window_width r; window_height := window_height r;
    enabled := enabled r
  |}.

Definition set_col_buffer_setup (v : Z) (r : voodoo_rush_t) : voodoo_rush_t :=
  {|
    puma_fb := puma_fb r; puma_fb_size := puma_fb_size r;
    puma_fb_mask := puma_fb_mask r; regs := regs r; puma_tex := puma_tex r;
    puma_tex_size := puma_tex_size r; puma_tex_mask := puma_tex_mask r;
    cmdfifo_base_page := cmdfifo_base_page r;
    cmdfifo_top_page := cmdfifo_top_page r;
    cmdfifo_bottom_page := cmdfifo_bottom_page r;
    cmdfifo_entry_count := cmdfifo_entry_count r;
    cmdfifo_read_ptr := cmdfifo_read_ptr r;
    cmdfifo_threshold := cmdfifo_threshold r;
    cmdfifo_enabled := cmdfifo_enabled r; fbijr_init := fbijr_init r;
    fbijr_version := fbijr_version r; status := status r;
    triangle := triangle r; ftriangle := ftriangle r;
    fbz_color_path := fbz_color_path r; fog_mode := fog_mode r;
    alpha_mode := alpha_mode r; fbz_mode := fbz_mode r; stipple := stipple r;
    color0 := color0 r; color1 := color1 r; fog_color := fog_color r;
    za_color := za_color r; chroma_key := chroma_key r;
    chroma_range := chroma_range r; col_buffer_setup := v;
    aux_buffer_setup := aux_buffer_setup r;
    clip_left_right := clip_left_right r;
    clip_top_bottom := clip_top_bottom r; fog_table := fog_table r;
    tex_chip_sel := tex_chip_sel r; texture_mode := texture_mode r;
    tlod := tlod r; tdetail := tdetail r; tex_base_addr := tex_base_addr r;
    trex_init := trex_init r; pixels_in := pixels_in r;
    chroma_fail := chroma_fail r; zfunc_fail := zfunc_fail r;
    afunc_fail := afunc_fail r; pixels_out := pixels_out r;
    puma_mode_8mb := puma_mode_8mb r; puma_req := puma_req r;
    puma_gnt := puma_gnt r; swap_req := swap_req r;
    swap_pending := swap_pending r; voodoo := voodoo r;
    window_x := window_x r; window_y := window_y r;
    window_width := window_width r; window_height := window_height r;
    enabled := enabled r
  |}.

Definition set_aux_buffer_setup (v : Z) (r : voodoo_rush_t) : voodoo_rush_t :=
  {|
    puma_fb := puma_fb r; puma_fb_size := puma_fb_size r;
    puma_fb_mask := puma_fb_mask r; regs := regs r; puma_tex := puma_tex r;
    puma_tex_size := puma_tex_size r; puma_tex_mask := puma_tex_mask r;
    cmdfifo_base_page := cmdfifo_base_page r;
    cmdfifo_top_page := cmdfifo_top_page r;
    cmdfifo_bottom_page := cmdfifo_bottom_page r;
    cmdfifo_entry_count := cmdfifo_entry_count r;
    cmdfifo_read_ptr := cmdfifo_read_ptr r;
    cmdfifo_threshold := cmdfifo_threshold r;
    cmdfifo_enabled := cmdfifo_enabled r; fbijr_init := fbijr_init r;
    fbijr_version := fbijr_version r; status := status r;
    triangle := triangle r; ftriangle := ftriangle r;
    fbz_color_path := fbz_color_path r; fog_mode := fog_mode r;
    alpha_mode := alpha_mode r; fbz_mode := fbz_mode r; stipple := stipple r;
    color0 := color0 r; color1 := color1 r; fog_color := fog_color r;
    za_color := za_color r; chroma_key := chroma_key r;
    chroma_range := chroma_range r; col_buffer_setup := col_buffer_setup r;
    aux_buffer_setup := v; clip_left_right := clip_left_right r;
    clip_top_bottom := clip_top_bottom r; fog_table := fog_table r;
    tex_chip_sel := tex_chip_sel r; texture_mode := texture_mode r;
    tlod := tlod r; tdetail := tdetail r; tex_base_addr := tex_base_addr r;
    trex_init := trex_init r; pixels_in := pixels_in r;
    chroma_fail := chroma_fail r; zfunc_fail := zfunc_fail r;
    afunc_fail := afunc_fail r; pixels_out := pixels_out r;
    puma_mode_8mb := puma_mode_8mb r; puma_req := puma_req r;
    puma_gnt := puma_gnt r; swap_req := swap_req r;
    swap_pending := swap_pending r; voodoo := voodoo r;
    window_x := window_x r; window_y := window_y r;
    window_width := window_width r; window_height := window_height r;
    enabled := enabled r
  |}.

Definition set_clip_left_right (v : list Z) (r : voodoo_rush_t) : voodoo_rush_t :=
  {|
    puma_fb := puma_fb r; puma_fb_size := puma_fb_size r;
    puma_fb_mask := puma_fb_mask r; regs := regs r; puma_tex := puma_tex r;
    puma_tex_size := puma_tex_size r; puma_tex_mask := puma_tex_mask r;
    cmdfifo_base_page := cmdfifo_base_page r;
    cmdfifo_top_page := cmdfifo_top_page r;
    cmdfifo_bottom_page := cmdfifo_bottom_page r;
    cmdfifo_entry_count := cmdfifo_entry_count r;
    cmdfifo_read_ptr := cmdfifo_read_ptr r;
    cmdfifo_threshold := cmdfifo_threshold r;
    cmdfifo_enabled := cmdfifo_enabled r; fbijr_init := fbijr_init r;
    fbijr_version := fbijr_version r; status := status r;
    triangle := triangle r; ftriangle := ftriangle r;
    fbz_color_path := fbz_color_path r; fog_mode := fog_mode r;
    alpha_mode := alpha_mode r; fbz_mode := fbz_mode r; stipple := stipple r;
    color0 := color0 r; color1 := color1 r; fog_color := fog_color r;
    za_color := za_color r; chroma_key := chroma_key r;
    chroma_range := chroma_range r; col_buffer_setup := col_buffer_setup r;
    aux_buffer_setup := aux_buffer_setup r; clip_left_right := v;
    clip_top_bottom := clip_top_bottom r; fog_table := fog_table r;
    tex_chip_sel := tex_chip_sel r; texture_mode := texture_mode r;
    tlod := tlod r; tdetail := tdetail r; tex_base_addr := tex_base_addr r;
    trex_init := trex_init r; pixels_in := pixels_in r;
    chroma_fail := chroma_fail r; zfunc_fail := zfunc_fail r;
    afunc_fail := afunc_fail r; pixels_out := pixels_out r;
    puma_mode_8mb := puma_mode_8mb r; puma_req := puma_req r;
    puma_gnt := puma_gnt r; swap_req := swap_req r;
    swap_pending := swap_pending r; voodoo := voodoo r;
    window_x := window_x r; window_y := window_y r;
    window_width := window_width r; window_height := window_height r;
    enabled := enabled r
  |}.

Definition set_clip_top_bottom (v : list Z) (r : voodoo_rush_t) : voodoo_rush_t :=
  {|
    puma_fb := puma_fb r; puma_fb_size := puma_fb_size r;
    puma_fb_mask := puma_fb_mask r; regs := regs r; puma_tex := puma_tex r;
    puma_tex_size := puma_tex_size r; puma_tex_mask := puma_tex_mask r;
    cmdfifo_base_page := cmdfifo_base_page r;
    cmdfifo_top_page := cmdfifo_top_page r;
    cmdfifo_bottom_page := cmdfifo_bottom_page r;
    cmdfifo_entry_count := cmdfifo_entry_count r;
    cmdfifo_read_ptr := cmdfifo_read_ptr r;
    cmdfifo_threshold := cmdfifo_threshold r;
    cmdfifo_enabled := cmdfifo_enabled r; fbijr_init := fbijr_init r;
    fbijr_version := fbijr_version r; status := status r;
    triangle := triangle r; ftriangle := ftriangle r;
    fbz_color_path := fbz_color_path r; fog_mode := fog_mode r;
    alpha_mode := alpha_mode r; fbz_mode := fbz_mode r; stipple := stipple r;
    color0 := color0 r; color1 := color1 r; fog_color := fog_color r;
    za_color := za_color r; chroma_key := chroma_key r;
    chroma_range := chroma_range r; col_buffer_setup := col_buffer_setup r;
    aux_buffer_setup := aux_buffer_setup r;
    clip_left_right := clip_left_right r; clip_top_bottom := v;
    fog_table := fog_table r; tex_chip_sel := tex_chip_sel r;
    texture_mode := texture_mode r; tlod := tlod r; tdetail := tdetail r;
    tex_base_addr := tex_base_addr r; trex_init := trex_init r;
    pixels_in := pixels_in r; chroma_fail := chroma_fail r;
    zfunc_fail := zfunc_fail r; afunc_fail := afunc_fail r;
    pixels_out := pixels_out r; puma_mode_8mb := puma_mode_8mb r;
    puma_req := puma_req r; puma_gnt := puma_gnt r; swap_req := swap_req r;
    swap_pending := swap_pending r; voodoo := voodoo r;
    window_x := window_x r; window_y := window_y r;
    window_width := window_width r; window_height := window_height r;
    enabled := enabled r
  |}.

Definition set_texture_mode (v : Z) (r : voodoo_rush_t) : voodoo_rush_t :=
  {|
    puma_fb := puma_fb r; puma_fb_size := puma_fb_size r;
    puma_fb_mask := puma_fb_mask r; regs := regs r; puma_tex := puma_tex r;
    puma_tex_size := puma_tex_size r; puma_tex_mask := puma_tex_mask r;
    cmdfifo_base_page := cmdfifo_base_page r;
    cmdfifo_top_page := cmdfifo_top_page r;
    cmdfifo_bottom_page := cmdfifo_bottom_page r;
    cmdfifo_entry_count := cmdfifo_entry_count r;
    cmdfifo_read_ptr := cmdfifo_read_ptr r;
    cmdfifo_threshold := cmdfifo_threshold r;
    cmdfifo_enabled := cmdfifo_enabled r; fbijr_init := fbijr_init r;
    fbijr_version := fbijr_version r; status := status r;
    triangle := triangle r; ftriangle := ftriangle r;
    fbz_color_path := fbz_color_path r; fog_mode := fog_mode r;
    alpha_mode := alpha_mode r; fbz_mode := fbz_mode r; stipple := stipple r;
    color0 := color0 r; color1 := color1 r; fog_color := fog_color r;
    za_color := za_color r; chroma_key := chroma_key r;
    chroma_range := chroma_range r; col_buffer_setup := col_buffer_setup r;
    aux_buffer_setup := aux_buffer_setup r;
    clip_left_right := clip_left_right r;
    clip_top_bottom := clip_top_bottom r; fog_table := fog_table r;
    tex_chip_sel := tex_chip_sel r; texture_mode := v; tlod := tlod r;
    tdetail := tdetail r; tex_base_addr := tex_base_addr r;
    trex_init := trex_init r; pixels_in := pixels_in r;
    chroma_fail := chroma_fail r; zfunc_fail := zfunc_fail r;
    afunc_fail := afunc_fail r; pixels_out := pixels_out r;
    puma_mode_8mb := puma_mode_8mb r; puma_req := puma_req r;
    puma_gnt := puma_gnt r; swap_req := swap_req r;
    swap_pending := swap_pending r; voodoo := voodoo r;
    window_x := window_x r; window_y := window_y r;
    window_width := window_width r; window_height := window_height r;
    enabled := enabled r
  |}.

Definition set_tlod (v : Z) (r : voodoo_rush_t) : voodoo_rush_t :=
  {|
    puma_fb := puma_fb r; puma_fb_size := puma_fb_size r;
    puma_fb_mask := puma_fb_mask r; regs := regs r; puma_tex := puma_tex r;
    puma_tex_size := puma_tex_size r; puma_tex_mask := puma_tex_mask r;
    cmdfifo_base_page := cmdfifo_base_page r;
    cmdfifo_top_page := cmdfifo_top_page r;
    cmdfifo_bottom_page := cmdfifo_bottom_page r;
    cmdfifo_entry_count := cmdfifo_entry_count r;
    cmdfifo_read_ptr := cmdfifo_read_ptr r;
    cmdfifo_threshold := cmdfifo_threshold r;
    cmdfifo_enabled := cmdfifo_enabled r; fbijr_init := fbijr_init r;
    fbijr_version := fbijr_version r; status := status r;
    triangle := triangle r; ftriangle := ftriangle r;
    fbz_color_path := fbz_color_path r; fog_mode := fog_mode r;
    alpha_mode := alpha_mode r; fbz_mode := fbz_mode r; stipple := stipple r;
    color0 := color0 r; color1 := color1 r; fog_color := fog_color r;
    za_color := za_color r; chroma_key := chroma_key r;
    chroma_range := chroma_range r; col_buffer_setup := col_buffer_setup r;
    aux_buffer_setup := aux_buffer_setup r;
    clip_left_right := clip_left_right r;
    clip_top_bottom := clip_top_bottom r; fog_table := fog_table r;
    tex_chip_sel := tex_chip_sel r; texture_mode := texture_mode r;
    tlod := v; tdetail := tdetail r; tex_base_addr := tex_base_addr r;
    trex_init := trex_init r; pixels_in := pixels_in r;
    chroma_fail := chroma_fail r; zfunc_fail := zfunc_fail r;
    afunc_fail := afunc_fail r; pixels_out := pixels_out r;
    puma_mode_8mb := puma_mode_8mb r; puma_req := puma_req r;
    puma_gnt := puma_gnt r; swap_req := swap_req r;
    swap_pending := swap_pending r; voodoo := voodoo r;
    window_x := window_x r; window_y := window_y r;
    window_width := window_width r; window_height := window_height r;
    enabled := enabled r
  |}.

Definition set_tdetail (v : Z) (r : voodoo_rush_t) : voodoo_rush_t :=
  {|
    puma_fb := puma_fb r; puma_fb_size := puma_fb_size r;
    puma_fb_mask := puma_fb_mask r; regs := regs r; puma_tex := puma_tex r;
    puma_tex_size := puma_tex_size r; puma_tex_mask := puma_tex_mask r;
    cmdfifo_base_page := cmdfifo_base_page r;
    cmdfifo_top_page := cmdfifo_top_page r;
    cmdfifo_bottom_page := cmdfifo_bottom_page r;
    cmdfifo_entry_count := cmdfifo_entry_count r;
    cmdfifo_read_ptr := cmdfifo_read_ptr r;
    cmdfifo_threshold := cmdfifo_threshold r;
    cmdfifo_enabled := cmdfifo_enabled r; fbijr_init := fbijr_init r;
    fbijr_version := fbijr_version r; status := status r;
    triangle := triangle r; ftriangle := ftriangle r;
    fbz_color_path := fbz_color_path r; fog_mode := fog_mode r;
    alpha_mode := alpha_mode r; fbz_mode := fbz_mode r; stipple := stipple r;
    color0 := color0 r; color1 := color1 r; fog_color := fog_color r;
    za_color := za_color r; chroma_key := chroma_key r;
    chroma_range := chroma_range r; col_buffer_setup := col_buffer_setup r;
    aux_buffer_setup := aux_buffer_setup r;
    clip_left_right := clip_left_right r;
    clip_top_bottom := clip_top_bottom r; fog_table := fog_table r;
    tex_chip_sel := tex_chip_sel r; texture_mode := texture_mode r;
    tlod := tlod r; tdetail := v; tex_base_addr := tex_base_addr r;
    trex_init := trex_init r; pixels_in := pixels_in r;
    chroma_fail := chroma_fail r; zfunc_fail := zfunc_fail r;
    afunc_fail := afunc_fail r; pixels_out := pixels_out r;
    puma_mode_8mb := puma_mode_8mb r; puma_req := puma_req r;
    puma_gnt := puma_gnt r; swap_req := swap_req r;
    swap_pending := swap_pending r; voodoo := voodoo r;
    window_x := window_x r; window_y := window_y r;
    window_width := window_width r; window_height := window_height r;
    enabled := enabled r
  |}.

Definition set_tex_base_addr (v : list Z) (r : voodoo_rush_t) : voodoo_rush_t :=
  {|
    puma_fb := puma_fb r; puma_fb_size := puma_fb_size r;
    puma_fb_mask := puma_fb_mask r; regs := regs r; puma_tex := puma_tex r;
    puma_tex_size := puma_tex_size r; puma_tex_mask := puma_tex_mask r;
    cmdfifo_base_page := cmdfifo_base_page r;
    cmdfifo_top_page := cmdfifo_top_page r;
    cmdfifo_bottom_page := cmdfifo_bottom_page r;
    cmdfifo_entry_count := cmdfifo_entry_count r;
    cmdfifo_read_ptr := cmdfifo_read_ptr r;
    cmdfifo_threshold := cmdfifo_threshold r;
    cmdfifo_enabled := cmdfifo_enabled r; fbijr_init := fbijr_init r;
    fbijr_version := fbijr_version r; status := status r;
    triangle := triangle r; ftriangle := ftriangle r;
    fbz_color_path := fbz_color_path r; fog_mode := fog_mode r;
    alpha_mode := alpha_mode r; fbz_mode := fbz_mode r; stipple := stipple r;
    color0 := color0 r; color1 := color1 r; fog_color := fog_color r;
    za_color := za_color r; chroma_key := chroma_key r;
    chroma_range := chroma_range r; col_buffer_setup := col_buffer_setup r;
    aux_buffer_setup := aux_buffer_setup r;
    clip_left_right := clip_left_right r;
    clip_top_bottom := clip_top_bottom r; fog_table := fog_table r;
    tex_chip_sel := tex_chip_sel r; texture_mode := texture_mode r;
    tlod := tlod r; tdetail := tdetail r; tex_base_addr := v;
    trex_init := trex_init r; pixels_in := pixels_in r;
    chroma_fail := chroma_fail r; zfunc_fail := zfunc_fail r;
    afunc_fail := afunc_fail r; pixels_out := pixels_out r;
    puma_mode_8mb := puma_mode_8mb r; puma_req := puma_req r;
    puma_gnt := puma_gnt r; swap_req := swap_req r;
    swap_pending := swap_pending r; voodoo := voodoo r;
    window_x := window_x r; window_y := window_y r;
    window_width := window_width r; window_height := window_height r;
    enabled := enabled r
  |}.

Definition set_pixels_in (v : Z) (r : voodoo_rush_t) : voodoo_rush_t :=
  {|
    puma_fb := puma_fb r; puma_fb_size := puma_fb_size r;
    puma_fb_mask := puma_fb_mask r; regs := regs r; puma_tex := puma_tex r;
    puma_tex_size := puma_tex_size r; puma_tex_mask := puma_tex_mask r;
    cmdfifo_base_page := cmdfifo_base_page r;
    cmdfifo_top_page := cmdfifo_top_page r;
    cmdfifo_bottom_page := cmdfifo_bottom_page r;
    cmdfifo_entry_count := cmdfifo_entry_count r;
    cmdfifo_read_ptr := cmdfifo_read_ptr r;
    cmdfifo_threshold := cmdfifo_threshold r;
    cmdfifo_enabled := cmdfifo_enabled r; fbijr_init := fbijr_init r;
    fbijr_version := fbijr_version r; status := status r;
    triangle := triangle r; ftriangle := ftriangle r;
    fbz_color_path := fbz_color_path r; fog_mode := fog_mode r;
    alpha_mode := alpha_mode r; fbz_mode := fbz_mode r; stipple := stipple r;
    color0 := color0 r; color1 := color1 r; fog_color := fog_color r;
    za_color := za_color r; chroma_key := chroma_key r;
    chroma_range := chroma_range r; col_buffer_setup := col_buffer_setup r;
    aux_buffer_setup := aux_buffer_setup r;
    clip_left_right := clip_left_right r;
    clip_top_bottom := clip_top_bottom r; fog_table := fog_table r;
    tex_chip_sel := tex_chip_sel r; texture_mode := texture_mode r;
    tlod := tlod r; tdetail := tdetail r; tex_base_addr := tex_base_addr r;
    trex_init := trex_init r; pixels_in := v; chroma_fail := chroma_fail r;
    zfunc_fail := zfunc_fail r; afunc_fail := afunc_fail r;
    pixels_out := pixels_out r; puma_mode_8mb := puma_mode_8mb r;
    puma_req := puma_req r; puma_gnt := puma_gnt r; swap_req := swap_req r;
    swap_pending := swap_pending r; voodoo := voodoo r;
    window_x := window_x r; window_y := window_y r;
    window_width := window_width r; window_height := window_height r;
    enabled := enabled r
  |}.

Definition set_puma_req (v : bool) (r : voodoo_rush_t) : voodoo_rush_t :=
  {|
    puma_fb := puma_fb r; puma_fb_size := puma_fb_size r;
    puma_fb_mask := puma_fb_mask r; regs := regs r; puma_tex := puma_tex r;
    puma_tex_size := puma_tex_size r; puma_tex_mask := puma_tex_mask r;
    cmdfifo_base_page := cmdfifo_base_page r;
    cmdfifo_top_page := cmdfifo_top_page r;
    cmdfifo_bottom_page := cmdfifo_bottom_page r;
    cmdfifo_entry_count := cmdfifo_entry_count r;
    cmdfifo_read_ptr := cmdfifo_read_ptr r;
    cmdfifo_threshold := cmdfifo_threshold r;
    cmdfifo_enabled := cmdfifo_enabled r; fbijr_init := fbijr_init r;
    fbijr_version := fbijr_version r; status := status r;
    triangle := triangle r; ftriangle := ftriangle r;
    fbz_color_path := fbz_color_path r; fog_mode := fog_mode r;
    alpha_mode := alpha_mode r; fbz_mode := fbz_mode r; stipple := stipple r;
    color0 := color0 r; color1 := color1 r; fog_color := fog_color r;
    za_color := za_color r; chroma_key := chroma_key r;
    chroma_range := chroma_range r; col_buffer_setup := col_buffer_setup r;
    aux_buffer_setup := aux_buffer_setup r;
    clip_left_right := clip_left_right r;
    clip_top_bottom := clip_top_bottom r; fog_table := fog_table r;
    tex_chip_sel := tex_chip_sel r; texture_mode := texture_mode r;
    tlod := tlod r; tdetail := tdetail r; tex_base_addr := tex_base_addr r;
    trex_init := trex_init r; pixels_in := pixels_in r;
    chroma_fail := chroma_fail r; zfunc_fail := zfunc_fail r;
    afunc_fail := afunc_fail r; pixels_out := pixels_out r;
    puma_mode_8mb := puma_mode_8mb r; puma_req := v; puma_gnt := puma_gnt r;
    swap_req := swap_req r; swap_pending := swap_pending r;
    voodoo := voodoo r; window_x := window_x r; window_y := window_y r;
    window_width := window_width r; window_height := window_height r;
    enabled := enabled r
  |}.

Definition set_puma_gnt (v : bool) (r : voodoo_rush_t) : voodoo_rush_t :=
  {|
    puma_fb := puma_fb r; puma_fb_size := puma_fb_size r;
    puma_fb_mask := puma_fb_mask r; regs := regs r; puma_tex := puma_tex r;
    puma_tex_size := puma_tex_size r; puma_tex_mask := puma_tex_mask r;
    cmdfifo_base_page := cmdfifo_base_page r;
    cmdfifo_top_page := cmdfifo_top_page r;
    cmdfifo_bottom_page := cmdfifo_bottom_page r;
    cmdfifo_entry_count := cmdfifo_entry_count r;
    cmdfifo_read_ptr := cmdfifo_read_ptr r;
    cmdfifo_threshold := cmdfifo_threshold r;
    cmdfifo_enabled := cmdfifo_enabled r; fbijr_init := fbijr_init r;
    fbijr_version := fbijr_version r; status := status r;
    triangle := triangle r; ftriangle := ftriangle r;
    fbz_color_path := fbz_color_path r; fog_mode := fog_mode r;
    alpha_mode := alpha_mode r; fbz_mode := fbz_mode r; stipple := stipple r;
    color0 := color0 r; color1 := color1 r; fog_color := fog_color r;
    za_color := za_color r; chroma_key := chroma_key r;
    chroma_range := chroma_range r; col_buffer_setup := col_buffer_setup r;
    aux_buffer_setup := aux_buffer_setup r;
    clip_left_right := clip_left_right r;
    clip_top_bottom := clip_top_bottom r; fog_table := fog_table r;
    tex_chip_sel := tex_chip_sel r; texture_mode := texture_mode r;
    tlod := tlod r; tdetail := tdetail r; tex_base_addr := tex_base_addr r;
    trex_init := trex_init r; pixels_in := pixels_in r;
    chroma_fail := chroma_fail r; zfunc_fail := zfunc_fail r;
    afunc_fail := afunc_fail r; pixels_out := pixels_out r;
    puma_mode_8mb := puma_mode_8mb r; puma_req := puma_req r; puma_gnt := v;
    swap_req := swap_req r; swap_pending := swap_pending r;
    voodoo := voodoo r; window_x := window_x r; window_y := window_y r;
    window_width := window_width r; window_height := window_height r;
    enabled := enabled r
  |}.

Definition set_swap_req (v : bool) (r : voodoo_rush_t) : voodoo_rush_t :=
  {|
    puma_fb := puma_fb r; puma_fb_size := puma_fb_size r;
    puma_fb_mask := puma_fb_mask r; regs := regs r; puma_tex := puma_tex r;
    puma_tex_size := puma_tex_size r; puma_tex_mask := puma_tex_mask r;
    cmdfifo_base_page := cmdfifo_base_page r;
    cmdfifo_top_page := cmdfifo_top_page r;
    cmdfifo_bottom_page := cmdfifo_bottom_page r;
    cmdfifo_entry_count := cmdfifo_entry_count r;
    cmdfifo_read_ptr := cmdfifo_read_ptr r;
    cmdfifo_threshold := cmdfifo_threshold r;
    cmdfifo_enabled := cmdfifo_enabled r; fbijr_init := fbijr_init r;
    fbijr_version := fbijr_version r; status := status r;
    triangle := triangle r; ftriangle := ftriangle r;
    fbz_color_path := fbz_color_path r; fog_mode := fog_mode r;
    alpha_mode := alpha_mode r; fbz_mode := fbz_mode r; stipple := stipple r;
    color0 := color0 r; color1 := color1 r; fog_color := fog_color r;
    za_color := za_color r; chroma_key := chroma_key r;
    chroma_range := chroma_range r; col_buffer_setup := col_buffer_setup r;
    aux_buffer_setup := aux_buffer_setup r;
    clip_left_right := clip_left_right r;
    clip_top_bottom := clip_top_bottom r; fog_table := fog_table r;
    tex_chip_sel := tex_chip_sel r; texture_mode := texture_mode r;
    tlod := tlod r; tdetail := tdetail r; tex_base_addr := tex_base_addr r;
    trex_init := trex_init r; pixels_in := pixels_in r;
    chroma_fail := chroma_fail r; zfunc_fail := zfunc_fail r;
    afunc_fail := afunc_fail r; pixels_out := pixels_out r;
    puma_mode_8mb := puma_mode_8mb r; puma_req := puma_req r;
    puma_gnt := puma_gnt r; swap_req := v; swap_pending := swap_pending r;
    voodoo := voodoo r; window_x := window_x r; window_y := window_y r;
    window_width := window_width r; window_height := window_height r;
    enabled := enabled r
  |}.

Definition set_swap_pending (v : Z) (r : voodoo_rush_t) : voodoo_rush_t :=
  {|
    puma_fb := puma_fb r; puma_fb_size := puma_fb_size r;
    puma_fb_mask := puma_fb_mask r; regs := regs r; puma_tex := puma_tex r;
    puma_tex_size := puma_tex_size r; puma_tex_mask := puma_tex_mask r;
    cmdfifo_base_page := cmdfifo_base_page r;
    cmdfifo_top_page := cmdfifo_top_page r;
    cmdfifo_bottom_page := cmdfifo_bottom_page r;
    cmdfifo_entry_count := cmdfifo_entry_count r;
    cmdfifo_read_ptr := cmdfifo_read_ptr r;
    cmdfifo_threshold := cmdfifo_threshold r;
    cmdfifo_enabled := cmdfifo_enabled r; fbijr_init := fbijr_init r;
    fbijr_version := fbijr_version r; status := status r;
    triangle := triangle r; ftriangle := ftriangle r;
    fbz_color_path := fbz_color_path r; fog_mode := fog_mode r;
    alpha_mode := alpha_mode r; fbz_mode := fbz_mode r; stipple := stipple r;
    color0 := color0 r; color1 := color1 r; fog_color := fog_color r;
    za_color := za_color r; chroma_key := chroma_key r;
    chroma_range := chroma_range r; col_buffer_setup := col_buffer_setup r;
    aux_buffer_setup := aux_buffer_setup r;
    clip_left_right := clip_left_right r;
    clip_top_bottom := clip_top_bottom r; fog_table := fog_table r;
    tex_chip_sel := tex_chip_sel r; texture_mode := texture_mode r;
    tlod := tlod r; tdetail := tdetail r; tex_base_addr := tex_base_addr r;
    trex_init := trex_init r; pixels_in := pixels_in r;
    chroma_fail := chroma_fail r; zfunc_fail := zfunc_fail r;
    afunc_fail := afunc_fail r; pixels_out := pixels_out r;
    puma_mode_8mb := puma_mode_8mb r; puma_req := puma_req r;
    puma_gnt := puma_gnt r; swap_req := swap_req r; swap_pending := v;
    voodoo := voodoo r; window_x := window_x r; window_y := window_y r;
    window_width := window_width r; window_height := window_height r;
    enabled := enabled r
  |}.

Definition set_voodoo (v : option Voodoo.voodoo_t) (r : voodoo_rush_t) : voodoo_rush_t :=
  {|
    puma_fb := puma_fb r; puma_fb_size := puma_fb_size r;
    puma_fb_mask := puma_fb_mask r; regs := regs r; puma_tex := puma_tex r;
    puma_tex_size := puma_tex_size r; puma_tex_mask := puma_tex_mask r;
    cmdfifo_base_page := cmdfifo_base_page r;
    cmdfifo_top_page := cmdfifo_top_page r;
    cmdfifo_bottom_page := cmdfifo_bottom_page r;
    cmdfifo_entry_count := cmdfifo_entry_count r;
    cmdfifo_read_ptr := cmdfifo_read_ptr r;
    cmdfifo_threshold := cmdfifo_threshold r;
    cmdfifo_enabled := cmdfifo_enabled r; fbijr_init := fbijr_init r;
    fbijr_version := fbijr_version r; status := status r;
    triangle := triangle r; ftriangle := ftriangle r;
    fbz_color_path := fbz_color_path r; fog_mode := fog_mode r;
    alpha_mode := alpha_mode r; fbz_mode := fbz_mode r; stipple := stipple r;
    color0 := color0 r; color1 := color1 r; fog_color := fog_color r;
    za_color := za_color r; chroma_key := chroma_key r;
    chroma_range := chroma_range r; col_buffer_setup := col_buffer_setup r;
    aux_buffer_setup := aux_buffer_setup r;
    clip_left_right := clip_left_right r;
    clip_top_bottom := clip_top_bottom r; fog_table := fog_table r;
    tex_chip_sel := tex_chip_sel r; texture_mode := texture_mode r;
    tlod := tlod r; tdetail := tdetail r; tex_base_addr := tex_base_addr r;
    trex_init := trex_init r; pixels_in := pixels_in r;
    chroma_fail := chroma_fail r; zfunc_fail := zfunc_fail r;
    afunc_fail := afunc_fail r; pixels_out := pixels_out r;
    puma_mode_8mb := puma_mode_8mb r; puma_req := puma_req r;
    puma_gnt := puma_gnt r; swap_req := swap_req r;
    swap_pending := swap_pending r; voodoo := v; window_x := window_x r;
    window_y := window_y r; window_width := window_width r;
    window_height := window_height r; enabled := enabled r
  |}.

Definition set_enabled (v : bool) (r : voodoo_rush_t) : voodoo_rush_t :=
  {|
    puma_fb := puma_fb r; puma_fb_size := puma_fb_size r;
    puma_fb_mask := puma_fb_mask r; regs := regs r; puma_tex := puma_tex r;
    puma_tex_size := puma_tex_size r; puma_tex_mask := puma_tex_mask r;
    cmdfifo_base_page := cmdfifo_base_page r;
    cmdfifo_top_page := cmdfifo_top_page r;
    cmdfifo_bottom_page := cmdfifo_bottom_page r;
    cmdfifo_entry_count := cmdfifo_entry_count r;
    cmdfifo_read_ptr := cmdfifo_read_ptr r;
    cmdfifo_threshold := cmdfifo_threshold r;
    cmdfifo_enabled := cmdfifo_enabled r; fbijr_init := fbijr_init r;
    fbijr_version := fbijr_version r; status := status r;
    triangle := triangle r; ftriangle := ftriangle r;
    fbz_color_path := fbz_color_path r; fog_mode := fog_mode r;
    alpha_mode := alpha_mode r; fbz_mode := fbz_mode r; stipple := stipple r;
    color0 := color0 r; color1 := color1 r; fog_color := fog_color r;
    za_color := za_color r; chroma_key := chroma_key r;
    chroma_range := chroma_range r; col_buffer_setup := col_buffer_setup r;
    aux_buffer_setup := aux_buffer_setup r;
    clip_left_right := clip_left_right r;
    clip_top_bottom := clip_top_bottom r; fog_table := fog_table r;
    tex_chip_sel := tex_chip_sel r; texture_mode := texture_mode r;
    tlod := tlod r; tdetail := tdetail r; tex_base_addr := tex_base_addr r;
    trex_init := trex_init r; pixels_in := pixels_in r;
    chroma_fail := chroma_fail r; zfunc_fail := zfunc_fail r;
    afunc_fail := afunc_fail r; pixels_out := pixels_out r;
    puma_mode_8mb := puma_mode_8mb r; puma_req := puma_req r;
    puma_gnt := puma_gnt r; swap_req := swap_req r;
    swap_pending := swap_pending r; voodoo := voodoo r; window_x := window_x r;
    window_y := window_y r; window_width := window_width r;
    window_height := window_height r; enabled := v
  |}.

(** ** Operations *)

Definition triangle_zero : triangle_t :=
  {|
    vertexAx := 0; vertexAy := 0; vertexBx := 0; vertexBy := 0; vertexCx := 0;
    vertexCy := 0; startR := 0; startG := 0; startB := 0; startA := 0;
    startZ := 0; dRdX := 0; dGdX := 0; dBdX := 0; dAdX := 0; dZdX := 0;
    dRdY := 0; dGdY := 0; dBdY := 0; dAdY := 0; dZdY := 0; startS := 0;
    startT := 0; startW := 0; dSdX := 0; dTdX := 0; dWdX := 0; dSdY := 0;
    dTdY := 0; dWdY := 0
  |}.

(** [puma_addr_to_reg]: bits 19:12 of the offset into the register window. *)
Definition puma_addr_to_reg (addr : Z) (mode_8mb : bool) : Z :=
  let reg_base :=
    if mode_8mb then SST96_PUMA_REG_START else SST96_PUMA_REG_START_4MB in
  let offset := wrap32 (addr - reg_base) in
  Z.land (Z.shiftr offset 12) 0xff.

(** [voodoo_rush_init]: the [calloc]ed structure with its defaults.  A failed
    allocation, for which the source returns [NULL], is not modelled. *)
Definition voodoo_rush_init (mode_8mb : bool) : voodoo_rush_t :=
  let fb_size := if mode_8mb then SST96_PUMA_FB_SIZE else SST96_PUMA_FB_SIZE_4MB in
  let tex_size := if mode_8mb then SST96_PUMA_TEX_SIZE else SST96_PUMA_TEX_SIZE_4MB in
  {|
    puma_fb := ∅; puma_fb_size := fb_size; puma_fb_mask := wrap32 (fb_size - 1);
    regs := replicate 256 0;
    puma_tex := ∅; puma_tex_size := tex_size;
    puma_tex_mask := wrap32 (tex_size - 1);
    cmdfifo_base_page := 0; cmdfifo_top_page := 0; cmdfifo_bottom_page := 0;
    cmdfifo_entry_count := 0; cmdfifo_read_ptr := 0; cmdfifo_threshold := 0;
    cmdfifo_enabled := false;
    fbijr_init := [0x0000f201; 0x01800000; 0x00070d2d; 0x00180600; 0; 0];
    fbijr_version := 0x00010201;
    status := 0;
    triangle := triangle_zero;
    ftriangle := replicate 30 0;
    fbz_color_path := 0; fog_mode := 0; alpha_mode := 0; fbz_mode := 0;
    stipple := 0; color0 := 0; color1 := 0; fog_color := 0; za_color := 0;
    chroma_key := 0; chroma_range := 0;
    col_buffer_setup := 0; aux_buffer_setup := 0;
    clip_left_right := replicate 2 0; clip_top_bottom := replicate 2 0;
    fog_table := replicate 64 (0, 0);
    tex_chip_sel := 0; texture_mode := 0; tlod := 0; tdetail := 0;
    tex_base_addr := replicate 4 0; trex_init := replicate 2 0;
    pixels_in := 0; chroma_fail := 0; zfunc_fail := 0; afunc_fail := 0;
    pixels_out := 0;
    puma_mode_8mb := mode_8mb; puma_req := false; puma_gnt := false;
    swap_req := false; swap_pending := 0;
    voodoo := None;
    window_x := 0; window_y := 0; window_width := 640; window_height := 480;
    enabled := true
  |}.

(** [voodoo_rush_reset] *)
Definition voodoo_rush_reset (rush : voodoo_rush_t) : voodoo_rush_t :=
  let rush := set_regs (replicate 256 0) rush in
  let rush := set_triangle triangle_zero rush in
  let rush := set_ftriangle (replicate 30 0) rush in
  let rush := set_status 0 rush in
  let rush := set_cmdfifo_enabled false rush in
  let rush := set_cmdfifo_entry_count 0 rush in
  let rush := set_cmdfifo_read_ptr 0 rush in
  let rush := set_swap_pending 0 rush in
  let rush := set_swap_req false rush in
  let rush := set_fbijr_init (<[0%nat := 0x0000f201]> (fbijr_init rush)) rush in
  let rush := set_fbijr_init (<[1%nat := 0x01800000]> (fbijr_init rush)) rush in
  let rush := set_fbijr_init (<[2%nat := 0x00070d2d]> (fbijr_init rush)) rush in
  let rush := set_fbijr_init (<[3%nat := 0x00180600]> (fbijr_init rush)) rush in
  rush.

(** [sst96_to_voodoo_params]: the parameter block handed to the engine.  The
    shift of a signed gradient is the arithmetic one. *)
Definition sst96_to_voodoo_params (rush : voodoo_rush_t) : Voodoo.voodoo_params_t :=
  let t := triangle rush in
  let tmu0 :=
    {|
      Voodoo.startS := startS t; Voodoo.startT := startT t;
      Voodoo.startW := startW t;
      Voodoo.dSdX := dSdX t; Voodoo.dTdX := dTdX t; Voodoo.dWdX := dWdX t;
      Voodoo.dSdY := dSdY t; Voodoo.dTdY := dTdY t; Voodoo.dWdY := dWdY t
    |} in
  let windowed := truthy (window_x rush) || truthy (window_y rush) in
  let dx := if windowed then window_x rush * 16 else 0 in
  let dy := if windowed then window_y rush * 16 else 0 in
  {|
    Voodoo.vertexAx := vertexAx t + dx; Voodoo.vertexAy := vertexAy t + dy;
    Voodoo.vertexBx := vertexBx t + dx; Voodoo.vertexBy := vertexBy t + dy;
    Voodoo.vertexCx := vertexCx t + dx; Voodoo.vertexCy := vertexCy t + dy;
    Voodoo.startR := Z.shiftr (startR t) 12;
    Voodoo.startG := Z.shiftr (startG t) 12;
    Voodoo.startB := Z.shiftr (startB t) 12;
    Voodoo.startA := Z.shiftr (startA t) 12;
    Voodoo.startZ := Z.shiftr (startZ t) 12;
    Voodoo.dRdX := Z.shiftr (dRdX t) 12;
    Voodoo.dGdX := Z.shiftr (dGdX t) 12;
    Voodoo.dBdX := Z.shiftr (dBdX t) 12;
    Voodoo.dAdX := Z.shiftr (dAdX t) 12;
    Voodoo.dZdX := Z.shiftr (dZdX t) 12;
    Voodoo.dRdY := Z.shiftr (dRdY t) 12;
    Voodoo.dGdY := Z.shiftr (dGdY t) 12;
    Voodoo.dBdY := Z.shiftr (dBdY t) 12;
    Voodoo.dAdY := Z.shiftr (dAdY t) 12;
    Voodoo.dZdY := Z.shiftr (dZdY t) 12;
    Voodoo.tmu := [tmu0; tmu0];
    Voodoo.fbzColorPath := fbz_color_path rush;
    Voodoo.fogMode := fog_mode rush;
    Voodoo.alphaMode := alpha_mode rush;
    Voodoo.fbzMode := fbz_mode rush;
    Voodoo.stipple := stipple rush;
    Voodoo.color0 := color0 rush;
    Voodoo.color1 := color1 rush;
    Voodoo.fogColor :=
      (Z.land (Z.shiftr (fog_color rush) 0) 0xff,
       Z.land (Z.shiftr (fog_color rush) 8) 0xff,
       Z.land (Z.shiftr (fog_color rush) 16) 0xff);
    Voodoo.zaColor := za_color rush;
    Voodoo.chromaKey := chroma_key rush;
    Voodoo.fogTable := fog_table rush;
    Voodoo.clipLeft := Z.land (Z.shiftr (word_at (clip_left_right rush) 0) 0) 0x7ff;
    Voodoo.clipRight := Z.land (Z.shiftr (word_at (clip_left_right rush) 0) 16) 0x7ff;
    Voodoo.clipLowY := Z.land (Z.shiftr (word_at (clip_top_bottom rush) 0) 0) 0x7ff;
    Voodoo.clipHighY := Z.land (Z.shiftr (word_at (clip_top_bottom rush) 0) 16) 0x7ff;
    Voodoo.draw_offset := Z.land (Z.shiftr (col_buffer_setup rush) 0) 0x3fffff;
    Voodoo.aux_offset := Z.land (Z.shiftr (aux_buffer_setup rush) 0) 0x3fffff;
    Voodoo.textureMode := [texture_mode rush; texture_mode rush];
    Voodoo.tLOD := [tlod rush; tlod rush];
    Voodoo.texBaseAddr :=
      [word_at (tex_base_addr rush) 0; word_at (tex_base_addr rush) 1];
    Voodoo.texBaseAddr1 :=
      [word_at (tex_base_addr rush) 1; word_at (tex_base_addr rush) 1];
    Voodoo.fb_mem := 0;
    Voodoo.aux_mem := 0
  |}.

(** [memcpy] of [n] bytes between two byte regions. *)
Definition memcpy (dst : gmap Z Z) (d : Z) (src : gmap Z Z) (s n : Z) : gmap Z Z :=
  foldl (fun m i => store8 (d + i) (load8 src (s + i)) m) dst (seqZ 0 n).

(** [voodoo_rush_load_texture], for an engine that is present. *)
Definition voodoo_rush_load_texture
    (rush : voodoo_rush_t) (v : Voodoo.voodoo_t) (tmu : Z) : Voodoo.voodoo_t :=
  let tex_addr := word_at (tex_base_addr rush) 0 in
  let tex_base :=
    wrap32 ((if puma_mode_8mb rush then SST96_PUMA_TEX_START
             else SST96_PUMA_TEX_START_4MB) + wrap32 (Z.shiftl tex_addr 12)) in
  if tex_base <? puma_tex_size rush then
    let tex_size := 256 * 256 * 2 in
    let tex_size :=
      if puma_tex_size rush <? wrap32 (tex_base + tex_size)
      then wrap32 (puma_tex_size rush - tex_base) else tex_size in
    match Voodoo.tex_mem v !! Z.to_nat tmu with
    | Some (Some mem) =>
        let mem :=
          memcpy mem (wrap32 (Z.shiftl tex_addr 12)) (puma_tex rush) tex_base tex_size in
        Voodoo.record_call
          (Voodoo.flush_texture_cache (wrap32 (Z.shiftl tex_addr 12)) tmu)
          (Voodoo.set_tex_mem (<[Z.to_nat tmu := Some mem]> (Voodoo.tex_mem v)) v)
    | _ => v
    end
  else v.

(** [voodoo_rush_swap_buffers] *)
Definition voodoo_rush_swap_buffers (rush : voodoo_rush_t) : voodoo_rush_t :=
  if negb (swap_req rush) then rush else set_swap_req false rush.

(** [voodoo_rush_vsync_callback] *)
Definition voodoo_rush_vsync_callback (rush : voodoo_rush_t) : voodoo_rush_t :=
  if negb (enabled rush) then rush
  else if (0 <? swap_pending rush) && swap_req rush then
    let rush := set_swap_pending (swap_pending rush - 1) rush in
    if swap_pending rush =? 0 then voodoo_rush_swap_buffers rush else rush
  else rush.

(** [voodoo_rush_reg_read] *)
Definition voodoo_rush_reg_read (rush : voodoo_rush_t) (reg : Z) : Z :=
  if 256 <=? reg then 0
  else
    match reg with
    | SST96_STATUS => status rush
    | SST96_FBIJR_VERSION => fbijr_version rush
    | SST96_FBI_PIXELS_IN => Z.land (pixels_in rush) 0xffffff
    | SST96_FBI_CHROMA_FAIL => Z.land (chroma_fail rush) 0xffffff
    | SST96_FBI_ZFUNC_FAIL => Z.land (zfunc_fail rush) 0xffffff
    | SST96_FBI_AFUNC_FAIL => Z.land (afunc_fail rush) 0xffffff
    | SST96_FBI_PIXELS_OUT => Z.land (pixels_out rush) 0xffffff
    | SST96_FBIJR_INIT0 | SST96_FBIJR_INIT1 | SST96_FBIJR_INIT2
    | SST96_FBIJR_INIT3 | SST96_FBIJR_INIT4 | SST96_FBIJR_INIT5 =>
        word_at (fbijr_init rush) (reg - SST96_FBIJR_INIT0)
    | SST96_COL_BUFFER_SETUP => col_buffer_setup rush
    | SST96_AUX_BUFFER_SETUP => aux_buffer_setup rush
    | SST96_CLIP_LEFT_RIGHT0 => word_at (clip_left_right rush) 0
    | SST96_CLIP_TOP_BOTTOM0 => word_at (clip_top_bottom rush) 0
    | SST96_CLIP_LEFT_RIGHT1 => word_at (clip_left_right rush) 1
    | SST96_CLIP_TOP_BOTTOM1 => word_at (clip_top_bottom rush) 1
    | _ => word_at (regs rush) reg
    end.

(** [calc_lfb_addr]: the frame buffer address of a window coordinate. *)
Definition calc_lfb_addr (rush : voodoo_rush_t) (x y : Z) : Z :=
  let col_base := Z.land (Z.shiftr (col_buffer_setup rush) 0) 0x3fffff in
  let col_stride := Z.land (Z.shiftr (col_buffer_setup rush) 22) 0x1ff * 4 in
  let y_flip := truthy (Z.land (fbz_mode rush) (Z.shiftl 1 17)) in
  let addr := col_base in
  let addr :=
    if y_flip then wrap32 (addr - y * col_stride) else wrap32 (addr + y * col_stride) in
  let addr := wrap32 (addr + x * 2) in
  Z.land addr (puma_fb_mask rush).

(** [chroma_key_test], on a 16-bit pixel. *)
Definition chroma_key_test (rush : voodoo_rush_t) (pixel : Z) : bool :=
  let key := Z.land (chroma_key rush) 0xffff in
  let range := chroma_range rush in
  if range =? 0 then pixel =? key
  else
    let diff := if key <? pixel then pixel - key else key - pixel in
    diff <=? range.

(** [stipple_test]: the 32-bit stipple word tested against a 64-bit one
    shifted by the low six bits of the bit position. *)
Definition stipple_test (rush : voodoo_rush_t) (x y : Z) : bool :=
  let pattern_x := Z.land x 0x1f in
  let pattern_y := Z.land y 0x1f in
  let bit_pos := pattern_y * 32 + pattern_x in
  truthy (Z.land (stipple rush) (Z.shiftl 1 (Z.land bit_pos 63))).

Section Rush.

(** Bit masks of [vid_voodoo_regs.h], which is not among the source files:
    the texture enable of the colour path and the two write masks of the
    FBZ mode register.  The operations are parameterised by their values. *)
Variable FBZCP_TEXTURE_ENABLED : Z.
Variable FBZ_RGB_WMASK : Z.
Variable FBZ_DEPTH_WMASK : Z.

(** [voodoo_rush_render_triangle] *)
Definition voodoo_rush_render_triangle (rush : voodoo_rush_t) : voodoo_rush_t :=
  match voodoo rush with
  | None => rush
  | Some v =>
      if negb (enabled rush) then rush
      else
        let v :=
          if truthy (Z.land (fbz_color_path rush) FBZCP_TEXTURE_ENABLED) then
            let v := voodoo_rush_load_texture rush v 0 in
            if Voodoo.dual_tmus v then voodoo_rush_load_texture rush v 1 else v
          else v in
        let params := sst96_to_voodoo_params rush in
        let params := Voodoo.set_buffers 0 (Voodoo.aux_offset params) params in
        let v := Voodoo.record_call (Voodoo.queue_triangle params) v in
        let rush := set_voodoo (Some v) rush in
        set_pixels_in (wrap32 (pixels_in rush + 1)) rush
  end.

(** One pixel of the fast fill. *)
Definition fastfill_pixel
    (fill_color_buf fill_depth_buf : bool) (fill_color za : Z)
    (col_offset aux_offset : Z) (rush : voodoo_rush_t) (x : Z) : voodoo_rush_t :=
  let pixel_offset := wrap32 (col_offset + x * 2) in
  let depth_offset := wrap32 (aux_offset + x * 2) in
  if puma_fb_size rush <=? pixel_offset then rush
  else
    let rush :=
      if fill_color_buf then
        set_puma_fb
          (store16 (puma_fb rush) (Z.land pixel_offset (puma_fb_mask rush)) fill_color)
          rush
      else rush in
    if fill_depth_buf && (depth_offset <? puma_fb_size rush) then
      set_puma_fb
        (store16 (puma_fb rush) (Z.land depth_offset (puma_fb_mask rush))
           (Z.land za 0xffff))
        rush
    else rush.

(** [voodoo_rush_fastfill] *)
Definition voodoo_rush_fastfill (rush : voodoo_rush_t) : voodoo_rush_t :=
  if negb (enabled rush) then rush
  else
    let col_base := Z.land (Z.shiftr (col_buffer_setup rush) 0) 0x3fffff in
    let aux_base := Z.land (Z.shiftr (aux_buffer_setup rush) 0) 0x3fffff in
    let col_stride := Z.land (Z.shiftr (col_buffer_setup rush) 22) 0x1ff * 4 in
    let aux_stride := Z.land (Z.shiftr (aux_buffer_setup rush) 22) 0x1ff * 4 in
    let clip_left := Z.land (Z.shiftr (word_at (clip_left_right rush) 0) 0) 0x7ff in
    let clip_right := Z.land (Z.shiftr (word_at (clip_left_right rush) 0) 16) 0x7ff in
    let clip_top := Z.land (Z.shiftr (word_at (clip_top_bottom rush) 0) 0) 0x7ff in
    let clip_bottom := Z.land (Z.shiftr (word_at (clip_top_bottom rush) 0) 16) 0x7ff in
    let color32 := color0 rush in
    let fill_color :=
      Z.lor
        (Z.lor (Z.land (Z.shiftr color32 19) 0x1f)
           (Z.shiftl (Z.land (Z.shiftr color32 10) 0x3f) 5))
        (Z.shiftl (Z.land (Z.shiftr color32 3) 0x1f) 11) in
    let y_flip := truthy (Z.land (fbz_mode rush) (Z.shiftl 1 17)) in
    let fill_color_buf := truthy (Z.land (fbz_mode rush) FBZ_RGB_WMASK) in
    let fill_depth_buf := truthy (Z.land (fbz_mode rush) FBZ_DEPTH_WMASK) in
    let za := za_color rush in
    foldl
      (fun rush y =>
         let y_offset := if y_flip then wrap32 (clip_bottom - 1 - y) else y in
         let col_offset := wrap32 (col_base + y_offset * col_stride) in
         let aux_offset := wrap32 (aux_base + y_offset * aux_stride) in
         foldl
           (fastfill_pixel fill_color_buf fill_depth_buf fill_color za
              col_offset aux_offset)
           rush (seqZ clip_left (clip_right - clip_left)))
      rush (seqZ clip_top (clip_bottom - clip_top)).

(** The 24-bit gradient written to a colour gradient register. *)
Definition gradient24 (val : Z) : Z :=
  to_int32
    (if truthy (Z.land val 0x800000) then Z.lor val 0xff000000
     else Z.land val 0xffffff).

(** The 16-bit coordinate written to a vertex register. *)
Definition vertex16 (val : Z) : Z := to_int16 (Z.land val 0xffff).

(** [voodoo_rush_reg_write].  The raw slot is written first, then the side
    effect of the register runs.  The source lists [SST96_FBIJR_INIT4] and
    [SST96_FBIJR_INIT5] twice in its [switch]: in the group of the six
    initialisation registers, and again further down, each with a handler
    of its own that loads the CMDFIFO entry count and read pointer.  A
    [switch] has one target per value; the group comes first and ends in
    [break], so the later handlers are never entered. *)
Definition voodoo_rush_reg_write (rush : voodoo_rush_t) (reg val : Z) : voodoo_rush_t :=
  if 256 <=? reg then rush
  else
    let rush := set_regs (<[Z.to_nat reg := val]> (regs rush)) rush in
    let t := triangle rush in
    match reg with
    | SST96_VERTEX_AX => set_triangle (tri_set_vertexAx (vertex16 val) t) rush
    | SST96_VERTEX_AY => set_triangle (tri_set_vertexAy (vertex16 val) t) rush
    | SST96_VERTEX_BX => set_triangle (tri_set_vertexBx (vertex16 val) t) rush
    | SST96_VERTEX_BY => set_triangle (tri_set_vertexBy (vertex16 val) t) rush
    | SST96_VERTEX_CX => set_triangle (tri_set_vertexCx (vertex16 val) t) rush
    | SST96_VERTEX_CY => set_triangle (tri_set_vertexCy (vertex16 val) t) rush
    | SST96_START_R => set_triangle (tri_set_startR (Z.land val 0xffffff) t) rush
    | SST96_START_G => set_triangle (tri_set_startG (Z.land val 0xffffff) t) rush
    | SST96_START_B => set_triangle (tri_set_startB (Z.land val 0xffffff) t) rush
    | SST96_START_A => set_triangle (tri_set_startA (Z.land val 0xffffff) t) rush
    | SST96_START_Z => set_triangle (tri_set_startZ val t) rush
    | SST96_START_S => set_triangle (tri_set_startS val t) rush
    | SST96_START_T => set_triangle (tri_set_startT val t) rush
    | SST96_START_W => set_triangle (tri_set_startW val t) rush
    | SST96_DRDX => set_triangle (tri_set_dRdX (gradient24 val) t) rush
    | SST96_DGDX => set_triangle (tri_set_dGdX (gradient24 val) t) rush
    | SST96_DBDX => set_triangle (tri_set_dBdX (gradient24 val) t) rush
    | SST96_DADX => set_triangle (tri_set_dAdX (gradient24 val) t) rush
    | SST96_DZDX => set_triangle (tri_set_dZdX (to_int32 val) t) rush
    | SST96_DSDX => set_triangle (tri_set_dSdX (to_int32 val) t) rush
    | SST96_DTDX => set_triangle (tri_set_dTdX (to_int32 val) t) rush
    | SST96_DWDX => set_triangle (tri_set_dWdX (to_int32 val) t) rush
    | SST96_DRDY => set_triangle (tri_set_dRdY (gradient24 val) t) rush
    | SST96_DGDY => set_triangle (tri_set_dGdY (gradient24 val) t) rush
    | SST96_DBDY => set_triangle (tri_set_dBdY (gradient24 val) t) rush
    | SST96_DADY => set_triangle (tri_set_dAdY (gradient24 val) t) rush
    | SST96_DZDY => set_triangle (tri_set_dZdY (to_int32 val) t) rush
    | SST96_DSDY => set_triangle (tri_set_dSdY (to_int32 val) t) rush
    | SST96_DTDY => set_triangle (tri_set_dTdY (to_int32 val) t) rush
    | SST96_DWDY => set_triangle (tri_set_dWdY (to_int32 val) t) rush
    | SST96_TRIANGLE_CMD => voodoo_rush_render_triangle rush
    | SST96_NOP_CMD => rush
    | SST96_FASTFILL_CMD => voodoo_rush_fastfill rush
    | SST96_SWAPBUFFER_CMD =>
        let rush := set_swap_req true rush in
        if 0 <? swap_pending rush
        then set_swap_pending (swap_pending rush - 1) rush else rush
    | SST96_SWAPPEND_CMD =>
        let rush := set_swap_pending (swap_pending rush + 1) rush in
        if 7 <? swap_pending rush then set_swap_pending 7 rush else rush
    | SST96_FBZ_COLOR_PATH => set_fbz_color_path (Z.land val 0x0fffffff) rush
    | SST96_FOG_MODE => set_fog_mode (Z.land val 0x3f) rush
    | SST96_ALPHA_MODE => set_alpha_mode val rush
    | SST96_FBZ_MODE => set_fbz_mode (Z.land val 0xfffff) rush
    | SST96_STIPPLE => set_stipple val rush
    | SST96_COLOR0 => set_color0 val rush
    | SST96_COLOR1 => set_color1 val rush
    | SST96_FOG_COLOR => set_fog_color (Z.land val 0xffffff) rush
    | SST96_ZA_COLOR => set_za_color val rush
    | SST96_CHROMA_KEY => set_chroma_key (Z.land val 0xffffff) rush
    | SST96_CHROMA_RANGE => set_chroma_range (Z.land val 0x1fffffff) rush
    | SST96_COL_BUFFER_SETUP => set_col_buffer_setup val rush
    | SST96_AUX_BUFFER_SETUP => set_aux_buffer_setup (Z.land val 0x7fffffff) rush
    | SST96_CLIP_LEFT_RIGHT0 =>
        set_clip_left_right (<[0%nat := val]> (clip_left_right rush)) rush
    | SST96_CLIP_TOP_BOTTOM0 =>
        set_clip_top_bottom (<[0%nat := val]> (clip_top_bottom rush)) rush
    | SST96_CLIP_LEFT_RIGHT1 =>
        set_clip_left_right (<[1%nat := val]> (clip_left_right rush)) rush
    | SST96_CLIP_TOP_BOTTOM1 =>
        set_clip_top_bottom (<[1%nat := val]> (clip_top_bottom rush)) rush
    | SST96_FBIJR_INIT0 | SST96_FBIJR_INIT1 | SST96_FBIJR_INIT2
    | SST96_FBIJR_INIT3 | SST96_FBIJR_INIT4 | SST96_FBIJR_INIT5 =>
        let rush :=
          set_fbijr_init
            (<[Z.to_nat (reg - SST96_FBIJR_INIT0) := val]> (fbijr_init rush)) rush in
        if reg =? SST96_FBIJR_INIT3 then
          let rush := set_cmdfifo_enabled (truthy (Z.land val 0x01)) rush in
          let rush := set_cmdfifo_bottom_page (Z.land (Z.shiftr val 1) 0x3ff) rush in
          let rush := set_cmdfifo_top_page (Z.land (Z.shiftr val 11) 0x3ff) rush in
          set_cmdfifo_threshold (Z.land (Z.shiftr val 21) 0x3ff) rush
        else rush
    | SST96_TEXTURE_MODE => set_texture_mode (Z.land val 0x7fffffff) rush
    | SST96_TLOD => set_tlod (Z.land val 0x7fffffff) rush
    | SST96_TDETAIL => set_tdetail (Z.land val 0xffff) rush
    | SST96_TEX_BASE_ADDR =>
        set_tex_base_addr (<[0%nat := Z.land val 0x7ffff]> (tex_base_addr rush)) rush
    | SST96_TEX_BASE_ADDR1 =>
        set_tex_base_addr (<[1%nat := Z.land val 0x7ffff]> (tex_base_addr rush)) rush
    | SST96_TEX_BASE_ADDR2 =>
        set_tex_base_addr (<[2%nat := Z.land val 0x7ffff]> (tex_base_addr rush)) rush
    | SST96_TEX_BASE_ADDR38 =>
        set_tex_base_addr (<[3%nat := Z.land val 0x7ffff]> (tex_base_addr rush)) rush
    | SST96_CMDFIFO_BASE => set_cmdfifo_bottom_page (Z.land val 0xffff) rush
    | SST96_CMDFIFO_TOP => set_cmdfifo_top_page (Z.land val 0xffff) rush
    | SST96_CMDFIFO_BOTTOM => set_cmdfifo_bottom_page (Z.land val 0xffff) rush
    | SST96_CMDFIFO_RDPTR => set_cmdfifo_read_ptr (Z.land val 0xffff) rush
    | SST96_CMDFIFO_THRESHOLD => set_cmdfifo_threshold (Z.land val 0xffff) rush
    | SST96_CMDFIFO_ENABLE => set_cmdfifo_enabled (truthy (Z.land val 0x01)) rush
    | _ => rush
    end.

(** *** The command FIFO *)

Definition reg_window_start (mode_8mb : bool) : Z :=
  if mode_8mb then SST96_PUMA_REG_START else SST96_PUMA_REG_START_4MB.

Definition reg_window_end (mode_8mb : bool) : Z :=
  if mode_8mb then SST96_PUMA_REG_START + SST96_PUMA_REG_SIZE
  else SST96_PUMA_REG_START_4MB + SST96_PUMA_REG_SIZE_4MB.

(** The register write of a packet: the PUMA address is checked against the
    register window and decoded with [puma_addr_to_reg]. *)
Definition cmdfifo_reg_write (rush : voodoo_rush_t) (reg_addr data : Z) : voodoo_rush_t :=
  let mode := puma_mode_8mb rush in
  let puma_reg_addr := wrap32 (reg_addr + reg_window_start mode) in
  if (reg_window_start mode <=? puma_reg_addr) && (puma_reg_addr <? reg_window_end mode)
  then voodoo_rush_reg_write rush (puma_addr_to_reg puma_reg_addr mode) data
  else rush.

(** [mask & (1 << i)] *)
Definition mask_bit (mask i : Z) : bool := truthy (Z.land mask (Z.shiftl 1 i)).

(** The first loop over the mask: the number of set bits. *)
Definition count_writes (mask : Z) : Z :=
  foldl (fun n i => if mask_bit mask i then n + 1 else n) 0 (seqZ 0 32).

(** One round of the second loop over the mask, on the device and the
    address of the next data word. *)
Definition grouped_write (base_addr mask : Z) (st : voodoo_rush_t * Z) (i : Z)
    : voodoo_rush_t * Z :=
  let '(rush, read_addr) := st in
  if mask_bit mask i then
    let reg_addr := wrap32 (Z.shiftl (base_addr + i) 2) in
    let reg_data := load32 (puma_fb rush) (Z.land read_addr (puma_fb_mask rush)) in
    (cmdfifo_reg_write rush reg_addr reg_data, wrap32 (read_addr + 4))
  else st.

Definition grouped_writes (base_addr mask read_addr : Z) (rush : voodoo_rush_t)
    : voodoo_rush_t * Z :=
  foldl (grouped_write base_addr mask) (rush, read_addr) (seqZ 0 32).

(** The address the drain reads its next packet from. *)
Definition cmdfifo_read_addr (cmdfifo_base cmdfifo_size : Z) (rush : voodoo_rush_t) : Z :=
  wrap32
    (cmdfifo_base
     + Z.land (wrap32 (Z.shiftl (cmdfifo_read_ptr rush) 3))
              (wrap32 (Z.shiftl cmdfifo_size 3))).

(** The body of the drain loop on one packet; [None] is the [break] on a
    read address out of bounds. *)
Definition cmdfifo_packet (cmdfifo_base cmdfifo_top cmdfifo_size : Z)
    (rush : voodoo_rush_t) : option voodoo_rush_t :=
  let read_addr := cmdfifo_read_addr cmdfifo_base cmdfifo_size rush in
  if (read_addr <? cmdfifo_base) || (cmdfifo_top <? wrap32 (read_addr + 8)) then None
  else
    let addr_data := load32 (puma_fb rush) (Z.land read_addr (puma_fb_mask rush)) in
    let data :=
      load32 (puma_fb rush) (Z.land (wrap32 (read_addr + 4)) (puma_fb_mask rush)) in
    let skip rush :=
      let rush :=
        set_cmdfifo_read_ptr (wrap32 (cmdfifo_read_ptr rush + 2) mod cmdfifo_size) rush in
      set_cmdfifo_entry_count (wrap32 (cmdfifo_entry_count rush - 1)) rush in
    if (addr_data =? 0) && (data =? 0) then Some (skip rush)
    else if truthy (Z.land addr_data 0x80000000) then
      let base_addr := Z.land (Z.shiftr addr_data 2) 0x1fffff in
      let mask := data in
      let num_writes := count_writes mask in
      if (num_writes =? 0) || (32 <? num_writes) then Some (skip rush)
      else
        let '(rush, _) := grouped_writes base_addr mask (wrap32 (read_addr + 8)) rush in
        let rush :=
          set_cmdfifo_read_ptr
            (wrap32 (cmdfifo_read_ptr rush + 1 + num_writes) mod cmdfifo_size) rush in
        Some (set_cmdfifo_entry_count (wrap32 (cmdfifo_entry_count rush - 1)) rush)
    else
      let reg_addr := Z.land (Z.shiftr addr_data 2) 0x1fffff in
      let rush := cmdfifo_reg_write rush reg_addr data in
      let rush :=
        set_cmdfifo_read_ptr (wrap32 (cmdfifo_read_ptr rush + 2) mod cmdfifo_size) rush in
      Some (set_cmdfifo_entry_count (wrap32 (cmdfifo_entry_count rush - 1)) rush).

(** The drain loop.  Every round that does not [break] takes one entry off
    the count, so [fuel] rounds are enough once [fuel] reaches the count
    ([drain_loop_fuel]). *)
Fixpoint drain_loop (fuel : nat) (cmdfifo_base cmdfifo_top cmdfifo_size : Z)
    (max_process processed : Z) (rush : voodoo_rush_t) : voodoo_rush_t :=
  match fuel with
  | O => rush
  | S fuel =>
      if (0 <? cmdfifo_entry_count rush) && (processed <? max_process) then
        match cmdfifo_packet cmdfifo_base cmdfifo_top cmdfifo_size rush with
        | None => rush
        | Some rush =>
            drain_loop fuel cmdfifo_base cmdfifo_top cmdfifo_size
              max_process (processed + 1) rush
        end
      else rush
  end.

(** [voodoo_rush_process_cmdfifo] *)
Definition voodoo_rush_process_cmdfifo (rush : voodoo_rush_t) : voodoo_rush_t :=
  if negb (cmdfifo_enabled rush) || (cmdfifo_entry_count rush =? 0) then rush
  else
    let cmdfifo_base := wrap32 (Z.shiftl (cmdfifo_bottom_page rush) 12) in
    let cmdfifo_top := wrap32 (Z.shiftl (cmdfifo_top_page rush) 12) in
    let cmdfifo_size := Z.shiftr (wrap32 (cmdfifo_top - cmdfifo_base)) 3 in
    let max_process :=
      to_int32
        (if truthy (cmdfifo_threshold rush) then cmdfifo_threshold rush
         else cmdfifo_entry_count rush) in
    let rush :=
      drain_loop (Z.to_nat (cmdfifo_entry_count rush))
        cmdfifo_base cmdfifo_top cmdfifo_size max_process 0 rush in
    if cmdfifo_entry_count rush <? cmdfifo_threshold rush
    then set_status (Z.land (status rush) (Z.lnot (Z.shiftl 1 16))) rush
    else rush.

(** [voodoo_rush_cmdfifo_write] *)
Definition voodoo_rush_cmdfifo_write (rush : voodoo_rush_t) (addr val : Z) : voodoo_rush_t :=
  if negb (cmdfifo_enabled rush) then rush
  else
    let cmdfifo_base := wrap32 (Z.shiftl (cmdfifo_bottom_page rush) 12) in
    let cmdfifo_top := wrap32 (Z.shiftl (cmdfifo_top_page rush) 12) in
    let offset := wrap32 (addr - cmdfifo_base) in
    if (addr <? cmdfifo_base) || (cmdfifo_top <=? addr) then rush
    else if Z.land offset 7 =? 0 then
      set_puma_fb (store32 (puma_fb rush) (Z.land addr (puma_fb_mask rush)) val) rush
    else if Z.land offset 7 =? 4 then
      let rush :=
        set_puma_fb (store32 (puma_fb rush) (Z.land addr (puma_fb_mask rush)) val) rush in
      let rush := set_cmdfifo_entry_count (wrap32 (cmdfifo_entry_count rush + 1)) rush in
      if 0 <? cmdfifo_entry_count rush then voodoo_rush_process_cmdfifo rush else rush
    else rush.

(** *** The PUMA aperture *)

Definition tex_window_start (mode_8mb : bool) : Z :=
  if mode_8mb then SST96_PUMA_TEX_START else SST96_PUMA_TEX_START_4MB.

(** The 24-bit sign extension of a read: [(int32_t)(ret << 8) >> 8]. *)
Definition sign_extend24 (ret : Z) : Z :=
  wrap32 (Z.shiftr (to_int32 (wrap32 (Z.shiftl ret 8))) 8).

(** [voodoo_rush_puma_read] *)
Definition voodoo_rush_puma_read (addr : Z) (rush : voodoo_rush_t) : Z :=
  if negb (enabled rush) then 0
  else
    let mode := puma_mode_8mb rush in
    let fb_end := puma_fb_size rush in
    let reg_start := reg_window_start mode in
    let reg_end := reg_window_end mode in
    let tex_start := tex_window_start mode in
    let tex_end := wrap32 (tex_start + puma_tex_size rush) in
    if addr <? fb_end then load32 (puma_fb rush) (Z.land addr (puma_fb_mask rush))
    else if (reg_start <=? addr) && (addr <? reg_end) then
      let reg := puma_addr_to_reg addr mode in
      let ret := voodoo_rush_reg_read rush reg in
      if (SST96_DRDX <=? reg) && (reg <=? SST96_DADY) then sign_extend24 ret else ret
    else if (tex_start <=? addr) && (addr <? tex_end) then
      let tex_offset := wrap32 (addr - tex_start) in
      if tex_offset <? puma_tex_size rush
      then load32 (puma_tex rush) (Z.land tex_offset (Z.lnot 3)) else 0
    else 0.

(** [voodoo_rush_puma_write] *)
Definition voodoo_rush_puma_write (addr val : Z) (rush : voodoo_rush_t) : voodoo_rush_t :=
  if negb (enabled rush) then rush
  else
    let mode := puma_mode_8mb rush in
    let fb_end := puma_fb_size rush in
    let reg_start := reg_window_start mode in
    let reg_end := reg_window_end mode in
    let tex_start := tex_window_start mode in
    let tex_end := wrap32 (tex_start + puma_tex_size rush) in
    let cmdfifo_base := wrap32 (Z.shiftl (cmdfifo_bottom_page rush) 12) in
    let cmdfifo_top := wrap32 (Z.shiftl (cmdfifo_top_page rush) 12) in
    if addr <? fb_end then
      if cmdfifo_enabled rush && (cmdfifo_base <=? addr) && (addr <? cmdfifo_top)
      then voodoo_rush_cmdfifo_write rush addr val
      else
        set_puma_fb
          (store32 (puma_fb rush)
             (Z.land (Z.land addr (puma_fb_mask rush)) (Z.lnot 3)) val)
          rush
    else if (reg_start <=? addr) && (addr <? reg_end) then
      voodoo_rush_reg_write rush (puma_addr_to_reg addr mode) val
    else if (tex_start <=? addr) && (addr <? tex_end) then
      let tex_offset := wrap32 (addr - tex_start) in
      if tex_offset <? puma_tex_size rush then
        let rush :=
          set_puma_tex (store32 (puma_tex rush) (Z.land tex_offset (Z.lnot 3)) val) rush in
        match voodoo rush with
        | None => rush
        | Some v =>
            let tex_addr := Z.shiftr tex_offset 12 in
            let v :=
              Voodoo.record_call
                (Voodoo.flush_texture_cache (wrap32 (Z.shiftl tex_addr 12)) 0) v in
            let v :=
              if Voodoo.dual_tmus v then
                Voodoo.record_call
                  (Voodoo.flush_texture_cache (wrap32 (Z.shiftl tex_addr 12)) 1) v
              else v in
            set_voodoo (Some v) rush
        end
      else rush
    else rush.

(** [voodoo_rush_thp_write] *)
Definition voodoo_rush_thp_write (rush : voodoo_rush_t) (addr val : Z) : voodoo_rush_t :=
  if negb (enabled rush) then rush
  else
    let rush := voodoo_rush_puma_write addr val rush in
    if addr <? puma_fb_size rush then set_puma_req true rush else rush.

(** [voodoo_rush_thp_read]: the value read and the device after the read. *)
Definition voodoo_rush_thp_read (rush : voodoo_rush_t) (addr : Z) : Z * voodoo_rush_t :=
  if negb (enabled rush) then (0, rush)
  else
    let ret := voodoo_rush_puma_read addr rush in
    (ret, if addr <? puma_fb_size rush then set_puma_gnt true rush else rush).

(** *** The AT3D side of the interface ([vid_at3d.c])

    The 2D chip reaches the device through the THP register bank of its
    MMIO space (offsets [0x400] to [0x4ff]), through the PUMA accessors and
    through the vertical sync callback.  [at3d_t] is modelled by the
    members these use; the other banks of the MMIO space are not. *)

(** The THP interface state; the four registers are 32-bit members. *)
Record at3d_thp_t : Type := Build_at3d_thp {
  thp_control : Z;
  thp_status : Z;
  thp_address : Z;
  thp_data : Z;
  req_active : Z;
  grant_active : Z
}.

Record at3d_t : Type := Build_at3d {
  mmio_regs : gmap Z Z;
  thp : at3d_thp_t;
  voodoo_rush : option voodoo_rush_t;
  voodoo_rush_enabled : bool
}.

Definition set_thp_control (v : Z) (t : at3d_thp_t) : at3d_thp_t :=
  {| thp_control := v; thp_status := thp_status t; thp_address := thp_address t;
     thp_data := thp_data t; req_active := req_active t;
     grant_active := grant_active t |}.

Definition set_thp_status (v : Z) (t : at3d_thp_t) : at3d_thp_t :=
  {| thp_control := thp_control t; thp_status := v; thp_address := thp_address t;
     thp_data := thp_data t; req_active := req_active t;
     grant_active := grant_active t |}.

Definition set_thp_address (v : Z) (t : at3d_thp_t) : at3d_thp_t :=
  {| thp_control := thp_control t; thp_status := thp_status t; thp_address := v;
     thp_data := thp_data t; req_active := req_active t;
     grant_active := grant_active t |}.

Definition set_thp_data (v : Z) (t : at3d_thp_t) : at3d_thp_t :=
  {| thp_control := thp_control t; thp_status := thp_status t;
     thp_address := thp_address t; thp_data := v; req_active := req_active t;
     grant_active := grant_active t |}.

Definition set_mmio_regs (v : gmap Z Z) (a : at3d_t) : at3d_t :=
  {| mmio_regs := v; thp := thp a; voodoo_rush := voodoo_rush a;
     voodoo_rush_enabled := voodoo_rush_enabled a |}.

Definition set_thp (v : at3d_thp_t) (a : at3d_t) : at3d_t :=
  {| mmio_regs := mmio_regs a; thp := v; voodoo_rush := voodoo_rush a;
     voodoo_rush_enabled := voodoo_rush_enabled a |}.

Definition set_voodoo_rush (v : option voodoo_rush_t) (a : at3d_t) : at3d_t :=
  {| mmio_regs := mmio_regs a; thp := thp a; voodoo_rush := v;
     voodoo_rush_enabled := voodoo_rush_enabled a |}.

Definition set_voodoo_rush_enabled (v : bool) (a : at3d_t) : at3d_t :=
  {| mmio_regs := mmio_regs a; thp := thp a; voodoo_rush := voodoo_rush a;
     voodoo_rush_enabled := v |}.

(** Byte [k] of a 32-bit member, as the access through a byte pointer
    reads and writes it on a little-endian host. *)
Definition get_byte (w k : Z) : Z := Z.land (Z.shiftr w (8 * k)) 0xff.

Definition set_byte (w k v : Z) : Z :=
  Z.lor (Z.land w (Z.lnot (Z.shiftl 0xff (8 * k)))) (Z.shiftl v (8 * k)).

(** [at3d_read_mmio] on the THP bank: the byte read and the chip after the
    read; [None] for an offset of another bank. *)
Definition at3d_read_mmio (addr : Z) (at3d : at3d_t) : option (Z * at3d_t) :=
  let offset := Z.land addr 0xffff in
  if (0x400 <=? offset) && (offset <? 0x500) then
    match offset with
    | 0x400 | 0x401 | 0x402 | 0x403 =>
        Some (get_byte (thp_control (thp at3d)) (offset - 0x400), at3d)
    | 0x404 | 0x405 | 0x406 | 0x407 =>
        let ret := get_byte (thp_status (thp at3d)) (offset - 0x404) in
        let ret :=
          match voodoo_rush at3d with
          | Some rush =>
              if voodoo_rush_enabled at3d then
                let rush_status := voodoo_rush_reg_read rush SST96_STATUS in
                Z.land (Z.lor ret (Z.shiftl (Z.land rush_status 0xff) 8)) 0xff
              else ret
          | None => ret
          end in
        Some (ret, at3d)
    | 0x408 | 0x409 | 0x40a | 0x40b =>
        Some (get_byte (thp_address (thp at3d)) (offset - 0x408), at3d)
    | 0x40c | 0x40d | 0x40e | 0x40f =>
        match voodoo_rush at3d with
        | Some rush =>
            if voodoo_rush_enabled at3d then
              let '(data, rush) := voodoo_rush_thp_read rush (thp_address (thp at3d)) in
              Some (get_byte data (offset - 0x40c), set_voodoo_rush (Some rush) at3d)
            else Some (get_byte (thp_data (thp at3d)) (offset - 0x40c), at3d)
        | None => Some (get_byte (thp_data (thp at3d)) (offset - 0x40c), at3d)
        end
    | _ => Some (load8 (mmio_regs at3d) offset, at3d)
    end
  else None.

(** [at3d_readl_mmio]: four byte reads put together.  The reads are taken
    in the order of the addresses; the only effect a read has is the grant
    flag of the device, the same for the four. *)
Definition at3d_readl_mmio (addr : Z) (at3d : at3d_t) : option (Z * at3d_t) :=
  at3d_read_mmio addr at3d ≫= λ '(b0, at3d),
  at3d_read_mmio (wrap32 (addr + 1)) at3d ≫= λ '(b1, at3d),
  at3d_read_mmio (wrap32 (addr + 2)) at3d ≫= λ '(b2, at3d),
  at3d_read_mmio (wrap32 (addr + 3)) at3d ≫= λ '(b3, at3d),
  Some (wrap32 (Z.lor (Z.lor (Z.lor b0 (Z.shiftl b1 8)) (Z.shiftl b2 16))
                  (Z.shiftl b3 24)),
        at3d).

(** [at3d_write_mmio] on the THP bank, for a byte [val]; [None] for an
    offset of another bank. *)
Definition at3d_write_mmio (addr val : Z) (at3d : at3d_t) : option at3d_t :=
  let val := Z.land val 0xff in
  let offset := Z.land addr 0xffff in
  if (0x400 <=? offset) && (offset <? 0x500) then
    match offset with
    | 0x400 | 0x401 | 0x402 | 0x403 =>
        let at3d :=
          set_thp
            (set_thp_control (set_byte (thp_control (thp at3d)) (offset - 0x400) val)
               (thp at3d))
            at3d in
        if offset =? 0x403 then
          match voodoo_rush at3d with
          | Some rush =>
              if truthy (Z.land (thp_control (thp at3d)) 0x01) then
                let at3d := set_voodoo_rush_enabled true at3d in
                Some (set_voodoo_rush (Some (set_enabled true rush)) at3d)
              else
                let at3d := set_voodoo_rush_enabled false at3d in
                Some (set_voodoo_rush (Some (set_enabled false rush)) at3d)
          | None => Some at3d
          end
        else Some at3d
    | 0x404 | 0x405 | 0x406 | 0x407 =>
        Some
          (set_thp
             (set_thp_status (set_byte (thp_status (thp at3d)) (offset - 0x404) val)
                (thp at3d))
             at3d)
    | 0x408 | 0x409 | 0x40a | 0x40b =>
        Some
          (set_thp
             (set_thp_address (set_byte (thp_address (thp at3d)) (offset - 0x408) val)
                (thp at3d))
             at3d)
    | 0x40c | 0x40d | 0x40e | 0x40f =>
        let at3d :=
          set_thp
            (set_thp_data (set_byte (thp_data (thp at3d)) (offset - 0x40c) val)
               (thp at3d))
            at3d in
        if offset =? 0x40f then
          match voodoo_rush at3d with
          | Some rush =>
              if voodoo_rush_enabled at3d then
                let thp_addr := thp_address (thp at3d) in
                let data := thp_data (thp at3d) in
                Some
                  (set_voodoo_rush (Some (voodoo_rush_thp_write rush thp_addr data))
                     at3d)
              else Some at3d
          | None => Some at3d
          end
        else Some at3d
    | _ => Some (set_mmio_regs (store8 offset val (mmio_regs at3d)) at3d)
    end
  else None.

(** [at3d_writel_mmio]: four byte writes, lowest byte first. *)
Definition at3d_writel_mmio (addr val : Z) (at3d : at3d_t) : option at3d_t :=
  at3d_write_mmio addr (Z.land val 0xff) at3d ≫= λ at3d,
  at3d_write_mmio (wrap32 (addr + 1)) (Z.land (Z.shiftr val 8) 0xff) at3d ≫= λ at3d,
  at3d_write_mmio (wrap32 (addr + 2)) (Z.land (Z.shiftr val 16) 0xff) at3d ≫= λ at3d,
  at3d_write_mmio (wrap32 (addr + 3)) (Z.land (Z.shiftr val 24) 0xff) at3d.

(** [at3d_puma_read] *)
Definition at3d_puma_read (addr : Z) (at3d : at3d_t) : Z :=
  match voodoo_rush at3d with
  | Some rush =>
      if voodoo_rush_enabled at3d then voodoo_rush_puma_read addr rush else 0
  | None => 0
  end.

(** [at3d_puma_write] *)
Definition at3d_puma_write (addr val : Z) (at3d : at3d_t) : at3d_t :=
  match voodoo_rush at3d with
  | Some rush =>
      if voodoo_rush_enabled at3d
      then set_voodoo_rush (Some (voodoo_rush_puma_write addr val rush)) at3d
      else at3d
  | None => at3d
  end.

(** [at3d_vsync_callback] *)
Definition at3d_vsync_callback (at3d : at3d_t) : at3d_t :=
  match voodoo_rush at3d with
  | Some rush =>
      if voodoo_rush_enabled at3d
      then set_voodoo_rush (Some (voodoo_rush_vsync_callback rush)) at3d
      else at3d
  | None => at3d
  end.

(** What [at3d_init] leaves in these members: the zeros of [calloc], and
    with the device configured an 8MB device, enabled. *)
Definition at3d_init (configured : bool) : at3d_t :=
  {|
    mmio_regs := ∅;
    thp :=
      {| thp_control := 0; thp_status := 0; thp_address := 0; thp_data := 0;
         req_active := 0; grant_active := 0 |};
    voodoo_rush :=
      if configured then Some (set_enabled true (voodoo_rush_init true)) else None;
    voodoo_rush_enabled := configured
  |}.

(** What [at3d_reset] does to these members: the MMIO registers and the
    THP state are zeroed and the device, when there is one, is reset. *)
Definition at3d_reset (at3d : at3d_t) : at3d_t :=
  let at3d := set_mmio_regs ∅ at3d in
  let at3d :=
    set_thp
      {| thp_control := 0; thp_status := 0; thp_address := 0; thp_data := 0;
         req_active := 0; grant_active := 0 |}
      at3d in
  match voodoo_rush at3d with
  | Some rush => set_voodoo_rush (Some (voodoo_rush_reset rush)) at3d
  | None => at3d
  end.

(** ** Notions used in the statements *)

(** [fb_only rush rush']: the two devices differ at most in the contents of
    the frame buffer. *)
Definition fb_only (rush rush' : voodoo_rush_t) : Prop :=
  rush' = set_puma_fb (puma_fb rush') rush.

(** What a triangle command leaves behind: the engine and the counter. *)
Definition engine_only (rush rush' : voodoo_rush_t) : Prop :=
  rush' = set_pixels_in (pixels_in rush') (set_voodoo (voodoo rush') rush).

(** The device after the swap-append commands carrying the values [vals]. *)
Definition swap_appends (rush : voodoo_rush_t) (vals : list Z) : voodoo_rush_t :=
  foldl (fun rush v => voodoo_rush_reg_write rush SST96_SWAPPEND_CMD v) rush vals.

(** The registers whose read is computed from other state than the raw
    slots and the fields [voodoo_rush_reset] assigns. *)
Definition retained_read (reg : Z) : bool :=
  match reg with
  | SST96_FBIJR_VERSION
  | SST96_FBI_PIXELS_IN | SST96_FBI_CHROMA_FAIL | SST96_FBI_ZFUNC_FAIL
  | SST96_FBI_AFUNC_FAIL | SST96_FBI_PIXELS_OUT
  | SST96_FBIJR_INIT0 | SST96_FBIJR_INIT1 | SST96_FBIJR_INIT2
  | SST96_FBIJR_INIT3 | SST96_FBIJR_INIT4 | SST96_FBIJR_INIT5
  | SST96_COL_BUFFER_SETUP | SST96_AUX_BUFFER_SETUP
  | SST96_CLIP_LEFT_RIGHT0 | SST96_CLIP_TOP_BOTTOM0
  | SST96_CLIP_LEFT_RIGHT1 | SST96_CLIP_TOP_BOTTOM1 => true
  | _ => false
  end.

(** The 24-bit two's-complement reading of the low 24 bits of a word. *)
Definition twos_complement24 (v : Z) : Z :=
  let u := v mod 2 ^ 24 in if u <? 2 ^ 23 then u else u - 2 ^ 24.

(** The colour gradient registers with the field each one loads. *)
Definition gradient_registers : list (Z * (triangle_t -> Z)) :=
  [(SST96_DRDX, dRdX); (SST96_DGDX, dGdX); (SST96_DBDX, dBdX); (SST96_DADX, dAdX);
   (SST96_DRDY, dRdY); (SST96_DGDY, dGdY); (SST96_DBDY, dBdY); (SST96_DADY, dAdY)].

(** The member of the parameter block each gradient field is handed over in. *)
Definition gradient_params : list ((triangle_t -> Z) * (Voodoo.voodoo_params_t -> Z)) :=
  [(dRdX, Voodoo.dRdX); (dGdX, Voodoo.dGdX); (dBdX, Voodoo.dBdX); (dAdX, Voodoo.dAdX);
   (dRdY, Voodoo.dRdY); (dGdY, Voodoo.dGdY); (dBdY, Voodoo.dBdY); (dAdY, Voodoo.dAdY)].

(** The ring of the device, as [voodoo_rush_process_cmdfifo] computes it. *)
Definition ring_base (rush : voodoo_rush_t) : Z :=
  wrap32 (Z.shiftl (cmdfifo_bottom_page rush) 12).

Definition ring_top (rush : voodoo_rush_t) : Z :=
  wrap32 (Z.shiftl (cmdfifo_top_page rush) 12).

Definition ring_size (rush : voodoo_rush_t) : Z :=
  Z.shiftr (wrap32 (ring_top rush - ring_base rush)) 3.

Definition ring_read_addr (rush : voodoo_rush_t) : Z :=
  cmdfifo_read_addr (ring_base rush) (ring_size rush) rush.

(** The offset of the read address into the ring. *)
Definition ring_offset (rush : voodoo_rush_t) : Z :=
  Z.land (wrap32 (Z.shiftl (cmdfifo_read_ptr rush) 3))
    (wrap32 (Z.shiftl (ring_size rush) 3)).

(** The device after a packet was skipped: the read pointer two slots
    further modulo the ring size, one entry less. *)
Definition skip_packet (cmdfifo_size : Z) (rush : voodoo_rush_t) : voodoo_rush_t :=
  set_cmdfifo_entry_count (wrap32 (cmdfifo_entry_count rush - 1))
    (set_cmdfifo_read_ptr (wrap32 (cmdfifo_read_ptr rush + 2) mod cmdfifo_size) rush).

(** The states on which a drain handles exactly the packet that was just
    written: the FIFO was empty, or the threshold is one packet. *)
Definition drains_one_packet (rush : voodoo_rush_t) : Prop :=
  (cmdfifo_entry_count rush = 0 /\ 0 <= cmdfifo_threshold rush < 2 ^ 31)
  \/ (0 <= cmdfifo_entry_count rush < 2 ^ 32 - 1 /\ cmdfifo_threshold rush = 1).

(** The device after the two words of a NOP packet are written to the slot
    the read pointer stands at. *)
Definition write_nop (rush : voodoo_rush_t) : voodoo_rush_t :=
  voodoo_rush_cmdfifo_write
    (voodoo_rush_cmdfifo_write rush (ring_read_addr rush) 0)
    (ring_read_addr rush + 4) 0.

(** The number of words of the register window: the end of the window over
    4 bytes. *)
Definition reg_window_words (mode_8mb : bool) : Z :=
  if mode_8mb then 0x80000 else 0x40000.

(** The arrays keep their sizes and the pending-swap counter its range. *)
Definition well_formed (rush : voodoo_rush_t) : Prop :=
  length (regs rush) = 256%nat
  /\ length (fbijr_init rush) = 6%nat
  /\ 0 <= swap_pending rush <= 7.

(** A property of the device that register writes keep and that does not
    look at the bookkeeping of the FIFO, the status word or the bytes of
    the frame buffer. *)
Definition drain_invariant (P : voodoo_rush_t -> Prop) : Prop :=
  (forall rush reg val, P rush -> P (voodoo_rush_reg_write rush reg val))
  /\ (forall rush v, P rush -> P (set_puma_fb v rush))
  /\ (forall rush v, P rush -> P (set_cmdfifo_read_ptr v rush))
  /\ (forall rush v, P rush -> P (set_cmdfifo_entry_count v rush))
  /\ (forall rush v, P rush -> P (set_status v rush)).

(** The devices the operations produce from a fresh one.  The rendering
    engine is attached from outside, after [voodoo_rush_init]. *)
Inductive reachable : voodoo_rush_t -> Prop :=
  | reach_init mode_8mb : reachable (voodoo_rush_init mode_8mb)
  | reach_attach rush v : reachable rush -> reachable (set_voodoo (Some v) rush)
  | reach_reset rush : reachable rush -> reachable (voodoo_rush_reset rush)
  | reach_reg_write rush reg val :
      reachable rush -> reachable (voodoo_rush_reg_write rush reg val)
  | reach_puma_write rush addr val :
      reachable rush -> reachable (voodoo_rush_puma_write addr val rush)
  | reach_cmdfifo_write rush addr val :
      reachable rush -> reachable (voodoo_rush_cmdfifo_write rush addr val)
  | reach_process_cmdfifo rush :
      reachable rush -> reachable (voodoo_rush_process_cmdfifo rush)
  | reach_thp_write rush addr val :
      reachable rush -> reachable (voodoo_rush_thp_write rush addr val)
  | reach_thp_read rush addr :
      reachable rush -> reachable (voodoo_rush_thp_read rush addr).2
  | reach_render_triangle rush :
      reachable rush -> reachable (voodoo_rush_render_triangle rush)
  | reach_fastfill rush : reachable rush -> reachable (voodoo_rush_fastfill rush)
  | reach_swap_buffers rush :
      reachable rush -> reachable (voodoo_rush_swap_buffers rush)
  | reach_vsync rush : reachable rush -> reachable (voodoo_rush_vsync_callback rush).

(** The registers whose read is computed from a field of its own and not
    taken from the raw slot. *)
Definition computed_read (reg : Z) : bool :=
  match reg with
  | SST96_STATUS | SST96_FBIJR_VERSION
  | SST96_FBI_PIXELS_IN | SST96_FBI_CHROMA_FAIL | SST96_FBI_ZFUNC_FAIL
  | SST96_FBI_AFUNC_FAIL | SST96_FBI_PIXELS_OUT
  | SST96_FBIJR_INIT0 | SST96_FBIJR_INIT1 | SST96_FBIJR_INIT2
  | SST96_FBIJR_INIT3 | SST96_FBIJR_INIT4 | SST96_FBIJR_INIT5
  | SST96_COL_BUFFER_SETUP | SST96_AUX_BUFFER_SETUP
  | SST96_CLIP_LEFT_RIGHT0 | SST96_CLIP_TOP_BOTTOM0
  | SST96_CLIP_LEFT_RIGHT1 | SST96_CLIP_TOP_BOTTOM1 => true
  | _ => false
  end.

(** The registers no register write changes the read of: the status, the
    version and the five counters. *)
Definition read_only_register (reg : Z) : bool :=
  match reg with
  | SST96_STATUS | SST96_FBIJR_VERSION
  | SST96_FBI_PIXELS_IN | SST96_FBI_CHROMA_FAIL | SST96_FBI_ZFUNC_FAIL
  | SST96_FBI_AFUNC_FAIL | SST96_FBI_PIXELS_OUT => true
  | _ => false
  end.

(** The sizes of the regions of the aperture, by mode. *)
Definition fb_size_of (mode_8mb : bool) : Z :=
  if mode_8mb then SST96_PUMA_FB_SIZE else SST96_PUMA_FB_SIZE_4MB.

Definition tex_size_of (mode_8mb : bool) : Z :=
  if mode_8mb then SST96_PUMA_TEX_SIZE else SST96_PUMA_TEX_SIZE_4MB.

(** What [voodoo_rush_init] fixes and no operation changes: the layout of
    the aperture, the version word, the status word, the window origin and
    the four counters nothing counts; and the range of the first texture
    base address. *)
Definition layout_ok (rush : voodoo_rush_t) : Prop :=
  puma_fb_size rush = fb_size_of (puma_mode_8mb rush)
  /\ puma_fb_mask rush = fb_size_of (puma_mode_8mb rush) - 1
  /\ puma_tex_size rush = tex_size_of (puma_mode_8mb rush)
  /\ puma_tex_mask rush = tex_size_of (puma_mode_8mb rush) - 1
  /\ fbijr_version rush = 0x00010201
  /\ status rush = 0
  /\ (window_x rush = 0 /\ window_y rush = 0)
  /\ (chroma_fail rush = 0 /\ zfunc_fail rush = 0 /\ afunc_fail rush = 0
      /\ pixels_out rush = 0)
  /\ 0 <= word_at (tex_base_addr rush) 0 <= 0x7ffff.

(** A property of the device that register writes keep and that does not
    look at the bookkeeping of the FIFO or the bytes of the frame buffer:
    what one round of the drain loop keeps. *)
Definition packet_invariant (P : voodoo_rush_t -> Prop) : Prop :=
  (forall rush reg val, P rush -> P (voodoo_rush_reg_write rush reg val))
  /\ (forall rush v, P rush -> P (set_puma_fb v rush))
  /\ (forall rush v, P rush -> P (set_cmdfifo_read_ptr v rush))
  /\ (forall rush v, P rush -> P (set_cmdfifo_entry_count v rush)).

(** The device after [n] vertical syncs. *)
Definition vsyncs (n : nat) (rush : voodoo_rush_t) : voodoo_rush_t :=
  Nat.iter n voodoo_rush_vsync_callback rush.

(** The 16-bit two's-complement reading of the low 16 bits of a word. *)
Definition twos_complement16 (v : Z) : Z :=
  let u := v mod 2 ^ 16 in if u <? 2 ^ 15 then u else u - 2 ^ 16.

(** The vertex registers, with the field each one loads and the member of
    the parameter block the field is handed over in. *)
Definition vertex_registers
    : list (Z * (triangle_t -> Z) * (Voodoo.voodoo_params_t -> Z)) :=
  [(SST96_VERTEX_AX, vertexAx, Voodoo.vertexAx);
   (SST96_VERTEX_AY, vertexAy, Voodoo.vertexAy);
   (SST96_VERTEX_BX, vertexBx, Voodoo.vertexBx);
   (SST96_VERTEX_BY, vertexBy, Voodoo.vertexBy);
   (SST96_VERTEX_CX, vertexCx, Voodoo.vertexCx);
   (SST96_VERTEX_CY, vertexCy, Voodoo.vertexCy)].

(** The colour start registers, likewise. *)
Definition colour_start_registers
    : list (Z * (triangle_t -> Z) * (Voodoo.voodoo_params_t -> Z)) :=
  [(SST96_START_R, startR, Voodoo.startR); (SST96_START_G, startG, Voodoo.startG);
   (SST96_START_B, startB, Voodoo.startB); (SST96_START_A, startA, Voodoo.startA)].

(** The 16-bit pixel a fast fill writes for a 32-bit colour: bits 23:19 of
    the colour in bits 4:0, bits 15:10 in bits 10:5, bits 7:3 in bits 15:11. *)
Definition rgb565_of (color32 : Z) : Z :=
  color32 / 2 ^ 19 mod 2 ^ 5 + 2 ^ 5 * (color32 / 2 ^ 10 mod 2 ^ 6)
  + 2 ^ 11 * (color32 / 2 ^ 3 mod 2 ^ 5).

(** The byte offset of the pixel in column [x] of row [y] of the colour
    buffer, before it is masked to the frame buffer. *)
Definition pixel_offset (rush : voodoo_rush_t) (x y : Z) : Z :=
  let col_base := Z.land (Z.shiftr (col_buffer_setup rush) 0) 0x3fffff in
  let col_stride := Z.land (Z.shiftr (col_buffer_setup rush) 22) 0x1ff * 4 in
  wrap32 (wrap32 (col_base + y * col_stride) + x * 2).

End Rush.

(** ** Concrete devices

    The runs below fix the three masks at the bits the upstream emulator
    gives them in [vid_voodoo_regs.h]. *)

Definition texture_enabled_bit : Z := Z.shiftl 1 27.
Definition rgb_wmask_bit : Z := Z.shiftl 1 9.
Definition depth_wmask_bit : Z := Z.shiftl 1 10.

Definition reg_write_run : voodoo_rush_t -> Z -> Z -> voodoo_rush_t :=
  voodoo_rush_reg_write texture_enabled_bit rgb_wmask_bit depth_wmask_bit.

Definition puma_write_run : Z -> Z -> voodoo_rush_t -> voodoo_rush_t :=
  voodoo_rush_puma_write texture_enabled_bit rgb_wmask_bit depth_wmask_bit.

(** A fresh 8MB device with a one-page ring at the bottom of the frame
    buffer, the FIFO enabled and empty. *)
Definition ring_device : voodoo_rush_t :=
  let rush := voodoo_rush_init true in
  let rush := reg_write_run rush SST96_CMDFIFO_TOP 1 in
  reg_write_run rush SST96_CMDFIFO_ENABLE 1.

(** A device whose frame buffer holds, at the bottom of the ring to be, the
    header of a grouped packet with base address [0x51] and the data words
    [0x11] and [0x22]; the ring is then set up and the FIFO enabled.  The
    mask word of the packet is still missing. *)
Definition packet_device : voodoo_rush_t :=
  let rush := voodoo_rush_init true in
  let rush := puma_write_run 8 0x11 rush in
  let rush := puma_write_run 12 0x22 rush in
  let rush := puma_write_run 0 0x80000144 rush in
  let rush := reg_write_run rush SST96_CMDFIFO_TOP 1 in
  reg_write_run rush SST96_CMDFIFO_ENABLE 1.

(** The same device with the mask word [0b101] already in the frame buffer
    when the FIFO is enabled: the packet stands at the read pointer. *)
Definition grouped_device : voodoo_rush_t :=
  let rush := voodoo_rush_init true in
  let rush := puma_write_run 8 0x11 rush in
  let rush := puma_write_run 12 0x22 rush in
  let rush := puma_write_run 0 0x80000144 rush in
  let rush := puma_write_run 4 5 rush in
  let rush := reg_write_run rush SST96_CMDFIFO_TOP 1 in
  reg_write_run rush SST96_CMDFIFO_ENABLE 1.

(** What the drain of the grouped packet of [packet_device] would leave if
    the two words went to the registers [B] and [B + 2], [B = 0x51]. *)
Definition fanout_to_base_plus_bit (rush : voodoo_rush_t) : voodoo_rush_t :=
  let rush := reg_write_run rush 0x51 0x11 in
  reg_write_run rush (0x51 + 2) 0x22.

(** A device with a clip rectangle of 4 by 2 pixels, a fill colour and a
    depth value, and both write masks of the FBZ mode register clear. *)
Definition fill_device : voodoo_rush_t :=
  let rush := voodoo_rush_init true in
  let rush := reg_write_run rush SST96_CLIP_LEFT_RIGHT0 0x00040000 in
  let rush := reg_write_run rush SST96_CLIP_TOP_BOTTOM0 0x00020000 in
  let rush := reg_write_run rush SST96_COLOR0 0x00ffffff in
  let rush := reg_write_run rush SST96_ZA_COLOR 0x0000ffff in
  reg_write_run rush SST96_FBZ_MODE (Z.shiftl 1 17).

(** A device whose G start register was written with bit 23 set. *)
Definition start_device : voodoo_rush_t :=
  reg_write_run (voodoo_rush_init true) SST96_START_G 0x800000.

(** A device that was disabled. *)
Definition disabled_device : voodoo_rush_t := set_enabled false (voodoo_rush_init true).

(** An engine with two texture units and no texture memory, and a device
    it is attached to, with the texture enable bit of the colour path set. *)
Definition engine : Voodoo.voodoo_t :=
  {| Voodoo.dual_tmus := true; Voodoo.tex_mem := [None; None]; Voodoo.calls := [] |}.

Definition engine_device : voodoo_rush_t :=
  reg_write_run (set_voodoo (Some engine) (voodoo_rush_init true))
    SST96_FBZ_COLOR_PATH texture_enabled_bit.

(** A device with the packet that writes [0x123456] to the first colour
    register at the bottom of its one-page ring. *)
Definition singleton_device : voodoo_rush_t :=
  let rush := voodoo_rush_init true in
  let rush := puma_write_run 0 (Z.shiftl SST96_COLOR0 14) rush in
  let rush := puma_write_run 4 0x123456 rush in
  let rush := reg_write_run rush SST96_CMDFIFO_TOP 1 in
  reg_write_run rush SST96_CMDFIFO_ENABLE 1.

(** A device with a swap requested and three swaps pending. *)
Definition swap_device : voodoo_rush_t :=
  let rush := voodoo_rush_init true in
  let rush := reg_write_run rush SST96_SWAPPEND_CMD 0 in
  let rush := reg_write_run rush SST96_SWAPPEND_CMD 0 in
  let rush := reg_write_run rush SST96_SWAPPEND_CMD 0 in
  let rush := reg_write_run rush SST96_SWAPPEND_CMD 0 in
  reg_write_run rush SST96_SWAPBUFFER_CMD 0.

(** A device set up to fill a rectangle of 4 by 2 pixels of a colour
    buffer at [0x1000] with a stride of 8 bytes, the colour write mask set
    and the depth write mask clear. *)
Definition paint_device : voodoo_rush_t :=
  let rush := voodoo_rush_init true in
  let rush := reg_write_run rush SST96_COL_BUFFER_SETUP (Z.shiftl 2 22 + 0x1000) in
  let rush := reg_write_run rush SST96_CLIP_LEFT_RIGHT0 0x00040000 in
  let rush := reg_write_run rush SST96_CLIP_TOP_BOTTOM0 0x00020000 in
  let rush := reg_write_run rush SST96_COLOR0 0x00ff8040 in
  reg_write_run rush SST96_FBZ_MODE rgb_wmask_bit.

(** A device whose stipple word has its two end bits set. *)
Definition stipple_device : voodoo_rush_t :=
  reg_write_run (voodoo_rush_init true) SST96_STIPPLE 0x80000001.

(** A device with a chroma key of [0x1234] and a range of 4. *)
Definition chroma_device : voodoo_rush_t :=
  let rush := reg_write_run (voodoo_rush_init true) SST96_CHROMA_KEY 0x551234 in
  reg_write_run rush SST96_CHROMA_RANGE 4.

(** A device with a backlog: the NOP packet at the bottom of the ring was
    written while the read pointer stood at 512, where the read address
    fails the bounds check and the drain stops; the pointer was then set
    back to 0.  One entry is counted and waits, with no threshold set. *)
Definition backlog_device : voodoo_rush_t :=
  let rush := reg_write_run ring_device SST96_CMDFIFO_RDPTR 512 in
  let rush := puma_write_run 0 0 rush in
  let rush := puma_write_run 4 0 rush in
  reg_write_run rush SST96_CMDFIFO_RDPTR 0.

(** A device whose frame buffer holds data in and beyond the ring to be,
    with the read pointer on the last slot of its one-page ring. *)
Definition wrap_device : voodoo_rush_t :=
  let rush := voodoo_rush_init true in
  let rush := puma_write_run 0 0xdeadbeef rush in
  let rush := puma_write_run 4 0x12345678 rush in
  let rush := puma_write_run 0xff8 0xcafef00d rush in
  let rush := puma_write_run 0x2000 0x0badc0de rush in
  let rush := reg_write_run rush SST96_CMDFIFO_TOP 1 in
  let rush := reg_write_run rush SST96_CMDFIFO_ENABLE 1 in
  reg_write_run rush SST96_CMDFIFO_RDPTR 511.

(** The header field [0x56] at bits 21:14, drained as a packet of one
    register write with the data word [0x77], and drained as a grouped
    packet with the mask [0b1] and the same data word. *)
Definition field_as_singleton : voodoo_rush_t :=
  let rush := puma_write_run 0 (Z.shiftl 0x56 14) ring_device in
  puma_write_run 4 0x77 rush.

Definition field_as_grouped : voodoo_rush_t :=
  let rush := puma_write_run 0 (0x80000000 + Z.shiftl 0x56 14) ring_device in
  let rush := puma_write_run 8 0x77 rush in
  puma_write_run 4 1 rush.

(** * Properties *)

Section Properties.

Variable FBZCP_TEXTURE_ENABLED : Z.
Variable FBZ_RGB_WMASK : Z.
Variable FBZ_DEPTH_WMASK : Z.

#[local] Abbreviation reg_write :=
  (voodoo_rush_reg_write FBZCP_TEXTURE_ENABLED FBZ_RGB_WMASK FBZ_DEPTH_WMASK).
#[local] Abbreviation fastfill := (voodoo_rush_fastfill FBZ_RGB_WMASK FBZ_DEPTH_WMASK).
#[local] Abbreviation render_triangle :=
  (voodoo_rush_render_triangle FBZCP_TEXTURE_ENABLED).
#[local] Abbreviation cmdfifo_reg_write :=
  (cmdfifo_reg_write FBZCP_TEXTURE_ENABLED FBZ_RGB_WMASK FBZ_DEPTH_WMASK).
#[local] Abbreviation grouped_write :=
  (grouped_write FBZCP_TEXTURE_ENABLED FBZ_RGB_WMASK FBZ_DEPTH_WMASK).
#[local] Abbreviation grouped_writes :=
  (grouped_writes FBZCP_TEXTURE_ENABLED FBZ_RGB_WMASK FBZ_DEPTH_WMASK).
#[local] Abbreviation cmdfifo_packet :=
  (cmdfifo_packet FBZCP_TEXTURE_ENABLED FBZ_RGB_WMASK FBZ_DEPTH_WMASK).
#[local] Abbreviation drain_loop :=
  (drain_loop FBZCP_TEXTURE_ENABLED FBZ_RGB_WMASK FBZ_DEPTH_WMASK).
#[local] Abbreviation process_cmdfifo :=
  (voodoo_rush_process_cmdfifo FBZCP_TEXTURE_ENABLED FBZ_RGB_WMASK FBZ_DEPTH_WMASK).
#[local] Abbreviation cmdfifo_write :=
  (voodoo_rush_cmdfifo_write FBZCP_TEXTURE_ENABLED FBZ_RGB_WMASK FBZ_DEPTH_WMASK).
#[local] Abbreviation swap_appends :=
  (swap_appends FBZCP_TEXTURE_ENABLED FBZ_RGB_WMASK FBZ_DEPTH_WMASK).
#[local] Abbreviation write_nop :=
  (write_nop FBZCP_TEXTURE_ENABLED FBZ_RGB_WMASK FBZ_DEPTH_WMASK).
#[local] Abbreviation puma_write :=
  (voodoo_rush_puma_write FBZCP_TEXTURE_ENABLED FBZ_RGB_WMASK FBZ_DEPTH_WMASK).
#[local] Abbreviation thp_write :=
  (voodoo_rush_thp_write FBZCP_TEXTURE_ENABLED FBZ_RGB_WMASK FBZ_DEPTH_WMASK).
#[local] Abbreviation drain_invariant :=
  (drain_invariant FBZCP_TEXTURE_ENABLED FBZ_RGB_WMASK FBZ_DEPTH_WMASK).
#[local] Abbreviation reachable :=
  (reachable FBZCP_TEXTURE_ENABLED FBZ_RGB_WMASK FBZ_DEPTH_WMASK).
#[local] Abbreviation packet_invariant :=
  (packet_invariant FBZCP_TEXTURE_ENABLED FBZ_RGB_WMASK FBZ_DEPTH_WMASK).
#[local] Abbreviation at3d_write_mmio :=
  (at3d_write_mmio FBZCP_TEXTURE_ENABLED FBZ_RGB_WMASK FBZ_DEPTH_WMASK).
#[local] Abbreviation at3d_writel_mmio :=
  (at3d_writel_mmio FBZCP_TEXTURE_ENABLED FBZ_RGB_WMASK FBZ_DEPTH_WMASK).
#[local] Abbreviation at3d_puma_write :=
  (at3d_puma_write FBZCP_TEXTURE_ENABLED FBZ_RGB_WMASK FBZ_DEPTH_WMASK).

Lemma set_puma_fb_eta (rush : voodoo_rush_t) : set_puma_fb (puma_fb rush) rush = rush.
Proof. destruct rush; reflexivity. Qed.

Lemma fb_only_refl rush : fb_only rush rush.
Proof. unfold fb_only. symmetry. apply set_puma_fb_eta. Qed.

Lemma fb_only_set rush fb : fb_only rush (set_puma_fb fb rush).
Proof. reflexivity. Qed.

Lemma fb_only_trans r1 r2 r3 : fb_only r1 r2 -> fb_only r2 r3 -> fb_only r1 r3.
Proof. unfold fb_only. intros H12 H23. rewrite H23 at 1. rewrite H12. reflexivity. Qed.

Lemma fastfill_pixel_frame cb db fc za co ao rush x :
  fb_only rush (fastfill_pixel cb db fc za co ao rush x).
Proof.
  unfold fastfill_pixel.
  destruct (puma_fb_size rush <=? _); [apply fb_only_refl|].
  destruct cb.
  - match goal with |- context [if ?c then _ else _] => destruct c end;
      [|apply fb_only_set].
    eapply fb_only_trans; apply fb_only_set.
  - match goal with |- context [if ?c then _ else _] => destruct c end;
      [apply fb_only_set|apply fb_only_refl].
Qed.

Lemma foldl_frame {A} (f : voodoo_rush_t -> A -> voodoo_rush_t) (l : list A) :
  (forall rush x, fb_only rush (f rush x)) ->
  forall rush, fb_only rush (foldl f rush l).
Proof.
  intros Hf. induction l as [|x l IH]; intros rush; cbn [foldl].
  - apply fb_only_refl.
  - eapply fb_only_trans; [apply Hf|apply IH].
Qed.

Lemma fastfill_frame rush : fb_only rush (fastfill rush).
Proof.
  unfold voodoo_rush_fastfill.
  destruct (negb (enabled rush)); [apply fb_only_refl|].
  cbv zeta. apply foldl_frame. intros r y. apply foldl_frame.
  intros r' x. apply fastfill_pixel_frame.
Qed.

Lemma render_triangle_frame rush : engine_only rush (render_triangle rush).
Proof.
  unfold engine_only, voodoo_rush_render_triangle.
  destruct (voodoo rush) as [v|]; [destruct (negb (enabled rush))|];
    try reflexivity; destruct rush; reflexivity.
Qed.

(** Case analysis on the register number of a [switch]. *)
Ltac reg_cases :=
  repeat match goal with
    | |- context [match ?x with _ => _ end] =>
        match type of x with
        | Z => destruct x
        | positive => destruct x
        end
    end.

(** A projection that neither the fast fill, nor a triangle command, nor
    the other side effects reach is the same before and after a write. *)
Ltac reg_write_frame :=
  intros; unfold voodoo_rush_reg_write;
  match goal with |- context [256 <=? ?reg] => destruct (256 <=? reg) end;
  [reflexivity|];
  cbv zeta; reg_cases; try reflexivity;
  try (match goal with
       | |- context [voodoo_rush_fastfill ?a ?b ?r] =>
           rewrite (fastfill_frame r); reflexivity
       | |- context [voodoo_rush_render_triangle ?a ?r] =>
           rewrite (render_triangle_frame r); reflexivity
       end);
  repeat match goal with
    | |- context [if ?c then _ else _] => destruct c
    end; reflexivity.

Lemma reg_write_regs rush reg val :
  regs (reg_write rush reg val)
  = if 256 <=? reg then regs rush else <[Z.to_nat reg := val]> (regs rush).
Proof. reg_write_frame. Qed.

Lemma reg_write_entry_count rush reg val :
  cmdfifo_entry_count (reg_write rush reg val) = cmdfifo_entry_count rush.
Proof. reg_write_frame. Qed.

Lemma reg_write_mode rush reg val :
  puma_mode_8mb (reg_write rush reg val) = puma_mode_8mb rush.
Proof. reg_write_frame. Qed.

Lemma reg_write_fb_mask rush reg val :
  puma_fb_mask (reg_write rush reg val) = puma_fb_mask rush.
Proof. reg_write_frame. Qed.

Lemma reg_write_regs_length rush reg val :
  length (regs (reg_write rush reg val)) = length (regs rush).
Proof.
  rewrite reg_write_regs. destruct (256 <=? reg); [reflexivity|].
  apply length_insert.
Qed.

Lemma word_at_insert (l : list Z) (i v : Z) :
  0 <= i -> (Z.to_nat i < length l)%nat -> word_at (<[Z.to_nat i := v]> l) i = v.
Proof.
  intros Hi Hlen. unfold word_at. rewrite list_lookup_insert_eq by exact Hlen.
  reflexivity.
Qed.

(** ** The raw slot of a register *)

(** C4.  For every register index [N < 256] and every value [v], after
    [reg_write (N, v)] the raw storage slot of index [N] holds [v], whatever
    side effect or typed mirror the write also has. *)
Theorem reg_write_raw_slot (rush : voodoo_rush_t) (N v : Z) :
  length (regs rush) = 256%nat ->
  0 <= N < 256 ->
  word_at (regs (reg_write rush N v)) N = v.
Proof.
  intros Hlen HN. rewrite reg_write_regs.
  destruct (256 <=? N) eqn:E; [apply Z.leb_le in E; lia|].
  apply word_at_insert; [lia|]. rewrite Hlen. lia.
Qed.

(** ** Registers with a bit-width mask *)

(** C2, as amended.  For each register whose write handler applies a
    bit-width mask (fog mode 6 bits, colour path 28 bits, FBZ mode 20 bits,
    chroma key 24 bits, chroma range 29 bits, aux buffer setup 31 bits) the
    typed field holds the written value with exactly that mask applied.
    Read back through [reg_read], only the aux buffer setup register
    returns the masked value; the other five are read from the raw slot and
    return the value as it was written. *)
Theorem masked_register_write (rush : voodoo_rush_t) (val : Z) :
  length (regs rush) = 256%nat ->
  (fog_mode (reg_write rush SST96_FOG_MODE val) = Z.land val 0x3f
   /\ fbz_color_path (reg_write rush SST96_FBZ_COLOR_PATH val) = Z.land val 0x0fffffff
   /\ fbz_mode (reg_write rush SST96_FBZ_MODE val) = Z.land val 0xfffff
   /\ chroma_key (reg_write rush SST96_CHROMA_KEY val) = Z.land val 0xffffff
   /\ chroma_range (reg_write rush SST96_CHROMA_RANGE val) = Z.land val 0x1fffffff
   /\ aux_buffer_setup (reg_write rush SST96_AUX_BUFFER_SETUP val)
      = Z.land val 0x7fffffff)
  /\ voodoo_rush_reg_read (reg_write rush SST96_AUX_BUFFER_SETUP val)
       SST96_AUX_BUFFER_SETUP = Z.land val 0x7fffffff
  /\ (voodoo_rush_reg_read (reg_write rush SST96_FOG_MODE val) SST96_FOG_MODE = val
      /\ voodoo_rush_reg_read (reg_write rush SST96_FBZ_COLOR_PATH val)
           SST96_FBZ_COLOR_PATH = val
      /\ voodoo_rush_reg_read (reg_write rush SST96_FBZ_MODE val) SST96_FBZ_MODE = val
      /\ voodoo_rush_reg_read (reg_write rush SST96_CHROMA_KEY val)
           SST96_CHROMA_KEY = val
      /\ voodoo_rush_reg_read (reg_write rush SST96_CHROMA_RANGE val)
           SST96_CHROMA_RANGE = val).
Proof.
  intros Hlen.
  assert (Hraw : forall N, 0 <= N < 256 -> word_at (regs (reg_write rush N val)) N = val).
  { intros N HN. rewrite reg_write_regs.
    destruct (Z.leb_spec 256 N); [lia|].
    apply word_at_insert; [lia|rewrite Hlen; lia]. }
  split; [repeat split; reflexivity|].
  split; [reflexivity|].
  repeat split.
  - exact (Hraw SST96_FOG_MODE ltac:(lia)).
  - exact (Hraw SST96_FBZ_COLOR_PATH ltac:(lia)).
  - exact (Hraw SST96_FBZ_MODE ltac:(lia)).
  - exact (Hraw SST96_CHROMA_KEY ltac:(lia)).
  - exact (Hraw SST96_CHROMA_RANGE ltac:(lia)).
Qed.

(** ** Pending swaps *)

Lemma swap_append_step rush v :
  swap_pending (reg_write rush SST96_SWAPPEND_CMD v) = Z.min 7 (swap_pending rush + 1).
Proof.
  unfold voodoo_rush_reg_write. cbn.
  destruct (7 <? swap_pending rush + 1) eqn:E; cbn.
  - apply Z.ltb_lt in E. lia.
  - apply Z.ltb_ge in E. lia.
Qed.

Lemma swap_appends_pending vals : forall rush,
  vals <> [] ->
  swap_pending (swap_appends rush vals)
  = Z.min 7 (swap_pending rush + Z.of_nat (length vals)).
Proof.
  induction vals as [|v vals IH]; intros rush Hne; [congruence|].
  unfold swap_appends in *. cbn [foldl length].
  destruct vals as [|v' vals].
  - cbn [foldl length]. rewrite swap_append_step. reflexivity.
  - rewrite IH by discriminate. rewrite swap_append_step.
    cbn [length]. lia.
Qed.

(** C8.  Each write to the swap-append command register increments the
    pending-swap counter, clamped to a maximum of 7; from any value the
    counter can start at, ten consecutive swap-append commands leave it at
    exactly 7. *)
Theorem swap_append_saturates (rush : voodoo_rush_t) (vals : list Z) :
  0 <= swap_pending rush < 2 ^ 31 - 1 ->
  length vals = 10%nat ->
  (forall v, swap_pending (reg_write rush SST96_SWAPPEND_CMD v)
             = Z.min 7 (swap_pending rush + 1))
  /\ swap_pending (swap_appends rush vals) = 7.
Proof.
  intros Hs Hlen. split; [intros v; apply swap_append_step|].
  rewrite swap_appends_pending by (intros ->; discriminate).
  rewrite Hlen. lia.
Qed.

(** ** Reset *)

Lemma word_at_zeros (n : nat) (i : Z) : word_at (replicate n 0) i = 0.
Proof.
  unfold word_at. destruct (replicate n 0 !! Z.to_nat i) as [x|] eqn:E; [|reflexivity].
  apply lookup_replicate in E. cbn. tauto.
Qed.

(** C3, as amended.  After reset every register index reads back zero
    through [reg_read], except the registers whose read is computed from
    state the reset does not clear: INIT0 to INIT3 read back their
    defaults, and the version register keeps the version word, which is
    [0x00010201] on a device that comes from [voodoo_rush_init].  The
    triangle parameters, the CMDFIFO count, pointer and enable, and the swap
    state are zeroed; the frame buffer and texture regions are kept as they
    are. *)
Theorem reset_readback (rush : voodoo_rush_t) :
  length (fbijr_init rush) = 6%nat ->
  let rush' := voodoo_rush_reset rush in
  (forall reg, retained_read reg = false -> voodoo_rush_reg_read rush' reg = 0)
  /\ (voodoo_rush_reg_read rush' SST96_FBIJR_INIT0 = 0x0000f201
      /\ voodoo_rush_reg_read rush' SST96_FBIJR_INIT1 = 0x01800000
      /\ voodoo_rush_reg_read rush' SST96_FBIJR_INIT2 = 0x00070d2d
      /\ voodoo_rush_reg_read rush' SST96_FBIJR_INIT3 = 0x00180600)
  /\ (voodoo_rush_reg_read rush' SST96_FBIJR_VERSION = fbijr_version rush
      /\ forall mode_8mb,
           voodoo_rush_reg_read (voodoo_rush_reset (voodoo_rush_init mode_8mb))
             SST96_FBIJR_VERSION = 0x00010201)
  /\ (regs rush' = replicate 256 0
      /\ triangle rush' = triangle_zero
      /\ ftriangle rush' = replicate 30 0
      /\ status rush' = 0
      /\ cmdfifo_enabled rush' = false
      /\ cmdfifo_entry_count rush' = 0
      /\ cmdfifo_read_ptr rush' = 0
      /\ swap_pending rush' = 0
      /\ swap_req rush' = false)
  /\ (puma_fb rush' = puma_fb rush
      /\ puma_fb_size rush' = puma_fb_size rush
      /\ puma_fb_mask rush' = puma_fb_mask rush
      /\ puma_tex rush' = puma_tex rush
      /\ puma_tex_size rush' = puma_tex_size rush
      /\ puma_tex_mask rush' = puma_tex_mask rush).
Proof.
  intros Hlen rush'.
  split.
  { intros reg Hreg. unfold voodoo_rush_reg_read.
    destruct (256 <=? reg); [reflexivity|].
    unfold retained_read in Hreg.
    reg_cases; try discriminate Hreg; try reflexivity; apply word_at_zeros. }
  split.
  { destruct rush as [? ? ? ? ? ? ? ? ? ? ? ? ? ? init]; cbn in Hlen.
    do 6 (destruct init as [|? init]; [discriminate Hlen|]).
    repeat split; reflexivity. }
  split; [split; [reflexivity|intros mode; reflexivity]|].
  split; repeat split; reflexivity.
Qed.

(** ** Fast fill *)

Lemma foldl_id {A B} (f : A -> B -> A) (l : list B) (a : A) :
  (forall a x, f a x = a) -> foldl f a l = a.
Proof.
  intros Hf. induction l as [|x l IH]; cbn [foldl]; [reflexivity|].
  rewrite Hf. exact IH.
Qed.

(** C7.  If both the colour-write mask bit and the depth-write mask bit of
    the FBZ mode register are clear, a fast fill with any clip rectangle,
    buffer setup and fill colour leaves every byte of the frame buffer
    region unchanged (and with it the rest of the device). *)
Theorem fastfill_masks_clear (rush : voodoo_rush_t) :
  Z.land (fbz_mode rush) FBZ_RGB_WMASK = 0 ->
  Z.land (fbz_mode rush) FBZ_DEPTH_WMASK = 0 ->
  fastfill rush = rush
  /\ forall a, load8 (puma_fb (fastfill rush)) a = load8 (puma_fb rush) a.
Proof.
  intros Hrgb Hdepth.
  assert (E : fastfill rush = rush).
  { unfold voodoo_rush_fastfill.
    destruct (negb (enabled rush)); [reflexivity|].
    cbv zeta. rewrite Hrgb, Hdepth. cbn [truthy Z.eqb negb].
    apply foldl_id. intros r y. apply foldl_id. intros r' x.
    unfold fastfill_pixel. cbn [andb].
    destruct (puma_fb_size r' <=? _); reflexivity. }
  split; [exact E|]. intros a. rewrite E. reflexivity.
Qed.

(** ** 24-bit two's complement *)

Lemma land_pow2 (a n : Z) :
  0 <= n -> Z.land a (2 ^ n) = if Z.testbit a n then 2 ^ n else 0.
Proof.
  intros Hn. apply Z.bits_inj'. intros m Hm.
  rewrite Z.land_spec, Z.pow2_bits_eqb by exact Hn.
  destruct (Z.eqb_spec n m) as [->|Hne].
  - destruct (Z.testbit a m); cbn.
    + rewrite Z.pow2_bits_true by exact Hm. reflexivity.
    + rewrite Z.bits_0. reflexivity.
  - rewrite andb_false_r.
    destruct (Z.testbit a n).
    + rewrite Z.pow2_bits_false by (exact Hne). reflexivity.
    + rewrite Z.bits_0. reflexivity.
Qed.

Lemma truthy_bit23 (v : Z) : truthy (Z.land v 0x800000) = Z.testbit v 23.
Proof.
  change 0x800000 with (2 ^ 23). rewrite land_pow2 by lia.
  destruct (Z.testbit v 23); reflexivity.
Qed.

Lemma land_low24 (v : Z) : Z.land v 0xffffff = v mod 2 ^ 24.
Proof. change 0xffffff with (Z.ones 24). apply Z.land_ones. lia. Qed.

Lemma bit23_low24 (v : Z) :
  Z.testbit v 23 = negb (v mod 2 ^ 24 <? 2 ^ 23).
Proof.
  rewrite Z.testbit_eqb by lia.
  change (2 ^ 24) with (2 ^ 23 * 2). rewrite Z.rem_mul_r by lia.
  pose proof (Z.mod_pos_bound v (2 ^ 23) ltac:(lia)).
  pose proof (Z.mod_pos_bound (v / 2 ^ 23) 2 ltac:(lia)).
  destruct (Z.eqb_spec ((v / 2 ^ 23) mod 2) 1) as [E|E];
    destruct (Z.ltb_spec (v mod 2 ^ 23 + 2 ^ 23 * ((v / 2 ^ 23) mod 2)) (2 ^ 23));
    cbn; try reflexivity; lia.
Qed.

Lemma testbit_top_byte (m : Z) :
  0 <= m -> Z.testbit 0xff000000 m = (24 <=? m) && (m <? 32).
Proof.
  intros Hm. change 0xff000000 with (Z.shiftl (Z.ones 8) 24).
  rewrite Z.shiftl_spec by exact Hm. rewrite Z.testbit_ones by lia.
  destruct (Z.leb_spec 24 m), (Z.ltb_spec m 32), (Z.leb_spec 0 (m - 24)),
    (Z.ltb_spec (m - 24) 8); cbn; try reflexivity; lia.
Qed.

Lemma lor_top_byte (v : Z) :
  Z.lor v 0xff000000 mod 2 ^ 32 = v mod 2 ^ 24 + 0xff000000.
Proof.
  rewrite <- (Z.add_lor_land (v mod 2 ^ 24) 0xff000000).
  assert (E : Z.land (v mod 2 ^ 24) 0xff000000 = 0).
  { apply Z.bits_inj'. intros m Hm.
    rewrite Z.land_spec, Z.testbit_mod_pow2, testbit_top_byte, Z.bits_0 by lia.
    destruct (Z.ltb_spec m 24), (Z.leb_spec 24 m); cbn; try reflexivity; lia. }
  rewrite E, Z.add_0_r.
  apply Z.bits_inj'. intros m Hm.
  rewrite Z.testbit_mod_pow2, !Z.lor_spec, Z.testbit_mod_pow2, testbit_top_byte by lia.
  destruct (Z.ltb_spec m 32), (Z.ltb_spec m 24), (Z.leb_spec 24 m);
    cbn; rewrite ?orb_false_r, ?orb_true_r; try reflexivity; lia.
Qed.

Lemma gradient24_twos_complement (val : Z) : gradient24 val = twos_complement24 val.
Proof.
  unfold gradient24, twos_complement24, to_int32. cbv zeta.
  rewrite truthy_bit23, bit23_low24.
  pose proof (Z.mod_pos_bound val (2 ^ 24) ltac:(lia)) as Hu.
  destruct (Z.ltb_spec (val mod 2 ^ 24) (2 ^ 23)) as [Hlt|Hge]; cbn [negb].
  - rewrite land_low24. rewrite (Z.mod_small (val mod 2 ^ 24)) by lia.
    destruct (Z.ltb_spec (val mod 2 ^ 24) (2 ^ 31)); [reflexivity|lia].
  - rewrite lor_top_byte.
    destruct (Z.ltb_spec (val mod 2 ^ 24 + 0xff000000) (2 ^ 31)); lia.
Qed.

(** C6.  A write to a colour gradient register stores the value
    sign-extended from bit 23 (the top byte OR-ed in) when bit 23 is set and
    masked to 24 bits when it is clear: the stored gradient is the 24-bit
    two's-complement reading of the written value, and the parameter block
    receives it shifted down by 12.  Writing [0x800000] to the dR/dX register
    stores [-8388608] and hands a negative gradient to the engine. *)
Theorem gradient_write_sign_extends (rush : voodoo_rush_t) (val : Z) :
  (Z.testbit val 23 = true -> gradient24 val = to_int32 (Z.lor val 0xff000000))
  /\ (Z.testbit val 23 = false -> gradient24 val = Z.land val 0xffffff)
  /\ Forall
       (fun '(reg, field) =>
          field (triangle (reg_write rush reg val)) = twos_complement24 val)
       gradient_registers
  /\ Forall
       (fun '(field, param) =>
          forall rush, param (sst96_to_voodoo_params rush)
                       = Z.shiftr (field (triangle rush)) 12)
       gradient_params
  /\ dRdX (triangle (reg_write rush SST96_DRDX 0x800000)) = -8388608
  /\ Voodoo.dRdX (sst96_to_voodoo_params (reg_write rush SST96_DRDX 0x800000)) = -2048.
Proof.
  split.
  { intros Hb. unfold gradient24. rewrite truthy_bit23, Hb. reflexivity. }
  split.
  { intros Hb. unfold gradient24. rewrite truthy_bit23, Hb. cbn [negb].
    rewrite land_low24. unfold to_int32. cbv zeta.
    pose proof (Z.mod_pos_bound val (2 ^ 24) ltac:(lia)) as Hu.
    rewrite (Z.mod_small (val mod 2 ^ 24)) by lia.
    destruct (Z.ltb_spec (val mod 2 ^ 24) (2 ^ 31)); [reflexivity|lia]. }
  split.
  { unfold gradient_registers.
    repeat (apply Forall_cons; split; [apply gradient24_twos_complement|]).
    apply Forall_nil_2. }
  split.
  { unfold gradient_params.
    repeat (apply Forall_cons; split; [intros r; reflexivity|]).
    apply Forall_nil_2. }
  split; reflexivity.
Qed.

(** ** Reads through the PUMA aperture *)

Lemma sign_extend24_spec (ret : Z) :
  sign_extend24 ret
  = if Z.testbit ret 23 then Z.land ret 0xffffff + 0xff000000 else Z.land ret 0xffffff.
Proof.
  unfold sign_extend24, wrap32, to_int32. cbv zeta.
  rewrite bit23_low24, land_low24.
  pose proof (Z.mod_pos_bound ret (2 ^ 24) ltac:(lia)) as Hu.
  rewrite Z.shiftl_mul_pow2 by lia.
  replace (ret * 2 ^ 8) with (2 ^ 8 * ret) by lia.
  change (2 ^ 32) with (2 ^ 8 * 2 ^ 24).
  rewrite Z.mul_mod_distr_l by lia.
  rewrite (Z.mod_small (2 ^ 8 * (ret mod 2 ^ 24))) by lia.
  rewrite Z.shiftr_div_pow2 by lia.
  destruct (Z.ltb_spec (ret mod 2 ^ 24) (2 ^ 23)) as [Hlt|Hge]; cbn [negb].
  - destruct (Z.ltb_spec (2 ^ 8 * (ret mod 2 ^ 24)) (2 ^ 31)); [|lia].
    rewrite Z.mul_comm, Z.div_mul by lia. apply Z.mod_small. lia.
  - destruct (Z.ltb_spec (2 ^ 8 * (ret mod 2 ^ 24)) (2 ^ 31)); [lia|].
    replace (2 ^ 8 * (ret mod 2 ^ 24) - 2 ^ 8 * 2 ^ 24)
      with ((ret mod 2 ^ 24 - 2 ^ 24) * 2 ^ 8) by lia.
    rewrite Z.div_mul by lia.
    replace (ret mod 2 ^ 24 - 2 ^ 24)
      with (ret mod 2 ^ 24 + 0xff000000 + (-1) * (2 ^ 8 * 2 ^ 24)) by lia.
    rewrite Z.mod_add by lia. apply Z.mod_small. lia.
Qed.

Lemma reg_read_raw_slot rush reg :
  SST96_DRDX <= reg <= SST96_DADY ->
  voodoo_rush_reg_read rush reg = word_at (regs rush) reg.
Proof.
  intros Hreg. unfold voodoo_rush_reg_read.
  destruct (Z.leb_spec 256 reg); [lia|].
  reg_cases; first [reflexivity | lia].
Qed.

(** C10.  A PUMA read that decodes to a register index from [0x009] (dRdX)
    to [0x016] (dAdY) returns the raw register value sign-extended from bit
    23 to 32 bits.  The range holds the start registers of G, B, Z and A
    too: a start value with bit 23 set reads back with its top eight bits
    set. *)
Theorem puma_read_sign_extends (rush : voodoo_rush_t) (addr : Z) :
  enabled rush = true ->
  puma_fb_size rush <= addr ->
  reg_window_start (puma_mode_8mb rush) <= addr < reg_window_end (puma_mode_8mb rush) ->
  let reg := puma_addr_to_reg addr (puma_mode_8mb rush) in
  let raw := voodoo_rush_reg_read rush reg in
  SST96_DRDX <= reg <= SST96_DADY ->
  voodoo_rush_puma_read addr rush
  = (if Z.testbit raw 23 then Z.land raw 0xffffff + 0xff000000 else Z.land raw 0xffffff)
  /\ raw = word_at (regs rush) reg
  /\ (Z.testbit raw 23 = true -> Z.shiftr (voodoo_rush_puma_read addr rush) 24 = 0xff)
  /\ Forall (fun start => SST96_DRDX <= start <= SST96_DADY)
       [SST96_START_G; SST96_START_B; SST96_START_Z; SST96_START_A].
Proof.
  intros Hen Hfb [Hlo Hhi] reg raw [Hr1 Hr2].
  assert (E : voodoo_rush_puma_read addr rush
              = if Z.testbit raw 23 then Z.land raw 0xffffff + 0xff000000
                else Z.land raw 0xffffff).
  { unfold voodoo_rush_puma_read. rewrite Hen. cbn [negb]. cbv zeta.
    destruct (Z.ltb_spec addr (puma_fb_size rush)); [lia|].
    destruct (Z.leb_spec (reg_window_start (puma_mode_8mb rush)) addr); [|lia].
    destruct (Z.ltb_spec addr (reg_window_end (puma_mode_8mb rush))); [|lia].
    cbn [andb]. fold reg. fold raw.
    destruct (Z.leb_spec SST96_DRDX reg); [|lia].
    destruct (Z.leb_spec reg SST96_DADY); [|lia].
    cbn [andb]. apply sign_extend24_spec. }
  split; [exact E|].
  split; [apply reg_read_raw_slot; split; assumption|].
  split.
  - intros Hb. rewrite E, Hb, land_low24.
    pose proof (Z.mod_pos_bound raw (2 ^ 24) ltac:(lia)) as Hu.
    rewrite Z.shiftr_div_pow2 by lia.
    replace (raw mod 2 ^ 24 + 0xff000000) with (raw mod 2 ^ 24 + 0xff * 2 ^ 24) by lia.
    rewrite Z.div_add by lia. rewrite Z.div_small by lia. reflexivity.
  - repeat (apply Forall_cons; split; [lia|]). apply Forall_nil_2.
Qed.

(** ** The command FIFO *)

Lemma wrap32_range (x : Z) : 0 <= wrap32 x < 2 ^ 32.
Proof. unfold wrap32. apply Z.mod_pos_bound. lia. Qed.

Lemma wrap32_small (x : Z) : 0 <= x < 2 ^ 32 -> wrap32 x = x.
Proof. unfold wrap32. apply Z.mod_small. Qed.

Lemma cmdfifo_reg_write_entry_count rush reg_addr data :
  cmdfifo_entry_count (cmdfifo_reg_write rush reg_addr data) = cmdfifo_entry_count rush.
Proof.
  unfold cmdfifo_reg_write. cbv zeta.
  destruct (_ && _); [apply reg_write_entry_count|reflexivity].
Qed.

Lemma cmdfifo_reg_write_mode rush reg_addr data :
  puma_mode_8mb (cmdfifo_reg_write rush reg_addr data) = puma_mode_8mb rush.
Proof.
  unfold cmdfifo_reg_write. cbv zeta.
  destruct (_ && _); [apply reg_write_mode|reflexivity].
Qed.

Lemma cmdfifo_reg_write_fb_mask rush reg_addr data :
  puma_fb_mask (cmdfifo_reg_write rush reg_addr data) = puma_fb_mask rush.
Proof.
  unfold cmdfifo_reg_write. cbv zeta.
  destruct (_ && _); [apply reg_write_fb_mask|reflexivity].
Qed.

Lemma grouped_writes_entry_count base_addr mask (l : list Z) : forall rush read_addr,
  cmdfifo_entry_count (foldl (grouped_write base_addr mask) (rush, read_addr) l).1
  = cmdfifo_entry_count rush.
Proof.
  induction l as [|i l IH]; intros rush read_addr; cbn [foldl]; [reflexivity|].
  unfold grouped_write at 2.
  destruct (mask_bit mask i); [|apply IH].
  rewrite IH. apply cmdfifo_reg_write_entry_count.
Qed.

(** A packet that is drained takes one entry off the count. *)
Lemma cmdfifo_packet_entry_count base top size rush rush' :
  cmdfifo_packet base top size rush = Some rush' ->
  cmdfifo_entry_count rush' = wrap32 (cmdfifo_entry_count rush - 1).
Proof.
  unfold cmdfifo_packet. cbv zeta.
  destruct (_ || _); [discriminate|].
  destruct (_ && _); [intros [= <-]; reflexivity|].
  destruct (truthy _).
  - destruct (_ || _); [intros [= <-]; reflexivity|].
    unfold grouped_writes.
    match goal with
    | |- context [foldl ?f (rush, ?a) ?l] =>
        pose proof (grouped_writes_entry_count
                      (Z.land (Z.shiftr (load32 (puma_fb rush)
                         (Z.land (cmdfifo_read_addr base size rush) (puma_fb_mask rush))) 2)
                         0x1fffff)
                      (load32 (puma_fb rush)
                         (Z.land (wrap32 (cmdfifo_read_addr base size rush + 4))
                            (puma_fb_mask rush)))
                      l rush a) as Hc;
        destruct (foldl f (rush, a) l) as [r2 a2]
    end.
    cbn [fst] in Hc. intros [= <-]. cbn. rewrite Hc. reflexivity.
  - intros [= <-]. cbn. rewrite cmdfifo_reg_write_entry_count. reflexivity.
Qed.

Lemma drain_loop_done fuel base top size max_process processed rush :
  cmdfifo_entry_count rush <= 0 \/ max_process <= processed ->
  drain_loop fuel base top size max_process processed rush = rush.
Proof.
  intros H. destruct fuel as [|fuel]; [reflexivity|]. cbn [drain_loop].
  destruct (Z.ltb_spec 0 (cmdfifo_entry_count rush)),
    (Z.ltb_spec processed max_process); cbn [andb]; try reflexivity; lia.
Qed.

(** The drain loop has run to its end once the fuel reaches the entry
    count: more fuel gives the same device. *)
Lemma drain_loop_fuel base top size max_process : forall fuel fuel' processed rush,
  (Z.to_nat (cmdfifo_entry_count rush) <= fuel)%nat ->
  (fuel <= fuel')%nat ->
  drain_loop fuel' base top size max_process processed rush
  = drain_loop fuel base top size max_process processed rush.
Proof.
  induction fuel as [|fuel IH]; intros fuel' processed rush Hc Hf.
  - rewrite !drain_loop_done by lia. reflexivity.
  - destruct fuel' as [|fuel']; [lia|]. cbn [drain_loop].
    destruct (Z.ltb_spec 0 (cmdfifo_entry_count rush)); [|reflexivity].
    destruct (processed <? max_process); [|reflexivity]. cbn [andb].
    destruct (cmdfifo_packet base top size rush) as [rush'|] eqn:E; [|reflexivity].
    apply IH; [|lia].
    rewrite (cmdfifo_packet_entry_count _ _ _ _ _ E).
    unfold wrap32.
    pose proof (Z.mod_le (cmdfifo_entry_count rush - 1) (2 ^ 32) ltac:(lia) ltac:(lia)).
    lia.
Qed.

(** *** NOP packets *)

Lemma load8_store8 (m : gmap Z Z) (a v b : Z) :
  load8 (store8 a v m) b = if decide (a = b) then v mod 256 else load8 m b.
Proof.
  unfold load8, store8. rewrite lookup_insert.
  destruct (decide (a = b)); reflexivity.
Qed.

(** A byte of a region after a zero word was stored at [a]. *)
Lemma load8_store32_zero (m : gmap Z Z) (a b : Z) :
  load8 (store32 m a 0) b = if (a <=? b) && (b <? a + 4) then 0 else load8 m b.
Proof.
  unfold store32. rewrite !load8_store8. change (Z.shiftr 0 _) with 0.
  change (0 mod 256) with 0.
  repeat match goal with |- context [decide ?P] => destruct (decide P) end;
    destruct (Z.leb_spec a b), (Z.ltb_spec b (a + 4)); cbn [andb];
    try reflexivity; lia.
Qed.

(** After the two zero words of a NOP packet are stored, both read as zero,
    wherever the two stores land. *)
Lemma load32_nop (m : gmap Z Z) (p q : Z) :
  let m' := store32 (store32 m p 0) q 0 in
  load32 m' p = 0 /\ load32 m' q = 0.
Proof.
  cbv zeta. unfold load32. rewrite !load8_store32_zero.
  split;
    repeat match goal with
      | |- context [(?x <=? ?y) && (?y <? ?z)] =>
          destruct (Z.leb_spec x y), (Z.ltb_spec y z); cbn [andb]; try lia
      end; reflexivity.
Qed.

Lemma shiftl3_aligned (x : Z) : Z.land (wrap32 (Z.shiftl x 3)) 7 = 0.
Proof.
  unfold wrap32. rewrite Z.shiftl_mul_pow2 by lia.
  change 7 with (Z.ones 3). rewrite Z.land_ones by lia.
  replace (x * 2 ^ 3) with (2 ^ 3 * x) by lia.
  change (2 ^ 32) with (2 ^ 3 * 2 ^ 29). rewrite Z.mul_mod_distr_l by lia.
  rewrite Z.mul_comm. apply Z.mod_mul. lia.
Qed.

(** The offset of the read address into the ring is a multiple of 8. *)
Lemma ring_offset_aligned (x y : Z) : Z.land (Z.land (wrap32 (Z.shiftl x 3)) y) 7 = 0.
Proof.
  rewrite <- Z.land_assoc, (Z.land_comm y 7), Z.land_assoc, shiftl3_aligned.
  apply Z.land_0_l.
Qed.

Lemma land_wrap32_range (a y : Z) : 0 <= Z.land (wrap32 a) y < 2 ^ 32.
Proof.
  unfold wrap32. rewrite <- (Z.land_ones a 32) by lia.
  rewrite <- Z.land_assoc, (Z.land_comm (Z.ones 32) y), Z.land_assoc.
  rewrite Z.land_ones by lia. apply Z.mod_pos_bound. lia.
Qed.

Lemma ring_offset_facts rush :
  0 <= ring_offset rush < 2 ^ 32
  /\ ring_offset rush mod 8 = 0
  /\ wrap32 (ring_read_addr rush - ring_base rush) = ring_offset rush.
Proof.
  pose proof (land_wrap32_range (Z.shiftl (cmdfifo_read_ptr rush) 3)
                (wrap32 (Z.shiftl (ring_size rush) 3))) as Hr.
  pose proof (ring_offset_aligned (cmdfifo_read_ptr rush)
                (wrap32 (Z.shiftl (ring_size rush) 3))) as Ha.
  change 7 with (Z.ones 3) in Ha. rewrite Z.land_ones in Ha by lia.
  fold (ring_offset rush) in Hr, Ha.
  split; [exact Hr|]. split; [exact Ha|].
  unfold ring_read_addr, cmdfifo_read_addr. fold (ring_offset rush).
  unfold wrap32 at 1 2. rewrite Zminus_mod_idemp_l.
  replace (ring_base rush + ring_offset rush - ring_base rush)
    with (ring_offset rush) by lia.
  apply Z.mod_small. exact Hr.
Qed.

(** A slot inside the ring: the ring is not empty. *)
Lemma ring_size_pos rush :
  ring_base rush <= ring_read_addr rush ->
  ring_read_addr rush + 8 <= ring_top rush ->
  0 < ring_size rush.
Proof.
  intros Hlo Hhi. unfold ring_size.
  pose proof (wrap32_range (Z.shiftl (cmdfifo_bottom_page rush) 12)) as Hb.
  pose proof (wrap32_range (Z.shiftl (cmdfifo_top_page rush) 12)) as Ht.
  fold (ring_base rush) in Hb. fold (ring_top rush) in Ht.
  rewrite wrap32_small by lia.
  rewrite Z.shiftr_div_pow2 by lia.
  apply Z.div_str_pos. change (2 ^ 3) with 8. lia.
Qed.

Lemma nop_packet_step base top size rush :
  let read_addr := cmdfifo_read_addr base size rush in
  base <= read_addr ->
  wrap32 (read_addr + 8) <= top ->
  load32 (puma_fb rush) (Z.land read_addr (puma_fb_mask rush)) = 0 ->
  load32 (puma_fb rush) (Z.land (wrap32 (read_addr + 4)) (puma_fb_mask rush)) = 0 ->
  cmdfifo_packet base top size rush = Some (skip_packet size rush).
Proof.
  intros read_addr Hlo Hhi HH HD. unfold cmdfifo_packet. cbv zeta.
  fold read_addr. rewrite HH, HD.
  destruct (Z.ltb_spec read_addr base); [lia|].
  destruct (Z.ltb_spec top (wrap32 (read_addr + 8))); [lia|].
  reflexivity.
Qed.

Lemma drain_loop_one fuel base top size max_process rush rush' :
  cmdfifo_packet base top size rush = Some rush' ->
  0 < cmdfifo_entry_count rush ->
  0 < max_process ->
  cmdfifo_entry_count rush' <= 0 \/ max_process <= 1 ->
  drain_loop (S fuel) base top size max_process 0 rush = rush'.
Proof.
  intros E Hc Hm Hstop. cbn [drain_loop]. rewrite E.
  destruct (Z.ltb_spec 0 (cmdfifo_entry_count rush)); [|lia].
  destruct (Z.ltb_spec 0 max_process); [|lia]. cbn [andb].
  apply drain_loop_done. lia.
Qed.

Lemma write_nop_drained rush :
  cmdfifo_enabled rush = true ->
  ring_base rush <= ring_read_addr rush ->
  ring_read_addr rush + 8 <= ring_top rush ->
  drains_one_packet rush ->
  exists fb st,
    write_nop rush
    = set_status st
        (set_cmdfifo_entry_count (cmdfifo_entry_count rush)
           (set_cmdfifo_read_ptr
              (wrap32 (cmdfifo_read_ptr rush + 2) mod ring_size rush)
              (set_puma_fb fb rush))).
Proof.
  intros Hen Hlo Hhi Hone.
  destruct (ring_offset_facts rush) as (Hr & Ha & Hoff).
  pose proof (wrap32_range (Z.shiftl (cmdfifo_bottom_page rush) 12)) as Hb.
  pose proof (wrap32_range (Z.shiftl (cmdfifo_top_page rush) 12)) as Ht.
  fold (ring_base rush) in Hb. fold (ring_top rush) in Ht.
  set (A := ring_read_addr rush) in *.
  set (fb1 := store32 (puma_fb rush) (Z.land A (puma_fb_mask rush)) 0).
  set (fb2 := store32 fb1 (Z.land (A + 4) (puma_fb_mask rush)) 0).
  assert (E1 : cmdfifo_write rush A 0 = set_puma_fb fb1 rush).
  { unfold voodoo_rush_cmdfifo_write. rewrite Hen. cbn [negb]. cbv zeta.
    fold (ring_base rush) (ring_top rush).
    destruct (Z.ltb_spec A (ring_base rush)); [lia|].
    destruct (Z.leb_spec (ring_top rush) A); [lia|]. cbn [orb].
    rewrite Hoff. change 7 with (Z.ones 3). rewrite Z.land_ones by lia.
    change (2 ^ 3) with 8. rewrite Ha. reflexivity. }
  assert (Hoff4 : wrap32 (A + 4 - ring_base rush) = ring_offset rush + 4).
  { replace (A + 4 - ring_base rush) with ((A - ring_base rush) + 4) by lia.
    unfold wrap32 in *. rewrite <- Zplus_mod_idemp_l, Hoff.
    apply Z.mod_small.
    assert (ring_offset rush = 8 * (ring_offset rush / 8))
      by (apply Z_div_exact_full_2; lia).
    lia. }
  unfold drains_one_packet in Hone.
  set (n := cmdfifo_entry_count rush) in *.
  set (thr := cmdfifo_threshold rush) in *.
  assert (Hn : 0 <= n < 2 ^ 32 - 1) by (destruct Hone as [[? _]|[? _]]; lia).
  exists fb2.
  exists (if n <? thr then Z.land (status rush) (Z.lnot (Z.shiftl 1 16))
          else status rush).
  unfold write_nop. fold A. rewrite E1.
  unfold voodoo_rush_cmdfifo_write.
  cbn [cmdfifo_enabled set_puma_fb cmdfifo_bottom_page cmdfifo_top_page puma_fb
       puma_fb_mask cmdfifo_entry_count].
  rewrite Hen. cbn [negb]. cbv zeta.
  fold (ring_base rush) (ring_top rush).
  destruct (Z.ltb_spec (A + 4) (ring_base rush)); [lia|].
  destruct (Z.leb_spec (ring_top rush) (A + 4)); [lia|]. cbn [orb].
  rewrite Hoff4.
  assert (Ha4 : Z.land (ring_offset rush + 4) 7 = 4).
  { change 7 with (Z.ones 3). rewrite Z.land_ones by lia.
    change (2 ^ 3) with 8. rewrite <- Zplus_mod_idemp_l, Ha. reflexivity. }
  rewrite Ha4. cbn [Z.eqb Pos.eqb]. fold fb1. fold fb2. fold n.
  rewrite (wrap32_small (n + 1)) by lia.
  set (r2 := set_cmdfifo_entry_count (n + 1) (set_puma_fb fb2 (set_puma_fb fb1 rush))).
  change (cmdfifo_entry_count r2) with (n + 1).
  destruct (Z.ltb_spec 0 (n + 1)); [|lia].
  unfold voodoo_rush_process_cmdfifo.
  change (cmdfifo_enabled r2) with (cmdfifo_enabled rush). rewrite Hen.
  change (cmdfifo_entry_count r2) with (n + 1).
  destruct (Z.eqb_spec (n + 1) 0); [lia|]. cbn [negb orb]. cbv zeta.
  change (cmdfifo_bottom_page r2) with (cmdfifo_bottom_page rush).
  change (cmdfifo_top_page r2) with (cmdfifo_top_page rush).
  change (cmdfifo_threshold r2) with thr.
  fold (ring_base rush) (ring_top rush). fold (ring_size rush).
  assert (Hpkt : cmdfifo_packet (ring_base rush) (ring_top rush) (ring_size rush) r2
                 = Some (skip_packet (ring_size rush) r2)).
  { apply nop_packet_step;
      change (cmdfifo_read_addr (ring_base rush) (ring_size rush) r2) with A;
      change (puma_fb r2) with fb2;
      change (puma_fb_mask r2) with (puma_fb_mask rush).
    - exact Hlo.
    - rewrite wrap32_small by lia. exact Hhi.
    - apply (load32_nop (puma_fb rush)).
    - rewrite wrap32_small by lia. apply (load32_nop (puma_fb rush)). }
  replace (Z.to_nat (n + 1)) with (S (Z.to_nat n)) by lia.
  rewrite (drain_loop_one _ _ _ _ _ _ _ Hpkt).
  - unfold skip_packet.
    change (cmdfifo_entry_count r2) with (n + 1).
    change (cmdfifo_read_ptr r2) with (cmdfifo_read_ptr rush).
    replace (n + 1 - 1) with n by lia. rewrite (wrap32_small n) by lia.
    cbn [cmdfifo_entry_count set_cmdfifo_entry_count cmdfifo_threshold
         set_cmdfifo_read_ptr].
    change (cmdfifo_threshold r2) with thr.
    destruct (n <? thr); subst r2; destruct rush; reflexivity.
  - change (cmdfifo_entry_count r2) with (n + 1). lia.
  - unfold to_int32. cbv zeta.
    destruct Hone as [[Hz Hthr]|[_ Hthr]].
    + unfold truthy. destruct (Z.eqb_spec thr 0); cbn [negb].
      * rewrite Z.mod_small by lia.
        destruct (Z.ltb_spec (n + 1) (2 ^ 31)); lia.
      * rewrite Z.mod_small by lia.
        destruct (Z.ltb_spec thr (2 ^ 31)); lia.
    + rewrite Hthr. reflexivity.
  - unfold skip_packet. cbn [cmdfifo_entry_count set_cmdfifo_entry_count].
    change (cmdfifo_entry_count r2) with (n + 1).
    replace (n + 1 - 1) with n by lia. rewrite (wrap32_small n) by lia.
    destruct Hone as [[Hz _]|[_ Hthr]].
    + left. lia.
    + right. rewrite Hthr. discriminate.
Qed.


Lemma page_address (page : Z) :
  wrap32 (Z.shiftl page 12) = 2 ^ 12 * (page mod 2 ^ 20).
Proof.
  unfold wrap32. rewrite Z.shiftl_mul_pow2 by lia.
  replace (page * 2 ^ 12) with (2 ^ 12 * page) by lia.
  change (2 ^ 32) with (2 ^ 12 * 2 ^ 20). apply Z.mul_mod_distr_l; lia.
Qed.

(** The drain never divides by zero: on an empty ring every read address
    fails the bounds check, so a packet that is drained finds a ring of at
    least one slot. *)
Lemma cmdfifo_packet_ring_size_pos rush rush' :
  cmdfifo_packet (ring_base rush) (ring_top rush) (ring_size rush) rush = Some rush' ->
  0 < ring_size rush.
Proof.
  unfold cmdfifo_packet. cbv zeta. fold (ring_read_addr rush).
  destruct (Z.ltb_spec (ring_read_addr rush) (ring_base rush)) as [|Hlo];
    [discriminate|].
  destruct (Z.ltb_spec (ring_top rush) (wrap32 (ring_read_addr rush + 8))) as [|Hhi];
    [discriminate|].
  intros _.
  pose proof (Z.mod_pos_bound (cmdfifo_bottom_page rush) (2 ^ 20) ltac:(lia)) as Hb.
  pose proof (Z.mod_pos_bound (cmdfifo_top_page rush) (2 ^ 20) ltac:(lia)) as Ht.
  assert (Ebase : ring_base rush = 2 ^ 12 * (cmdfifo_bottom_page rush mod 2 ^ 20))
    by apply page_address.
  assert (Etop : ring_top rush = 2 ^ 12 * (cmdfifo_top_page rush mod 2 ^ 20))
    by apply page_address.
  destruct (Z.eq_dec (ring_top rush) (ring_base rush)) as [Heq|Hne].
  - exfalso.
    assert (Hsz : ring_size rush = 0)
      by (unfold ring_size; rewrite Heq, Z.sub_diag; reflexivity).
    assert (HA : ring_read_addr rush = ring_base rush).
    { unfold ring_read_addr, cmdfifo_read_addr. rewrite Hsz.
      change (wrap32 (Z.shiftl 0 3)) with 0. rewrite Z.land_0_r, Z.add_0_r.
      apply wrap32_small. lia. }
    rewrite HA in Hhi. rewrite wrap32_small in Hhi by lia. lia.
  - unfold ring_size. rewrite Z.shiftr_div_pow2 by lia.
    apply Z.div_str_pos. split; [lia|].
    unfold wrap32. rewrite Ebase, Etop, <- Z.mul_sub_distr_l.
    change (2 ^ 32) with (2 ^ 12 * 2 ^ 20). rewrite Z.mul_mod_distr_l by lia.
    pose proof (Z.mod_pos_bound
                  (cmdfifo_top_page rush mod 2 ^ 20 - cmdfifo_bottom_page rush mod 2 ^ 20)
                  (2 ^ 20) ltac:(lia)) as Hd.
    assert ((cmdfifo_top_page rush mod 2 ^ 20 - cmdfifo_bottom_page rush mod 2 ^ 20)
              mod 2 ^ 20 <> 0).
    { intros E. apply Hne. rewrite Ebase, Etop. f_equal.
      apply Z.mod_divide in E; [|lia]. destruct E as [k Hk]. nia. }
    lia.
Qed.

(** *** Grouped packets *)

(** The page decode of the register address of a grouped packet: the word
    address [a] is shifted to a byte address, and the register index is
    bits 19:12 of that byte address. *)
Lemma cmdfifo_reg_write_decode rush (a data : Z) :
  0 <= a < 2 ^ 22 ->
  cmdfifo_reg_write rush (wrap32 (Z.shiftl a 2)) data
  = if a <? reg_window_words (puma_mode_8mb rush)
    then reg_write rush (Z.land (Z.shiftr a 10) 0xff) data
    else rush.
Proof.
  intros Ha. unfold cmdfifo_reg_write, puma_addr_to_reg. cbv zeta.
  rewrite Z.shiftl_mul_pow2 by lia. change (2 ^ 2) with 4.
  rewrite (wrap32_small (a * 4)) by lia.
  assert (Hs : 0 <= reg_window_start (puma_mode_8mb rush) <= 0x400000)
    by (destruct (puma_mode_8mb rush); cbn; lia).
  rewrite (wrap32_small (a * 4 + _)) by lia.
  destruct (Z.leb_spec (reg_window_start (puma_mode_8mb rush))
              (a * 4 + reg_window_start (puma_mode_8mb rush))); [|lia].
  cbn [andb].
  replace (a * 4 + reg_window_start (puma_mode_8mb rush)
           - (if puma_mode_8mb rush then 0x400000 else 0x200000))
    with (a * 4) by (destruct (puma_mode_8mb rush); cbn; lia).
  rewrite (wrap32_small (a * 4)) by lia.
  replace (Z.shiftr (a * 4) 12) with (Z.shiftr a 10).
  2:{ rewrite !Z.shiftr_div_pow2 by lia.
      change (2 ^ 12) with (2 ^ 10 * 4). rewrite Z.div_mul_cancel_r by lia.
      reflexivity. }
  destruct (puma_mode_8mb rush); cbn [reg_window_start reg_window_end reg_window_words];
    match goal with
    | |- (if ?x <? ?y then _ else _) = (if ?a <? ?b then _ else _) =>
        destruct (Z.ltb_spec x y), (Z.ltb_spec a b); try reflexivity; lia
    end.
Qed.

Lemma reg_write_read_ptr rush reg val :
  reg <> SST96_CMDFIFO_RDPTR ->
  cmdfifo_read_ptr (reg_write rush reg val) = cmdfifo_read_ptr rush.
Proof.
  intros Hreg. unfold voodoo_rush_reg_write.
  destruct (256 <=? reg); [reflexivity|].
  cbv zeta; reg_cases; try reflexivity; try (exfalso; apply Hreg; reflexivity);
  try (match goal with
       | |- context [voodoo_rush_fastfill ?a ?b ?r] =>
           rewrite (fastfill_frame r); reflexivity
       | |- context [voodoo_rush_render_triangle ?a ?r] =>
           rewrite (render_triangle_frame r); reflexivity
       end);
  repeat match goal with
    | |- context [if ?c then _ else _] => destruct c
    end; reflexivity.
Qed.

(** The two rounds of the second mask loop that the mask [0b101] runs. *)
Lemma grouped_writes_mask5 base_addr read_addr rush :
  let w0 := load32 (puma_fb rush) (Z.land read_addr (puma_fb_mask rush)) in
  let r1 := cmdfifo_reg_write rush (wrap32 (Z.shiftl (base_addr + 0) 2)) w0 in
  let w2 := load32 (puma_fb r1) (Z.land (wrap32 (read_addr + 4)) (puma_fb_mask r1)) in
  let r2 := cmdfifo_reg_write r1 (wrap32 (Z.shiftl (base_addr + 2) 2)) w2 in
  grouped_writes base_addr 5 read_addr rush
  = (r2, wrap32 (wrap32 (read_addr + 4) + 4)).
Proof. reflexivity. Qed.

Lemma count_writes_mask5 : count_writes 5 = 2.
Proof. reflexivity. Qed.

Lemma base_addr_range (h : Z) : 0 <= Z.land (Z.shiftr h 2) 0x1fffff < 2 ^ 21.
Proof.
  change 0x1fffff with (Z.ones 21). rewrite Z.land_ones by lia.
  apply Z.mod_pos_bound. lia.
Qed.

(** What the drain of a grouped packet (bit 31 of the header set) with
    base register address [B] and mask [0b101] does: it consumes exactly
    two data words, from the two 4-byte slots that follow the packet and in
    increasing bit order, hands each to one register write, and advances
    the read pointer by 3 slots modulo the ring size.  For every set bit
    [i] the register index is taken from the byte address [(B + i) << 2] by
    the page decode, which keeps bits 19:12: the word goes to register
    [((B + i) >> 10) & 0xff] when that address lies in the register window,
    and is dropped otherwise.  The fan-out over [B + i] is lost between the
    shift by 2 and the decode by 12. *)
Theorem grouped_packet_fanout (rush : voodoo_rush_t) :
  let read_addr := ring_read_addr rush in
  let header := load32 (puma_fb rush) (Z.land read_addr (puma_fb_mask rush)) in
  let data :=
    load32 (puma_fb rush) (Z.land (wrap32 (read_addr + 4)) (puma_fb_mask rush)) in
  let B := Z.land (Z.shiftr header 2) 0x1fffff in
  ring_base rush <= read_addr ->
  wrap32 (read_addr + 8) <= ring_top rush ->
  truthy (Z.land header 0x80000000) = true ->
  data = 5 ->
  let w0 :=
    load32 (puma_fb rush) (Z.land (wrap32 (read_addr + 8)) (puma_fb_mask rush)) in
  let r1 := cmdfifo_reg_write rush (wrap32 (Z.shiftl (B + 0) 2)) w0 in
  let w2 :=
    load32 (puma_fb r1)
      (Z.land (wrap32 (wrap32 (read_addr + 8) + 4)) (puma_fb_mask r1)) in
  let r2 := cmdfifo_reg_write r1 (wrap32 (Z.shiftl (B + 2) 2)) w2 in
  cmdfifo_packet (ring_base rush) (ring_top rush) (ring_size rush) rush
  = Some
      (set_cmdfifo_entry_count (wrap32 (cmdfifo_entry_count rush - 1))
         (set_cmdfifo_read_ptr
            (wrap32 (cmdfifo_read_ptr r2 + 3) mod ring_size rush) r2))
  /\ grouped_writes B data (wrap32 (read_addr + 8)) rush
     = (r2, wrap32 (wrap32 (wrap32 (read_addr + 8) + 4) + 4))
  /\ (forall r w i,
        0 <= i < 32 ->
        cmdfifo_reg_write r (wrap32 (Z.shiftl (B + i) 2)) w
        = if B + i <? reg_window_words (puma_mode_8mb r)
          then reg_write r (Z.land (Z.shiftr (B + i) 10) 0xff) w
          else r)
  /\ (forall mask r a i,
        mask_bit mask i = true ->
        grouped_write B mask (r, a) i
        = (cmdfifo_reg_write r (wrap32 (Z.shiftl (B + i) 2))
             (load32 (puma_fb r) (Z.land a (puma_fb_mask r))),
           wrap32 (a + 4)))
  /\ (puma_mode_8mb r1 = puma_mode_8mb rush /\ puma_fb_mask r1 = puma_fb_mask rush)
  /\ (Z.land (Z.shiftr (B + 0) 10) 0xff <> SST96_CMDFIFO_RDPTR ->
      Z.land (Z.shiftr (B + 2) 10) 0xff <> SST96_CMDFIFO_RDPTR ->
      cmdfifo_read_ptr r2 = cmdfifo_read_ptr rush).
Proof.
  intros read_addr header data B Hlo Hhi Hbit Hdata w0 r1 w2 r2.
  pose proof (base_addr_range header) as HB. fold B in HB.
  assert (Hdec : forall r w i,
             0 <= i < 32 ->
             cmdfifo_reg_write r (wrap32 (Z.shiftl (B + i) 2)) w
             = if B + i <? reg_window_words (puma_mode_8mb r)
               then reg_write r (Z.land (Z.shiftr (B + i) 10) 0xff) w
               else r).
  { intros r w i Hi. apply cmdfifo_reg_write_decode. lia. }
  split.
  { unfold cmdfifo_packet. cbv zeta.
    fold (ring_read_addr rush). fold read_addr. fold header. fold data. fold B.
    destruct (Z.ltb_spec read_addr (ring_base rush)); [lia|].
    destruct (Z.ltb_spec (ring_top rush) (wrap32 (read_addr + 8))); [lia|].
    cbn [orb]. rewrite Hbit, Hdata.
    replace ((header =? 0) && (5 =? 0)) with false
      by (destruct (header =? 0); reflexivity).
    rewrite count_writes_mask5. cbn [Z.eqb Z.ltb Z.compare Pos.compare orb].
    rewrite grouped_writes_mask5. cbv zeta.
    fold w0. fold r1. fold w2. fold r2.
    replace (cmdfifo_read_ptr r2 + 1 + 2) with (cmdfifo_read_ptr r2 + 3) by lia.
    cbn [cmdfifo_entry_count set_cmdfifo_read_ptr].
    unfold r2, r1. rewrite !cmdfifo_reg_write_entry_count. reflexivity. }
  split; [rewrite Hdata; apply grouped_writes_mask5|].
  split; [exact Hdec|].
  split.
  { intros mask r a i Hm. unfold grouped_write. rewrite Hm. reflexivity. }
  split.
  { split; [apply cmdfifo_reg_write_mode|apply cmdfifo_reg_write_fb_mask]. }
  intros H0 H2. unfold r2, r1.
  rewrite (Hdec _ _ 2) by lia.
  destruct (B + 2 <? _).
  - rewrite reg_write_read_ptr by exact H2.
    rewrite (Hdec _ _ 0) by lia.
    destruct (B + 0 <? _); [|reflexivity].
    apply reg_write_read_ptr. exact H0.
  - rewrite (Hdec _ _ 0) by lia.
    destruct (B + 0 <? _); [|reflexivity].
    apply reg_write_read_ptr. exact H0.
Qed.

(** ** Reachable devices *)

(** An invariant of register writes is an invariant of the drain. *)
Lemma cmdfifo_reg_write_invariant P rush reg_addr data :
  drain_invariant P -> P rush -> P (cmdfifo_reg_write rush reg_addr data).
Proof.
  intros (Hw & _) HP. unfold cmdfifo_reg_write. cbv zeta.
  destruct (_ && _); [apply Hw|]; exact HP.
Qed.

Lemma grouped_writes_invariant P base_addr mask (l : list Z) : forall rush read_addr,
  drain_invariant P -> P rush ->
  P (foldl (grouped_write base_addr mask) (rush, read_addr) l).1.
Proof.
  induction l as [|i l IH]; intros rush read_addr HI HP; cbn [foldl]; [exact HP|].
  unfold grouped_write at 2.
  destruct (mask_bit mask i); [|apply IH; assumption].
  apply IH; [exact HI|]. apply cmdfifo_reg_write_invariant; assumption.
Qed.

Lemma cmdfifo_packet_invariant P base top size rush rush' :
  drain_invariant P -> P rush ->
  cmdfifo_packet base top size rush = Some rush' -> P rush'.
Proof.
  intros HI HP. pose proof HI as (Hw & Hfb & Hrp & Hec & Hst).
  unfold cmdfifo_packet. cbv zeta.
  destruct (_ || _); [discriminate|].
  destruct (_ && _); [intros [= <-]; apply Hec, Hrp, HP|].
  destruct (truthy _).
  - destruct (_ || _); [intros [= <-]; apply Hec, Hrp, HP|].
    unfold grouped_writes.
    match goal with
    | |- context [foldl ?f (rush, ?a) ?l] =>
        pose proof (grouped_writes_invariant P
                      (Z.land (Z.shiftr (load32 (puma_fb rush)
                         (Z.land (cmdfifo_read_addr base size rush) (puma_fb_mask rush))) 2)
                         0x1fffff)
                      (load32 (puma_fb rush)
                         (Z.land (wrap32 (cmdfifo_read_addr base size rush + 4))
                            (puma_fb_mask rush)))
                      l rush a HI HP) as HP2;
        destruct (foldl f (rush, a) l) as [r2 a2]
    end.
    cbn [fst] in HP2. intros [= <-]. apply Hec, Hrp, HP2.
  - intros [= <-]. apply Hec, Hrp. apply cmdfifo_reg_write_invariant; assumption.
Qed.

Lemma drain_loop_invariant P base top size max_process : forall fuel processed rush,
  drain_invariant P -> P rush ->
  P (drain_loop fuel base top size max_process processed rush).
Proof.
  induction fuel as [|fuel IH]; intros processed rush HI HP; cbn [drain_loop];
    [exact HP|].
  destruct (_ && _); [|exact HP].
  destruct (cmdfifo_packet base top size rush) as [rush'|] eqn:E; [|exact HP].
  apply IH; [exact HI|]. exact (cmdfifo_packet_invariant P _ _ _ _ _ HI HP E).
Qed.

Lemma process_cmdfifo_invariant P rush :
  drain_invariant P -> P rush -> P (process_cmdfifo rush).
Proof.
  intros HI HP. pose proof HI as (_ & _ & _ & _ & Hst).
  unfold voodoo_rush_process_cmdfifo.
  destruct (_ || _); [exact HP|]. cbv zeta.
  match goal with
  | |- context [if ?c then _ else _] => destruct c
  end; [apply Hst|]; apply drain_loop_invariant; assumption.
Qed.

Lemma cmdfifo_write_invariant P rush addr val :
  drain_invariant P -> P rush -> P (cmdfifo_write rush addr val).
Proof.
  intros HI HP. pose proof HI as (_ & Hfb & _ & Hec & _).
  unfold voodoo_rush_cmdfifo_write.
  destruct (negb _); [exact HP|]. cbv zeta.
  destruct (_ || _); [exact HP|].
  destruct (_ =? 0); [apply Hfb, HP|].
  destruct (_ =? 4); [|exact HP].
  match goal with
  | |- context [if ?c then _ else _] => destruct c
  end; [apply process_cmdfifo_invariant; [exact HI|]|]; apply Hec, Hfb, HP.
Qed.

Lemma reg_write_fbijr_init_length rush reg val :
  length (fbijr_init (reg_write rush reg val)) = length (fbijr_init rush).
Proof.
  unfold voodoo_rush_reg_write.
  destruct (256 <=? reg); [reflexivity|].
  cbv zeta; reg_cases; try reflexivity;
  try (match goal with
       | |- context [voodoo_rush_fastfill ?a ?b ?r] =>
           rewrite (fastfill_frame r); reflexivity
       | |- context [voodoo_rush_render_triangle ?a ?r] =>
           rewrite (render_triangle_frame r); reflexivity
       end);
  try (cbn; apply length_insert);
  repeat match goal with
    | |- context [if ?c then _ else _] => destruct c
    end; reflexivity.
Qed.

Lemma reg_write_swap_pending_range rush reg val :
  0 <= swap_pending rush <= 7 -> 0 <= swap_pending (reg_write rush reg val) <= 7.
Proof.
  intros Hs.
  destruct (Z.eq_dec reg SST96_SWAPPEND_CMD) as [->|Hne1].
  { rewrite swap_append_step. lia. }
  destruct (Z.eq_dec reg SST96_SWAPBUFFER_CMD) as [->|Hne2].
  { unfold voodoo_rush_reg_write. cbn.
    destruct (Z.ltb_spec 0 (swap_pending rush)); cbn; lia. }
  replace (swap_pending (reg_write rush reg val)) with (swap_pending rush);
    [exact Hs|].
  unfold voodoo_rush_reg_write.
  destruct (256 <=? reg); [reflexivity|].
  cbv zeta; reg_cases; try reflexivity;
  try (exfalso; first [apply Hne1; reflexivity | apply Hne2; reflexivity]);
  match goal with
  | |- context [voodoo_rush_fastfill ?a ?b ?r] =>
      rewrite (fastfill_frame r); reflexivity
  | |- context [voodoo_rush_render_triangle ?a ?r] =>
      rewrite (render_triangle_frame r); reflexivity
  end.
Qed.

Lemma well_formed_drain_invariant : drain_invariant well_formed.
Proof.
  unfold drain_invariant, well_formed. split; [|repeat split; tauto].
  intros rush reg val (Hregs & Hinit & Hswap).
  rewrite reg_write_regs_length, reg_write_fbijr_init_length.
  split; [exact Hregs|]. split; [exact Hinit|].
  apply reg_write_swap_pending_range. exact Hswap.
Qed.

Lemma reset_well_formed rush : well_formed rush -> well_formed (voodoo_rush_reset rush).
Proof.
  intros (Hregs & Hinit & Hswap). unfold well_formed, voodoo_rush_reset.
  cbn. rewrite !length_insert. split; [reflexivity|]. split; [exact Hinit|lia].
Qed.

Lemma puma_write_well_formed rush addr val :
  well_formed rush -> well_formed (puma_write addr val rush).
Proof.
  intros HP. pose proof well_formed_drain_invariant as HI.
  pose proof HI as (Hw & Hfb & _).
  unfold voodoo_rush_puma_write.
  destruct (negb _); [exact HP|]. cbv zeta.
  destruct (addr <? _).
  - destruct (_ && _); [apply cmdfifo_write_invariant; assumption|apply Hfb, HP].
  - destruct (_ && _); [apply Hw, HP|].
    destruct (_ && _); [|exact HP].
    destruct (_ <? _); [|exact HP].
    cbn [voodoo set_puma_tex]. destruct (voodoo rush); exact HP.
Qed.

(** On every reachable device the register array has its 256 slots, the
    initialisation bank its six, and the pending-swap counter lies in
    [0, 7]. *)
Lemma reachable_well_formed rush : reachable rush -> well_formed rush.
Proof.
  pose proof well_formed_drain_invariant as HI.
  pose proof HI as (Hw & Hfb & _).
  induction 1 as [mode|rush v _ IH|rush _ IH|rush reg val _ IH|rush addr val _ IH
                 |rush addr val _ IH|rush _ IH|rush addr val _ IH|rush addr _ IH
                 |rush _ IH|rush _ IH|rush _ IH|rush _ IH].
  - unfold well_formed. cbn. repeat split; lia.
  - exact IH.
  - apply reset_well_formed, IH.
  - apply Hw, IH.
  - apply puma_write_well_formed, IH.
  - apply cmdfifo_write_invariant; assumption.
  - apply process_cmdfifo_invariant; assumption.
  - unfold voodoo_rush_thp_write. destruct (negb _); [exact IH|]. cbv zeta.
    destruct (_ <? _); [|apply puma_write_well_formed, IH].
    exact (puma_write_well_formed _ _ _ IH).
  - unfold voodoo_rush_thp_read. destruct (negb _); [exact IH|]. cbv zeta. cbn [snd].
    destruct (_ <? _); exact IH.
  - rewrite (render_triangle_frame rush). exact IH.
  - rewrite (fastfill_frame rush). exact IH.
  - unfold voodoo_rush_swap_buffers. destruct (negb _); exact IH.
  - unfold voodoo_rush_vsync_callback, voodoo_rush_swap_buffers.
    destruct (negb (enabled rush)); [exact IH|].
    destruct (Z.ltb_spec 0 (swap_pending rush)); cbn [andb]; [|exact IH].
    destruct (swap_req rush) eqn:Hreq; [|exact IH].
    destruct IH as (Hregs & Hinit & Hswap).
    cbn. rewrite Hreq. destruct (swap_pending rush - 1 =? 0); cbn;
      (split; [exact Hregs|]); (split; [exact Hinit|]);
      cbv [swap_pending set_swap_req set_swap_pending];
      fold (swap_pending rush); lia.
Qed.

(** * Further properties *)

(** ** What the drain keeps *)

Lemma cmdfifo_reg_write_keeps P rush reg_addr data :
  packet_invariant P -> P rush -> P (cmdfifo_reg_write rush reg_addr data).
Proof.
  intros (Hw & _) HP. unfold cmdfifo_reg_write. cbv zeta.
  destruct (_ && _); [apply Hw|]; exact HP.
Qed.

Lemma grouped_writes_keep P base_addr mask (l : list Z) : forall rush read_addr,
  packet_invariant P -> P rush ->
  P (foldl (grouped_write base_addr mask) (rush, read_addr) l).1.
Proof.
  induction l as [|i l IH]; intros rush read_addr HI HP; cbn [foldl]; [exact HP|].
  unfold grouped_write at 2.
  destruct (mask_bit mask i); [|apply IH; assumption].
  apply IH; [exact HI|]. apply cmdfifo_reg_write_keeps; assumption.
Qed.

Lemma cmdfifo_packet_keeps P base top size rush rush' :
  packet_invariant P -> P rush ->
  cmdfifo_packet base top size rush = Some rush' -> P rush'.
Proof.
  intros HI HP. pose proof HI as (Hw & Hfb & Hrp & Hec).
  unfold cmdfifo_packet. cbv zeta.
  destruct (_ || _); [discriminate|].
  destruct (_ && _); [intros [= <-]; apply Hec, Hrp, HP|].
  destruct (truthy _).
  - destruct (_ || _); [intros [= <-]; apply Hec, Hrp, HP|].
    unfold grouped_writes.
    match goal with
    | |- context [foldl ?f (rush, ?a) ?l] =>
        pose proof (fun b m => grouped_writes_keep P b m l rush a HI HP) as HP2;
        destruct (foldl f (rush, a) l) as [r2 a2] eqn:E
    end.
    intros [= <-]. apply Hec, Hrp.
    match type of E with
    | foldl (grouped_write ?b ?m) _ _ = _ => specialize (HP2 b m)
    end.
    rewrite E in HP2. exact HP2.
  - intros [= <-]. apply Hec, Hrp. apply cmdfifo_reg_write_keeps; assumption.
Qed.

Lemma drain_loop_keeps P base top size max_process : forall fuel processed rush,
  packet_invariant P -> P rush ->
  P (drain_loop fuel base top size max_process processed rush).
Proof.
  induction fuel as [|fuel IH]; intros processed rush HI HP; cbn [drain_loop];
    [exact HP|].
  destruct (_ && _); [|exact HP].
  destruct (cmdfifo_packet base top size rush) as [rush'|] eqn:E; [|exact HP].
  apply IH; [exact HI|]. exact (cmdfifo_packet_keeps P _ _ _ _ _ HI HP E).
Qed.

(** The drain as a whole: the device the loop leaves, with bit 16 of the
    status word cleared when the count is below the threshold. *)
Lemma process_cmdfifo_keeps P rush :
  packet_invariant P -> P rush ->
  exists rush',
    P rush'
    /\ (process_cmdfifo rush = rush'
        \/ process_cmdfifo rush
           = set_status (Z.land (status rush') (Z.lnot (Z.shiftl 1 16))) rush').
Proof.
  intros HI HP. unfold voodoo_rush_process_cmdfifo.
  destruct (_ || _); [exists rush; split; [exact HP|left; reflexivity]|].
  cbv zeta.
  match goal with
  | |- context [if ?c then set_status _ ?r else _] =>
      exists r; split; [apply drain_loop_keeps; assumption|];
      destruct c; [right|left]; reflexivity
  end.
Qed.

(** ** The layout of the aperture *)

(** What no register write reaches. *)
Lemma reg_write_fixed rush reg val :
  let rush' := reg_write rush reg val in
  (puma_fb_size rush' = puma_fb_size rush
   /\ puma_tex_size rush' = puma_tex_size rush
   /\ puma_tex_mask rush' = puma_tex_mask rush
   /\ fbijr_version rush' = fbijr_version rush
   /\ status rush' = status rush
   /\ enabled rush' = enabled rush)
  /\ (window_x rush' = window_x rush /\ window_y rush' = window_y rush)
  /\ (chroma_fail rush' = chroma_fail rush
      /\ zfunc_fail rush' = zfunc_fail rush
      /\ afunc_fail rush' = afunc_fail rush
      /\ pixels_out rush' = pixels_out rush).
Proof. cbv zeta. repeat split; reg_write_frame. Qed.

Lemma land_ones_range (v n : Z) : 0 <= n -> 0 <= Z.land v (Z.ones n) <= Z.ones n.
Proof.
  intros Hn. rewrite Z.land_ones by exact Hn. rewrite Z.ones_equiv.
  pose proof (Z.mod_pos_bound v (2 ^ n) ltac:(apply Z.pow_pos_nonneg; lia)). lia.
Qed.

Lemma word_at_insert_other (l : list Z) (i j : nat) (v : Z) :
  i <> j -> word_at (<[i := v]> l) (Z.of_nat j) = word_at l (Z.of_nat j).
Proof.
  intros Hne. unfold word_at. rewrite Nat2Z.id.
  rewrite list_lookup_insert_ne by exact Hne. reflexivity.
Qed.

Lemma word_at_insert_range (l : list Z) (v lo hi : Z) :
  lo <= 0 <= hi -> lo <= v <= hi -> lo <= word_at l 0 <= hi ->
  lo <= word_at (<[0%nat := v]> l) 0 <= hi.
Proof.
  intros H0 Hv Hl. destruct l as [|x l]; [exact Hl|]. exact Hv.
Qed.

Lemma reg_write_tex_base_range rush reg val :
  0 <= word_at (tex_base_addr rush) 0 <= 0x7ffff ->
  0 <= word_at (tex_base_addr (reg_write rush reg val)) 0 <= 0x7ffff.
Proof.
  intros Hr.
  destruct (Z.eq_dec reg SST96_TEX_BASE_ADDR) as [->|Hne].
  { unfold voodoo_rush_reg_write. cbn [Z.leb Z.compare Pos.compare Pos.compare_cont].
    cbv zeta. cbv iota. cbn [tex_base_addr set_tex_base_addr set_regs].
    apply word_at_insert_range; [lia| |exact Hr].
    exact (land_ones_range val 19 ltac:(lia)). }
  replace (word_at (tex_base_addr (reg_write rush reg val)) 0)
    with (word_at (tex_base_addr rush) 0); [exact Hr|].
  unfold voodoo_rush_reg_write.
  destruct (256 <=? reg); [reflexivity|].
  cbv zeta; reg_cases; try reflexivity;
  try (exfalso; apply Hne; reflexivity);
  try (match goal with
       | |- context [voodoo_rush_fastfill ?a ?b ?r] =>
           rewrite (fastfill_frame r); reflexivity
       | |- context [voodoo_rush_render_triangle ?a ?r] =>
           rewrite (render_triangle_frame r); reflexivity
       end);
  try (symmetry;
       first [exact (word_at_insert_other _ 1 0 _ ltac:(discriminate))
             |exact (word_at_insert_other _ 2 0 _ ltac:(discriminate))
             |exact (word_at_insert_other _ 3 0 _ ltac:(discriminate))]);
  repeat match goal with
    | |- context [if ?c then _ else _] => destruct c
    end; reflexivity.
Qed.

Lemma reg_write_layout rush reg val :
  layout_ok rush -> layout_ok (reg_write rush reg val).
Proof.
  intros (Hfs & Hfm & Hts & Htm & Hv & Hst & (Hwx & Hwy) & (Hc1 & Hc2 & Hc3 & Hc4) & Htb).
  destruct (reg_write_fixed rush reg val)
    as ((E1 & E2 & E3 & E4 & E5 & _) & (E6 & E7) & (E8 & E9 & E10 & E11)).
  unfold layout_ok.
  rewrite reg_write_mode, reg_write_fb_mask, E1, E2, E3, E4, E5, E6, E7, E8, E9, E10, E11.
  repeat split; try assumption; apply reg_write_tex_base_range; exact Htb.
Qed.

Lemma layout_packet_invariant : packet_invariant layout_ok.
Proof.
  unfold packet_invariant. split; [intros; apply reg_write_layout; assumption|].
  split; [|split]; intros rush v H; exact H.
Qed.

Lemma process_cmdfifo_layout rush : layout_ok rush -> layout_ok (process_cmdfifo rush).
Proof.
  intros HP.
  destruct (process_cmdfifo_keeps layout_ok rush layout_packet_invariant HP)
    as (rush' & HP' & [->| ->]); [exact HP'|].
  destruct HP' as (Hfs & Hfm & Hts & Htm & Hv & Hst & Hw & Hc & Htb).
  unfold layout_ok. cbn. rewrite Hst.
  repeat split; try assumption; try apply Hw; try apply Hc; apply Htb.
Qed.

Lemma cmdfifo_write_layout rush addr val :
  layout_ok rush -> layout_ok (cmdfifo_write rush addr val).
Proof.
  intros HP. unfold voodoo_rush_cmdfifo_write.
  destruct (negb _); [exact HP|]. cbv zeta.
  destruct (_ || _); [exact HP|].
  destruct (_ =? 0); [exact HP|].
  destruct (_ =? 4); [|exact HP].
  match goal with
  | |- context [if ?c then _ else _] => destruct c
  end; [apply process_cmdfifo_layout|]; exact HP.
Qed.

Lemma puma_write_layout rush addr val :
  layout_ok rush -> layout_ok (puma_write addr val rush).
Proof.
  intros HP. unfold voodoo_rush_puma_write.
  destruct (negb _); [exact HP|]. cbv zeta.
  destruct (addr <? _).
  - destruct (_ && _); [apply cmdfifo_write_layout|]; exact HP.
  - destruct (_ && _); [apply reg_write_layout, HP|].
    destruct (_ && _); [|exact HP].
    destruct (_ <? _); [|exact HP].
    cbn [voodoo set_puma_tex]. destruct (voodoo rush); exact HP.
Qed.

Lemma reset_layout rush : layout_ok rush -> layout_ok (voodoo_rush_reset rush).
Proof.
  intros (Hfs & Hfm & Hts & Htm & Hv & Hst & Hw & Hc & Htb).
  unfold layout_ok. cbn. repeat split; try assumption; try apply Hw; try apply Hc;
    apply Htb.
Qed.

(** On every reachable device the aperture has the layout of its mode, the
    version word is the one of the initialisation, the status word is zero,
    the window origin is zero, the four counters that nothing counts are
    zero, and the first texture base address has at most 19 bits. *)
Lemma reachable_layout rush : reachable rush -> layout_ok rush.
Proof.
  induction 1 as [mode|rush v _ IH|rush _ IH|rush reg val _ IH|rush addr val _ IH
                 |rush addr val _ IH|rush _ IH|rush addr val _ IH|rush addr _ IH
                 |rush _ IH|rush _ IH|rush _ IH|rush _ IH].
  - unfold layout_ok. destruct mode; vm_compute; repeat split; discriminate.
  - exact IH.
  - apply reset_layout, IH.
  - apply reg_write_layout, IH.
  - apply puma_write_layout, IH.
  - apply cmdfifo_write_layout, IH.
  - apply process_cmdfifo_layout, IH.
  - unfold voodoo_rush_thp_write. destruct (negb _); [exact IH|]. cbv zeta.
    destruct (_ <? _); exact (puma_write_layout _ _ _ IH).
  - unfold voodoo_rush_thp_read. destruct (negb _); [exact IH|]. cbv zeta. cbn [snd].
    destruct (_ <? _); exact IH.
  - rewrite (render_triangle_frame rush). exact IH.
  - rewrite (fastfill_frame rush). exact IH.
  - unfold voodoo_rush_swap_buffers. destruct (negb _); exact IH.
  - unfold voodoo_rush_vsync_callback, voodoo_rush_swap_buffers.
    destruct (negb (enabled rush)); [exact IH|].
    destruct (_ && _); [|exact IH]. cbv zeta.
    destruct (_ =? 0); [|exact IH].
    destruct (negb _); exact IH.
Qed.

(** ** The address decoder *)

Lemma puma_addr_to_reg_range (addr : Z) (mode_8mb : bool) :
  0 <= puma_addr_to_reg addr mode_8mb < 256.
Proof.
  unfold puma_addr_to_reg. cbv zeta.
  pose proof (land_ones_range
                (Z.shiftr
                   (wrap32 (addr - (if mode_8mb then 0x400000 else 0x200000))) 12)
                8 ltac:(lia)) as H.
  change (Z.ones 8) with 0xff in H. lia.
Qed.

(** X1.  The register number of a PUMA address is the page number of its
    offset into the register window, modulo 256: every byte of the 4KB page
    of a register decodes to that register, and so does the same page 1MB
    further up; the result is always below 256. *)
Theorem puma_page_decode (mode_8mb : bool) (reg off k : Z) :
  0 <= reg < 256 ->
  0 <= off < 4096 ->
  0 <= k < 256 ->
  puma_addr_to_reg (reg_window_start mode_8mb + 4096 * (256 * k + reg) + off) mode_8mb
  = reg
  /\ forall addr, 0 <= puma_addr_to_reg addr mode_8mb < 256.
Proof.
  intros Hreg Hoff Hk. split.
  - unfold puma_addr_to_reg. cbv zeta.
    replace (reg_window_start mode_8mb + 4096 * (256 * k + reg) + off
             - (if mode_8mb then 0x400000 else 0x200000))
      with (off + (256 * k + reg) * 2 ^ 12)
      by (destruct mode_8mb; cbn [reg_window_start]; lia).
    rewrite wrap32_small by lia.
    rewrite Z.shiftr_div_pow2, Z.div_add, Z.div_small by lia.
    change 0xff with (Z.ones 8). rewrite Z.land_ones by lia.
    change (2 ^ 8) with 256.
    replace (0 + (256 * k + reg)) with (reg + k * 256) by lia.
    rewrite Z.mod_add by lia. apply Z.mod_small. lia.
  - intros addr. apply puma_addr_to_reg_range.
Qed.

Lemma reg_read_not_computed rush reg :
  0 <= reg < 256 ->
  computed_read reg = false ->
  voodoo_rush_reg_read rush reg = word_at (regs rush) reg.
Proof.
  intros Hreg Hc. unfold voodoo_rush_reg_read.
  destruct (Z.leb_spec 256 reg); [lia|].
  unfold computed_read in Hc.
  reg_cases; first [reflexivity | discriminate Hc].
Qed.

(** X2.  A write through the register window of the aperture is the
    register write of the decoded index, and a register that is read from
    its raw slot reads back through the aperture what was written,
    sign-extended from bit 23 for the indices [0x009] to [0x016]. *)
Theorem puma_register_round_trip (rush : voodoo_rush_t) (addr val : Z) :
  enabled rush = true ->
  length (regs rush) = 256%nat ->
  puma_fb_size rush <= addr ->
  reg_window_start (puma_mode_8mb rush) <= addr < reg_window_end (puma_mode_8mb rush) ->
  let reg := puma_addr_to_reg addr (puma_mode_8mb rush) in
  puma_write addr val rush = reg_write rush reg val
  /\ (computed_read reg = false ->
      voodoo_rush_puma_read addr (puma_write addr val rush)
      = if (SST96_DRDX <=? reg) && (reg <=? SST96_DADY) then sign_extend24 val else val).
Proof.
  intros Hen Hlen Hfb [Hlo Hhi] reg.
  assert (E : puma_write addr val rush = reg_write rush reg val).
  { unfold voodoo_rush_puma_write. rewrite Hen. cbn [negb]. cbv zeta.
    destruct (Z.ltb_spec addr (puma_fb_size rush)); [lia|].
    destruct (Z.leb_spec (reg_window_start (puma_mode_8mb rush)) addr); [|lia].
    destruct (Z.ltb_spec addr (reg_window_end (puma_mode_8mb rush))); [|lia].
    reflexivity. }
  split; [exact E|]. intros Hc. rewrite E.
  destruct (reg_write_fixed rush reg val) as ((E1 & _ & _ & _ & _ & E6) & _).
  cbv zeta in E1, E6.
  unfold voodoo_rush_puma_read. rewrite E6, Hen, reg_write_mode, E1. cbn [negb]. cbv zeta.
  destruct (Z.ltb_spec addr (puma_fb_size rush)); [lia|].
  destruct (Z.leb_spec (reg_window_start (puma_mode_8mb rush)) addr); [|lia].
  destruct (Z.ltb_spec addr (reg_window_end (puma_mode_8mb rush))); [|lia].
  cbn [andb]. fold reg.
  pose proof (puma_addr_to_reg_range addr (puma_mode_8mb rush)) as Hr.
  fold reg in Hr.
  rewrite reg_read_not_computed by assumption.
  rewrite reg_write_regs.
  destruct (Z.leb_spec 256 reg); [lia|].
  rewrite word_at_insert by (rewrite ?Hlen; lia). reflexivity.
Qed.

(** ** Memory behind the aperture *)

Lemma le_bytes (v : Z) :
  v mod 2 ^ 8 + Z.shiftl (Z.shiftr v 8 mod 2 ^ 8) 8 + Z.shiftl (Z.shiftr v 16 mod 2 ^ 8) 16
  + Z.shiftl (Z.shiftr v 24 mod 2 ^ 8) 24
  = v mod 2 ^ 32.
Proof.
  rewrite !Z.shiftl_mul_pow2, !Z.shiftr_div_pow2 by lia.
  pose proof (Z.rem_mul_r v (2 ^ 8) (2 ^ 24) ltac:(lia) ltac:(lia)) as H1.
  pose proof (Z.rem_mul_r (v / 2 ^ 8) (2 ^ 8) (2 ^ 16) ltac:(lia) ltac:(lia)) as H2.
  pose proof (Z.rem_mul_r (v / 2 ^ 8 / 2 ^ 8) (2 ^ 8) (2 ^ 8) ltac:(lia) ltac:(lia)) as H3.
  rewrite !Z.div_div in H2, H3 by lia.
  change (2 ^ 8 * 2 ^ 24) with (2 ^ 32) in H1.
  change (2 ^ 8 * 2 ^ 16) with (2 ^ 24) in H2.
  change (2 ^ 8 * 2 ^ 8) with (2 ^ 16) in H2, H3.
  rewrite Z.div_div in H3 by lia.
  change (2 ^ 16 * 2 ^ 8) with (2 ^ 24) in H3.
  lia.
Qed.

(** A word stored is the word loaded, modulo [2^32]. *)
Lemma load32_store32 (m : gmap Z Z) (a v : Z) :
  load32 (store32 m a v) a = v mod 2 ^ 32.
Proof.
  unfold load32, store32. rewrite !load8_store8.
  repeat match goal with |- context [decide ?P] => destruct (decide P); try lia end.
  change 256 with (2 ^ 8). apply le_bytes.
Qed.

Lemma land_lnot3_aligned (x : Z) : Z.land x 3 = 0 -> Z.land x (Z.lnot 3) = x.
Proof.
  intros H. apply Z.bits_inj'. intros n Hn.
  rewrite Z.land_spec, Z.lnot_spec by exact Hn.
  assert (Hb : Z.testbit x n && Z.testbit 3 n = false)
    by (rewrite <- Z.land_spec, H; apply Z.bits_0).
  destruct (Z.testbit x n); [|reflexivity].
  cbn [andb] in Hb. rewrite Hb. reflexivity.
Qed.

(** X3.  With the CMDFIFO disabled, or for an address outside the ring, a
    word written to a 4-byte aligned frame buffer address through the
    aperture is the word read back from that address; a write to an
    unaligned address lands on the word below it. *)
Theorem puma_frame_buffer_round_trip (rush : voodoo_rush_t) (addr val : Z) :
  enabled rush = true ->
  addr < puma_fb_size rush ->
  cmdfifo_enabled rush = false \/ addr < ring_base rush \/ ring_top rush <= addr ->
  0 <= val < 2 ^ 32 ->
  fb_only rush (puma_write addr val rush)
  /\ load32 (puma_fb (puma_write addr val rush))
       (Z.land (Z.land addr (puma_fb_mask rush)) (Z.lnot 3)) = val
  /\ (Z.land addr 3 = 0 ->
      voodoo_rush_puma_read addr (puma_write addr val rush) = val).
Proof.
  intros Hen Hfb Hring Hval.
  assert (E : puma_write addr val rush
              = set_puma_fb
                  (store32 (puma_fb rush)
                     (Z.land (Z.land addr (puma_fb_mask rush)) (Z.lnot 3)) val) rush).
  { unfold voodoo_rush_puma_write. rewrite Hen. cbn [negb]. cbv zeta.
    fold (ring_base rush) (ring_top rush).
    destruct (Z.ltb_spec addr (puma_fb_size rush)); [|lia].
    destruct Hring as [->|[Hlo|Hhi]]; [reflexivity| |].
    - destruct (Z.leb_spec (ring_base rush) addr); [lia|].
      rewrite andb_false_r. reflexivity.
    - destruct (Z.ltb_spec addr (ring_top rush)); [lia|].
      rewrite andb_false_r. reflexivity. }
  rewrite E. split; [apply fb_only_set|].
  split.
  { cbn [puma_fb set_puma_fb]. rewrite load32_store32. apply Z.mod_small. exact Hval. }
  intros Hal. unfold voodoo_rush_puma_read.
  cbn [enabled set_puma_fb puma_fb_size puma_mode_8mb puma_fb puma_fb_mask].
  rewrite Hen. cbn [negb]. cbv zeta.
  destruct (Z.ltb_spec addr (puma_fb_size rush)); [|lia].
  rewrite land_lnot3_aligned.
  - rewrite load32_store32. apply Z.mod_small. exact Hval.
  - rewrite <- Z.land_assoc, (Z.land_comm (puma_fb_mask rush) 3), Z.land_assoc, Hal.
    apply Z.land_0_l.
Qed.

(** X4.  On a device with the layout of its mode, a word written anywhere
    in the texture window reads back from the same address, and the write
    asks an attached engine to flush the texture cache of the 4KB page for
    TMU 0 and, on a dual-TMU engine, for TMU 1; without an engine nothing is
    asked. *)
Theorem puma_texture_round_trip (rush : voodoo_rush_t) (addr val : Z) :
  layout_ok rush ->
  enabled rush = true ->
  tex_window_start (puma_mode_8mb rush) <= addr
  < tex_window_start (puma_mode_8mb rush) + tex_size_of (puma_mode_8mb rush) ->
  0 <= val < 2 ^ 32 ->
  let page :=
    wrap32 (Z.shiftl (Z.shiftr (addr - tex_window_start (puma_mode_8mb rush)) 12) 12) in
  voodoo_rush_puma_read addr (puma_write addr val rush) = val
  /\ voodoo (puma_write addr val rush)
     = (fun v =>
          let v := Voodoo.record_call (Voodoo.flush_texture_cache page 0) v in
          if Voodoo.dual_tmus v
          then Voodoo.record_call (Voodoo.flush_texture_cache page 1) v else v)
       <$> voodoo rush.
Proof.
  intros (Hfs & Hfm & Hts & Htm & _) Hen [Hlo Hhi] Hval page.
  set (mode := puma_mode_8mb rush) in *.
  set (off := addr - tex_window_start mode) in *.
  assert (Hsz : tex_size_of mode = 0x200000 \/ tex_size_of mode = 0x100000)
    by (destruct mode; [left|right]; reflexivity).
  assert (Hwin : puma_fb_size rush = reg_window_start mode
                 /\ reg_window_end mode = tex_window_start mode
                 /\ 0 < reg_window_start mode < tex_window_start mode
                 /\ tex_window_start mode <= 0x600000)
    by (rewrite Hfs; destruct mode; cbn; lia).
  destruct Hwin as (Hw1 & Hw2 & Hw3 & Hw4).
  assert (Hoff : wrap32 off = off) by (apply wrap32_small; unfold off; lia).
  set (flushed :=
         fun v =>
           let v := Voodoo.record_call (Voodoo.flush_texture_cache page 0) v in
           if Voodoo.dual_tmus v
           then Voodoo.record_call (Voodoo.flush_texture_cache page 1) v else v).
  set (tex' := store32 (puma_tex rush) (Z.land off (Z.lnot 3)) val).
  assert (E : puma_write addr val rush
              = match voodoo rush with
                | None => set_puma_tex tex' rush
                | Some v => set_voodoo (Some (flushed v)) (set_puma_tex tex' rush)
                end).
  { unfold voodoo_rush_puma_write. rewrite Hen. cbn [negb]. cbv zeta.
    fold mode. rewrite Hts.
    destruct (Z.ltb_spec addr (puma_fb_size rush)); [lia|].
    destruct (Z.leb_spec (reg_window_start mode) addr); [|lia].
    destruct (Z.ltb_spec addr (reg_window_end mode)); [lia|]. cbn [andb].
    rewrite (wrap32_small (tex_window_start mode + tex_size_of mode)) by lia.
    destruct (Z.leb_spec (tex_window_start mode) addr); [|lia].
    destruct (Z.ltb_spec addr (tex_window_start mode + tex_size_of mode)); [|lia].
    cbn [andb]. fold off. rewrite Hoff.
    destruct (Z.ltb_spec off (tex_size_of mode)); [|unfold off in *; lia].
    cbn [voodoo set_puma_tex]. destruct (voodoo rush); reflexivity. }
  assert (Eread : forall r,
             enabled r = true -> puma_mode_8mb r = mode ->
             puma_fb_size r = puma_fb_size rush ->
             puma_tex_size r = tex_size_of mode ->
             voodoo_rush_puma_read addr r
             = load32 (puma_tex r) (Z.land off (Z.lnot 3))).
  { intros r Hr1 Hr2 Hr3 Hr4. unfold voodoo_rush_puma_read.
    rewrite Hr1, Hr2, Hr3, Hr4. cbn [negb]. cbv zeta.
    destruct (Z.ltb_spec addr (puma_fb_size rush)); [lia|].
    destruct (Z.leb_spec (reg_window_start mode) addr); [|lia].
    destruct (Z.ltb_spec addr (reg_window_end mode)); [lia|]. cbn [andb].
    rewrite (wrap32_small (tex_window_start mode + tex_size_of mode)) by lia.
    destruct (Z.leb_spec (tex_window_start mode) addr); [|lia].
    destruct (Z.ltb_spec addr (tex_window_start mode + tex_size_of mode)); [|lia].
    cbn [andb]. fold off. rewrite Hoff.
    destruct (Z.ltb_spec off (tex_size_of mode)); [|unfold off in *; lia].
    reflexivity. }
  rewrite E. destruct (voodoo rush) as [v|] eqn:Ev.
  - split; [|reflexivity].
    rewrite (Eread (set_voodoo (Some (flushed v)) (set_puma_tex tex' rush))
               Hen eq_refl eq_refl Hts).
    cbn [puma_tex set_puma_tex set_voodoo]. unfold tex'.
    rewrite load32_store32. apply Z.mod_small. exact Hval.
  - split; [|cbn [voodoo set_puma_tex]; rewrite Ev; reflexivity].
    rewrite (Eread (set_puma_tex tex' rush) Hen eq_refl eq_refl Hts).
    cbn [puma_tex set_puma_tex]. unfold tex'.
    rewrite load32_store32. apply Z.mod_small. exact Hval.
Qed.

(** X5.  A disabled device ignores the bus and the commands: reads through
    the aperture and the THP port return 0, writes through them drop the
    value, and a vertical sync, a fast fill or a triangle command do
    nothing; a register write still fills the raw slot, but the fast-fill
    and triangle command registers trigger nothing. *)
Theorem disabled_device_is_silent (rush : voodoo_rush_t) (addr val : Z) :
  enabled rush = false ->
  (voodoo_rush_puma_read addr rush = 0
   /\ puma_write addr val rush = rush
   /\ voodoo_rush_thp_read rush addr = (0, rush)
   /\ thp_write rush addr val = rush)
  /\ (voodoo_rush_vsync_callback rush = rush
      /\ fastfill rush = rush
      /\ render_triangle rush = rush)
  /\ (reg_write rush SST96_FASTFILL_CMD val
      = set_regs (<[Z.to_nat SST96_FASTFILL_CMD := val]> (regs rush)) rush
      /\ reg_write rush SST96_TRIANGLE_CMD val
         = set_regs (<[Z.to_nat SST96_TRIANGLE_CMD := val]> (regs rush)) rush).
Proof.
  intros Hen.
  assert (Hfill : forall r, enabled r = false -> fastfill r = r).
  { intros r Hr. unfold voodoo_rush_fastfill. rewrite Hr. reflexivity. }
  assert (Htri : forall r, enabled r = false -> render_triangle r = r).
  { intros r Hr. unfold voodoo_rush_render_triangle. rewrite Hr.
    destruct (voodoo r); reflexivity. }
  split.
  { unfold voodoo_rush_puma_read, voodoo_rush_puma_write, voodoo_rush_thp_read,
      voodoo_rush_thp_write. rewrite Hen. repeat split; reflexivity. }
  split.
  { split; [unfold voodoo_rush_vsync_callback; rewrite Hen; reflexivity|].
    split; [apply Hfill|apply Htri]; exact Hen. }
  split.
  - unfold voodoo_rush_reg_write. cbn [Z.leb Z.compare Pos.compare Pos.compare_cont].
    cbv iota zeta. apply Hfill. exact Hen.
  - unfold voodoo_rush_reg_write. cbn [Z.leb Z.compare Pos.compare Pos.compare_cont].
    cbv iota zeta. apply Htri. exact Hen.
Qed.

(** X6.  On a device with the layout of its mode the three windows of the
    aperture are adjacent (frame buffer, registers, texture memory, ending
    at twice the frame buffer size), and an access at or beyond that end
    reads 0 and writes nothing. *)
Theorem puma_windows_partition (rush : voodoo_rush_t) (addr val : Z) :
  layout_ok rush ->
  2 * puma_fb_size rush <= addr ->
  (puma_fb_size rush = reg_window_start (puma_mode_8mb rush)
   /\ reg_window_end (puma_mode_8mb rush) = tex_window_start (puma_mode_8mb rush)
   /\ tex_window_start (puma_mode_8mb rush) + puma_tex_size rush = 2 * puma_fb_size rush)
  /\ voodoo_rush_puma_read addr rush = 0
  /\ puma_write addr val rush = rush.
Proof.
  intros (Hfs & Hfm & Hts & Htm & _) Haddr.
  assert (Hwin : puma_fb_size rush = reg_window_start (puma_mode_8mb rush)
                 /\ reg_window_end (puma_mode_8mb rush)
                    = tex_window_start (puma_mode_8mb rush)
                 /\ tex_window_start (puma_mode_8mb rush) + puma_tex_size rush
                    = 2 * puma_fb_size rush
                 /\ 0 < reg_window_start (puma_mode_8mb rush)
                    < tex_window_start (puma_mode_8mb rush)
                 /\ 0 < puma_tex_size rush /\ puma_fb_size rush <= 0x400000)
    by (rewrite Hfs, Hts; destruct (puma_mode_8mb rush); cbn; lia).
  destruct Hwin as (Hw1 & Hw2 & Hw3 & Hw4 & Hw5 & Hw6).
  split; [repeat split; assumption|].
  unfold voodoo_rush_puma_read, voodoo_rush_puma_write.
  destruct (negb (enabled rush)); [split; reflexivity|]. cbv zeta.
  rewrite (wrap32_small (tex_window_start (puma_mode_8mb rush) + puma_tex_size rush))
    by lia.
  destruct (Z.ltb_spec addr (puma_fb_size rush)); [lia|].
  destruct (Z.ltb_spec addr (reg_window_end (puma_mode_8mb rush))); [lia|].
  rewrite andb_false_r.
  destruct (Z.ltb_spec addr
              (tex_window_start (puma_mode_8mb rush) + puma_tex_size rush)); [lia|].
  rewrite andb_false_r. split; reflexivity.
Qed.

(** X7.  On every device the operations produce from a fresh one, the
    version register reads [0x00010201], the status register and the four
    counters of failed and written pixels read 0, whatever was written to
    their indices, and the regions keep the sizes of the mode. *)
Theorem reachable_fixed_reads (rush : voodoo_rush_t) :
  reachable rush ->
  voodoo_rush_reg_read rush SST96_FBIJR_VERSION = 0x00010201
  /\ voodoo_rush_reg_read rush SST96_STATUS = 0
  /\ (voodoo_rush_reg_read rush SST96_FBI_CHROMA_FAIL = 0
      /\ voodoo_rush_reg_read rush SST96_FBI_ZFUNC_FAIL = 0
      /\ voodoo_rush_reg_read rush SST96_FBI_AFUNC_FAIL = 0
      /\ voodoo_rush_reg_read rush SST96_FBI_PIXELS_OUT = 0)
  /\ (puma_fb_size rush = fb_size_of (puma_mode_8mb rush)
      /\ puma_tex_size rush = tex_size_of (puma_mode_8mb rush)).
Proof.
  intros Hr.
  destruct (reachable_layout rush Hr)
    as (Hfs & Hfm & Hts & Htm & Hv & Hst & _ & (Hc1 & Hc2 & Hc3 & Hc4) & _).
  unfold voodoo_rush_reg_read. cbn [Z.leb Z.compare Pos.compare Pos.compare_cont].
  cbv iota. rewrite Hv, Hst, Hc1, Hc2, Hc3, Hc4.
  repeat split; assumption.
Qed.

(** ** Triangle submission *)

(** With the layout of the mode the texture window starts above the size
    of the texture memory, so the bounds test of the texture upload fails
    for every base address: the upload copies nothing and calls nothing. *)
Lemma load_texture_skips rush v tmu :
  layout_ok rush -> voodoo_rush_load_texture rush v tmu = v.
Proof.
  intros (_ & _ & Hts & _ & _ & _ & _ & _ & Htb).
  unfold voodoo_rush_load_texture. cbv zeta.
  set (ta := word_at (tex_base_addr rush) 0) in *.
  assert (Hsh : wrap32 (Z.shiftl ta 12) = ta * 4096).
  { rewrite Z.shiftl_mul_pow2 by lia. change (2 ^ 12) with 4096.
    apply wrap32_small. lia. }
  rewrite Hsh, Hts.
  destruct (puma_mode_8mb rush); cbn [tex_size_of].
  - rewrite (wrap32_small (0x600000 + ta * 4096)) by lia.
    destruct (Z.ltb_spec (0x600000 + ta * 4096) 0x200000); [lia|reflexivity].
  - rewrite (wrap32_small (0x300000 + ta * 4096)) by lia.
    destruct (Z.ltb_spec (0x300000 + ta * 4096) 0x100000); [lia|reflexivity].
Qed.

(** X8.  On an enabled device with the layout of its mode and an engine
    attached, the texture upload changes nothing, whatever the texture base
    address and the unit, and a write to the triangle command register
    hands the engine exactly one triangle, with the parameter block of the
    registers and the two buffer pointers, and counts one pixel in modulo
    [2^32]; the texture enable bit of the colour path makes no difference. *)
Theorem triangle_command_submits_once
    (rush : voodoo_rush_t) (v : Voodoo.voodoo_t) (val : Z) :
  layout_ok rush -> enabled rush = true -> voodoo rush = Some v ->
  (forall tmu, voodoo_rush_load_texture rush v tmu = v)
  /\ reg_write rush SST96_TRIANGLE_CMD val
     = set_pixels_in (wrap32 (pixels_in rush + 1))
         (set_voodoo
            (Some (Voodoo.record_call
                     (Voodoo.queue_triangle
                        (Voodoo.set_buffers 0
                           (Voodoo.aux_offset (sst96_to_voodoo_params rush))
                           (sst96_to_voodoo_params rush)))
                     v))
            (set_regs (<[Z.to_nat SST96_TRIANGLE_CMD := val]> (regs rush)) rush)).
Proof.
  intros Hlay Hen Hv.
  split; [intros tmu; apply load_texture_skips, Hlay|].
  unfold voodoo_rush_reg_write. cbn [Z.leb Z.compare Pos.compare Pos.compare_cont].
  cbv iota zeta.
  set (written := set_regs _ rush).
  assert (Hlay' : layout_ok written) by exact Hlay.
  unfold voodoo_rush_render_triangle.
  change (voodoo written) with (voodoo rush).
  change (enabled written) with (enabled rush).
  rewrite Hv, Hen. cbn [negb]. cbv zeta.
  rewrite !(load_texture_skips written) by exact Hlay'.
  destruct (truthy _); [destruct (Voodoo.dual_tmus v)|]; reflexivity.
Qed.

(** ** Triangle setup *)

Lemma land_low16 (v : Z) : Z.land v 0xffff = v mod 2 ^ 16.
Proof. change 0xffff with (Z.ones 16). apply Z.land_ones. lia. Qed.

Lemma vertex16_twos_complement (val : Z) : vertex16 val = twos_complement16 val.
Proof.
  unfold vertex16, twos_complement16, to_int16. cbv zeta.
  rewrite land_low16, Z.mod_mod by lia. reflexivity.
Qed.

Lemma twos_complement16_range (val : Z) : - 2 ^ 15 <= twos_complement16 val < 2 ^ 15.
Proof.
  unfold twos_complement16. cbv zeta.
  pose proof (Z.mod_pos_bound val (2 ^ 16) ltac:(lia)).
  destruct (Z.ltb_spec (val mod 2 ^ 16) (2 ^ 15)); lia.
Qed.

(** X9.  A write to a vertex register stores the 16-bit two's-complement
    reading of the written value, a coordinate in [-32768, 32767], and on a
    device with the layout of its mode, whose window origin is zero, the
    parameter block hands the engine that coordinate unchanged. *)
Theorem vertex_write_sign_extends (rush : voodoo_rush_t) (val : Z) :
  layout_ok rush ->
  Forall
    (fun '(reg, field, param) =>
       let rush' := reg_write rush reg val in
       field (triangle rush') = twos_complement16 val
       /\ - 2 ^ 15 <= field (triangle rush') < 2 ^ 15
       /\ param (sst96_to_voodoo_params rush') = twos_complement16 val)
    vertex_registers.
Proof.
  intros (_ & _ & _ & _ & _ & _ & (Hwx & Hwy) & _).
  unfold vertex_registers.
  repeat (apply Forall_cons; split;
          [cbv zeta; split; [apply vertex16_twos_complement|];
           split;
           [change (- 2 ^ 15 <= vertex16 val < 2 ^ 15);
            rewrite vertex16_twos_complement; apply twos_complement16_range
           |unfold voodoo_rush_reg_write, sst96_to_voodoo_params; cbn;
            rewrite ?Hwx, ?Hwy; cbn; rewrite Z.add_0_r;
            apply vertex16_twos_complement]
          |]).
  apply Forall_nil_2.
Qed.

(** X10.  A write to one of the four colour start registers stores the low
    24 bits of the written value, and the parameter block hands the engine
    that value shifted down by 12: a number in [0, 4095], the top 12 of the
    24 bits. *)
Theorem colour_start_downshift (rush : voodoo_rush_t) (val : Z) :
  Forall
    (fun '(reg, field, param) =>
       let rush' := reg_write rush reg val in
       field (triangle rush') = val mod 2 ^ 24
       /\ param (sst96_to_voodoo_params rush') = val mod 2 ^ 24 / 2 ^ 12
       /\ 0 <= param (sst96_to_voodoo_params rush') < 4096)
    colour_start_registers.
Proof.
  assert (Hd : Z.shiftr (Z.land val 0xffffff) 12 = val mod 2 ^ 24 / 2 ^ 12)
    by (rewrite land_low24, Z.shiftr_div_pow2 by lia; reflexivity).
  assert (Hr : 0 <= val mod 2 ^ 24 / 2 ^ 12 < 4096).
  { pose proof (Z.mod_pos_bound val (2 ^ 24) ltac:(lia)).
    split; [apply Z.div_pos; lia|apply Z.div_lt_upper_bound; lia]. }
  unfold colour_start_registers.
  repeat (apply Forall_cons; split;
          [cbv zeta; split; [apply land_low24|];
           split; [exact Hd|];
           change (0 <= Z.shiftr (Z.land val 0xffffff) 12 < 4096);
           rewrite Hd; exact Hr
          |]).
  apply Forall_nil_2.
Qed.

Lemma land_byte (v : Z) : Z.land v 0xff = v mod 2 ^ 8.
Proof. change 0xff with (Z.ones 8). apply Z.land_ones. lia. Qed.

Lemma land_low11 (v : Z) : Z.land v 0x7ff = v mod 2 ^ 11.
Proof. change 0x7ff with (Z.ones 11). apply Z.land_ones. lia. Qed.

(** X11.  The fog colour and the clip rectangle reach the engine unpacked:
    after a write to the fog colour register the three components of the
    parameter block are bytes that put together give the low 24 bits of the
    written value, and after a write to one of the two first clip registers
    the two bounds are bits 10:0 and bits 26:16 of the written value. *)
Theorem fog_colour_and_clip_unpack (rush : voodoo_rush_t) (val : Z) :
  length (clip_left_right rush) = 2%nat ->
  length (clip_top_bottom rush) = 2%nat ->
  (let '(r, g, b) :=
     Voodoo.fogColor (sst96_to_voodoo_params (reg_write rush SST96_FOG_COLOR val)) in
   (0 <= r < 256 /\ 0 <= g < 256 /\ 0 <= b < 256)
   /\ r + 256 * g + 65536 * b = val mod 2 ^ 24)
  /\ (let p := sst96_to_voodoo_params (reg_write rush SST96_CLIP_LEFT_RIGHT0 val) in
      Voodoo.clipLeft p = val mod 2 ^ 11
      /\ Voodoo.clipRight p = val / 2 ^ 16 mod 2 ^ 11)
  /\ (let p := sst96_to_voodoo_params (reg_write rush SST96_CLIP_TOP_BOTTOM0 val) in
      Voodoo.clipLowY p = val mod 2 ^ 11
      /\ Voodoo.clipHighY p = val / 2 ^ 16 mod 2 ^ 11).
Proof.
  intros Hlr Htb.
  split.
  { change (Voodoo.fogColor
              (sst96_to_voodoo_params (reg_write rush SST96_FOG_COLOR val)))
      with (Z.land (Z.shiftr (Z.land val 0xffffff) 0) 0xff,
            Z.land (Z.shiftr (Z.land val 0xffffff) 8) 0xff,
            Z.land (Z.shiftr (Z.land val 0xffffff) 16) 0xff).
    cbv iota beta. rewrite !land_byte, land_low24, Z.shiftr_0_r.
    rewrite !Z.shiftr_div_pow2 by lia.
    set (u := val mod 2 ^ 24).
    assert (Hu : 0 <= u < 2 ^ 24) by (apply Z.mod_pos_bound; lia).
    pose proof (Z.mod_pos_bound u (2 ^ 8) ltac:(lia)) as Hb0.
    pose proof (Z.mod_pos_bound (u / 2 ^ 8) (2 ^ 8) ltac:(lia)) as Hb1.
    pose proof (Z.mod_pos_bound (u / 2 ^ 16) (2 ^ 8) ltac:(lia)) as Hb2.
    split; [lia|].
    pose proof (Z.rem_mul_r u (2 ^ 8) (2 ^ 16) ltac:(lia) ltac:(lia)) as H1.
    pose proof (Z.rem_mul_r (u / 2 ^ 8) (2 ^ 8) (2 ^ 8) ltac:(lia) ltac:(lia)) as H2.
    rewrite Z.div_div in H2 by lia.
    change (2 ^ 8 * 2 ^ 16) with (2 ^ 24) in H1.
    change (2 ^ 8 * 2 ^ 8) with (2 ^ 16) in H2.
    rewrite (Z.mod_small u (2 ^ 24)) in H1 by exact Hu.
    assert (H3 : (u / 2 ^ 8) mod 2 ^ 16 = u / 2 ^ 8).
    { apply Z.mod_small. split; [apply Z.div_pos; lia|].
      apply Z.div_lt_upper_bound; lia. }
    lia. }
  assert (Hw : forall l : list Z, length l = 2%nat -> word_at (<[0%nat := val]> l) 0 = val).
  { intros [|x l] Hl; [discriminate|reflexivity]. }
  split.
  - change (sst96_to_voodoo_params (reg_write rush SST96_CLIP_LEFT_RIGHT0 val))
      with (sst96_to_voodoo_params
              (set_clip_left_right (<[0%nat := val]> (clip_left_right rush))
                 (set_regs (<[Z.to_nat SST96_CLIP_LEFT_RIGHT0 := val]> (regs rush)) rush))).
    cbv zeta. unfold sst96_to_voodoo_params. cbn.
    rewrite (Hw _ Hlr), !land_low11, Z.shiftr_0_r, Z.shiftr_div_pow2 by lia.
    split; reflexivity.
  - change (sst96_to_voodoo_params (reg_write rush SST96_CLIP_TOP_BOTTOM0 val))
      with (sst96_to_voodoo_params
              (set_clip_top_bottom (<[0%nat := val]> (clip_top_bottom rush))
                 (set_regs (<[Z.to_nat SST96_CLIP_TOP_BOTTOM0 := val]> (regs rush)) rush))).
    cbv zeta. unfold sst96_to_voodoo_params. cbn.
    rewrite (Hw _ Htb), !land_low11, Z.shiftr_0_r, Z.shiftr_div_pow2 by lia.
    split; reflexivity.
Qed.

(** ** The command FIFO, further *)

Lemma land_low10 (v : Z) : Z.land v 0x3ff = v mod 2 ^ 10.
Proof. change 0x3ff with (Z.ones 10). apply Z.land_ones. lia. Qed.

Lemma truthy_bit0 (v : Z) : truthy (Z.land v 0x01) = Z.testbit v 0.
Proof.
  change 0x01 with (2 ^ 0). rewrite land_pow2 by lia.
  destruct (Z.testbit v 0); reflexivity.
Qed.

(** X12.  A write to the fourth initialisation register programs the
    CMDFIFO from the fields of the written value: bit 0 is the enable, bits
    10:1 the bottom page, bits 20:11 the top page and bits 30:21 the
    threshold, which together are the low 31 bits of the value; the ring
    they describe starts and ends on a page boundary below 4 MB, and the
    register reads back the value as written. *)
Theorem init3_write_programs_fifo (rush : voodoo_rush_t) (val : Z) :
  length (fbijr_init rush) = 6%nat ->
  let rush' := reg_write rush SST96_FBIJR_INIT3 val in
  let en := if cmdfifo_enabled rush' then 1 else 0 in
  (cmdfifo_enabled rush' = Z.testbit val 0
   /\ cmdfifo_bottom_page rush' = val / 2 ^ 1 mod 2 ^ 10
   /\ cmdfifo_top_page rush' = val / 2 ^ 11 mod 2 ^ 10
   /\ cmdfifo_threshold rush' = val / 2 ^ 21 mod 2 ^ 10)
  /\ en + 2 * cmdfifo_bottom_page rush' + 2 ^ 11 * cmdfifo_top_page rush'
     + 2 ^ 21 * cmdfifo_threshold rush' = val mod 2 ^ 31
  /\ (ring_base rush' = 4096 * cmdfifo_bottom_page rush'
      /\ ring_top rush' = 4096 * cmdfifo_top_page rush'
      /\ ring_top rush' < 0x400000)
  /\ voodoo_rush_reg_read rush' SST96_FBIJR_INIT3 = val.
Proof.
  intros Hlen rush' en.
  assert (Een : cmdfifo_enabled rush' = Z.testbit val 0) by apply truthy_bit0.
  assert (Ebot : cmdfifo_bottom_page rush' = val / 2 ^ 1 mod 2 ^ 10).
  { change (cmdfifo_bottom_page rush') with (Z.land (Z.shiftr val 1) 0x3ff).
    rewrite land_low10, Z.shiftr_div_pow2 by lia. reflexivity. }
  assert (Etop : cmdfifo_top_page rush' = val / 2 ^ 11 mod 2 ^ 10).
  { change (cmdfifo_top_page rush') with (Z.land (Z.shiftr val 11) 0x3ff).
    rewrite land_low10, Z.shiftr_div_pow2 by lia. reflexivity. }
  assert (Ethr : cmdfifo_threshold rush' = val / 2 ^ 21 mod 2 ^ 10).
  { change (cmdfifo_threshold rush') with (Z.land (Z.shiftr val 21) 0x3ff).
    rewrite land_low10, Z.shiftr_div_pow2 by lia. reflexivity. }
  pose proof (Z.mod_pos_bound (val / 2 ^ 1) (2 ^ 10) ltac:(lia)) as Hb.
  pose proof (Z.mod_pos_bound (val / 2 ^ 11) (2 ^ 10) ltac:(lia)) as Ht.
  split; [repeat split; assumption|].
  split.
  { unfold en. rewrite Een, Ebot, Etop, Ethr.
    assert (E0 : (if Z.testbit val 0 then 1 else 0) = val mod 2 ^ 1).
    { rewrite Z.testbit_eqb by lia. change (2 ^ 0) with 1. rewrite Z.div_1_r.
      change (2 ^ 1) with 2.
      pose proof (Z.mod_pos_bound val 2 ltac:(lia)).
      destruct (Z.eqb_spec (val mod 2) 1); lia. }
    rewrite E0.
    pose proof (Z.rem_mul_r val (2 ^ 1) (2 ^ 30) ltac:(lia) ltac:(lia)) as H1.
    pose proof (Z.rem_mul_r (val / 2 ^ 1) (2 ^ 10) (2 ^ 20) ltac:(lia) ltac:(lia)) as H2.
    pose proof (Z.rem_mul_r (val / 2 ^ 11) (2 ^ 10) (2 ^ 10) ltac:(lia) ltac:(lia)) as H3.
    rewrite Z.div_div in H2, H3 by lia.
    change (2 ^ 1 * 2 ^ 30) with (2 ^ 31) in H1.
    change (2 ^ 10 * 2 ^ 20) with (2 ^ 30) in H2.
    change (2 ^ 1 * 2 ^ 10) with (2 ^ 11) in H2.
    change (2 ^ 10 * 2 ^ 10) with (2 ^ 20) in H2, H3.
    change (2 ^ 11 * 2 ^ 10) with (2 ^ 21) in H3.
    lia. }
  split.
  { unfold ring_base, ring_top. rewrite !page_address, Ebot, Etop.
    rewrite !(Z.mod_small (_ mod 2 ^ 10) (2 ^ 20)) by lia.
    change (2 ^ 12) with 4096. lia. }
  change (voodoo_rush_reg_read rush' SST96_FBIJR_INIT3)
    with (word_at (<[Z.to_nat 3 := val]> (fbijr_init rush)) 3).
  apply word_at_insert; [lia|]. rewrite Hlen. cbn. lia.
Qed.

Lemma header_register_bits (h : Z) :
  Z.land (Z.shiftr (Z.land (Z.shiftr h 2) 0x1fffff) 12) 0xff = Z.land (Z.shiftr h 14) 0xff.
Proof.
  apply Z.bits_inj'. intros n Hn.
  change 0xff with (Z.ones 8). change 0x1fffff with (Z.ones 21).
  rewrite !Z.land_spec, !Z.shiftr_spec, Z.land_spec, Z.shiftr_spec by lia.
  replace (n + 12 + 2) with (n + 14) by lia.
  destruct (Z.ltb_spec n 8) as [Hlt|Hge].
  - rewrite (Z.testbit_ones_nonneg 21 (n + 12)) by lia.
    destruct (Z.ltb_spec (n + 12) 21); [|lia].
    rewrite andb_true_r. reflexivity.
  - rewrite (Z.ones_spec_high 8 n) by lia. rewrite !andb_false_r. reflexivity.
Qed.

Lemma header_window_bit (h : Z) :
  (Z.land (Z.shiftr h 2) 0x1fffff <? 0x100000) = negb (Z.testbit h 22).
Proof.
  change 0x1fffff with (Z.ones 21). rewrite Z.land_ones by lia.
  replace (Z.testbit h 22) with (Z.testbit (Z.shiftr h 2) 20)
    by (rewrite Z.shiftr_spec by lia; reflexivity).
  set (u := Z.shiftr h 2).
  rewrite Z.testbit_eqb by lia.
  change (2 ^ 21) with (2 ^ 20 * 2). rewrite Z.rem_mul_r by lia.
  pose proof (Z.mod_pos_bound u (2 ^ 20) ltac:(lia)).
  pose proof (Z.mod_pos_bound (u / 2 ^ 20) 2 ltac:(lia)).
  destruct (Z.eqb_spec ((u / 2 ^ 20) mod 2) 1);
    destruct (Z.ltb_spec (u mod 2 ^ 20 + 2 ^ 20 * ((u / 2 ^ 20) mod 2)) 0x100000);
    cbn; try reflexivity; lia.
Qed.


Lemma mask_bit_testbit (mask i : Z) : 0 <= i -> mask_bit mask i = Z.testbit mask i.
Proof.
  intros Hi. unfold mask_bit. rewrite Z.shiftl_1_l, land_pow2 by exact Hi.
  destruct (Z.testbit mask i); [|reflexivity].
  unfold truthy. destruct (Z.eqb_spec (2 ^ i) 0) as [E|]; [|reflexivity].
  pose proof (Z.pow_pos_nonneg 2 i ltac:(lia) Hi). lia.
Qed.

(** The first loop over the mask, on a part of the bit positions. *)
Lemma count_fold_shift (mask : Z) (l : list Z) : forall n,
  foldl (fun n i => if mask_bit mask i then n + 1 else n) n l
  = n + foldl (fun n i => if mask_bit mask i then n + 1 else n) 0 l.
Proof.
  induction l as [|i l IH]; intros n; cbn [foldl]; [lia|].
  rewrite IH. rewrite (IH (if mask_bit mask i then 0 + 1 else 0)).
  destruct (mask_bit mask i); lia.
Qed.

Lemma count_fold_range (mask : Z) (l : list Z) :
  0 <= foldl (fun n i => if mask_bit mask i then n + 1 else n) 0 l <= Z.of_nat (length l).
Proof.
  induction l as [|i l IH]; cbn [foldl length]; [lia|].
  rewrite count_fold_shift. destruct (mask_bit mask i); lia.
Qed.

Lemma count_fold_zero (mask : Z) (l : list Z) :
  foldl (fun n i => if mask_bit mask i then n + 1 else n) 0 l = 0
  <-> Forall (fun i => mask_bit mask i = false) l.
Proof.
  induction l as [|i l IH]; cbn [foldl]; [split; [constructor|reflexivity]|].
  rewrite count_fold_shift. pose proof (count_fold_range mask l) as Hr.
  rewrite Forall_cons. rewrite <- IH.
  destruct (mask_bit mask i).
  - split; [intros H; lia|intros [H _]; discriminate].
  - split; [intros H; split; [reflexivity|lia]|intros [_ H]; lia].
Qed.

(** The second loop moves the address on by one word for every bit the
    first loop counts. *)
Lemma grouped_writes_addr base_addr mask (l : list Z) : forall rush a,
  0 <= a < 2 ^ 32 ->
  (foldl (grouped_write base_addr mask) (rush, a) l).2
  = wrap32 (a + 4 * foldl (fun n i => if mask_bit mask i then n + 1 else n) 0 l).
Proof.
  induction l as [|i l IH]; intros rush a Ha; cbn [foldl].
  - cbn [snd]. rewrite Z.add_0_r. symmetry. apply wrap32_small. exact Ha.
  - rewrite count_fold_shift. unfold grouped_write at 2.
    destruct (mask_bit mask i).
    + rewrite IH by apply wrap32_range. unfold wrap32.
      rewrite Zplus_mod_idemp_l. f_equal. lia.
    + rewrite IH by exact Ha. f_equal.
Qed.

(** X14.  The two loops of a grouped packet agree: the first counts the
    set bits among the low 32 bits of the mask, a number between 0 and 32
    that is 0 exactly when none of these bits is set, and the second reads
    that many data words, one 4-byte word after the other. *)
Theorem grouped_words_match_count (mask : Z) :
  0 <= count_writes mask <= 32
  /\ (count_writes mask = 0 <-> forall i, 0 <= i < 32 -> Z.testbit mask i = false)
  /\ forall base_addr read_addr rush,
       0 <= read_addr < 2 ^ 32 ->
       (grouped_writes base_addr mask read_addr rush).2
       = wrap32 (read_addr + 4 * count_writes mask).
Proof.
  split; [exact (count_fold_range mask (seqZ 0 32))|].
  split.
  - unfold count_writes. rewrite count_fold_zero, Forall_forall.
    split.
    + intros H i Hi. rewrite <- mask_bit_testbit by lia. apply H.
      apply elem_of_seqZ. lia.
    + intros H i Hi. apply elem_of_seqZ in Hi.
      rewrite mask_bit_testbit by lia. apply H. lia.
  - intros base_addr read_addr rush Ha. apply grouped_writes_addr. exact Ha.
Qed.

(** The drain loop takes one entry per round and makes at most
    [max_process - processed] rounds. *)
Lemma drain_loop_budget base top size max_process : forall fuel processed rush,
  0 <= cmdfifo_entry_count rush < 2 ^ 32 ->
  let rush' := drain_loop fuel base top size max_process processed rush in
  0 <= cmdfifo_entry_count rush' <= cmdfifo_entry_count rush
  /\ cmdfifo_entry_count rush - cmdfifo_entry_count rush'
     <= Z.max 0 (max_process - processed).
Proof.
  induction fuel as [|fuel IH]; intros processed rush Hc; cbv zeta; cbn [drain_loop];
    [lia|].
  destruct (Z.ltb_spec 0 (cmdfifo_entry_count rush)); cbn [andb]; [|lia].
  destruct (Z.ltb_spec processed max_process); [|lia].
  destruct (cmdfifo_packet base top size rush) as [rush1|] eqn:E; [|lia].
  pose proof (cmdfifo_packet_entry_count _ _ _ _ _ E) as E1.
  rewrite wrap32_small in E1 by lia.
  specialize (IH (processed + 1) rush1 ltac:(lia)). cbv zeta in IH. lia.
Qed.


(** X16.  On a ring whose size in slots is a power of two the read address
    does not depend on the read pointer: for every read pointer inside the
    ring the AND of the pointer and the size, both shifted to bytes, is
    zero, so the drain reads the packet at the base of the ring. *)
Theorem power_of_two_ring_read_address (rush : voodoo_rush_t) (k : Z) :
  0 <= k ->
  ring_size rush = 2 ^ k ->
  0 <= cmdfifo_read_ptr rush < ring_size rush ->
  ring_offset rush = 0 /\ ring_read_addr rush = ring_base rush.
Proof.
  intros Hk Hsz Hrp.
  assert (Hlt : ring_size rush < 2 ^ 29).
  { unfold ring_size. rewrite Z.shiftr_div_pow2 by lia.
    pose proof (wrap32_range (ring_top rush - ring_base rush)).
    apply Z.div_lt_upper_bound; lia. }
  assert (Hoff : ring_offset rush = 0).
  { unfold ring_offset. rewrite !Z.shiftl_mul_pow2 by lia.
    rewrite !wrap32_small by lia.
    rewrite Hsz, <- Z.pow_add_r by lia.
    rewrite land_pow2 by lia.
    rewrite Z.bits_above_log2; [reflexivity|lia|].
    destruct (Z.eq_dec (cmdfifo_read_ptr rush) 0) as [E|E].
    - rewrite E, Z.mul_0_l. change (Z.log2 0) with 0. lia.
    - apply Z.log2_lt_pow2; [lia|]. rewrite Z.pow_add_r by lia. lia. }
  split; [exact Hoff|].
  unfold ring_read_addr, cmdfifo_read_addr. fold (ring_offset rush).
  rewrite Hoff, Z.add_0_r. apply wrap32_small. apply wrap32_range.
Qed.


(** ** Swap requests and the vertical sync *)

Lemma vsync_counts rush :
  enabled rush = true -> swap_req rush = true -> 0 < swap_pending rush ->
  voodoo_rush_vsync_callback rush
  = if swap_pending rush =? 1 then set_swap_req false (set_swap_pending 0 rush)
    else set_swap_pending (swap_pending rush - 1) rush.
Proof.
  intros Hen Hreq Hp. unfold voodoo_rush_vsync_callback, voodoo_rush_swap_buffers.
  rewrite Hen, Hreq. cbn [negb].
  destruct (Z.ltb_spec 0 (swap_pending rush)); [|lia]. cbn [andb]. cbv zeta.
  change (swap_pending (set_swap_pending (swap_pending rush - 1) rush))
    with (swap_pending rush - 1).
  change (swap_req (set_swap_pending (swap_pending rush - 1) rush))
    with (swap_req rush).
  rewrite Hreq. cbn [negb].
  destruct (Z.eqb_spec (swap_pending rush - 1) 0) as [E|E],
    (Z.eqb_spec (swap_pending rush) 1); try lia; [|reflexivity].
  rewrite E. reflexivity.
Qed.

Lemma vsync_idle rush :
  swap_req rush = false \/ swap_pending rush <= 0 ->
  voodoo_rush_vsync_callback rush = rush.
Proof.
  intros H. unfold voodoo_rush_vsync_callback.
  destruct (negb (enabled rush)); [reflexivity|].
  destruct (Z.ltb_spec 0 (swap_pending rush)), (swap_req rush) eqn:E; cbn [andb];
    try reflexivity.
  destruct H; [discriminate|lia].
Qed.

Lemma vsyncs_idle n : forall rush,
  swap_req rush = false \/ swap_pending rush <= 0 -> vsyncs n rush = rush.
Proof.
  unfold vsyncs. induction n as [|n IH]; intros rush H; [reflexivity|].
  rewrite Nat.iter_succ, IH by exact H. apply vsync_idle, H.
Qed.

Lemma vsyncs_counting (rush : voodoo_rush_t) : forall k : nat,
  enabled rush = true -> swap_req rush = true ->
  Z.of_nat k < swap_pending rush ->
  vsyncs k rush
  = if k is O then rush else set_swap_pending (swap_pending rush - Z.of_nat k) rush.
Proof.
  intros k Hen Hreq. induction k as [|k IH]; intros Hk; [reflexivity|].
  unfold vsyncs in *. rewrite Nat.iter_succ, IH by lia.
  destruct k as [|k].
  - rewrite vsync_counts by (assumption || lia).
    destruct (Z.eqb_spec (swap_pending rush) 1); [lia|]. reflexivity.
  - set (p := swap_pending rush - Z.of_nat (S k)).
    rewrite vsync_counts by (try assumption; cbn; lia).
    change (swap_pending (set_swap_pending p rush)) with p.
    destruct (Z.eqb_spec p 1); [lia|].
    replace (swap_pending rush - Z.of_nat (S (S k))) with (p - 1) by lia.
    reflexivity.
Qed.

(** X18.  With a swap requested and [n > 0] swaps pending on an enabled
    device, each of the first [n - 1] vertical syncs takes one off the
    pending count and keeps the request; the [n]-th brings the count to 0
    and completes the swap, clearing the request; every later vertical sync
    changes nothing. *)
Theorem vsync_countdown (rush : voodoo_rush_t) (n : nat) :
  enabled rush = true ->
  swap_req rush = true ->
  swap_pending rush = Z.of_nat n ->
  (0 < n)%nat ->
  (forall k, (k < n)%nat ->
     swap_pending (vsyncs k rush) = Z.of_nat (n - k)
     /\ swap_req (vsyncs k rush) = true)
  /\ vsyncs n rush = set_swap_req false (set_swap_pending 0 rush)
  /\ forall m, (n <= m)%nat -> vsyncs m rush = vsyncs n rush.
Proof.
  intros Hen Hreq Hp Hn.
  assert (Hlast : vsyncs n rush = set_swap_req false (set_swap_pending 0 rush)).
  { destruct n as [|n]; [lia|].
    unfold vsyncs. rewrite Nat.iter_succ. fold (vsyncs n rush).
    rewrite vsyncs_counting by (assumption || lia).
    destruct n as [|n].
    - rewrite vsync_counts by (assumption || lia). rewrite Hp. reflexivity.
    - set (p := swap_pending rush - Z.of_nat (S n)).
      assert (Ep : p = 1) by lia.
      rewrite vsync_counts by (try assumption; cbn; lia).
      change (swap_pending (set_swap_pending p rush)) with p.
      rewrite Ep. reflexivity. }
  split.
  { intros k Hk. rewrite vsyncs_counting by (assumption || lia).
    destruct k as [|k]; [rewrite Nat.sub_0_r; split; assumption|].
    split; [cbn [swap_pending set_swap_pending]; lia|exact Hreq]. }
  split; [exact Hlast|].
  intros m Hm. replace m with ((m - n) + n)%nat by lia.
  unfold vsyncs. rewrite Nat.iter_add. fold (vsyncs n rush).
  fold (vsyncs (m - n) (vsyncs n rush)).
  apply vsyncs_idle. left. rewrite Hlast. reflexivity.
Qed.

(** X19.  A swap-buffer command that finds at most one swap pending leaves
    the request set with nothing pending, and then no number of vertical
    syncs completes it: the device stays as the command left it. *)
Theorem swap_request_without_pending_stays (rush : voodoo_rush_t) (val : Z) (n : nat) :
  swap_pending rush <= 1 ->
  let rush' := reg_write rush SST96_SWAPBUFFER_CMD val in
  swap_req rush' = true
  /\ swap_pending rush' <= 0
  /\ vsyncs n rush' = rush'.
Proof.
  intros Hp rush'.
  assert (Hreq : swap_req rush' = true).
  { unfold rush', voodoo_rush_reg_write.
    cbn [Z.leb Z.compare Pos.compare Pos.compare_cont]. cbv iota zeta.
    destruct (0 <? _); reflexivity. }
  assert (Hpend : swap_pending rush' <= 0).
  { unfold rush', voodoo_rush_reg_write.
    cbn [Z.leb Z.compare Pos.compare Pos.compare_cont]. cbv iota zeta.
    match goal with
    | |- context [0 <? ?p] =>
        change p with (swap_pending rush); destruct (Z.ltb_spec 0 (swap_pending rush))
    end.
    - change (swap_pending rush - 1 <= 0). lia.
    - change (swap_pending rush <= 0). lia. }
  split; [exact Hreq|]. split; [exact Hpend|].
  apply vsyncs_idle. right. exact Hpend.
Qed.

(** ** Reading back the computed registers *)

Ltac explode_lists :=
  repeat match goal with
    | H : length ?l = S _ |- _ =>
        is_var l; destruct l; [discriminate H|];
        cbn [length] in H; apply eq_add_S in H
    | H : length ?l = O |- _ =>
        is_var l; destruct l; [|discriminate H]; clear H
    end.


(** ** The pixel tests *)

(** X24.  The stipple test looks at the bit of the 32-bit stipple word
    whose position is the column modulo 32, plus 32 on an odd row: on an
    even row it is that bit of the word, and on an odd row it fails for
    every column and every stipple word. *)
Theorem stipple_test_rows (rush : voodoo_rush_t) (x y : Z) :
  0 <= stipple rush < 2 ^ 32 ->
  stipple_test rush x y
  = if Z.odd y then false else Z.testbit (stipple rush) (x mod 32).
Proof.
  intros Hs. unfold stipple_test. cbv zeta.
  change 0x1f with (Z.ones 5). change 63 with (Z.ones 6).
  rewrite !Z.land_ones by lia.
  pose proof (Z.mod_pos_bound x (2 ^ 5) ltac:(lia)) as Hx.
  pose proof (Z.mod_pos_bound y (2 ^ 5) ltac:(lia)) as Hy.
  assert (Ey : (y mod 2 ^ 5 * 32 + x mod 2 ^ 5) mod 2 ^ 6
               = 32 * (y mod 2) + x mod 2 ^ 5).
  { pose proof (Z.rem_mul_r y 2 (2 ^ 4) ltac:(lia) ltac:(lia)) as H1.
    change (2 * 2 ^ 4) with (2 ^ 5) in H1.
    pose proof (Z.mod_pos_bound y 2 ltac:(lia)).
    pose proof (Z.mod_pos_bound (y / 2) (2 ^ 4) ltac:(lia)).
    replace (y mod 2 ^ 5 * 32 + x mod 2 ^ 5)
      with (32 * (y mod 2) + x mod 2 ^ 5 + (y / 2) mod 2 ^ 4 * 2 ^ 6) by lia.
    rewrite Z.mod_add by lia. apply Z.mod_small. lia. }
  rewrite Ey. change (2 ^ 5) with 32 in *.
  set (c := x mod 32) in *.
  assert (Hb : mask_bit (stipple rush) (32 * (y mod 2) + c)
               = Z.testbit (stipple rush) (32 * (y mod 2) + c)).
  { apply mask_bit_testbit. pose proof (Z.mod_pos_bound y 2 ltac:(lia)). lia. }
  unfold mask_bit in Hb. rewrite Hb.
  rewrite <- Z.bit0_odd, (Z.testbit_eqb y 0) by lia.
  change (2 ^ 0) with 1. rewrite Z.div_1_r.
  pose proof (Z.mod_pos_bound y 2 ltac:(lia)) as Hy2.
  destruct (Z.eqb_spec (y mod 2) 1) as [E|E].
  - rewrite E. apply Z.bits_above_log2; [lia|].
    destruct (Z.eq_dec (stipple rush) 0) as [E0|E0]; [rewrite E0; cbn; lia|].
    apply Z.lt_le_trans with 32; [|lia]. apply Z.log2_lt_pow2; lia.
  - replace (y mod 2) with 0 by lia. reflexivity.
Qed.

(** X25.  The chroma key test passes exactly the pixels whose distance
    from the low 16 bits of the key is at most the range: the comparison
    for equality that the code makes for range 0 is the same test, and with
    a range of [0xffff] or more every 16-bit pixel passes. *)
Theorem chroma_key_test_distance (rush : voodoo_rush_t) (pixel : Z) :
  0 <= chroma_range rush ->
  (chroma_key_test rush pixel = true
   <-> Z.abs (pixel - chroma_key rush mod 2 ^ 16) <= chroma_range rush)
  /\ (0 <= pixel < 2 ^ 16 -> 0xffff <= chroma_range rush ->
      chroma_key_test rush pixel = true).
Proof.
  intros Hr.
  assert (Hd : chroma_key_test rush pixel = true
               <-> Z.abs (pixel - chroma_key rush mod 2 ^ 16) <= chroma_range rush).
  { unfold chroma_key_test. cbv zeta. rewrite land_low16.
    set (key := chroma_key rush mod 2 ^ 16).
    destruct (Z.eqb_spec (chroma_range rush) 0) as [E|E].
    - rewrite E. destruct (Z.eqb_spec pixel key); split; intros Hx; try lia;
        try reflexivity; discriminate.
    - destruct (Z.ltb_spec key pixel);
        match goal with |- (?a <=? ?b) = true <-> _ => destruct (Z.leb_spec a b) end;
        split; intros Hx; try reflexivity; try discriminate; lia. }
  split; [exact Hd|].
  intros Hp Hbig. apply Hd.
  pose proof (Z.mod_pos_bound (chroma_key rush) (2 ^ 16) ltac:(lia)). lia.
Qed.

Lemma land_le (a b : Z) : 0 <= b -> 0 <= Z.land a b <= b.
Proof.
  intros Hb. split; [apply Z.land_nonneg; right; exact Hb|].
  pose proof (Z.lor_ldiff_and b a) as H1.
  assert (H2 : Z.land (Z.ldiff b a) (Z.land b a) = 0).
  { apply Z.bits_inj'. intros n Hn.
    rewrite !Z.land_spec, Z.ldiff_spec, Z.bits_0.
    destruct (Z.testbit b n), (Z.testbit a n); reflexivity. }
  apply Z.add_nocarry_lor in H2. rewrite H1 in H2.
  assert (0 <= Z.ldiff b a) by (apply Z.ldiff_nonneg; left; exact Hb).
  rewrite (Z.land_comm a b). lia.
Qed.

(** ** Fast fill, further *)

Lemma load8_store16 (m : gmap Z Z) (p v b : Z) :
  load8 (store16 m p v) b
  = if decide (p + 1 = b) then Z.shiftr v 8 mod 256
    else if decide (p = b) then v mod 256 else load8 m b.
Proof. unfold store16. rewrite !load8_store8. reflexivity. Qed.

Lemma fb_only_fields rush r :
  fb_only rush r ->
  puma_fb_size r = puma_fb_size rush /\ puma_fb_mask r = puma_fb_mask rush.
Proof. intros ->. split; reflexivity. Qed.

Lemma foldl_keep {A S} (f : S -> A -> S) (P : S -> Prop) (l : list A) :
  (forall s a, P s -> P (f s a)) -> forall s, P s -> P (foldl f s l).
Proof.
  intros Hf. induction l as [|a l IH]; intros s Hs; cbn [foldl]; [exact Hs|].
  apply IH, Hf, Hs.
Qed.

(** A fold whose rounds keep [P] reaches [P] at the round of [x]. *)
Lemma foldl_reach {A S} (f : S -> A -> S) (Inv P : S -> Prop) (x : A) (l : list A) :
  (forall s a, Inv s -> Inv (f s a)) ->
  (forall s a, P s -> P (f s a)) ->
  (forall s, Inv s -> P (f s x)) ->
  x ∈ l -> forall s, Inv s -> P (foldl f s l).
Proof.
  intros HI HP Hx. induction l as [|a l IH]; intros Hin s Hs; cbn [foldl].
  - apply elem_of_nil in Hin. destruct Hin.
  - apply elem_of_cons in Hin. destruct Hin as [->|Hin].
    + apply foldl_keep; [exact HP|]. apply Hx, Hs.
    + apply IH; [exact Hin|]. apply HI, Hs.
Qed.

(** A property of the bytes that the stores of a fast fill keep is kept by
    the fast fill; [A] is what is known of the unmasked offsets. *)
Lemma fastfill_pixel_keeps (Q : gmap Z Z -> Prop) (A : Z -> Prop)
    cb db fc za co ao rush r x :
  (forall m p v, A p -> Q m -> Q (store16 m (Z.land p (puma_fb_mask rush)) v)) ->
  A (wrap32 (co + x * 2)) -> A (wrap32 (ao + x * 2)) ->
  fb_only rush r /\ Q (puma_fb r) ->
  let r' := fastfill_pixel cb db fc za co ao r x in
  fb_only rush r' /\ Q (puma_fb r').
Proof.
  intros Hst Hc Ha [Hfb HQ]. cbv zeta.
  split; [eapply fb_only_trans; [exact Hfb|apply fastfill_pixel_frame]|].
  destruct (fb_only_fields _ _ Hfb) as [_ Em].
  unfold fastfill_pixel.
  destruct (puma_fb_size r <=? _); [exact HQ|].
  destruct cb.
  - match goal with |- context [if ?c then _ else _] => destruct c end.
    + cbn [puma_fb set_puma_fb puma_fb_mask]. rewrite Em.
      apply Hst; [exact Ha|]. apply Hst; [exact Hc|exact HQ].
    + cbn [puma_fb set_puma_fb]. rewrite Em. apply Hst; [exact Hc|exact HQ].
  - match goal with |- context [if ?c then _ else _] => destruct c end; [|exact HQ].
    cbn [puma_fb set_puma_fb]. rewrite Em. apply Hst; [exact Ha|exact HQ].
Qed.

Lemma fastfill_keeps (Q : gmap Z Z -> Prop) (A : Z -> Prop) rush :
  (forall m p v, A p -> Q m -> Q (store16 m (Z.land p (puma_fb_mask rush)) v)) ->
  (forall base stride yo x,
     A (wrap32 (base + yo * (stride * 4))) -> A (wrap32 (wrap32 (base + yo * (stride * 4)) + x * 2))) ->
  (forall yo, A (wrap32 (Z.land (Z.shiftr (col_buffer_setup rush) 0) 0x3fffff
                         + yo * (Z.land (Z.shiftr (col_buffer_setup rush) 22) 0x1ff * 4)))) ->
  (forall yo, A (wrap32 (Z.land (Z.shiftr (aux_buffer_setup rush) 0) 0x3fffff
                         + yo * (Z.land (Z.shiftr (aux_buffer_setup rush) 22) 0x1ff * 4)))) ->
  Q (puma_fb rush) -> Q (puma_fb (fastfill rush)).
Proof.
  intros Hst Hx Hc Ha HQ. unfold voodoo_rush_fastfill.
  destruct (negb (enabled rush)); [exact HQ|]. cbv zeta.
  match goal with
  | |- Q (puma_fb (foldl ?f rush ?l)) =>
      enough (fb_only rush (foldl f rush l) /\ Q (puma_fb (foldl f rush l))) as [_ H];
      [exact H|];
      apply (foldl_keep f (fun r => fb_only rush r /\ Q (puma_fb r)));
      [|split; [apply fb_only_refl|exact HQ]]
  end.
  intros r y Hr.
  apply (foldl_keep _ (fun r => fb_only rush r /\ Q (puma_fb r))); [|exact Hr].
  intros r' x Hr'.
  apply (fastfill_pixel_keeps Q A); [exact Hst| | |exact Hr'].
  - apply Hx, Hc.
  - apply Hx, Ha.
Qed.

Lemma wrap32_even (u : Z) : Z.even (wrap32 u) = Z.even u.
Proof.
  rewrite <- !Z.negb_odd, <- !Z.bit0_odd. unfold wrap32.
  rewrite Z.mod_pow2_bits_low by lia. reflexivity.
Qed.

Lemma land_even (p m : Z) : Z.even p = true -> Z.even (Z.land p m) = true.
Proof.
  rewrite <- !Z.negb_odd, <- !Z.bit0_odd, Z.land_spec.
  destruct (Z.testbit p 0); [discriminate|reflexivity].
Qed.

Lemma even_apart (p q : Z) : Z.even p = true -> Z.even q = true -> p + 1 <> q.
Proof.
  intros Hp Hq E. rewrite <- E, Z.even_add, Hp in Hq. discriminate Hq.
Qed.

Lemma row_offset_even (base stride yo x : Z) :
  Z.even base = true ->
  Z.even (wrap32 (base + yo * (stride * 4))) = true
  /\ Z.even (wrap32 (wrap32 (base + yo * (stride * 4)) + x * 2)) = true.
Proof.
  intros Hb.
  assert (H1 : Z.even (wrap32 (base + yo * (stride * 4))) = true).
  { rewrite wrap32_even, Z.even_add, Hb, !Z.even_mul.
    change (Z.even 4) with true. rewrite !orb_true_r. reflexivity. }
  split; [exact H1|].
  rewrite wrap32_even, Z.even_add, H1, Z.even_mul.
  change (Z.even 2) with true. rewrite orb_true_r. reflexivity.
Qed.

Lemma buffer_base_even (setup : Z) :
  Z.even setup = true -> Z.even (Z.land (Z.shiftr setup 0) 0x3fffff) = true.
Proof. intros H. rewrite Z.shiftr_0_r. apply land_even, H. Qed.

(** X20.  A fast fill writes inside the frame buffer: with a mask that is
    not negative, the bytes at the keys below 0 and above the mask plus one
    are untouched; and when the mask is odd and the two buffer setups are
    even, the byte at the mask plus one is untouched as well, so no store
    runs past the last byte the mask reaches. *)
Theorem fastfill_stays_in_buffer (rush : voodoo_rush_t) (a : Z) :
  0 <= puma_fb_mask rush ->
  (a < 0 \/ puma_fb_mask rush + 1 < a ->
   load8 (puma_fb (fastfill rush)) a = load8 (puma_fb rush) a)
  /\ (Z.odd (puma_fb_mask rush) = true ->
      Z.even (col_buffer_setup rush) = true ->
      Z.even (aux_buffer_setup rush) = true ->
      puma_fb_mask rush < a ->
      load8 (puma_fb (fastfill rush)) a = load8 (puma_fb rush) a).
Proof.
  intros Hm. split.
  - intros Ha.
    apply (fastfill_keeps (fun m => load8 m a = load8 (puma_fb rush) a) (fun _ => True));
      try (intros; exact I); [|reflexivity].
    intros m p v _ HQ. rewrite load8_store16.
    pose proof (land_le p (puma_fb_mask rush) Hm).
    repeat match goal with |- context [decide ?P] => destruct (decide P); try lia end.
  - intros Hodd Hc Hx Ha.
    apply (fastfill_keeps (fun m => load8 m a = load8 (puma_fb rush) a)
             (fun p => Z.even p = true)); [| | | |reflexivity].
    + intros m p v Hp HQ. rewrite load8_store16.
      pose proof (land_le p (puma_fb_mask rush) Hm) as Hq.
      pose proof (land_even p (puma_fb_mask rush) Hp) as He.
      destruct (decide (Z.land p (puma_fb_mask rush) + 1 = a)) as [E|_].
      { exfalso. assert (Eq : Z.land p (puma_fb_mask rush) = puma_fb_mask rush) by lia.
        rewrite Eq, <- Z.negb_odd, Hodd in He. discriminate He. }
      destruct (decide (Z.land p (puma_fb_mask rush) = a)); [lia|exact HQ].
    + intros base stride yo x Hb. rewrite wrap32_even, Z.even_add, Hb, Z.even_mul.
      change (Z.even 2) with true. rewrite orb_true_r. reflexivity.
    + intros yo. apply row_offset_even with (x := 0), buffer_base_even, Hc.
    + intros yo. apply row_offset_even with (x := 0), buffer_base_even, Hx.
Qed.

(** X21.  A fast fill over an empty clip rectangle, the right bound not
    beyond the left one or the bottom bound not beyond the top one, changes
    nothing, whatever the write masks. *)
Theorem fastfill_empty_rectangle (rush : voodoo_rush_t) :
  let p := sst96_to_voodoo_params rush in
  Voodoo.clipRight p <= Voodoo.clipLeft p \/ Voodoo.clipHighY p <= Voodoo.clipLowY p ->
  fastfill rush = rush.
Proof.
  intros p Hempty. unfold voodoo_rush_fastfill.
  destruct (negb (enabled rush)); [reflexivity|]. cbv zeta.
  change (Z.land (Z.shiftr (word_at (clip_left_right rush) 0) 0) 0x7ff)
    with (Voodoo.clipLeft p).
  change (Z.land (Z.shiftr (word_at (clip_left_right rush) 0) 16) 0x7ff)
    with (Voodoo.clipRight p).
  change (Z.land (Z.shiftr (word_at (clip_top_bottom rush) 0) 0) 0x7ff)
    with (Voodoo.clipLowY p).
  change (Z.land (Z.shiftr (word_at (clip_top_bottom rush) 0) 16) 0x7ff)
    with (Voodoo.clipHighY p).
  destruct Hempty as [Hx|Hy].
  - apply foldl_id. intros r y.
    rewrite (seqZ_nil (Voodoo.clipLeft p)) by lia. reflexivity.
  - rewrite (seqZ_nil (Voodoo.clipLowY p)) by lia. reflexivity.
Qed.

Lemma lor_shiftl_add (a b n : Z) :
  0 <= n -> 0 <= a < 2 ^ n -> Z.lor a (Z.shiftl b n) = a + 2 ^ n * b.
Proof.
  intros Hn Ha. rewrite <- Z.add_nocarry_lor.
  - rewrite Z.shiftl_mul_pow2 by exact Hn. lia.
  - apply Z.bits_inj'. intros m Hm. rewrite Z.land_spec, Z.bits_0.
    destruct (Z.ltb_spec m n).
    + rewrite Z.shiftl_spec_low by assumption. apply andb_false_r.
    + rewrite <- (Z.mod_small a (2 ^ n)) by exact Ha.
      rewrite Z.mod_pow2_bits_high by lia. reflexivity.
Qed.

Lemma fill_colour_rgb565 (color32 : Z) :
  Z.lor
    (Z.lor (Z.land (Z.shiftr color32 19) 0x1f)
       (Z.shiftl (Z.land (Z.shiftr color32 10) 0x3f) 5))
    (Z.shiftl (Z.land (Z.shiftr color32 3) 0x1f) 11)
  = rgb565_of color32
  /\ 0 <= rgb565_of color32 < 2 ^ 16.
Proof.
  change 0x1f with (Z.ones 5). change 0x3f with (Z.ones 6).
  rewrite !Z.land_ones, !Z.shiftr_div_pow2 by lia.
  pose proof (Z.mod_pos_bound (color32 / 2 ^ 19) (2 ^ 5) ltac:(lia)) as Hr.
  pose proof (Z.mod_pos_bound (color32 / 2 ^ 10) (2 ^ 6) ltac:(lia)) as Hg.
  pose proof (Z.mod_pos_bound (color32 / 2 ^ 3) (2 ^ 5) ltac:(lia)) as Hb.
  rewrite (lor_shiftl_add _ _ 5) by lia.
  rewrite (lor_shiftl_add _ _ 11) by lia.
  unfold rgb565_of. split; [reflexivity|lia].
Qed.

(** X22.  With the colour write mask set, the depth write mask clear, no
    vertical flip and an even colour buffer setup, a fast fill leaves in
    every pixel of the clip rectangle whose offset lies in the frame buffer
    the 16-bit pixel of the fill colour, at the frame buffer address that
    [calc_lfb_addr] gives for its column and row. *)
Theorem fastfill_fills_rectangle (rush : voodoo_rush_t) (x y : Z) :
  enabled rush = true ->
  Z.land (fbz_mode rush) FBZ_RGB_WMASK <> 0 ->
  Z.land (fbz_mode rush) FBZ_DEPTH_WMASK = 0 ->
  Z.testbit (fbz_mode rush) 17 = false ->
  Z.even (col_buffer_setup rush) = true ->
  let p := sst96_to_voodoo_params rush in
  Voodoo.clipLeft p <= x < Voodoo.clipRight p ->
  Voodoo.clipLowY p <= y < Voodoo.clipHighY p ->
  pixel_offset rush x y < puma_fb_size rush ->
  let a := calc_lfb_addr rush x y in
  let fb := puma_fb (fastfill rush) in
  a = Z.land (pixel_offset rush x y) (puma_fb_mask rush)
  /\ load8 fb a + 256 * load8 fb (a + 1) = rgb565_of (color0 rush).
Proof.
  intros Hen Hrgb Hdepth Hflip Heven p Hx Hy Hin a fb.
  assert (Eflip : truthy (Z.land (fbz_mode rush) (Z.shiftl 1 17)) = false).
  { change (truthy (Z.land (fbz_mode rush) (Z.shiftl 1 17)))
      with (mask_bit (fbz_mode rush) 17).
    rewrite mask_bit_testbit by lia. exact Hflip. }
  assert (Ea : a = Z.land (pixel_offset rush x y) (puma_fb_mask rush)).
  { unfold a, calc_lfb_addr, pixel_offset. cbv zeta. rewrite Eflip. reflexivity. }
  split; [exact Ea|].
  destruct (fill_colour_rgb565 (color0 rush)) as [Efc Hfc].
  set (fc := rgb565_of (color0 rush)) in *.
  set (P := fun r : voodoo_rush_t =>
              fb_only rush r
              /\ load8 (puma_fb r) a = fc mod 256
              /\ load8 (puma_fb r) (a + 1) = Z.shiftr fc 8 mod 256).
  assert (Hpo : forall yo xo, Z.even (pixel_offset rush xo yo) = true).
  { intros yo xo. unfold pixel_offset. cbv zeta.
    apply row_offset_even, buffer_base_even, Heven. }
  assert (Haeven : Z.even a = true) by (rewrite Ea; apply land_even, Hpo).
  assert (Hapart : forall q, Z.even q = true -> q + 1 <> a /\ q <> a + 1).
  { intros q Hq. split; [apply even_apart; assumption|].
    intros E. symmetry in E. revert E. apply even_apart; assumption. }
  assert (Hpix : forall r xo yo,
             fb_only rush r ->
             fastfill_pixel true false fc (za_color rush)
               (wrap32 (Z.land (Z.shiftr (col_buffer_setup rush) 0) 0x3fffff
                        + yo * (Z.land (Z.shiftr (col_buffer_setup rush) 22) 0x1ff * 4)))
               (wrap32 (Z.land (Z.shiftr (aux_buffer_setup rush) 0) 0x3fffff
                        + yo * (Z.land (Z.shiftr (aux_buffer_setup rush) 22) 0x1ff * 4)))
               r xo
             = if puma_fb_size rush <=? pixel_offset rush xo yo then r
               else set_puma_fb
                      (store16 (puma_fb r)
                         (Z.land (pixel_offset rush xo yo) (puma_fb_mask rush)) fc) r).
  { intros r xo yo Hr. destruct (fb_only_fields _ _ Hr) as [Es Em].
    unfold fastfill_pixel. cbv zeta. rewrite Es, Em. cbn [andb].
    fold (pixel_offset rush xo yo).
    destruct (puma_fb_size rush <=? pixel_offset rush xo yo); reflexivity. }
  assert (Hkeep : forall r xo yo,
             P r ->
             P (fastfill_pixel true false fc (za_color rush)
                  (wrap32 (Z.land (Z.shiftr (col_buffer_setup rush) 0) 0x3fffff
                           + yo * (Z.land (Z.shiftr (col_buffer_setup rush) 22) 0x1ff * 4)))
                  (wrap32 (Z.land (Z.shiftr (aux_buffer_setup rush) 0) 0x3fffff
                           + yo * (Z.land (Z.shiftr (aux_buffer_setup rush) 22) 0x1ff * 4)))
                  r xo)).
  { intros r xo yo (Hr & Hlo & Hhi). rewrite Hpix by exact Hr.
    destruct (puma_fb_size rush <=? pixel_offset rush xo yo);
      [split; [exact Hr|split; assumption]|].
    split; [eapply fb_only_trans; [exact Hr|apply fb_only_set]|].
    cbn [puma_fb set_puma_fb]. rewrite !load8_store16.
    destruct (Hapart _ (land_even _ (puma_fb_mask rush) (Hpo yo xo))) as [Hq1 Hq2].
    split;
      repeat match goal with |- context [decide ?P] => destruct (decide P); try lia end;
      try reflexivity; assumption. }
  assert (Hrow : forall r yo,
             P r ->
             P (foldl
                  (fastfill_pixel true false fc (za_color rush)
                     (wrap32 (Z.land (Z.shiftr (col_buffer_setup rush) 0) 0x3fffff
                              + yo * (Z.land (Z.shiftr (col_buffer_setup rush) 22) 0x1ff * 4)))
                     (wrap32 (Z.land (Z.shiftr (aux_buffer_setup rush) 0) 0x3fffff
                              + yo * (Z.land (Z.shiftr (aux_buffer_setup rush) 22) 0x1ff * 4))))
                  r (seqZ (Voodoo.clipLeft p) (Voodoo.clipRight p - Voodoo.clipLeft p)))).
  { intros r yo Hr. apply foldl_keep; [|exact Hr].
    intros r' xo Hr'. apply Hkeep, Hr'. }
  assert (HP : P (fastfill rush)).
  { unfold p, sst96_to_voodoo_params in Hx, Hy.
    cbn [Voodoo.clipLeft Voodoo.clipRight Voodoo.clipLowY Voodoo.clipHighY] in Hx, Hy.
    unfold voodoo_rush_fastfill. rewrite Hen. cbn [negb]. cbv zeta.
    rewrite Eflip, Hdepth, Efc.
    replace (truthy (Z.land (fbz_mode rush) FBZ_RGB_WMASK)) with true
      by (unfold truthy;
          destruct (Z.eqb_spec (Z.land (fbz_mode rush) FBZ_RGB_WMASK) 0);
          [contradiction|reflexivity]).
    change (truthy 0) with false.
    apply (foldl_reach _ (fb_only rush) P y).
    - intros r yo Hr. eapply fb_only_trans; [exact Hr|].
      apply foldl_frame. intros r' xo. apply fastfill_pixel_frame.
    - intros r yo Hr. apply Hrow, Hr.
    - intros r Hr.
      apply (foldl_reach _ (fb_only rush) P x).
      + intros r' xo Hr'. eapply fb_only_trans; [exact Hr'|apply fastfill_pixel_frame].
      + intros r' xo Hr'. apply Hkeep, Hr'.
      + intros r' Hr'. unfold P. rewrite Hpix by exact Hr'.
        destruct (Z.leb_spec (puma_fb_size rush) (pixel_offset rush x y)); [lia|].
        split; [eapply fb_only_trans; [exact Hr'|apply fb_only_set]|].
        cbn [puma_fb set_puma_fb]. rewrite !load8_store16, <- Ea.
        split;
          repeat match goal with |- context [decide ?P] => destruct (decide P); try lia end;
          reflexivity.
      + apply elem_of_seqZ. lia.
      + exact Hr.
    - apply elem_of_seqZ. lia.
    - apply fb_only_refl. }
  destruct HP as (_ & Hlo & Hhi). unfold fb. rewrite Hlo, Hhi.
  rewrite Z.shiftr_div_pow2 by lia.
  pose proof (Z.rem_mul_r fc (2 ^ 8) (2 ^ 8) ltac:(lia) ltac:(lia)) as Hrem.
  change (2 ^ 8 * 2 ^ 8) with (2 ^ 16) in Hrem.
  rewrite (Z.mod_small fc (2 ^ 16)) in Hrem by exact Hfc.
  change 256 with (2 ^ 8). lia.
Qed.

(** ** The frame buffer address of a pixel *)

Lemma mod_wrap32 (u n : Z) : 0 <= n <= 32 -> wrap32 u mod 2 ^ n = u mod 2 ^ n.
Proof.
  intros Hn. unfold wrap32. apply Z.mod_mod_divide.
  exists (2 ^ (32 - n)). rewrite <- Z.pow_add_r by lia. f_equal. lia.
Qed.

(** X26.  On a device with the layout of its mode, [calc_lfb_addr] is the
    colour buffer base plus the row times the stride plus twice the column,
    the row counted downwards from the base when the vertical flip is set,
    reduced modulo the size of the frame buffer: an address inside the
    frame buffer for every column and row. *)
Theorem calc_lfb_addr_wraps (rush : voodoo_rush_t) (x y : Z) :
  layout_ok rush ->
  let col_base := col_buffer_setup rush mod 2 ^ 22 in
  let col_stride := col_buffer_setup rush / 2 ^ 22 mod 2 ^ 9 * 4 in
  let row := if Z.testbit (fbz_mode rush) 17 then - y else y in
  calc_lfb_addr rush x y
  = (col_base + row * col_stride + x * 2) mod puma_fb_size rush
  /\ 0 <= calc_lfb_addr rush x y < puma_fb_size rush.
Proof.
  intros (Hfs & Hfm & _) col_base col_stride row.
  assert (Hk : exists k, 0 <= k <= 32 /\ puma_fb_size rush = 2 ^ k
                         /\ puma_fb_mask rush = Z.ones k).
  { rewrite Hfs, Hfm. destruct (puma_mode_8mb rush);
      [exists 22|exists 21]; split; try lia; split; reflexivity. }
  destruct Hk as (k & Hk & Es & Em).
  assert (E : calc_lfb_addr rush x y
              = (col_base + row * col_stride + x * 2) mod puma_fb_size rush).
  { unfold calc_lfb_addr. cbv zeta.
    change (truthy (Z.land (fbz_mode rush) (Z.shiftl 1 17)))
      with (mask_bit (fbz_mode rush) 17).
    rewrite mask_bit_testbit by lia.
    rewrite Em, Es, Z.land_ones, mod_wrap32 by lia.
    rewrite Z.shiftr_0_r. change 0x3fffff with (Z.ones 22). change 0x1ff with (Z.ones 9).
    rewrite !Z.land_ones, Z.shiftr_div_pow2 by lia.
    fold col_base. fold col_stride. unfold row.
    destruct (Z.testbit (fbz_mode rush) 17).
    - rewrite Zplus_mod, mod_wrap32, <- Zplus_mod by lia. f_equal. lia.
    - rewrite Zplus_mod, mod_wrap32, <- Zplus_mod by lia. reflexivity. }
  split; [exact E|]. rewrite E. apply Z.mod_pos_bound. rewrite Es.
  apply Z.pow_pos_nonneg; lia.
Qed.

(** ** The THP port of the AT3D *)

Lemma testbit_byte_mask (m : Z) : 0 <= m -> Z.testbit 0xff m = (m <? 8).
Proof.
  intros Hm. change 0xff with (Z.ones 8). rewrite Z.testbit_ones by lia.
  destruct (Z.leb_spec 0 m); [reflexivity|lia].
Qed.

Lemma testbit_byte_high (v m : Z) : 0 <= v < 256 -> 8 <= m -> Z.testbit v m = false.
Proof.
  intros Hv Hm. rewrite <- (Z.mod_small v (2 ^ 8)) by (change (2 ^ 8) with 256; lia).
  apply Z.mod_pow2_bits_high. lia.
Qed.

(** The bits of a word after one of its bytes was stored. *)
Lemma testbit_set_byte (w k v n : Z) :
  0 <= k -> 0 <= n -> 0 <= v < 256 ->
  Z.testbit (set_byte w k v) n
  = if (8 * k <=? n) && (n <? 8 * k + 8) then Z.testbit v (n - 8 * k) else Z.testbit w n.
Proof.
  intros Hk Hn Hv. unfold set_byte.
  rewrite Z.lor_spec, Z.land_spec, Z.lnot_spec, !Z.shiftl_spec by lia.
  destruct (Z.leb_spec (8 * k) n) as [Hle|Hlt]; cbn [andb].
  - rewrite testbit_byte_mask by lia.
    destruct (Z.ltb_spec (n - 8 * k) 8), (Z.ltb_spec n (8 * k + 8)); try lia; cbn [negb].
    + rewrite andb_false_r. reflexivity.
    + rewrite andb_true_r, (testbit_byte_high v) by lia. apply orb_false_r.
  - rewrite !(Z.testbit_neg_r _ (n - 8 * k)) by lia. cbn [negb].
    rewrite andb_true_r. apply orb_false_r.
Qed.

Lemma land_byte_range (v : Z) : 0 <= Z.land v 0xff < 256.
Proof. rewrite land_byte. apply Z.mod_pos_bound. lia. Qed.

Lemma testbit_byte_of (d j m : Z) :
  0 <= j -> 0 <= m ->
  Z.testbit (Z.land (Z.shiftr d j) 0xff) m = Z.testbit d (m + j) && (m <? 8).
Proof.
  intros Hj Hm. rewrite Z.land_spec, Z.shiftr_spec, testbit_byte_mask by lia.
  reflexivity.
Qed.

(** Four byte stores, lowest byte first, leave the 32-bit value whose
    bytes were stored. *)
Lemma set_bytes_dword (w d : Z) :
  0 <= w < 2 ^ 32 ->
  set_byte
    (set_byte
       (set_byte (set_byte w 0 (Z.land d 0xff)) 1 (Z.land (Z.shiftr d 8) 0xff))
       2 (Z.land (Z.shiftr d 16) 0xff))
    3 (Z.land (Z.shiftr d 24) 0xff)
  = d mod 2 ^ 32.
Proof.
  intros Hw. apply Z.bits_inj'. intros n Hn.
  rewrite !testbit_set_byte by (try apply land_byte_range; lia).
  change (8 * 0) with 0. change (8 * 1) with 8. change (8 * 2) with 16.
  change (8 * 3) with 24.
  repeat match goal with
    | |- context [(?a <=? ?b) && (?c <? ?e)] =>
        destruct (Z.leb_spec a b), (Z.ltb_spec c e); cbn [andb]; try lia
    end.
  all: first
    [ rewrite testbit_byte_of, Z.mod_pow2_bits_low by lia;
      match goal with |- context [?a <? 8] => destruct (Z.ltb_spec a 8); [|lia] end;
      rewrite andb_true_r; f_equal; lia
    | rewrite Z.land_spec, testbit_byte_mask, Z.mod_pow2_bits_low by lia;
      match goal with |- context [?a <? 8] => destruct (Z.ltb_spec a 8); [|lia] end;
      rewrite andb_true_r; f_equal; lia
    | rewrite Z.mod_pow2_bits_high by lia;
      rewrite <- (Z.mod_small w (2 ^ 32)) by exact Hw;
      apply Z.mod_pow2_bits_high; lia ].
Qed.

(** The four bytes of a word, put together. *)
Lemma get_bytes_dword (d : Z) :
  wrap32
    (Z.lor
       (Z.lor (Z.lor (get_byte d 0) (Z.shiftl (get_byte d 1) 8))
          (Z.shiftl (get_byte d 2) 16))
       (Z.shiftl (get_byte d 3) 24))
  = d mod 2 ^ 32.
Proof.
  unfold get_byte, wrap32.
  change (8 * 0) with 0. change (8 * 1) with 8. change (8 * 2) with 16.
  change (8 * 3) with 24.
  rewrite Z.shiftr_0_r, !land_byte.
  pose proof (Z.mod_pos_bound d (2 ^ 8) ltac:(lia)) as H0.
  pose proof (Z.mod_pos_bound (Z.shiftr d 8) (2 ^ 8) ltac:(lia)) as H1.
  pose proof (Z.mod_pos_bound (Z.shiftr d 16) (2 ^ 8) ltac:(lia)) as H2.
  pose proof (Z.mod_pos_bound (Z.shiftr d 24) (2 ^ 8) ltac:(lia)) as H3.
  rewrite (lor_shiftl_add _ _ 8) by lia.
  rewrite (lor_shiftl_add _ _ 16) by lia.
  rewrite (lor_shiftl_add _ _ 24) by lia.
  pose proof (le_bytes d) as E. rewrite !Z.shiftl_mul_pow2 in E by lia.
  match goal with
  | |- ?x mod _ = _ => replace x with (d mod 2 ^ 32) by lia
  end.
  apply Z.mod_mod. lia.
Qed.

Lemma at3d_eta (at3d : at3d_t) :
  {| mmio_regs := mmio_regs at3d; thp := thp at3d; voodoo_rush := voodoo_rush at3d;
     voodoo_rush_enabled := voodoo_rush_enabled at3d |} = at3d.
Proof. destruct at3d; reflexivity. Qed.

(** A second read through the THP port finds what the first found: the
    grant flag is all a read leaves. *)
Lemma thp_read_again rush addr :
  voodoo_rush_thp_read (voodoo_rush_thp_read rush addr).2 addr
  = voodoo_rush_thp_read rush addr.
Proof.
  unfold voodoo_rush_thp_read.
  destruct (enabled rush) eqn:Hen; cbn [negb snd]; [|rewrite Hen; reflexivity].
  cbv zeta.
  destruct (addr <? puma_fb_size rush) eqn:Hlt; cbn [snd].
  - change (enabled (set_puma_gnt true rush)) with (enabled rush).
    change (puma_fb_size (set_puma_gnt true rush)) with (puma_fb_size rush).
    rewrite Hen, Hlt. cbn [negb]. reflexivity.
  - rewrite Hen, Hlt. reflexivity.
Qed.

(** The byte writes to the address and data ports. *)
Lemma thp_address_port at3d val :
  let stored k :=
    Some (set_thp
            (set_thp_address (set_byte (thp_address (thp at3d)) k (Z.land val 0xff))
               (thp at3d))
            at3d) in
  at3d_write_mmio 0x408 val at3d = stored 0
  /\ at3d_write_mmio 0x409 val at3d = stored 1
  /\ at3d_write_mmio 0x40a val at3d = stored 2
  /\ at3d_write_mmio 0x40b val at3d = stored 3.
Proof. repeat split; reflexivity. Qed.

Lemma thp_data_port at3d val :
  let stored k :=
    set_thp
      (set_thp_data (set_byte (thp_data (thp at3d)) k (Z.land val 0xff)) (thp at3d))
      at3d in
  at3d_write_mmio 0x40c val at3d = Some (stored 0)
  /\ at3d_write_mmio 0x40d val at3d = Some (stored 1)
  /\ at3d_write_mmio 0x40e val at3d = Some (stored 2)
  /\ at3d_write_mmio 0x40f val at3d
     = match voodoo_rush at3d with
       | Some rush =>
           if voodoo_rush_enabled at3d then
             Some (set_voodoo_rush
                     (Some (thp_write rush (thp_address (thp at3d))
                              (set_byte (thp_data (thp at3d)) 3 (Z.land val 0xff))))
                     (stored 3))
           else Some (stored 3)
       | None => Some (stored 3)
       end.
Proof. repeat split; reflexivity. Qed.

Lemma land_byte_twice (x : Z) : Z.land (Z.land x 0xff) 0xff = Z.land x 0xff.
Proof. rewrite <- Z.land_assoc. reflexivity. Qed.

(** X27.  With a device attached and enabled, the address written as a
    32-bit word to the THP address port and the data written as a 32-bit
    word to the THP data port reach the device as exactly one THP write of
    that data to that address, made when the last byte of the data arrives;
    both words stay latched in the port. *)
Theorem thp_port_write (at3d : at3d_t) (rush : voodoo_rush_t) (a d : Z) :
  voodoo_rush at3d = Some rush ->
  voodoo_rush_enabled at3d = true ->
  0 <= thp_address (thp at3d) < 2 ^ 32 ->
  0 <= thp_data (thp at3d) < 2 ^ 32 ->
  0 <= a < 2 ^ 32 ->
  0 <= d < 2 ^ 32 ->
  at3d_writel_mmio 0x408 a at3d ≫= at3d_writel_mmio 0x40c d
  = Some
      (set_voodoo_rush (Some (thp_write rush a d))
         (set_thp (set_thp_data d (set_thp_address a (thp at3d))) at3d)).
Proof.
  intros Hr Hen Ha0 Hd0 Ha Hd.
  destruct at3d as [m [c s a0 d0 rq gr] vr en]. cbn in Hr, Hen, Ha0, Hd0. subst vr en.
  unfold at3d_writel_mmio.
  change (wrap32 (0x408 + 1)) with 0x409. change (wrap32 (0x408 + 2)) with 0x40a.
  change (wrap32 (0x408 + 3)) with 0x40b.
  change (wrap32 (0x40c + 1)) with 0x40d. change (wrap32 (0x40c + 2)) with 0x40e.
  change (wrap32 (0x40c + 3)) with 0x40f.
  rewrite (proj1 (thp_address_port _ _)). cbn [mbind option_bind].
  rewrite (proj1 (proj2 (thp_address_port _ _))). cbn [mbind option_bind].
  rewrite (proj1 (proj2 (proj2 (thp_address_port _ _)))). cbn [mbind option_bind].
  rewrite (proj2 (proj2 (proj2 (thp_address_port _ _)))). cbn [mbind option_bind].
  rewrite (proj1 (thp_data_port _ _)). cbn [mbind option_bind].
  rewrite (proj1 (proj2 (thp_data_port _ _))). cbn [mbind option_bind].
  rewrite (proj1 (proj2 (proj2 (thp_data_port _ _)))). cbn [mbind option_bind].
  rewrite (proj2 (proj2 (proj2 (thp_data_port _ _)))).
  cbn [thp thp_address thp_data set_thp set_thp_address set_thp_data voodoo_rush
       voodoo_rush_enabled mmio_regs thp_control thp_status req_active grant_active
       set_voodoo_rush].
  rewrite !land_byte_twice.
  rewrite (set_bytes_dword a0 a Ha0), (set_bytes_dword d0 d Hd0).
  rewrite !Z.mod_small by lia. reflexivity.
Qed.

Lemma thp_data_port_read at3d rush :
  voodoo_rush at3d = Some rush ->
  voodoo_rush_enabled at3d = true ->
  let got := voodoo_rush_thp_read rush (thp_address (thp at3d)) in
  let read k := Some (get_byte got.1 k, set_voodoo_rush (Some got.2) at3d) in
  at3d_read_mmio 0x40c at3d = read 0
  /\ at3d_read_mmio 0x40d at3d = read 1
  /\ at3d_read_mmio 0x40e at3d = read 2
  /\ at3d_read_mmio 0x40f at3d = read 3.
Proof.
  intros Hr Hen got read. unfold read, got, at3d_read_mmio.
  change (Z.land 0x40c 0xffff) with 0x40c. change (Z.land 0x40d 0xffff) with 0x40d.
  change (Z.land 0x40e 0xffff) with 0x40e. change (Z.land 0x40f 0xffff) with 0x40f.
  cbv iota zeta beta. rewrite Hr, Hen.
  destruct (voodoo_rush_thp_read rush (thp_address (thp at3d))) as [data rush'].
  repeat split; reflexivity.
Qed.

(** X28.  With a device attached and enabled, a 32-bit read of the THP
    data port returns the word the device gives for a THP read at the
    latched address, and leaves the device as one such read leaves it,
    although each of the four bytes is fetched by a THP read of its own. *)
Theorem thp_port_read (at3d : at3d_t) (rush : voodoo_rush_t) :
  voodoo_rush at3d = Some rush ->
  voodoo_rush_enabled at3d = true ->
  let got := voodoo_rush_thp_read rush (thp_address (thp at3d)) in
  at3d_readl_mmio 0x40c at3d
  = Some (wrap32 got.1, set_voodoo_rush (Some got.2) at3d).
Proof.
  intros Hr Hen got.
  set (at3d' := set_voodoo_rush (Some got.2) at3d).
  assert (Hr' : voodoo_rush at3d' = Some got.2) by reflexivity.
  assert (Hen' : voodoo_rush_enabled at3d' = true) by exact Hen.
  assert (Hgot : voodoo_rush_thp_read got.2 (thp_address (thp at3d')) = got)
    by apply thp_read_again.
  assert (Hsame : set_voodoo_rush (Some got.2) at3d' = at3d') by reflexivity.
  destruct (thp_data_port_read at3d rush Hr Hen) as (E0 & _).
  destruct (thp_data_port_read at3d' got.2 Hr' Hen') as (_ & E1 & E2 & E3).
  cbv zeta in E0, E1, E2, E3. rewrite Hgot, Hsame in E1, E2, E3. fold got in E0.
  fold at3d' in E0.
  unfold at3d_readl_mmio.
  change (wrap32 (0x40c + 1)) with 0x40d. change (wrap32 (0x40c + 2)) with 0x40e.
  change (wrap32 (0x40c + 3)) with 0x40f.
  rewrite E0. cbn [mbind option_bind]. rewrite E1. cbn [mbind option_bind].
  rewrite E2. cbn [mbind option_bind]. rewrite E3. cbn [mbind option_bind].
  rewrite get_bytes_dword. reflexivity.
Qed.

Lemma thp_control_port at3d val :
  let stored k :=
    set_thp
      (set_thp_control (set_byte (thp_control (thp at3d)) k (Z.land val 0xff))
         (thp at3d))
      at3d in
  at3d_write_mmio 0x400 val at3d = Some (stored 0)
  /\ at3d_write_mmio 0x401 val at3d = Some (stored 1)
  /\ at3d_write_mmio 0x402 val at3d = Some (stored 2)
  /\ at3d_write_mmio 0x403 val at3d
     = match voodoo_rush at3d with
       | Some rush =>
           let on :=
             truthy (Z.land (set_byte (thp_control (thp at3d)) 3 (Z.land val 0xff)) 0x01) in
           Some (set_voodoo_rush (Some (set_enabled on rush))
                   (set_voodoo_rush_enabled on (stored 3)))
       | None => Some (stored 3)
       end.
Proof.
  repeat split; try reflexivity.
  unfold at3d_write_mmio. change (Z.land 0x403 0xffff) with 0x403.
  cbv iota zeta beta. cbn [voodoo_rush set_thp thp thp_control set_thp_control].
  destruct (voodoo_rush at3d); [|reflexivity].
  destruct (truthy _); reflexivity.
Qed.

Lemma thp_data_port_latched at3d :
  voodoo_rush at3d = None \/ voodoo_rush_enabled at3d = false ->
  at3d_readl_mmio 0x40c at3d = Some (wrap32 (thp_data (thp at3d)), at3d).
Proof.
  intros Hoff.
  assert (E : forall a k,
             (a = 0x40c /\ k = 0) \/ (a = 0x40d /\ k = 1) \/ (a = 0x40e /\ k = 2)
             \/ (a = 0x40f /\ k = 3) ->
             at3d_read_mmio a at3d = Some (get_byte (thp_data (thp at3d)) k, at3d)).
  { intros a k Hk. unfold at3d_read_mmio.
    destruct Hk as [[-> ->]|[[-> ->]|[[-> ->]|[-> ->]]]];
      match goal with
      | |- context [Z.land ?a 0xffff] => change (Z.land a 0xffff) with a
      end;
      cbv iota zeta beta;
      (destruct (voodoo_rush at3d) as [r|]; [|reflexivity]);
      (destruct Hoff as [Hoff|Hoff]; [discriminate Hoff|rewrite Hoff; reflexivity]). }
  unfold at3d_readl_mmio.
  change (wrap32 (0x40c + 1)) with 0x40d. change (wrap32 (0x40c + 2)) with 0x40e.
  change (wrap32 (0x40c + 3)) with 0x40f.
  rewrite (E 0x40c 0) by tauto. cbn [mbind option_bind].
  rewrite (E 0x40d 1) by tauto. cbn [mbind option_bind].
  rewrite (E 0x40e 2) by tauto. cbn [mbind option_bind].
  rewrite (E 0x40f 3) by tauto. cbn [mbind option_bind].
  rewrite get_bytes_dword. reflexivity.
Qed.

(** X29.  A 32-bit write to the THP control port latches the word and,
    when its last byte arrives, copies bit 0 into the enable flag of the
    chip and into the enable flag of the attached device.  With the bit
    clear the device is cut off: reads through the aperture return 0,
    writes through it and vertical syncs change nothing, and the data port
    reads back the latched data word.  A reset of the chip clears the
    control word and leaves the enable flag of the chip as it was. *)
Theorem thp_control_enables (at3d : at3d_t) (rush : voodoo_rush_t) (c : Z) :
  voodoo_rush at3d = Some rush ->
  0 <= thp_control (thp at3d) < 2 ^ 32 ->
  0 <= c < 2 ^ 32 ->
  let on := Z.testbit c 0 in
  let at3d' :=
    set_voodoo_rush (Some (set_enabled on rush))
      (set_voodoo_rush_enabled on (set_thp (set_thp_control c (thp at3d)) at3d)) in
  at3d_writel_mmio 0x400 c at3d = Some at3d'
  /\ (on = false ->
      forall addr val,
        at3d_puma_read addr at3d' = 0
        /\ at3d_puma_write addr val at3d' = at3d'
        /\ at3d_vsync_callback at3d' = at3d'
        /\ at3d_readl_mmio 0x40c at3d' = Some (wrap32 (thp_data (thp at3d)), at3d'))
  /\ (thp_control (thp (at3d_reset at3d')) = 0
      /\ voodoo_rush_enabled (at3d_reset at3d') = on).
Proof.
  intros Hr Hc0 Hc on at3d'.
  split.
  { destruct at3d as [m [c0 s a0 d0 rq gr] vr en]. cbn in Hr, Hc0. subst vr.
    unfold at3d_writel_mmio.
    change (wrap32 (0x400 + 1)) with 0x401. change (wrap32 (0x400 + 2)) with 0x402.
    change (wrap32 (0x400 + 3)) with 0x403.
    rewrite (proj1 (thp_control_port _ _)). cbn [mbind option_bind].
    rewrite (proj1 (proj2 (thp_control_port _ _))). cbn [mbind option_bind].
    rewrite (proj1 (proj2 (proj2 (thp_control_port _ _)))). cbn [mbind option_bind].
    rewrite (proj2 (proj2 (proj2 (thp_control_port _ _)))).
    cbn [thp thp_address thp_data set_thp set_thp_address set_thp_data voodoo_rush
         voodoo_rush_enabled mmio_regs thp_control thp_status req_active grant_active
         set_voodoo_rush set_thp_control].
    cbv zeta. rewrite !land_byte_twice, (set_bytes_dword c0 c Hc0).
    rewrite Z.mod_small by lia. rewrite truthy_bit0. reflexivity. }
  split.
  { intros Hoff addr val.
    assert (Hflag : voodoo_rush_enabled at3d' = false) by exact Hoff.
    assert (L : at3d_readl_mmio 0x40c at3d'
                = Some (wrap32 (thp_data (thp at3d')), at3d'))
      by (apply thp_data_port_latched; right; exact Hflag).
    split; [|split; [|split; [|exact L]]];
      unfold at3d_puma_read, at3d_puma_write, at3d_vsync_callback;
      rewrite Hflag; reflexivity. }
  unfold at3d_reset, at3d'. cbn. split; reflexivity.
Qed.

Lemma byte_or_high (r x : Z) : 0 <= r < 256 -> Z.land (Z.lor r (Z.shiftl x 8)) 0xff = r.
Proof.
  intros Hr. apply Z.bits_inj'. intros n Hn.
  rewrite Z.land_spec, Z.lor_spec, testbit_byte_mask by lia.
  destruct (Z.ltb_spec n 8).
  - rewrite Z.shiftl_spec_low by lia. rewrite orb_false_r. apply andb_true_r.
  - rewrite andb_false_r. symmetry. apply testbit_byte_high; assumption.
Qed.

(** X30.  A read of the THP status port returns the latched status word,
    with or without a device: the status bits of the device are OR-ed in
    eight bits up, above the byte that is read, and are lost with the
    conversion of the result to a byte. *)
Theorem thp_status_read (at3d : at3d_t) :
  at3d_readl_mmio 0x404 at3d = Some (wrap32 (thp_status (thp at3d)), at3d).
Proof.
  assert (E : forall a k,
             (a = 0x404 /\ k = 0) \/ (a = 0x405 /\ k = 1) \/ (a = 0x406 /\ k = 2)
             \/ (a = 0x407 /\ k = 3) ->
             at3d_read_mmio a at3d = Some (get_byte (thp_status (thp at3d)) k, at3d)).
  { intros a k Hk. unfold at3d_read_mmio.
    destruct Hk as [[-> ->]|[[-> ->]|[[-> ->]|[-> ->]]]];
      match goal with
      | |- context [Z.land ?a 0xffff] => change (Z.land a 0xffff) with a
      end;
      cbv iota zeta beta;
      (destruct (voodoo_rush at3d) as [r|]; [|reflexivity]);
      (destruct (voodoo_rush_enabled at3d); [|reflexivity]);
      rewrite byte_or_high by apply land_byte_range; reflexivity. }
  unfold at3d_readl_mmio.
  change (wrap32 (0x404 + 1)) with 0x405. change (wrap32 (0x404 + 2)) with 0x406.
  change (wrap32 (0x404 + 3)) with 0x407.
  rewrite (E 0x404 0) by tauto. cbn [mbind option_bind].
  rewrite (E 0x405 1) by tauto. cbn [mbind option_bind].
  rewrite (E 0x406 2) by tauto. cbn [mbind option_bind].
  rewrite (E 0x407 3) by tauto. cbn [mbind option_bind].
  rewrite get_bytes_dword. reflexivity.
Qed.

End Properties.


(** * Concrete runs *)

(** ** Writes to INIT4 and INIT5 *)

(** C9.  On a fresh device a write of 5 to FBIJR_INIT4 stores 5 in the
    initialisation register bank and leaves the CMDFIFO entry count at 0,
    and a write of 5 to FBIJR_INIT5 stores 5 in the bank and leaves the
    read pointer at 0: the handlers that would load the count and the
    pointer stand behind a second label of the same value and are never
    entered. *)
Theorem init45_write_keeps_fifo_state :
  let rush4 := reg_write_run (voodoo_rush_init true) SST96_FBIJR_INIT4 5 in
  let rush5 := reg_write_run (voodoo_rush_init true) SST96_FBIJR_INIT5 5 in
  (voodoo_rush_reg_read rush4 SST96_FBIJR_INIT4 = 5
   /\ cmdfifo_entry_count rush4 = 0
   /\ cmdfifo_entry_count rush4 <> 5)
  /\ (voodoo_rush_reg_read rush5 SST96_FBIJR_INIT5 = 5
      /\ cmdfifo_read_ptr rush5 = 0
      /\ cmdfifo_read_ptr rush5 <> 5).
Proof. vm_compute. repeat split; discriminate. Qed.

(** ** The claims at a concrete device *)

Lemma reg_write_raw_slot_witness :
  length (regs (voodoo_rush_init true)) = 256%nat
  /\ 0 <= SST96_FASTFILL_CMD < 256
  /\ word_at (regs (reg_write_run (voodoo_rush_init true) SST96_FASTFILL_CMD 0xdeadbeef))
       SST96_FASTFILL_CMD = 0xdeadbeef.
Proof.
  split; [reflexivity|]. split; [lia|].
  apply reg_write_raw_slot; [reflexivity|lia].
Defined.

Lemma masked_register_write_witness :
  length (regs (voodoo_rush_init true)) = 256%nat
  /\ fog_mode (reg_write_run (voodoo_rush_init true) SST96_FOG_MODE 0xffffffff) = 0x3f
  /\ voodoo_rush_reg_read
       (reg_write_run (voodoo_rush_init true) SST96_FOG_MODE 0xffffffff)
       SST96_FOG_MODE = 0xffffffff
  /\ voodoo_rush_reg_read
       (reg_write_run (voodoo_rush_init true) SST96_AUX_BUFFER_SETUP 0xffffffff)
       SST96_AUX_BUFFER_SETUP = 0x7fffffff.
Proof.
  split; [reflexivity|].
  destruct (masked_register_write texture_enabled_bit rgb_wmask_bit depth_wmask_bit
              (voodoo_rush_init true) 0xffffffff eq_refl)
    as [[Hfog _] [Haux [Hraw _]]].
  split; [exact Hfog|]. split; [exact Hraw|exact Haux].
Defined.

Lemma reset_readback_witness :
  length (fbijr_init start_device) = 6%nat
  /\ voodoo_rush_reg_read start_device SST96_START_G = 0x800000
  /\ voodoo_rush_reg_read (voodoo_rush_reset start_device) SST96_START_G = 0
  /\ voodoo_rush_reg_read (voodoo_rush_reset start_device) SST96_FBIJR_INIT0 = 0x0000f201.
Proof.
  split; [reflexivity|]. split; [reflexivity|].
  destruct (reset_readback start_device eq_refl) as [Hzero [[Hinit0 _] _]].
  split; [apply Hzero; reflexivity|exact Hinit0].
Defined.


Lemma grouped_packet_fanout_witness :
  ring_base grouped_device <= ring_read_addr grouped_device
  /\ wrap32 (ring_read_addr grouped_device + 8) <= ring_top grouped_device
  /\ exists rush,
       cmdfifo_packet texture_enabled_bit rgb_wmask_bit depth_wmask_bit
         (ring_base grouped_device) (ring_top grouped_device)
         (ring_size grouped_device) grouped_device = Some rush
       /\ cmdfifo_read_ptr rush = 3
       /\ word_at (regs rush) 0 = 0x22.
Proof.
  assert (Hlo : ring_base grouped_device <= ring_read_addr grouped_device)
    by (vm_compute; discriminate).
  assert (Hhi : wrap32 (ring_read_addr grouped_device + 8) <= ring_top grouped_device)
    by (vm_compute; discriminate).
  split; [exact Hlo|]. split; [exact Hhi|].
  destruct (grouped_packet_fanout texture_enabled_bit rgb_wmask_bit depth_wmask_bit
              grouped_device Hlo Hhi eq_refl eq_refl) as [Hpkt _].
  eexists. split; [exact Hpkt|]. split; reflexivity.
Defined.

Lemma gradient_write_sign_extends_witness :
  Z.testbit 0x800000 23 = true
  /\ gradient24 0x800000 = to_int32 (Z.lor 0x800000 0xff000000)
  /\ dRdX (triangle (reg_write_run (voodoo_rush_init true) SST96_DRDX 0x800000))
     = -8388608.
Proof.
  split; [reflexivity|].
  destruct (gradient_write_sign_extends texture_enabled_bit rgb_wmask_bit
              depth_wmask_bit (voodoo_rush_init true) 0x800000)
    as (Hset & _ & _ & _ & Hstored & _).
  split; [exact (Hset eq_refl)|exact Hstored].
Defined.

Lemma fastfill_masks_clear_witness :
  Z.land (fbz_mode fill_device) rgb_wmask_bit = 0
  /\ Z.land (fbz_mode fill_device) depth_wmask_bit = 0
  /\ voodoo_rush_fastfill rgb_wmask_bit depth_wmask_bit fill_device = fill_device.
Proof.
  split; [reflexivity|]. split; [reflexivity|].
  exact (proj1 (fastfill_masks_clear rgb_wmask_bit depth_wmask_bit fill_device
                  eq_refl eq_refl)).
Defined.

Lemma swap_append_saturates_witness :
  0 <= swap_pending (voodoo_rush_init true) < 2 ^ 31 - 1
  /\ length (replicate 10 0) = 10%nat
  /\ swap_pending
       (swap_appends texture_enabled_bit rgb_wmask_bit depth_wmask_bit
          (voodoo_rush_init true) (replicate 10 0)) = 7.
Proof.
  assert (Hs : 0 <= swap_pending (voodoo_rush_init true) < 2 ^ 31 - 1)
    by (split; vm_compute; [discriminate|reflexivity]).
  split; [exact Hs|]. split; [reflexivity|].
  exact (proj2 (swap_append_saturates texture_enabled_bit rgb_wmask_bit
                  depth_wmask_bit (voodoo_rush_init true) (replicate 10 0)
                  Hs eq_refl)).
Defined.

Lemma puma_read_sign_extends_witness :
  enabled start_device = true
  /\ puma_fb_size start_device <= 0x40b000
  /\ puma_addr_to_reg 0x40b000 (puma_mode_8mb start_device) = SST96_START_G
  /\ startG (triangle start_device) = 0x800000
  /\ voodoo_rush_puma_read 0x40b000 start_device = 0xff800000.
Proof.
  assert (Hfb : puma_fb_size start_device <= 0x40b000) by (vm_compute; discriminate).
  assert (Hwin : reg_window_start (puma_mode_8mb start_device) <= 0x40b000
                 < reg_window_end (puma_mode_8mb start_device))
    by (split; vm_compute; [discriminate|reflexivity]).
  assert (Hreg : SST96_DRDX
                 <= puma_addr_to_reg 0x40b000 (puma_mode_8mb start_device)
                 <= SST96_DADY)
    by (split; vm_compute; discriminate).
  split; [reflexivity|]. split; [exact Hfb|]. split; [reflexivity|].
  split; [reflexivity|].
  exact (proj1 (puma_read_sign_extends start_device 0x40b000 eq_refl Hfb Hwin Hreg)).
Defined.

(** ** Where the claims part from the code *)

(** C1.  The code misses the claim.  The header [0x80000144] carries bit
    31 and the base address [B = 0x51]; with the mask [0b101] the two data
    words [0x11] and [0x22] are to go to the registers [0x51] and [0x53].
    The drain consumes the two words and moves the read pointer on by 3
    slots, but writes both words to register 0: the second loop forms the
    byte address [(B + i) << 2] and the page decode keeps bits 19:12 of it,
    so the bit position [i] never reaches the index.  The registers [0x51]
    and [0x53] and the fog mode behind [0x51] keep their zeros.  The
    packet of one register write reads the same header field at another
    scale: the field [0x56] at bits 21:14 addresses register [0x56] there,
    and register [0x58] in a grouped packet with the mask [0b1]. *)
Theorem grouped_packet_fanout_collapses :
  let rush := puma_write_run 4 5 packet_device in
  (Z.land (load32 (puma_fb rush) 0) 0x80000000 <> 0
   /\ Z.land (Z.shiftr (load32 (puma_fb rush) 0) 2) 0x1fffff = 0x51
   /\ load32 (puma_fb rush) 4 = 5)
  /\ (cmdfifo_entry_count rush = 0 /\ cmdfifo_read_ptr rush = 3)
  /\ (word_at (regs rush) 0 = 0x22
      /\ word_at (regs rush) 0x51 = 0
      /\ word_at (regs rush) 0x53 = 0
      /\ fog_mode rush = 0)
  /\ (word_at (regs (fanout_to_base_plus_bit packet_device)) 0x51 = 0x11
      /\ word_at (regs (fanout_to_base_plus_bit packet_device)) 0x53 = 0x22
      /\ regs rush <> regs (fanout_to_base_plus_bit packet_device))
  /\ (word_at (regs field_as_singleton) 0x56 = 0x77
      /\ word_at (regs field_as_grouped) 0x56 = 0
      /\ word_at (regs field_as_grouped) 0x58 = 0x77).
Proof. vm_compute. repeat split; discriminate. Qed.

(** C2 as stated fails.  [0xFFFFFFFF] written to the fog mode register
    reads back as [0xFFFFFFFF] through [reg_read], not as [0x3F]. *)
Lemma masked_readback_counterexample :
  let rush := reg_write_run (voodoo_rush_init true) SST96_FOG_MODE 0xffffffff in
  voodoo_rush_reg_read rush SST96_FOG_MODE = 0xffffffff
  /\ voodoo_rush_reg_read rush SST96_FOG_MODE <> Z.land 0xffffffff 0x3f.
Proof. vm_compute. split; [reflexivity|discriminate]. Qed.

(** C3 as stated fails.  After the reset of a freshly initialised device
    the version register, which is none of the six initialisation
    registers, reads back [0x00010201] and not zero. *)
Lemma reset_readback_counterexample :
  let rush := voodoo_rush_reset (voodoo_rush_init true) in
  voodoo_rush_reg_read rush SST96_FBIJR_VERSION = 0x00010201
  /\ voodoo_rush_reg_read rush SST96_FBIJR_VERSION <> 0.
Proof. vm_compute. split; [reflexivity|discriminate]. Qed.

Lemma backlog_device_reachable :
  reachable texture_enabled_bit rgb_wmask_bit depth_wmask_bit backlog_device.
Proof.
  unfold backlog_device, ring_device, reg_write_run, puma_write_run. cbv zeta.
  repeat first [apply reach_reg_write | apply reach_puma_write | apply reach_init].
Qed.


(** ** The further properties at a concrete device *)

Lemma layout_ok_init : layout_ok (voodoo_rush_init true).
Proof.
  exact (reachable_layout texture_enabled_bit rgb_wmask_bit depth_wmask_bit _
           (reach_init _ _ _ true)).
Qed.

Lemma puma_page_decode_witness :
  puma_addr_to_reg (0x400000 + 4096 * (256 * 1 + SST96_FOG_MODE) + 8) true
  = SST96_FOG_MODE.
Proof.
  apply (puma_page_decode true SST96_FOG_MODE 8 1); lia.
Defined.

Lemma puma_register_round_trip_witness :
  voodoo_rush_puma_read 0x40b000 (puma_write_run 0x40b000 0x800000 (voodoo_rush_init true))
  = 0xff800000.
Proof.
  assert (Hwin : reg_window_start (puma_mode_8mb (voodoo_rush_init true)) <= 0x40b000
                 < reg_window_end (puma_mode_8mb (voodoo_rush_init true)))
    by (split; vm_compute; [discriminate|reflexivity]).
  assert (Hfb : puma_fb_size (voodoo_rush_init true) <= 0x40b000)
    by (vm_compute; discriminate).
  exact (proj2 (puma_register_round_trip texture_enabled_bit rgb_wmask_bit
                  depth_wmask_bit (voodoo_rush_init true) 0x40b000 0x800000
                  eq_refl eq_refl Hfb Hwin) eq_refl).
Defined.

Lemma puma_frame_buffer_round_trip_witness :
  voodoo_rush_puma_read 0x1000
    (puma_write_run 0x1000 0xdeadbeef (voodoo_rush_init true)) = 0xdeadbeef.
Proof.
  assert (Hfb : 0x1000 < puma_fb_size (voodoo_rush_init true)) by reflexivity.
  assert (Hval : 0 <= 0xdeadbeef < 2 ^ 32) by lia.
  destruct (puma_frame_buffer_round_trip texture_enabled_bit rgb_wmask_bit
              depth_wmask_bit (voodoo_rush_init true) 0x1000 0xdeadbeef
              eq_refl Hfb (or_introl eq_refl) Hval) as (_ & _ & Hread).
  exact (Hread eq_refl).
Defined.

Lemma puma_texture_round_trip_witness :
  voodoo_rush_puma_read 0x601004
    (puma_write_run 0x601004 0xcafe (voodoo_rush_init true)) = 0xcafe.
Proof.
  assert (Hwin : tex_window_start (puma_mode_8mb (voodoo_rush_init true)) <= 0x601004
                 < tex_window_start (puma_mode_8mb (voodoo_rush_init true))
                   + tex_size_of (puma_mode_8mb (voodoo_rush_init true)))
    by (split; vm_compute; [discriminate|reflexivity]).
  assert (Hval : 0 <= 0xcafe < 2 ^ 32) by lia.
  exact (proj1 (puma_texture_round_trip texture_enabled_bit rgb_wmask_bit
                  depth_wmask_bit (voodoo_rush_init true) 0x601004 0xcafe
                  layout_ok_init eq_refl Hwin Hval)).
Defined.

Lemma disabled_device_is_silent_witness :
  voodoo_rush_puma_read 0x1000 disabled_device = 0
  /\ puma_write_run 0x1000 5 disabled_device = disabled_device.
Proof.
  destruct (disabled_device_is_silent texture_enabled_bit rgb_wmask_bit depth_wmask_bit
              disabled_device 0x1000 5 eq_refl) as ((Hread & Hwrite & _) & _).
  split; [exact Hread|exact Hwrite].
Defined.

Lemma puma_windows_partition_witness :
  voodoo_rush_puma_read 0x800000 (voodoo_rush_init true) = 0
  /\ puma_write_run 0x800000 5 (voodoo_rush_init true) = voodoo_rush_init true.
Proof.
  assert (Hend : 2 * puma_fb_size (voodoo_rush_init true) <= 0x800000)
    by (vm_compute; discriminate).
  exact (proj2 (puma_windows_partition texture_enabled_bit rgb_wmask_bit depth_wmask_bit
                  (voodoo_rush_init true) 0x800000 5 layout_ok_init Hend)).
Defined.

Lemma reachable_fixed_reads_witness :
  voodoo_rush_reg_read
    (reg_write_run (voodoo_rush_init true) SST96_FBIJR_VERSION 0) SST96_FBIJR_VERSION
  = 0x00010201.
Proof.
  exact (proj1 (reachable_fixed_reads texture_enabled_bit rgb_wmask_bit depth_wmask_bit
                  _ (reach_reg_write _ _ _ _ SST96_FBIJR_VERSION 0
                       (reach_init _ _ _ true)))).
Defined.

Lemma layout_ok_engine_device : layout_ok engine_device.
Proof.
  exact (reachable_layout texture_enabled_bit rgb_wmask_bit depth_wmask_bit _
           (reach_reg_write _ _ _ _ _ _
              (reach_attach _ _ _ _ engine (reach_init _ _ _ true)))).
Qed.

Lemma triangle_command_submits_once_witness :
  voodoo_rush_load_texture engine_device engine 0 = engine
  /\ (Voodoo.calls <$> voodoo (reg_write_run engine_device SST96_TRIANGLE_CMD 0))
     = Some
         [Voodoo.queue_triangle
            (Voodoo.set_buffers 0 0 (sst96_to_voodoo_params engine_device))].
Proof.
  destruct (triangle_command_submits_once texture_enabled_bit rgb_wmask_bit
              depth_wmask_bit engine_device engine 0
              layout_ok_engine_device eq_refl eq_refl) as [Hload Hcmd].
  split; [apply Hload|].
  unfold reg_write_run. rewrite Hcmd. reflexivity.
Defined.

Lemma vertex_write_sign_extends_witness :
  vertexAx (triangle (reg_write_run (voodoo_rush_init true) SST96_VERTEX_AX 0xffff)) = -1.
Proof.
  pose proof (vertex_write_sign_extends texture_enabled_bit rgb_wmask_bit depth_wmask_bit
                (voodoo_rush_init true) 0xffff layout_ok_init) as H.
  apply Forall_cons in H. destruct H as [[H _] _]. exact H.
Defined.

Lemma fog_colour_and_clip_unpack_witness :
  Voodoo.fogColor
    (sst96_to_voodoo_params (reg_write_run (voodoo_rush_init true) SST96_FOG_COLOR 0x112233))
  = (0x33, 0x22, 0x11)
  /\ Voodoo.clipRight
       (sst96_to_voodoo_params
          (reg_write_run (voodoo_rush_init true) SST96_CLIP_LEFT_RIGHT0 0x00040000))
     = 0x00040000 / 2 ^ 16 mod 2 ^ 11.
Proof.
  destruct (fog_colour_and_clip_unpack texture_enabled_bit rgb_wmask_bit depth_wmask_bit
              (voodoo_rush_init true) 0x00040000 eq_refl eq_refl)
    as (_ & (_ & Hright) & _).
  split; [reflexivity|exact Hright].
Defined.

Lemma init3_write_programs_fifo_witness :
  let rush := reg_write_run (voodoo_rush_init true) SST96_FBIJR_INIT3 0x00601003 in
  cmdfifo_enabled rush = true
  /\ ring_base rush = 4096 * 1
  /\ ring_top rush = 4096 * 2.
Proof.
  destruct (init3_write_programs_fifo texture_enabled_bit rgb_wmask_bit depth_wmask_bit
              (voodoo_rush_init true) 0x00601003 eq_refl)
    as ((Hen & _) & _ & (Hbase & Htop & _) & _).
  split; [exact Hen|]. split; [exact Hbase|exact Htop].
Defined.



Lemma power_of_two_ring_read_address_witness :
  ring_read_addr (reg_write_run ring_device SST96_CMDFIFO_RDPTR 5)
  = ring_base (reg_write_run ring_device SST96_CMDFIFO_RDPTR 5).
Proof.
  assert (Hk : 0 <= 9) by lia.
  assert (Hrp : 0 <= cmdfifo_read_ptr (reg_write_run ring_device SST96_CMDFIFO_RDPTR 5)
                < ring_size (reg_write_run ring_device SST96_CMDFIFO_RDPTR 5))
    by (split; vm_compute; [discriminate|reflexivity]).
  exact (proj2 (power_of_two_ring_read_address
                  (reg_write_run ring_device SST96_CMDFIFO_RDPTR 5) 9 Hk eq_refl Hrp)).
Defined.


Lemma vsync_countdown_witness :
  swap_req (vsyncs 2 swap_device) = true
  /\ swap_req (vsyncs 3 swap_device) = false
  /\ vsyncs 10 swap_device = vsyncs 3 swap_device.
Proof.
  destruct (vsync_countdown swap_device 3 eq_refl eq_refl eq_refl ltac:(lia))
    as (Hk & Hn & Hm).
  split; [exact (proj2 (Hk 2%nat ltac:(lia)))|].
  split; [rewrite Hn; reflexivity|apply Hm; lia].
Defined.

Lemma swap_request_without_pending_stays_witness :
  vsyncs 5 (reg_write_run (voodoo_rush_init true) SST96_SWAPBUFFER_CMD 0)
  = reg_write_run (voodoo_rush_init true) SST96_SWAPBUFFER_CMD 0.
Proof.
  assert (Hp : swap_pending (voodoo_rush_init true) <= 1) by (vm_compute; discriminate).
  exact (proj2 (proj2 (swap_request_without_pending_stays texture_enabled_bit
                         rgb_wmask_bit depth_wmask_bit (voodoo_rush_init true) 0 5 Hp))).
Defined.


Lemma stipple_test_rows_witness :
  stipple_test stipple_device 31 0 = true /\ stipple_test stipple_device 31 1 = false.
Proof.
  assert (Hs : 0 <= stipple stipple_device < 2 ^ 32)
    by (split; vm_compute; [discriminate|reflexivity]).
  split.
  - rewrite (stipple_test_rows stipple_device 31 0 Hs). reflexivity.
  - rewrite (stipple_test_rows stipple_device 31 1 Hs). reflexivity.
Defined.

Lemma chroma_key_test_distance_witness :
  chroma_key_test chroma_device 0x1238 = true.
Proof.
  assert (Hr : 0 <= chroma_range chroma_device) by (vm_compute; discriminate).
  apply (proj1 (chroma_key_test_distance chroma_device 0x1238 Hr)).
  vm_compute. discriminate.
Defined.

Lemma fastfill_stays_in_buffer_witness :
  load8 (puma_fb (voodoo_rush_fastfill rgb_wmask_bit depth_wmask_bit paint_device))
    0x400000
  = load8 (puma_fb paint_device) 0x400000.
Proof.
  assert (Hm : 0 <= puma_fb_mask paint_device) by (vm_compute; discriminate).
  assert (Ha : puma_fb_mask paint_device < 0x400000) by reflexivity.
  exact (proj2 (fastfill_stays_in_buffer rgb_wmask_bit depth_wmask_bit paint_device
                  0x400000 Hm) eq_refl eq_refl eq_refl Ha).
Defined.

Lemma fastfill_empty_rectangle_witness :
  voodoo_rush_fastfill rgb_wmask_bit depth_wmask_bit
    (reg_write_run paint_device SST96_CLIP_LEFT_RIGHT0 0x00030003)
  = reg_write_run paint_device SST96_CLIP_LEFT_RIGHT0 0x00030003.
Proof.
  apply fastfill_empty_rectangle. left. vm_compute. discriminate.
Defined.

Lemma fastfill_fills_rectangle_witness :
  calc_lfb_addr paint_device 3 1 = 0x100e
  /\ load8 (puma_fb (voodoo_rush_fastfill rgb_wmask_bit depth_wmask_bit paint_device))
       0x100e
     + 256 * load8 (puma_fb (voodoo_rush_fastfill rgb_wmask_bit depth_wmask_bit
                               paint_device)) (0x100e + 1)
     = rgb565_of 0x00ff8040.
Proof.
  assert (Hrgb : Z.land (fbz_mode paint_device) rgb_wmask_bit <> 0)
    by (vm_compute; discriminate).
  assert (Hx : Voodoo.clipLeft (sst96_to_voodoo_params paint_device) <= 3
               < Voodoo.clipRight (sst96_to_voodoo_params paint_device))
    by (split; vm_compute; [discriminate|reflexivity]).
  assert (Hy : Voodoo.clipLowY (sst96_to_voodoo_params paint_device) <= 1
               < Voodoo.clipHighY (sst96_to_voodoo_params paint_device))
    by (split; vm_compute; [discriminate|reflexivity]).
  assert (Hin : pixel_offset paint_device 3 1 < puma_fb_size paint_device)
    by reflexivity.
  split; [reflexivity|].
  exact (proj2 (fastfill_fills_rectangle rgb_wmask_bit depth_wmask_bit paint_device 3 1
                  eq_refl Hrgb eq_refl eq_refl eq_refl Hx Hy Hin)).
Defined.

Lemma calc_lfb_addr_wraps_witness :
  0 <= calc_lfb_addr paint_device 3 1 < puma_fb_size paint_device.
Proof.
  assert (Hl : layout_ok paint_device).
  { apply (reachable_layout texture_enabled_bit rgb_wmask_bit depth_wmask_bit).
    unfold paint_device. repeat apply reach_reg_write. apply reach_init. }
  exact (proj2 (calc_lfb_addr_wraps paint_device 3 1 Hl)).
Defined.

Lemma thp_port_write_witness :
  (at3d_writel_mmio texture_enabled_bit rgb_wmask_bit depth_wmask_bit 0x408 0x1000
     (at3d_init true)
   ≫= at3d_writel_mmio texture_enabled_bit rgb_wmask_bit depth_wmask_bit 0x40c 0xcafe)
  ≫= (λ at3d, fst <$> at3d_readl_mmio 0x40c at3d)
  = Some 0xcafe.
Proof.
  rewrite (thp_port_write texture_enabled_bit rgb_wmask_bit depth_wmask_bit
             (at3d_init true) (set_enabled true (voodoo_rush_init true)) 0x1000 0xcafe
             eq_refl eq_refl ltac:(vm_compute; split; [discriminate|reflexivity])
             ltac:(vm_compute; split; [discriminate|reflexivity])
             ltac:(lia) ltac:(lia)).
  vm_compute. reflexivity.
Defined.

Lemma thp_port_read_witness :
  fst <$> at3d_readl_mmio 0x40c (at3d_init true) = Some 0.
Proof.
  rewrite (thp_port_read (at3d_init true) (set_enabled true (voodoo_rush_init true))
             eq_refl eq_refl).
  reflexivity.
Defined.

Lemma thp_control_enables_witness :
  (at3d_writel_mmio texture_enabled_bit rgb_wmask_bit depth_wmask_bit 0x400 0
     (at3d_init true)
   ≫= λ at3d, Some (at3d_puma_read 0x1000 at3d, voodoo_rush_enabled at3d))
  = Some (0, false).
Proof.
  rewrite (proj1 (thp_control_enables texture_enabled_bit rgb_wmask_bit depth_wmask_bit
                    (at3d_init true) (set_enabled true (voodoo_rush_init true)) 0
                    eq_refl ltac:(vm_compute; split; [discriminate|reflexivity])
                    ltac:(lia))).
  reflexivity.
Defined.
